(** * Nayuki++ (FLAC library): bit-level I/O, frame and stream metadata codecs

    A shallow embedding of the C++ sources
      common/Utilities.h, encode/BitOutputStream.cpp,
      decode/AbstractFlacLowLevelInput.cpp, decode/ByteArrayFlacInput.cpp,
      common/FrameInfo.cpp, common/StreamInfo.cpp, common/SeekTable.cpp
    followed by the properties of the specification that are stated about them.

    Integers are [Z]; every place where the C++ type is narrower than the
    mathematical value has its wrap-around written out with [uint] / [sint].
    Exceptions and failed [assert]s are values of [exn]; a method of a stateful
    class is a function from the object's state to an outcome and the state the
    object is left in (a thrown exception leaves the state as it was at the
    throw). *)

From Stdlib Require Import ZArith List Lia Bool String Sorted.
From coqutil Require Import Z.bitblast.
Import ListNotations.
Local Open Scope Z_scope.

(** ** Machine integers *)

Module CInt.

(** [x] stored in an unsigned integer of [w] bits. *)
Definition uint (w x : Z) : Z := x mod 2 ^ w.

(** [x] stored in a two's complement integer of [w] bits. *)
Definition sint (w x : Z) : Z := (x + 2 ^ (w - 1)) mod 2 ^ w - 2 ^ (w - 1).

(** Widths of the types the sources use. The sources need [long] to hold
    64 bits ([StreamInfo] assembles the 36 bits of [numSamples] in a [long],
    [BitOutputStream::writeInt] computes [1L << 32]) and [uint_fast32_t] and
    [uint_fast64_t] to be different types ([Utilities.h] overloads
    [numberOfLeadingZeros] on them): of the targets of the build matrix
    ([.travis.yml]: macOS and Ubuntu, both x86-64) this is macOS, where every
    [fast] type is the exact-width type of the same name, [int] has 32 bits
    and [long] has 64. *)
Definition int_bits : Z := 32.
Definition long_bits : Z := 64.
Definition fast8_bits : Z := 8.
Definition fast16_bits : Z := 16.
Definition fast32_bits : Z := 32.
Definition fast64_bits : Z := 64.

Definition uint_fast8_t := uint fast8_bits.
Definition uint_fast16_t := uint fast16_bits.
Definition uint_fast32_t := uint fast32_bits.
Definition uint_fast64_t := uint fast64_bits.
Definition int_fast8_t := sint fast8_bits.
Definition int_fast16_t := sint fast16_bits.
Definition int_fast32_t := sint fast32_bits.
Definition int_fast64_t := sint fast64_bits.
Definition int := sint int_bits.
Definition uint32_t := uint 32.
Definition uint64_t := uint 64.

End CInt.
Import CInt.

(** ** Exceptions, assertions and the state-and-exception monad *)

Inductive exn : Type :=
| invalid_argument (what : string)       (* std::invalid_argument *)
| runtime_error (what : string)          (* std::runtime_error *)
| DataFormatException (what : string)    (* Decode::DataFormatException *)
| assertion_failure                      (* a failed assert() aborts *)
| out_of_bounds                          (* an array read or write outside its bounds *)
| indeterminate_value                    (* a read of storage that was never written *)
| out_of_fuel.                           (* the bound given to a loop of the model was too small *)

Inductive outcome (A : Type) : Type :=
| Ok (a : A)
| Throw (e : exn).
Arguments Ok {A} a.
Arguments Throw {A} e.

Definition M (S A : Type) : Type := S -> outcome A * S.

Definition ret {S A} (a : A) : M S A := fun s => (Ok a, s).
Definition throw {S A} (e : exn) : M S A := fun s => (Throw e, s).
Definition bind {S A B} (m : M S A) (k : A -> M S B) : M S B :=
  fun s => match m s with
           | (Ok a, s') => k a s'
           | (Throw e, s') => (Throw e, s')
           end.
Definition get {S} : M S S := fun s => (Ok s, s).
Definition gets {S A} (f : S -> A) : M S A := fun s => (Ok (f s), s).
Definition modify {S} (f : S -> S) : M S unit := fun s => (Ok tt, f s).
Definition lift {S A} (o : outcome A) : M S A := fun s => (o, s).

Declare Scope monad_scope.
Delimit Scope monad_scope with monad.
Notation "x <- m ;; k" := (bind m (fun x => k))
  (at level 61, m at next level, right associativity) : monad_scope.
Notation "m ;;; k" := (bind m (fun _ => k))
  (at level 61, right associativity) : monad_scope.
Local Open Scope monad_scope.

(** [when c m] is [if (c) m;]. *)
Definition when {S} (c : bool) (m : M S unit) : M S unit :=
  if c then m else ret tt.

(** [a[i]] for an array held as a list. *)
Definition index (a : list Z) (i : Z) : outcome Z :=
  if (i <? 0) || (Z.of_nat (List.length a) <=? i) then Throw out_of_bounds
  else match nth_error a (Z.to_nat i) with
       | Some x => Ok x
       | None => Throw out_of_bounds
       end.

(** ** common/Utilities.h *)

Module Utilities.

Definition convertToUint64 (buf : list Z) : Z :=
  Z.lor (Z.lor (Z.lor (Z.lor (Z.lor (Z.lor (Z.lor
    (uint_fast64_t (Z.shiftl (Z.land (nth 0 buf 0) 255) 56))
    (uint_fast64_t (Z.shiftl (Z.land (nth 1 buf 0) 255) 48)))
    (uint_fast64_t (Z.shiftl (Z.land (nth 2 buf 0) 255) 40)))
    (uint_fast64_t (Z.shiftl (Z.land (nth 3 buf 0) 255) 32)))
    (uint_fast64_t (Z.shiftl (Z.land (nth 4 buf 0) 255) 24)))
    (uint_fast64_t (Z.shiftl (Z.land (nth 5 buf 0) 255) 16)))
    (uint_fast64_t (Z.shiftl (Z.land (nth 6 buf 0) 255) 8)))
    (uint_fast64_t (Z.land (nth 7 buf 0) 255)).

Definition convertToUint16 (buf : list Z) : Z :=
  uint_fast16_t (Z.lor (Z.shiftl (Z.land (nth 0 buf 0) 255) 8)
                       (Z.land (nth 1 buf 0) 255)).

(** One step [if (i >> s == 0) { n += k; i <<= k; }] on an unsigned
    [uint_fast32_t]. *)
Definition nlz_step_u (s k : Z) (st : Z * Z) : Z * Z :=
  let '(n, i) := st in
  if Z.shiftr i s =? 0 then (n + k, uint_fast32_t (Z.shiftl i k)) else (n, i).

(** [numberOfLeadingZeros(uint_fast32_t i)]. *)
Definition numberOfLeadingZeros32 (i : Z) : Z :=
  if i =? 0 then 32
  else
    let st := (1, i) in
    let st := nlz_step_u 16 16 st in
    let st := nlz_step_u 24 8 st in
    let st := nlz_step_u 28 4 st in
    let st := nlz_step_u 30 2 st in
    let '(n, i) := st in
    int (n - Z.shiftr i 31).

(** One step [if (x >> s == 0) { n += k; x <<= k; }] on the signed [int x]:
    [>>] on a negative [int] is the arithmetic shift, and [<<=] keeps the
    low 32 bits. *)
Definition nlz_step_s (s k : Z) (st : Z * Z) : Z * Z :=
  let '(n, x) := st in
  if Z.shiftr x s =? 0 then (n + k, int (Z.shiftl x k)) else (n, x).

(** [numberOfLeadingZeros(uint_fast64_t i)]; the working copy [x] is
    declared [int]. *)
Definition numberOfLeadingZeros64 (i : Z) : Z :=
  if i =? 0 then 64
  else
    let n := 1 in
    let x := int (Z.shiftr i 32) in
    let st := if x =? 0 then (n + 32, int i) else (n, x) in
    let st := nlz_step_s 16 16 st in
    let st := nlz_step_s 24 8 st in
    let st := nlz_step_s 28 4 st in
    let st := nlz_step_s 30 2 st in
    let '(n, x) := st in
    int (n - Z.shiftr x 31).

End Utilities.

(** [assert(c)]: nothing when the build defines [NDEBUG], otherwise a failed
    check aborts the program. *)
Definition assert {S} (NDEBUG : bool) (c : bool) : M S unit :=
  if NDEBUG || c then ret tt else throw assertion_failure.

(** [for (k = 0; k < n; k++) body;] *)
Fixpoint repeatM {S} (n : nat) (body : M S unit) : M S unit :=
  match n with
  | O => ret tt
  | S n' => body ;;; repeatM n' body
  end.

(** ** encode/BitOutputStream.cpp *)

Module BitOutputStream.

(** The object: [out] is the sequence of bytes the underlying [std::ostream]
    has received so far. [bitBufferLen] and [crc8] are [uint_fast8_t],
    [crc16] is [uint_fast16_t], [bitBuffer] and [byteCount] are
    [uint_fast64_t]. *)
Record t : Type := mk {
  out : list Z;
  bitBuffer : Z;
  bitBufferLen : Z;
  byteCount : Z;
  crc8 : Z;
  crc16 : Z
}.

Definition set_out (v : list Z) (w : t) : t :=
  mk v (bitBuffer w) (bitBufferLen w) (byteCount w) (crc8 w) (crc16 w).
Definition set_bitBuffer (v : Z) (w : t) : t :=
  mk (out w) v (bitBufferLen w) (byteCount w) (crc8 w) (crc16 w).
Definition set_bitBufferLen (v : Z) (w : t) : t :=
  mk (out w) (bitBuffer w) v (byteCount w) (crc8 w) (crc16 w).
Definition set_byteCount (v : Z) (w : t) : t :=
  mk (out w) (bitBuffer w) (bitBufferLen w) v (crc8 w) (crc16 w).
Definition set_crc8 (v : Z) (w : t) : t :=
  mk (out w) (bitBuffer w) (bitBufferLen w) (byteCount w) v (crc16 w).
Definition set_crc16 (v : Z) (w : t) : t :=
  mk (out w) (bitBuffer w) (bitBufferLen w) (byteCount w) (crc8 w) v.

Section Build.
Variable NDEBUG : bool.

Definition checkByteAligned : M t unit :=
  len <- gets bitBufferLen ;;
  if negb (Z.rem len 8 =? 0)
  then throw (runtime_error "Not a byte boundary")
  else ret tt.

(** The body of [for (int i = 0; i < 8; i++)] in [flush]. *)
Definition crc_shift : M t unit :=
  modify (fun w => set_crc8 (uint_fast8_t (Z.shiftl (crc8 w) 1)) w) ;;;
  modify (fun w => set_crc16 (uint_fast16_t (Z.shiftl (crc16 w) 1)) w) ;;;
  modify (fun w =>
    set_crc8 (uint_fast8_t (Z.lxor (crc8 w) (Z.shiftr (crc8 w) 8 * 0x107))) w) ;;;
  modify (fun w =>
    set_crc16 (uint_fast16_t (Z.lxor (crc16 w) (Z.shiftr (crc16 w) 16 * 0x18005))) w) ;;;
  c8 <- gets crc8 ;;
  assert NDEBUG (Z.shiftr c8 8 =? 0) ;;;
  c16 <- gets crc16 ;;
  assert NDEBUG (Z.shiftr c16 16 =? 0).

(** The body of [while (bitBufferLen >= 8)] in [flush]. *)
Definition flush_byte : M t unit :=
  modify (fun w => set_bitBufferLen (uint_fast8_t (bitBufferLen w - 8)) w) ;;;
  w <- get ;;
  let b := uint_fast8_t (Z.land (Z.shiftr (bitBuffer w) (bitBufferLen w)) 0xFF) in
  modify (fun w => set_out (out w ++ [b]) w) ;;;
  modify (fun w => set_byteCount (uint_fast64_t (byteCount w + 1)) w) ;;;
  modify (fun w => set_crc8 (uint_fast8_t (Z.lxor (crc8 w) b)) w) ;;;
  modify (fun w => set_crc16 (uint_fast16_t (Z.lxor (crc16 w) (Z.shiftl b 8))) w) ;;;
  repeatM 8 crc_shift.

Fixpoint flush_loop (fuel : nat) : M t unit :=
  len <- gets bitBufferLen ;;
  if 8 <=? len then
    match fuel with
    | O => throw out_of_fuel
    | S fuel' => flush_byte ;;; flush_loop fuel'
    end
  else ret tt.

(** [flush()]: every iteration of the loop lowers [bitBufferLen] by 8, so
    [bitBufferLen] iterations are enough. *)
Definition flush : M t unit :=
  len <- gets bitBufferLen ;;
  flush_loop (Z.to_nat len) ;;;
  len <- gets bitBufferLen ;;
  assert NDEBUG ((0 <=? len) && (len <=? 64)).

Definition writeInt (n val : Z) : M t unit :=
  let n := int_fast8_t n in
  let val := int_fast32_t val in
  if (n <? 0) || (32 <? n)
  then throw (invalid_argument "n has to be between 0 and 32 (inclusive)")
  else
    len <- gets bitBufferLen ;;
    when (64 <? len + n)
      (flush ;;;
       len <- gets bitBufferLen ;;
       assert NDEBUG (len + n <=? 64)) ;;;
    modify (fun w => set_bitBuffer (uint_fast64_t (Z.shiftl (bitBuffer w) n)) w) ;;;
    modify (fun w =>
      set_bitBuffer
        (uint_fast64_t (Z.lor (bitBuffer w) (Z.land val (Z.shiftl 1 n - 1)))) w) ;;;
    modify (fun w => set_bitBufferLen (uint_fast8_t (bitBufferLen w + n)) w) ;;;
    len <- gets bitBufferLen ;;
    assert NDEBUG ((0 <=? len) && (len <=? 64)).

Definition alignToByte : M t unit :=
  len <- gets bitBufferLen ;;
  writeInt (int_fast8_t (Z.rem (64 - len) 8)) 0.

Definition resetCrcs : M t unit :=
  flush ;;;
  modify (set_crc8 0) ;;;
  modify (set_crc16 0).

Definition getCrc8 : M t Z :=
  checkByteAligned ;;;
  flush ;;;
  c <- gets crc8 ;;
  assert NDEBUG (negb (Z.shiftr c 8 =? 0)) ;;;
  ret (uint_fast8_t c).

Definition getCrc16 : M t Z :=
  checkByteAligned ;;;
  flush ;;;
  c <- gets crc16 ;;
  assert NDEBUG (negb (Z.shiftr c 16 =? 0)) ;;;
  ret (uint_fast16_t c).

Definition getByteCount : M t Z :=
  w <- get ;;
  ret (uint_fast64_t (byteCount w + bitBufferLen w / 8)).

(** [close()] of a stream whose [out] is not null: the two calls that
    precede the closing of the sink. *)
Definition close : M t unit :=
  checkByteAligned ;;;
  flush.

(** [BitOutputStream(out)] on an empty sink: the fields are set and
    [resetCrcs()] is called (its [flush] finds an empty bit buffer). *)
Definition create : t :=
  snd (resetCrcs (mk [] 0 0 0 0 0)).

End Build.

End BitOutputStream.

(** [0, 1, ..., n-1] as integers. *)
Definition upto (n : Z) : list Z := map Z.of_nat (seq 0 (Z.to_nat n)).

(** ** decode/AbstractFlacLowLevelInput.cpp and decode/ByteArrayFlacInput.cpp *)

Module FlacLowLevelInput.

Definition BUF_SIZE : Z := 4096.
Definition RICE_DECODING_TABLE_BITS : Z := 13.
Definition RICE_DECODING_TABLE_MASK : Z := Z.shiftl 1 RICE_DECODING_TABLE_BITS - 1.
Definition RICE_DECODING_TABLE_LEN : Z := 31.
Definition RICE_DECODING_CHUNK : Z := 4.
Definition CRC_TABLE_LEN : Z := 256.

(** *** The static tables *)

Definition crc8_entry (i : Z) : Z :=
  uint_fast8_t
    (Nat.iter 8 (fun temp8 =>
       uint_fast32_t (Z.lxor (Z.shiftl temp8 1) (Z.shiftr temp8 7 * 0x107))) i).

Definition crc16_entry (i : Z) : Z :=
  uint_fast16_t
    (Nat.iter 8 (fun temp16 =>
       uint_fast32_t (Z.lxor (Z.shiftl temp16 1) (Z.shiftr temp16 15 * 0x18005)))
       (Z.shiftl i 8)).

Definition CRC8_TABLE : list Z :=
  Eval vm_compute in map crc8_entry (upto CRC_TABLE_LEN).

Definition CRC16_TABLE : list Z :=
  Eval vm_compute in map crc16_entry (upto CRC_TABLE_LEN).

(** An array obtained from [new T[n]]: a cell holds [None] until it is
    written, since [new T[n]] leaves the elements uninitialised. *)
Definition cells : Type := Z -> option Z.
Definition fresh : cells := fun _ => None.
Definition store (a : cells) (i v : Z) : cells :=
  fun k => if k =? i then Some v else a k.

Definition rice_numBits (param i : Z) : Z :=
  uint_fast32_t (Z.shiftr i param + 1 + param).
Definition rice_bits (param i : Z) : Z :=
  uint_fast32_t (Z.lor (Z.shiftl 1 param) (Z.land i (Z.shiftl 1 param - 1))).
Definition rice_shift (param i : Z) : Z :=
  uint_fast32_t (RICE_DECODING_TABLE_BITS - rice_numBits param i).

(** [for (j = 0; j < (1 << shift); j++) table[(bits << shift) | j] = v;] *)
Definition rice_fill (bits shift v : Z) (table : cells) : cells :=
  fold_left (fun a j => store a (Z.lor (Z.shiftl bits shift) j) v)
            (upto (Z.shiftl 1 shift)) table.

(** The value stored by the initializer of [RICE_DECODING_VALUE_TABLES]:
    [(i >> 1) ^ -(i & 1)] computed in [uint_fast32_t] and converted to
    [int_fast32_t]. *)
Definition rice_value (i : Z) : Z :=
  int_fast32_t (Z.lxor (Z.shiftr i 1) (uint_fast32_t (- Z.land i 1))).

(** [for (i = 0;; i++) { ...; if (numBits > TABLE_BITS) break; ... }];
    [entry i] is what the loop stores for the symbol [i]. *)
Fixpoint rice_loop (fuel : nat) (entry : Z -> Z) (param i : Z) (table : cells)
  : cells :=
  match fuel with
  | O => table
  | S fuel' =>
      if RICE_DECODING_TABLE_BITS <? rice_numBits param i then table
      else
        rice_loop fuel' entry param (uint_fast32_t (i + 1))
          (rice_fill (rice_bits param i) (rice_shift param i) (entry i) table)
  end.

(** The loop over [i] leaves at the latest when [i] reaches
    [1 << TABLE_BITS] (lemma [rice_loop_fuel] below). *)
Definition rice_fuel : nat := S (Z.to_nat (Z.shiftl 1 RICE_DECODING_TABLE_BITS)).

Definition rice_consumed_table (param : Z) : cells :=
  rice_loop rice_fuel (fun i => uint_fast8_t (rice_numBits param i)) param 0 fresh.

Definition rice_value_table (param : Z) : cells :=
  rice_loop rice_fuel rice_value param 0 fresh.

(** The two arrays of [RICE_DECODING_TABLE_LEN] tables. *)
Definition RICE_DECODING_CONSUMED_TABLES : list cells :=
  map rice_consumed_table (upto RICE_DECODING_TABLE_LEN).

Definition RICE_DECODING_VALUE_TABLES : list cells :=
  map rice_value_table (upto RICE_DECODING_TABLE_LEN).

(** [tables[param]] *)
Definition table_at (tables : list cells) (param : Z) : outcome cells :=
  if (param <? 0) || (Z.of_nat (List.length tables) <=? param)
  then Throw out_of_bounds
  else match nth_error tables (Z.to_nat param) with
       | Some a => Ok a
       | None => Throw out_of_bounds
       end.

(** [table[i]] for one of the [1 << TABLE_BITS]-element tables. *)
Definition cell_at (table : cells) (i : Z) : outcome Z :=
  if (i <? 0) || (Z.shiftl 1 RICE_DECODING_TABLE_BITS <=? i)
  then Throw out_of_bounds
  else match table i with
       | Some v => Ok v
       | None => Throw indeterminate_value
       end.

(** *** The object

    [data], [offset] are the fields of [ByteArrayFlacInput] ([length] is
    the length of [data]); the others are the fields of
    [AbstractFlacLowLevelInput]. *)
Record t : Type := mk {
  data : list Z;
  offset : Z;
  byteBufferStartPos : Z;
  byteBuffer : list Z;
  byteBufferLen : Z;
  byteBufferIndex : Z;
  bitBuffer : Z;
  bitBufferLen : Z;
  crc8 : Z;
  crc16 : Z;
  crcStartIndex : Z
}.

Definition length (s : t) : Z := Z.of_nat (List.length (data s)).

Definition set_offset v s :=
  mk (data s) v (byteBufferStartPos s) (byteBuffer s) (byteBufferLen s)
     (byteBufferIndex s) (bitBuffer s) (bitBufferLen s) (crc8 s) (crc16 s)
     (crcStartIndex s).
Definition set_byteBufferStartPos v s :=
  mk (data s) (offset s) v (byteBuffer s) (byteBufferLen s)
     (byteBufferIndex s) (bitBuffer s) (bitBufferLen s) (crc8 s) (crc16 s)
     (crcStartIndex s).
Definition set_byteBuffer v s :=
  mk (data s) (offset s) (byteBufferStartPos s) v (byteBufferLen s)
     (byteBufferIndex s) (bitBuffer s) (bitBufferLen s) (crc8 s) (crc16 s)
     (crcStartIndex s).
Definition set_byteBufferLen v s :=
  mk (data s) (offset s) (byteBufferStartPos s) (byteBuffer s) v
     (byteBufferIndex s) (bitBuffer s) (bitBufferLen s) (crc8 s) (crc16 s)
     (crcStartIndex s).
Definition set_byteBufferIndex v s :=
  mk (data s) (offset s) (byteBufferStartPos s) (byteBuffer s) (byteBufferLen s)
     v (bitBuffer s) (bitBufferLen s) (crc8 s) (crc16 s)
     (crcStartIndex s).
Definition set_bitBuffer v s :=
  mk (data s) (offset s) (byteBufferStartPos s) (byteBuffer s) (byteBufferLen s)
     (byteBufferIndex s) v (bitBufferLen s) (crc8 s) (crc16 s)
     (crcStartIndex s).
Definition set_bitBufferLen v s :=
  mk (data s) (offset s) (byteBufferStartPos s) (byteBuffer s) (byteBufferLen s)
     (byteBufferIndex s) (bitBuffer s) v (crc8 s) (crc16 s)
     (crcStartIndex s).
Definition set_crc8 v s :=
  mk (data s) (offset s) (byteBufferStartPos s) (byteBuffer s) (byteBufferLen s)
     (byteBufferIndex s) (bitBuffer s) (bitBufferLen s) v (crc16 s)
     (crcStartIndex s).
Definition set_crc16 v s :=
  mk (data s) (offset s) (byteBufferStartPos s) (byteBuffer s) (byteBufferLen s)
     (byteBufferIndex s) (bitBuffer s) (bitBufferLen s) (crc8 s) v
     (crcStartIndex s).
Definition set_crcStartIndex v s :=
  mk (data s) (offset s) (byteBufferStartPos s) (byteBuffer s) (byteBufferLen s)
     (byteBufferIndex s) (bitBuffer s) (bitBufferLen s) (crc8 s) (crc16 s)
     v.

(** [result[i] = v] on the caller's array. *)
Definition store_result (result : list Z) (i v : Z) : outcome (list Z) :=
  if (i <? 0) || (Z.of_nat (List.length result) <=? i) then Throw out_of_bounds
  else Ok (firstn (Z.to_nat i) result ++ v :: skipn (S (Z.to_nat i)) result).


Section Build.
Variable NDEBUG : bool.

Definition checkByteAligned : M t unit :=
  len <- gets bitBufferLen ;;
  if negb (Z.rem len 8 =? 0)
  then throw (runtime_error "Not at a byte boundary")
  else ret tt.

(** The body of the loop of [updateCrcs]. *)
Definition updateCrcs_byte (i : Z) : M t unit :=
  s <- get ;;
  x <- lift (index (byteBuffer s) i) ;;
  let b := uint_fast8_t (Z.land x 0xFF) in
  e8 <- lift (index CRC8_TABLE (Z.lxor (crc8 s) b)) ;;
  modify (set_crc8 (uint_fast16_t (Z.land e8 0xFF))) ;;;
  e16 <- lift (index CRC16_TABLE (Z.lxor (Z.shiftr (crc16 s) 8) b)) ;;
  modify (set_crc16
    (uint_fast32_t (Z.lxor e16 (Z.shiftl (Z.land (crc16 s) 0xFF) 8)))) ;;;
  c8 <- gets crc8 ;;
  assert NDEBUG (Z.shiftr c8 8 =? 0) ;;;
  c16 <- gets crc16 ;;
  assert NDEBUG (Z.shiftr c16 16 =? 0).

(** [for (i = from; i < end; i++)] over the list of the indices. *)
Fixpoint updateCrcs_loop (indices : list Z) : M t unit :=
  match indices with
  | [] => ret tt
  | i :: rest => updateCrcs_byte i ;;; updateCrcs_loop rest
  end.

Definition updateCrcs (unusedTrailingBytes : Z) : M t unit :=
  s <- get ;;
  let end_ := int_fast32_t (byteBufferIndex s - unusedTrailingBytes) in
  updateCrcs_loop
    (map (fun k => crcStartIndex s + k) (upto (end_ - crcStartIndex s))) ;;;
  modify (set_crcStartIndex end_).

Definition resetCrcs : M t unit :=
  checkByteAligned ;;;
  modify (fun s =>
    set_crcStartIndex (int_fast32_t (byteBufferIndex s - bitBufferLen s / 8)) s) ;;;
  modify (set_crc8 0) ;;;
  modify (set_crc16 0).

Definition getCrc8 : M t Z :=
  checkByteAligned ;;;
  len <- gets bitBufferLen ;;
  updateCrcs (len / 8) ;;;
  c <- gets crc8 ;;
  assert NDEBUG (negb (Z.shiftr c 8 =? 0)) ;;;
  ret (uint_fast8_t c).

Definition getCrc16 : M t Z :=
  checkByteAligned ;;;
  len <- gets bitBufferLen ;;
  updateCrcs (len / 8) ;;;
  c <- gets crc16 ;;
  assert NDEBUG (negb (Z.shiftr c 16 =? 0)) ;;;
  ret (uint_fast16_t c).

Definition getPosition : M t Z :=
  s <- get ;;
  ret (uint_fast64_t
         (byteBufferStartPos s + byteBufferIndex s - (bitBufferLen s + 7) / 8)).

Definition getBitPosition : M t Z :=
  len <- gets bitBufferLen ;;
  ret (uint_fast8_t (Z.land (- len) 7)).

(** [ByteArrayFlacInput::readUnderlying(buf, off, len)], called with
    [buf = byteBuffer]: the method that implements the pure virtual
    [readUnderlying] of the base class (which declares [off] and [len] as
    [int], the subclass as [uint_fast64_t]; the call passes [0] and
    [BUF_SIZE]). *)
Definition readUnderlying_array (off len : Z) : M t Z :=
  s <- get ;;
  let n := int (Z.min (uint_fast64_t (length s - offset s)) len) in
  if n =? 0 then ret (-1)
  else
    let chunk := firstn (Z.to_nat n) (skipn (Z.to_nat (offset s)) (data s)) in
    modify (fun s =>
      set_byteBuffer
        (firstn (Z.to_nat off) (byteBuffer s) ++ chunk ++
         skipn (Z.to_nat (off + n)) (byteBuffer s)) s) ;;;
    modify (fun s => set_offset (uint_fast64_t (offset s + n)) s) ;;;
    ret n.

(** [AbstractFlacLowLevelInput::readUnderlying()] *)
Definition readUnderlying : M t Z :=
  s <- get ;;
  refill <-
    (if byteBufferLen s <=? byteBufferIndex s then
       if byteBufferLen s =? -1 then ret (Some (-1))
       else
         modify (fun s =>
           set_byteBufferStartPos
             (uint_fast64_t (byteBufferStartPos s + byteBufferLen s)) s) ;;;
         updateCrcs 0 ;;;
         n <- readUnderlying_array 0 BUF_SIZE ;;
         modify (set_byteBufferLen n) ;;;
         modify (set_crcStartIndex 0) ;;;
         if n <=? 0 then ret (Some (-1))
         else modify (set_byteBufferIndex 0) ;;; ret None
     else ret None) ;;
  match refill with
  | Some r => ret r
  | None =>
      s <- get ;;
      assert NDEBUG (byteBufferIndex s <? byteBufferLen s) ;;;
      x <- lift (index (byteBuffer s) (byteBufferIndex s)) ;;
      let temp := int_fast16_t (Z.land x 0xFF) in
      modify (fun s => set_byteBufferIndex (int_fast32_t (byteBufferIndex s + 1)) s) ;;;
      ret temp
  end.

(** The body of [while (bitBufferLen < n)] in [readUint]. *)
Definition readUint_byte : M t unit :=
  b <- readUnderlying ;;
  if b =? -1 then throw (runtime_error "End of data")
  else
    modify (fun s =>
      set_bitBuffer (uint_fast64_t (Z.lor (Z.shiftl (bitBuffer s) 8) b)) s) ;;;
    modify (fun s => set_bitBufferLen (uint_fast8_t (bitBufferLen s + 8)) s) ;;;
    len <- gets bitBufferLen ;;
    assert NDEBUG ((0 <=? len) && (len <=? 64)).

Fixpoint readUint_loop (fuel : nat) (n : Z) : M t unit :=
  len <- gets bitBufferLen ;;
  if len <? n then
    match fuel with
    | O => throw out_of_fuel
    | S fuel' => readUint_byte ;;; readUint_loop fuel' n
    end
  else ret tt.

(** [readUint(n)]: an iteration of the loop adds 8 bits, so [n]
    iterations are enough. *)
Definition readUint (n : Z) : M t Z :=
  let n := uint_fast8_t n in
  if 32 <? n
  then throw (invalid_argument "Cannot read more than 32 bits of a `uint32` value")
  else
    readUint_loop (Z.to_nat n) n ;;;
    s <- get ;;
    let result := uint_fast32_t (Z.shiftr (bitBuffer s) (bitBufferLen s - n)) in
    result <-
      (if negb (n =? 32) then
         let result := uint_fast32_t (Z.land result (int (int (Z.shiftl 1 n) - 1))) in
         assert NDEBUG (Z.shiftr result n =? 0) ;;;
         ret result
       else ret result) ;;
    modify (fun s => set_bitBufferLen (uint_fast8_t (bitBufferLen s - n)) s) ;;;
    len <- gets bitBufferLen ;;
    assert NDEBUG ((0 <=? len) && (len <=? 64)) ;;;
    ret result.

Definition readSignedInt (n : Z) : M t Z :=
  let n := uint_fast8_t n in
  if 32 <? n
  then throw (invalid_argument "Cannot read more than 32 bits of a `uint32` value")
  else
    let shift := int_fast32_t (32 - n) in
    x <- readUint n ;;
    ret (int_fast32_t (Z.shiftr (uint_fast32_t (Z.shiftl x shift)) shift)).

Definition readByte : M t Z :=
  checkByteAligned ;;;
  len <- gets bitBufferLen ;;
  if 8 <=? len then
    x <- readUint 8 ;;
    ret (int_fast16_t x)
  else
    assert NDEBUG (len =? 0) ;;;
    readUnderlying.

(** [readFully(b, length)] returns the bytes stored into [b]. *)
Fixpoint readFully_loop (k : nat) : M t (list Z) :=
  match k with
  | O => ret []
  | S k' =>
      x <- readUint 8 ;;
      rest <- readFully_loop k' ;;
      ret (uint_fast8_t x :: rest)
  end.

Definition readFully (len : Z) : M t (list Z) :=
  checkByteAligned ;;;
  readFully_loop (Z.to_nat len).

(** The loop [for (j = 0; j < n; j++, i++)] of [fillBitBuffer]. *)
Fixpoint fillBitBuffer_loop (k : nat) (i : Z) : M t unit :=
  match k with
  | O => ret tt
  | S k' =>
      s <- get ;;
      x <- lift (index (byteBuffer s) i) ;;
      modify (set_bitBuffer
        (uint_fast64_t (Z.lor (Z.shiftl (bitBuffer s) 8) (Z.land x 0xFF)))) ;;;
      fillBitBuffer_loop k' (i + 1)
  end.

Definition fillBitBuffer : M t unit :=
  s <- get ;;
  let i := byteBufferIndex s in
  let n := Z.min (int_fast32_t (Z.shiftr (uint 32 (64 - bitBufferLen s)) 3))
                 (byteBufferLen s - i) in
  (if 0 <? n then
     fillBitBuffer_loop (Z.to_nat n) i ;;;
     modify (fun s => set_bitBufferLen (uint_fast8_t (bitBufferLen s + Z.shiftl n 3)) s)
   else if bitBufferLen s <=? 56 then
     temp <- readUnderlying ;;
     if temp =? -1 then throw (runtime_error "End of data")
     else
       modify (fun s =>
         set_bitBuffer (uint_fast64_t (Z.lor (Z.shiftl (bitBuffer s) 8) temp)) s) ;;;
       modify (fun s => set_bitBufferLen (uint_fast8_t (bitBufferLen s + 8)) s)
   else ret tt) ;;;
  len <- gets bitBufferLen ;;
  assert NDEBUG ((8 <=? len) && (len <=? 64)) ;;;
  modify (fun s => set_byteBufferIndex (int_fast32_t (byteBufferIndex s + n)) s).

(** [positionChanged(pos)] *)
Definition positionChanged (pos : Z) : M t unit :=
  modify (set_byteBufferStartPos (uint_fast64_t pos)) ;;;
  modify (set_byteBuffer (repeat 0 (Z.to_nat BUF_SIZE))) ;;;
  modify (set_byteBufferLen 0) ;;;
  modify (set_byteBufferIndex 0) ;;;
  modify (set_bitBuffer 0) ;;;
  modify (set_bitBufferLen 0) ;;;
  resetCrcs.

(** [ByteArrayFlacInput::seekTo(pos)] *)
Definition seekTo (pos : Z) : M t unit :=
  modify (set_offset (uint_fast64_t pos)) ;;;
  positionChanged pos.

(** [ByteArrayFlacInput(b, len)] with [b] holding the bytes [bytes]: the
    base constructor allocates the byte buffer and calls
    [positionChanged(0)]. *)
Definition create (bytes : list Z) : t :=
  snd (positionChanged 0 (mk bytes 0 0 [] 0 0 0 0 0 0 0)).

(** *** Rice decoding *)

(** The fast decoder: the body of
    [for (i = 0; i < RICE_DECODING_CHUNK; i++, start++)], run [k] times.
    The boolean tells whether the loop was left by [goto middle]. *)
Fixpoint fast_chunk (k : nat) (consumeTable valueTable : cells)
    (result : list Z) (start : Z) : M t (bool * list Z * Z) :=
  match k with
  | O => ret (false, result, start)
  | S k' =>
      s <- get ;;
      let extractedBits :=
        Z.land
          (int_fast32_t
             (Z.shiftr (bitBuffer s) (bitBufferLen s - RICE_DECODING_TABLE_BITS)))
          RICE_DECODING_TABLE_MASK in
      consumed <- lift (cell_at consumeTable extractedBits) ;;
      if consumed =? 0 then ret (true, result, start)
      else
        modify (set_bitBufferLen (uint_fast8_t (bitBufferLen s - consumed))) ;;;
        v <- lift (cell_at valueTable extractedBits) ;;
        result <- lift (store_result result start v) ;;
        fast_chunk k' consumeTable valueTable result (start + 1)
  end.

(** [while (start <= end - RICE_DECODING_CHUNK)]; the boolean of the
    result is not used by the caller (both [break] and [goto middle]
    continue at [middle]). *)
Fixpoint fast_loop (fuel : nat) (consumeTable valueTable : cells)
    (result : list Z) (start end_ : Z) : M t (list Z * Z) :=
  if start <=? end_ - RICE_DECODING_CHUNK then
    match fuel with
    | O => throw out_of_fuel
    | S fuel' =>
        s <- get ;;
        continue <-
          (if bitBufferLen s <? RICE_DECODING_CHUNK * RICE_DECODING_TABLE_BITS then
             if byteBufferIndex s <=? byteBufferLen s - 8
             then fillBitBuffer ;;; ret true
             else ret false
           else ret true) ;;
        if negb continue then ret (result, start)
        else
          r <- fast_chunk (Z.to_nat RICE_DECODING_CHUNK) consumeTable valueTable
                 result start ;;
          let '(jumped, result, start) := r in
          if (jumped : bool) then ret (result, start)
          else fast_loop fuel' consumeTable valueTable result start end_
    end
  else ret (result, start).

(** [while (readUint(1) == 0) { if (val >= unaryLimit) throw ...; val++; }] *)
Fixpoint unary_loop (fuel : nat) (unaryLimit val : Z) : M t Z :=
  b <- readUint 1 ;;
  if b =? 0 then
    match fuel with
    | O => throw out_of_fuel
    | S fuel' =>
        if unaryLimit <=? uint_fast64_t val
        then throw (DataFormatException "Residual value too large")
        else unary_loop fuel' unaryLimit (int_fast64_t (val + 1))
    end
  else ret val.

(** The number of bits that can still be read: a bound for the number of
    iterations of [unary_loop], which consumes one bit per iteration. *)
Definition remaining_bits (s : t) : Z :=
  bitBufferLen s + 8 * Z.max 0 (byteBufferLen s - byteBufferIndex s)
  + 8 * Z.max 0 (length s - offset s).

(** The slow decoder: the statements between [middle:] and
    [result[start] = val]. *)
Definition slow_decode (param unaryLimit : Z) : M t Z :=
  s <- get ;;
  val <- unary_loop (Z.to_nat (remaining_bits s)) unaryLimit 0 ;;
  r <- readUint param ;;
  let val := int_fast64_t (Z.lor (Z.shiftl val param) r) in
  assert NDEBUG (Z.shiftr (uint_fast64_t val) 53 =? 0) ;;;
  let val :=
    int_fast64_t (Z.lxor (Z.shiftr (uint_fast64_t val) 1)
                         (uint_fast64_t (- Z.land val 1))) in
  assert NDEBUG ((Z.shiftr val 52 =? 0) || (Z.shiftr val 52 =? -1)) ;;;
  ret val.

(** [while (true) { ... }] *)
Fixpoint rice_decode_loop (fuel : nat) (param unaryLimit : Z)
    (consumeTable valueTable : cells) (result : list Z) (start end_ : Z)
  : M t (list Z) :=
  match fuel with
  | O => throw out_of_fuel
  | S fuel' =>
      r <- fast_loop fuel consumeTable valueTable result start end_ ;;
      let '(result, start) := r in
      if end_ <=? start then ret result
      else
        val <- slow_decode param unaryLimit ;;
        result <- lift (store_result result start val) ;;
        rice_decode_loop fuel' param unaryLimit consumeTable valueTable
          result (start + 1) end_
  end.

(** [readRiceSignedInts(param, result, start, end)] returns the array
    [result] after the call. Every iteration of the outer loop that does
    not leave it stores one value and increments [start], so
    [end - start + 1] iterations are enough. *)
Definition readRiceSignedInts (param : Z) (result : list Z) (start end_ : Z)
  : M t (list Z) :=
  if (param <? 0) || (31 <? param)
  then throw (invalid_argument
                "Rice Code Parameter has to be between 0 and 31 inclusive")
  else
    let unaryLimit := uint_fast64_t (Z.shiftl 1 (53 - param)) in
    consumeTable <- lift (table_at RICE_DECODING_CONSUMED_TABLES param) ;;
    valueTable <- lift (table_at RICE_DECODING_VALUE_TABLES param) ;;
    rice_decode_loop (S (Z.to_nat (end_ - start))) param unaryLimit
      consumeTable valueTable result start end_.

End Build.

End FlacLowLevelInput.

(** ** common/FrameInfo.cpp *)

Module FrameInfo.

Record t : Type := mk {
  frameIndex : Z;          (* int_fast32_t *)
  sampleOffset : Z;        (* int_fast64_t *)
  numChannels : Z;
  channelAssignment : Z;
  blockSize : Z;
  sampleRate : Z;
  sampleDepth : Z;
  frameSize : Z
}.

(** Rows [{value, code}]. *)
Definition BLOCK_SIZE_CODES : list (Z * Z) :=
  [(192, 1); (576, 2); (1152, 3); (2304, 4); (4608, 5); (256, 8); (512, 9);
   (1024, 10); (2048, 11); (4096, 12); (8192, 13); (16384, 14); (32768, 15)].

Definition SAMPLE_DEPTH_CODES : list (Z * Z) :=
  [(8, 1); (12, 2); (16, 4); (20, 5); (24, 6)].

Definition SAMPLE_RATE_CODES : list (Z * Z) :=
  [(88200, 1); (176400, 2); (192000, 3); (8000, 4); (16000, 5); (22050, 6);
   (24000, 7); (32000, 8); (44100, 9); (48000, 10); (96000, 11)].

Fixpoint searchFirst (table : list (Z * Z)) (key : Z) : Z :=
  match table with
  | [] => -1
  | row :: rest => if fst row =? key then snd row else searchFirst rest key
  end.

Fixpoint searchSecond (table : list (Z * Z)) (key : Z) : Z :=
  match table with
  | [] => -1
  | row :: rest => if snd row =? key then fst row else searchSecond rest key
  end.

Section Build.
Variable NDEBUG : bool.

Definition readUint := FlacLowLevelInput.readUint NDEBUG.
Definition writeInt := BitOutputStream.writeInt NDEBUG.

(** *** Decoding *)

(** The loop [for (i = 0; i < n - 1; i++)] of [readUtf8Integer]. *)
Fixpoint readUtf8_loop (k : nat) (result : Z) : M FlacLowLevelInput.t Z :=
  match k with
  | O => ret result
  | S k' =>
      temp <- readUint 8 ;;
      if negb (Z.land temp 0xC0 =? 0x80)
      then throw (DataFormatException "Invalid UTF-8 coded number")
      else readUtf8_loop k'
             (uint_fast64_t (Z.lor (Z.shiftl result 6) (Z.land temp 0x3F)))
  end.

Definition readUtf8Integer : M FlacLowLevelInput.t Z :=
  x <- readUint 8 ;;
  let head := int_fast32_t x in
  let n := Utilities.numberOfLeadingZeros32
             (uint32_t (Z.lnot (int_fast32_t (Z.shiftl head 24)))) in
  assert NDEBUG ((0 <=? n) && (n <=? 8)) ;;;
  if n =? 0 then ret (uint_fast64_t head)
  else if (n =? 1) || (n =? 8)
  then throw (DataFormatException "Invalid UTF-8 coded number")
  else
    let result := uint_fast64_t (Z.land head (Z.shiftr 0x7F n)) in
    result <- readUtf8_loop (Z.to_nat (n - 1)) result ;;
    if negb (Z.shiftr result 36 =? 0)
    then throw (DataFormatException "Decoded value does not fit into uint36 type")
    else ret result.

Definition decodeBlockSize (code : Z) : M FlacLowLevelInput.t Z :=
  if negb (Z.shiftr code 4 =? 0) then throw (invalid_argument "Invalid block size")
  else if code =? 0 then throw (DataFormatException "Reserved block size")
  else if code =? 6 then x <- readUint 8 ;; ret (int_fast32_t (x + 1))
  else if code =? 7 then x <- readUint 16 ;; ret (int_fast32_t (x + 1))
  else
    let result := searchSecond BLOCK_SIZE_CODES code in
    assert NDEBUG ((1 <=? result) && (result <=? 65536)) ;;;
    ret result.

Definition decodeSampleRate (code : Z) : M FlacLowLevelInput.t Z :=
  if negb (Z.shiftr code 4 =? 0) then throw (invalid_argument "Invalid sample rate")
  else if code =? 0 then ret (-1)
  else if code =? 12 then x <- readUint 8 ;; ret (int_fast32_t x)
  else if code =? 13 then x <- readUint 16 ;; ret (int_fast32_t x)
  else if code =? 14 then x <- readUint 16 ;; ret (int_fast32_t (x * 10))
  else if code =? 15 then throw (DataFormatException "Invalid sample rate")
  else
    let result := searchSecond SAMPLE_RATE_CODES code in
    assert NDEBUG ((1 <=? result) && (result <=? 655350)) ;;;
    ret result.

Definition decodeSampleDepth (code : Z) : M FlacLowLevelInput.t Z :=
  if negb (Z.shiftr code 3 =? 0) then throw (invalid_argument "Invalid sample depth")
  else if code =? 0 then ret (-1)
  else
    let result := searchSecond SAMPLE_DEPTH_CODES code in
    if result =? -1 then throw (DataFormatException "Reserved bit depth")
    else
      assert NDEBUG ((1 <=? result) && (result <=? 32)) ;;;
      ret result.

(** [readFrame(in)]; [None] is the null pointer returned at the end of
    the stream. The fields of the new object are listed where the source
    assigns them and the object is built at the end. *)
Definition readFrame : M FlacLowLevelInput.t (option t) :=
  FlacLowLevelInput.resetCrcs ;;;
  temp <- FlacLowLevelInput.readByte NDEBUG ;;
  if temp =? -1 then ret None
  else
    let frameSize := -1 in
    x <- readUint 6 ;;
    let sync := uint_fast16_t (Z.lor (Z.shiftl temp 6) x) in
    if negb (sync =? 0x3FFE) then throw (DataFormatException "Sync code expected")
    else
    r <- readUint 1 ;;
    if negb (r =? 0) then throw (DataFormatException "Reserved bit")
    else
    blockStrategy <- readUint 1 ;;
    blockSizeCode <- readUint 4 ;;
    sampleRateCode <- readUint 4 ;;
    chanAsgn <- readUint 4 ;;
    let channelAssignment := int_fast32_t chanAsgn in
    numChannels <-
      (if chanAsgn <? 8 then ret (int_fast32_t (chanAsgn + 1))
       else if (8 <=? chanAsgn) && (chanAsgn <=? 10) then ret 2
       else throw (DataFormatException "Reserved channel assignment")) ;;
    d <- readUint 3 ;;
    sampleDepth <- decodeSampleDepth (uint_fast8_t d) ;;
    r <- readUint 1 ;;
    if negb (r =? 0) then throw (DataFormatException "Reserved bit")
    else
    position <- readUtf8Integer ;;
    pos <-
      (if blockStrategy =? 0 then
         if negb (Z.shiftr position 31 =? 0)
         then throw (DataFormatException "Frame index too large")
         else ret (int_fast32_t position, -1)
       else if blockStrategy =? 1 then ret (-1, int_fast64_t position)
       else throw (DataFormatException "Unknown block strategy")) ;;
    let '(frameIndex, sampleOffset) := pos in
    blockSize <- decodeBlockSize (uint_fast8_t blockSizeCode) ;;
    sampleRate <- decodeSampleRate (uint_fast8_t sampleRateCode) ;;
    computedCrc8 <- FlacLowLevelInput.getCrc8 NDEBUG ;;
    x <- readUint 8 ;;
    if negb (x =? computedCrc8) then throw (DataFormatException "CRC-8 mismatch")
    else
      ret (Some (mk frameIndex sampleOffset numChannels channelAssignment
                    blockSize sampleRate sampleDepth frameSize)).

(** *** Encoding *)

Definition getBlockSizeCode (blockSize : Z) : outcome Z :=
  let result := searchFirst BLOCK_SIZE_CODES blockSize in
  let code :=
    if negb (result =? -1) then Ok result
    else if (1 <=? blockSize) && (blockSize <=? 256) then Ok 6
    else if (1 <=? blockSize) && (blockSize <=? 65536) then Ok 7
    else Throw (invalid_argument "Invalid block size") in
  match code with
  | Ok result =>
      if NDEBUG || (Z.shiftr (uint_fast32_t result) 4 =? 0)
      then Ok (uint_fast8_t result)
      else Throw assertion_failure
  | Throw e => Throw e
  end.

Definition getSampleRateCode (sampleRate : Z) : outcome Z :=
  if sampleRate <=? 0 then Throw (invalid_argument "Invalid sample rate")
  else
    let result := searchFirst SAMPLE_RATE_CODES sampleRate in
    let result :=
      if negb (result =? -1) then result
      else if (0 <=? sampleRate) && (sampleRate <? 256) then 12
      else if (0 <=? sampleRate) && (sampleRate <? 65536) then 13
      else if (0 <=? sampleRate) && (sampleRate <? 655360)
              && (Z.rem sampleRate 10 =? 0) then 14
      else 0 in
    if NDEBUG || (Z.shiftr (uint_fast32_t result) 4 =? 0)
    then Ok (uint_fast8_t result)
    else Throw assertion_failure.

Definition getSampleDepthCode (sampleDepth : Z) : outcome Z :=
  if negb (sampleDepth =? -1) && ((sampleDepth <? 1) || (32 <? sampleDepth))
  then Throw (invalid_argument "Invalid bit depth")
  else
    let result := searchFirst SAMPLE_DEPTH_CODES sampleDepth in
    let result := if result =? -1 then 0 else result in
    if NDEBUG || (Z.shiftr (uint_fast32_t result) 3 =? 0)
    then Ok (uint_fast8_t result)
    else Throw assertion_failure.

(** The loop [for (i = n - 1; i >= 0; i--)] of [writeUtf8Integer], over
    the list [n-1, ..., 0]. *)
Fixpoint writeUtf8_loop (indices : list Z) (val : Z) : M BitOutputStream.t unit :=
  match indices with
  | [] => ret tt
  | i :: rest =>
      writeInt 8 (Z.lor 0x80 (Z.land (int_fast32_t (Z.shiftr val (i * 6))) 0x3F)) ;;;
      writeUtf8_loop rest val
  end.

Definition writeUtf8Integer (val : Z) : M BitOutputStream.t unit :=
  if negb (Z.shiftr val 36 =? 0)
  then throw (invalid_argument "Given value does not fit into uint36 type")
  else
    let bitLen := int_fast32_t (64 - Utilities.numberOfLeadingZeros64 (uint64_t val)) in
    if bitLen <=? 7 then writeInt 8 (int_fast32_t val)
    else
      let n := int_fast32_t (Z.quot (bitLen - 2) 5) in
      writeInt 8
        (uint_fast32_t (Z.lor (Z.shiftr (uint_fast32_t 0xFF80) n)
                              (int_fast32_t (Z.shiftr val (n * 6))))) ;;;
      writeUtf8_loop (rev (upto n)) val.

(** [writeHeader(out)] for a non-null [out]. *)
Definition writeHeader (f : t) : M BitOutputStream.t unit :=
  BitOutputStream.resetCrcs NDEBUG ;;;
  writeInt 14 0x3FFE ;;;
  writeInt 1 0 ;;;
  writeInt 1 1 ;;;
  blockSizeCode <- lift (getBlockSizeCode (blockSize f)) ;;
  writeInt 4 blockSizeCode ;;;
  sampleRateCode <- lift (getSampleRateCode (sampleRate f)) ;;
  writeInt 4 sampleRateCode ;;;
  writeInt 4 (channelAssignment f) ;;;
  sampleDepthCode <- lift (getSampleDepthCode (sampleDepth f)) ;;
  writeInt 3 sampleDepthCode ;;;
  writeInt 1 0 ;;;
  (if (negb (frameIndex f =? -1) && (sampleOffset f =? -1))
      || (negb (sampleOffset f =? -1) && (frameIndex f =? -1))
   then writeUtf8Integer (uint_fast64_t (sampleOffset f))
   else throw (runtime_error "Frame index and sample offset are mutually exclusive")) ;;;
  (if blockSizeCode =? 6 then writeInt 8 (blockSize f - 1)
   else if blockSizeCode =? 7 then writeInt 16 (blockSize f - 1)
   else ret tt) ;;;
  (if sampleRateCode =? 12 then writeInt 8 (sampleRate f)
   else if sampleRateCode =? 13 then writeInt 16 (sampleRate f)
   else if sampleRateCode =? 14 then writeInt 16 (Z.quot (sampleRate f) 10)
   else ret tt) ;;;
  crc <- BitOutputStream.getCrc8 NDEBUG ;;
  writeInt 8 crc.

End Build.

End FrameInfo.

(** ** common/StreamInfo.cpp *)

Module StreamInfo.

Definition MD5_DIGEST_LENGTH : Z := 16.

Record t : Type := mk {
  minBlockSize : Z;        (* uint_fast16_t *)
  maxBlockSize : Z;        (* uint_fast16_t *)
  minFrameSize : Z;        (* uint_fast32_t *)
  maxFrameSize : Z;        (* uint_fast32_t *)
  sampleRate : Z;          (* uint_fast32_t *)
  numChannels : Z;         (* uint_fast8_t *)
  sampleDepth : Z;         (* uint_fast8_t *)
  numSamples : Z;          (* uint_fast64_t *)
  md5Hash : list Z         (* unsigned char[MD5_DIGEST_LENGTH] *)
}.

Definition checkValues (s : t) : outcome unit :=
  if negb (Z.shiftr (minBlockSize s) 16 =? 0)
  then Throw (runtime_error "Invalid minimum block size")
  else if negb (Z.shiftr (maxBlockSize s) 16 =? 0)
  then Throw (runtime_error "Invalid maximum block size")
  else if negb (Z.shiftr (minFrameSize s) 24 =? 0)
  then Throw (runtime_error "Invalid minimum frame size")
  else if negb (Z.shiftr (maxFrameSize s) 24 =? 0)
  then Throw (runtime_error "Invalid maximum frame size")
  else if (sampleRate s =? 0) || negb (Z.shiftr (sampleRate s) 20 =? 0)
  then Throw (runtime_error "Invalid sample rate")
  else if (numChannels s <? 1) || (8 <? numChannels s)
  then Throw (runtime_error "Invalid number of channels")
  else if (sampleDepth s <? 4) || (32 <? sampleDepth s)
  then Throw (runtime_error "Invalid sample depth")
  else if negb (Z.shiftr (numSamples s) 36 =? 0)
  then Throw (runtime_error "Invalid number of samples")
  else Ok tt.

Section Build.
Variable NDEBUG : bool.

Definition readUint := FlacLowLevelInput.readUint NDEBUG.
Definition writeInt := BitOutputStream.writeInt NDEBUG.

(** The body of [StreamInfo(b, length)] after the stream [in] over [b]
    has been created. In
    [numSamples = (long) in->readUint(18) << 18 | in->readUint(18)] the
    operands of [|] are read from left to right, as GCC and Clang evaluate
    them (C++14 leaves the order unspecified). *)
Definition read_fields : M FlacLowLevelInput.t t :=
  x <- readUint 16 ;; let minBlockSize := uint_fast16_t x in
  x <- readUint 16 ;; let maxBlockSize := uint_fast16_t x in
  x <- readUint 24 ;; let minFrameSize := uint_fast32_t x in
  x <- readUint 24 ;; let maxFrameSize := uint_fast32_t x in
  if minBlockSize <? 16
  then throw (DataFormatException "Minimum block size less than 16")
  else if maxBlockSize <? minBlockSize
  then throw (DataFormatException "Maximum block size less than minimum block size")
  else if negb (minFrameSize =? 0) && negb (maxFrameSize =? 0)
          && (maxFrameSize <? minFrameSize)
  then throw (DataFormatException "Maximum frame size less than minimum frame size")
  else
  x <- readUint 20 ;; let sampleRate := uint_fast32_t x in
  if (sampleRate =? 0) || (655350 <? sampleRate)
  then throw (DataFormatException "Invalid sample rate")
  else
  x <- readUint 3 ;; let numChannels := uint_fast8_t (x + 1) in
  x <- readUint 5 ;; let sampleDepth := uint_fast8_t (x + 1) in
  hi <- readUint 18 ;;
  lo <- readUint 18 ;;
  let numSamples := uint_fast64_t (Z.lor (sint long_bits (Z.shiftl (sint long_bits hi) 18)) lo) in
  md5Hash <- FlacLowLevelInput.readFully NDEBUG MD5_DIGEST_LENGTH ;;
  ret (mk minBlockSize maxBlockSize minFrameSize maxFrameSize sampleRate
          numChannels sampleDepth numSamples md5Hash).

(** [StreamInfo(b, length)] for a non-null [b] of [length] bytes. *)
Definition parse (b : list Z) : outcome t :=
  if negb (Z.of_nat (List.length b) =? 34)
  then Throw (invalid_argument "Invalid data length")
  else fst (read_fields (FlacLowLevelInput.create b)).

(** [for (unsigned char b : md5Hash) out->writeInt(8, b);] *)
Fixpoint write_md5 (hash : list Z) : M BitOutputStream.t unit :=
  match hash with
  | [] => ret tt
  | b :: rest => writeInt 8 b ;;; write_md5 rest
  end.

(** [write(last, out)] for a non-null [out]. *)
Definition write (s : t) (last : bool) : M BitOutputStream.t unit :=
  lift (checkValues s) ;;;
  writeInt 1 (if last then 1 else 0) ;;;
  writeInt 7 0 ;;;
  writeInt 24 34 ;;;
  writeInt 16 (minBlockSize s) ;;;
  writeInt 16 (maxBlockSize s) ;;;
  writeInt 24 (minFrameSize s) ;;;
  writeInt 24 (maxFrameSize s) ;;;
  writeInt 20 (sampleRate s) ;;;
  writeInt 3 (numChannels s - 1) ;;;
  writeInt 5 (sampleDepth s - 1) ;;;
  writeInt 18 (int_fast32_t (Z.shiftr (numSamples s) 18)) ;;;
  writeInt 18 (int_fast32_t (Z.shiftr (numSamples s) 0)) ;;;
  write_md5 (md5Hash s).

End Build.

(** [checkFrame(meta)]: [numChannels], [sampleDepth] and [maxBlockSize] are
    promoted to [int] for their comparisons; [blockSize] is converted to
    [uint_fast64_t] and [frameSize] to [uint_fast32_t] by the casts. *)
Definition checkFrame (s : t) (meta : FrameInfo.t) : outcome unit :=
  if negb (FrameInfo.numChannels meta =? numChannels s)
  then Throw (DataFormatException "Channel count mismatch")
  else if negb (FrameInfo.sampleRate meta =? -1)
          && negb (uint_fast32_t (FrameInfo.sampleRate meta) =? sampleRate s)
  then Throw (DataFormatException "Sample rate mismatch")
  else if negb (FrameInfo.sampleDepth meta =? -1)
          && negb (FrameInfo.sampleDepth meta =? sampleDepth s)
  then Throw (DataFormatException "Sample depth mismatch")
  else if negb (numSamples s =? 0)
          && (numSamples s <? uint_fast64_t (FrameInfo.blockSize meta))
  then Throw (DataFormatException "Block size exceeds total number of samples")
  else if maxBlockSize s <? FrameInfo.blockSize meta
  then Throw (DataFormatException "Block size exceeds maximum")
  else if negb (minFrameSize s =? 0)
          && (uint_fast32_t (FrameInfo.frameSize meta) <? minFrameSize s)
  then Throw (DataFormatException "Frame size less than minimum")
  else if negb (maxFrameSize s =? 0)
          && (maxFrameSize s <? uint_fast32_t (FrameInfo.frameSize meta))
  then Throw (DataFormatException "Frame size exceeds maximum")
  else Ok tt.

End StreamInfo.

(** ** common/SeekTable.cpp *)

Module SeekTable.

Record SeekPoint : Type := mkPoint {
  sampleOffset : Z;        (* uint_fast64_t *)
  fileOffset : Z;          (* uint_fast64_t *)
  frameSamples : Z         (* uint_fast16_t *)
}.

(** The object is its field [points]. *)
Definition t : Type := list SeekPoint.

Definition PLACEHOLDER : Z := 0xFFFFFFFFFFFFFFFF.

(** [points.at(i)] *)
Definition at_ (points : t) (i : Z) : outcome SeekPoint :=
  if (i <? 0) || (Z.of_nat (List.length points) <=? i) then Throw out_of_bounds
  else match nth_error points (Z.to_nat i) with
       | Some p => Ok p
       | None => Throw out_of_bounds
       end.

(** The body of the loop of [checkValues]. *)
Definition check_point (points : t) (i : Z) : outcome unit :=
  match at_ points i with
  | Throw e => Throw e
  | Ok p =>
      if negb (sampleOffset p =? PLACEHOLDER) then
        match at_ points (i - 1) with
        | Throw e => Throw e
        | Ok q =>
            if sampleOffset p <=? sampleOffset q
            then Throw (runtime_error "Sample offsets out of order")
            else if fileOffset p <? fileOffset q
            then Throw (runtime_error "File offsets out of order")
            else Ok tt
        end
      else Ok tt
  end.

(** [for (i = 1; i < points.size(); i++)] over the list of the indices. *)
Fixpoint check_loop (points : t) (indices : list Z) : outcome unit :=
  match indices with
  | [] => Ok tt
  | i :: rest =>
      match check_point points i with
      | Throw e => Throw e
      | Ok _ => check_loop points rest
      end
  end.

Definition checkValues (points : t) : outcome unit :=
  check_loop points
    (map (fun k => 1 + k) (upto (Z.of_nat (List.length points) - 1))).

(** [SeekTable(b, length)] for a non-null [b] of [length] bytes: the loop
    [for (i = 0; i < length; i += 18)] is over the list of the offsets. *)
Definition parse (b : list Z) : outcome t :=
  let length := Z.of_nat (List.length b) in
  if negb (Z.rem length 18 =? 0)
  then Throw (invalid_argument "Data contains a partial seek point")
  else
    Ok (map (fun k =>
               let i := Z.to_nat (18 * k) in
               mkPoint (Utilities.convertToUint64 (skipn i b))
                       (Utilities.convertToUint64 (skipn (i + 8) b))
                       (Utilities.convertToUint16 (skipn (i + 16) b)))
            (upto (length / 18))).

Section Build.
Variable NDEBUG : bool.

Definition writeInt := BitOutputStream.writeInt NDEBUG.

(** [for (SeekPoint p : points)] of [write]. *)
Fixpoint write_points (points : t) : M BitOutputStream.t unit :=
  match points with
  | [] => ret tt
  | p :: rest =>
      writeInt 32 (int_fast32_t (Z.shiftr (sampleOffset p) 32)) ;;;
      writeInt 32 (int_fast32_t (Z.shiftr (sampleOffset p) 0)) ;;;
      writeInt 32 (int_fast32_t (Z.shiftr (fileOffset p) 32)) ;;;
      writeInt 32 (int_fast32_t (Z.shiftr (fileOffset p) 0)) ;;;
      writeInt 16 (frameSamples p) ;;;
      write_points rest
  end.

(** [write(last, out)] for a non-null [out]. *)
Definition write (points : t) (last : bool) : M BitOutputStream.t unit :=
  if Z.quot (Z.shiftl 1 24 - 1) 18 <? Z.of_nat (List.length points)
  then throw (runtime_error "Too many seek points")
  else
    lift (checkValues points) ;;;
    writeInt 1 (if last then 1 else 0) ;;;
    writeInt 7 3 ;;;
    writeInt 24 (uint 64 (Z.of_nat (List.length points) * 18)) ;;;
    write_points points.

End Build.

End SeekTable.

(** * Definitions of the specification *)

(** ** The CRCs of the specification

    The standalone CRC of a byte sequence: the remainder of the polynomial
    division, most significant bit first, with a zero initial value; the
    polynomial is [0x107] for the CRC-8 and [0x18005] for the CRC-16. These
    two definitions follow the specification, not the sources. *)

Module SpecCrc.

(** One bit of the division of a [w]-bit remainder by [poly]. *)
Definition shift_bit (w poly r : Z) : Z :=
  let r2 := 2 * r in
  if Z.testbit r2 w then Z.lxor r2 poly else r2.

Definition update (w poly crc b : Z) : Z :=
  Nat.iter 8 (shift_bit w poly) (Z.lxor crc (b * 2 ^ (w - 8))).

Definition crc8 (bytes : list Z) : Z := fold_left (update 8 0x107) bytes 0.
Definition crc16 (bytes : list Z) : Z := fold_left (update 16 0x18005) bytes 0.

End SpecCrc.

(** The bytes of "Monkey", the example of the specification. *)
Definition monkey : list Z := [0x4D; 0x6F; 0x6E; 0x6B; 0x65; 0x79].

(** The reader reads [n] bytes after [resetCrcs()] and asks for both CRCs. *)
Definition reader_crcs (NDEBUG : bool) (n : Z) : M FlacLowLevelInput.t (Z * Z) :=
  FlacLowLevelInput.resetCrcs ;;;
  FlacLowLevelInput.readFully NDEBUG n ;;;
  c8 <- FlacLowLevelInput.getCrc8 NDEBUG ;;
  c16 <- FlacLowLevelInput.getCrc16 NDEBUG ;;
  ret (c8, c16).

(** [for (b : bytes) out->writeInt(8, b);] *)
Fixpoint write_bytes (NDEBUG : bool) (bytes : list Z) : M BitOutputStream.t unit :=
  match bytes with
  | [] => ret tt
  | b :: rest => BitOutputStream.writeInt NDEBUG 8 b ;;; write_bytes NDEBUG rest
  end.

(** The writer writes the bytes after [resetCrcs()] and asks for both CRCs. *)
Definition writer_crcs (NDEBUG : bool) (bytes : list Z) : M BitOutputStream.t (Z * Z) :=
  BitOutputStream.resetCrcs NDEBUG ;;;
  write_bytes NDEBUG bytes ;;;
  c8 <- BitOutputStream.getCrc8 NDEBUG ;;
  c16 <- BitOutputStream.getCrc16 NDEBUG ;;
  ret (c8, c16).

(** ** The frame header of the specification's third scenario *)

(** channelAssignment = 1, blockSize = 512, sampleRate = 44100,
    sampleDepth = 16, sampleOffset = 0, frameIndex = -1. *)
Definition scenario_frame : FrameInfo.t :=
  FrameInfo.mk (-1) 0 2 1 512 44100 16 (-1).

(** The same frame in the fixed-block-size form: frameIndex = 0 and
    sampleOffset = -1. *)
Definition fixed_block_frame : FrameInfo.t :=
  FrameInfo.mk 0 (-1) 2 1 512 44100 16 (-1).

(** The bytes the sink holds once [m] has run on a new stream and the stream
    has been flushed. *)
Definition emitted (NDEBUG : bool) (m : M BitOutputStream.t unit) : list Z :=
  BitOutputStream.out
    (snd ((m ;;; BitOutputStream.flush NDEBUG) (BitOutputStream.create NDEBUG))).

(** ** The ranges of the specification's data model (section 3) *)

Definition data_model_ranges (s : StreamInfo.t) : Prop :=
  16 <= StreamInfo.minBlockSize s < 2 ^ 16 /\
  StreamInfo.minBlockSize s <= StreamInfo.maxBlockSize s < 2 ^ 16 /\
  0 <= StreamInfo.minFrameSize s < 2 ^ 24 /\
  0 <= StreamInfo.maxFrameSize s < 2 ^ 24 /\
  (StreamInfo.minFrameSize s <> 0 -> StreamInfo.maxFrameSize s <> 0 ->
   StreamInfo.minFrameSize s <= StreamInfo.maxFrameSize s) /\
  1 <= StreamInfo.sampleRate s <= 655350 /\
  1 <= StreamInfo.numChannels s <= 8 /\
  4 <= StreamInfo.sampleDepth s <= 32 /\
  0 <= StreamInfo.numSamples s < 2 ^ 36.

(** What [StreamInfo::checkValues] tests: the width of every field, and the
    ranges of the sample rate, the channel count and the sample depth. *)
Definition field_widths (s : StreamInfo.t) : Prop :=
  0 <= StreamInfo.minBlockSize s < 2 ^ 16 /\
  0 <= StreamInfo.maxBlockSize s < 2 ^ 16 /\
  0 <= StreamInfo.minFrameSize s < 2 ^ 24 /\
  0 <= StreamInfo.maxFrameSize s < 2 ^ 24 /\
  1 <= StreamInfo.sampleRate s < 2 ^ 20 /\
  1 <= StreamInfo.numChannels s <= 8 /\
  4 <= StreamInfo.sampleDepth s <= 32 /\
  0 <= StreamInfo.numSamples s < 2 ^ 36.

(** A stream info whose block sizes are still the zeros of the blank
    constructor. *)
Definition zero_block_sizes : StreamInfo.t :=
  StreamInfo.mk 0 0 0 0 44100 2 16 0 (repeat 0 16).

(** A stream info with 9 channels. *)
Definition nine_channels : StreamInfo.t :=
  StreamInfo.mk 4096 4096 0 0 44100 9 16 0 (repeat 0 16).

(** The stream info of the specification's first scenario. *)
Definition scenario_stream_info : StreamInfo.t :=
  StreamInfo.mk 4096 4096 0 0 44100 2 16 0 (repeat 0 16).

(** ** The seek table of the specification (section 3) *)

(** The values of the type [SeekPoint]: [sampleOffset] and [fileOffset] are
    [uint_fast64_t], [frameSamples] is [uint_fast16_t]. *)
Definition seek_point_typed (p : SeekTable.SeekPoint) : Prop :=
  0 <= SeekTable.sampleOffset p < 2 ^ fast64_bits /\
  0 <= SeekTable.fileOffset p < 2 ^ fast64_bits /\
  0 <= SeekTable.frameSamples p < 2 ^ fast16_bits.

(** [q], then [p]: sampleOffset strictly increases and fileOffset does not
    decrease. *)
Definition in_order (q p : SeekTable.SeekPoint) : Prop :=
  SeekTable.sampleOffset q < SeekTable.sampleOffset p /\
  SeekTable.fileOffset q <= SeekTable.fileOffset p.

(** The invariant of the specification: the table is a run of points that
    are not placeholders, each with frameSamples within 16 bits, in order,
    followed by placeholders only. *)
Definition seek_table_valid (points : SeekTable.t) : Prop :=
  exists real placeholders,
    points = real ++ placeholders /\
    Forall (fun p => SeekTable.sampleOffset p <> SeekTable.PLACEHOLDER /\
                     0 <= SeekTable.frameSamples p < 2 ^ 16) real /\
    Forall (fun p => SeekTable.sampleOffset p = SeekTable.PLACEHOLDER) placeholders /\
    Sorted in_order real.

(** The seek table of the specification's second scenario. *)
Definition scenario_seek_table : SeekTable.t :=
  [SeekTable.mkPoint 0 0 4096; SeekTable.mkPoint 4096 1024 4096;
   SeekTable.mkPoint SeekTable.PLACEHOLDER 0 0].

(** * Views of the two streams as sequences of bits *)

(** The [n] low bits of [x], the most significant first. *)
Fixpoint bits (n : nat) (x : Z) : list bool :=
  match n with
  | O => []
  | S k => Z.testbit x (Z.of_nat k) :: bits k x
  end.

(** The number a sequence of bits denotes, the most significant first. *)
Definition value (bs : list bool) : Z :=
  fold_left (fun acc (b : bool) => 2 * acc + Z.b2z b) bs 0.

(** The bits of a sequence of bytes. *)
Definition bytes_bits (bytes : list Z) : list bool :=
  flat_map (bits 8) bytes.

Definition is_byte (b : Z) : Prop := 0 <= b < 256.

(** Everything a [BitOutputStream] was given and has not lost: the bytes of
    the sink followed by the valid bits of the bit buffer. *)
Definition written (w : BitOutputStream.t) : list bool :=
  bytes_bits (BitOutputStream.out w)
  ++ bits (Z.to_nat (BitOutputStream.bitBufferLen w)) (BitOutputStream.bitBuffer w).

(** The states a [BitOutputStream] is in between two calls of its methods:
    [bitBufferLen] is at most 64, the sink holds bytes, and both CRC
    accumulators are 0 (they are 0 after [resetCrcs()], and the 8 shifts
    that [flush] applies for a byte leave 0 in a [uint_fast8_t] and in a
    [uint_fast16_t] whose low byte was 0). *)
Record writer_ok (w : BitOutputStream.t) : Prop := {
  wok_len : 0 <= BitOutputStream.bitBufferLen w <= 64;
  wok_crc8 : BitOutputStream.crc8 w = 0;
  wok_crc16 : BitOutputStream.crc16 w = 0;
  wok_out : Forall is_byte (BitOutputStream.out w)
}.

(** The bytes of the byte buffer that were not moved to the bit buffer yet. *)
Definition buffered (r : FlacLowLevelInput.t) : list Z :=
  firstn (Z.to_nat (FlacLowLevelInput.byteBufferLen r - FlacLowLevelInput.byteBufferIndex r))
         (skipn (Z.to_nat (FlacLowLevelInput.byteBufferIndex r))
                (FlacLowLevelInput.byteBuffer r)).

(** The bytes of the array that were not copied to the byte buffer yet. *)
Definition pending (r : FlacLowLevelInput.t) : list Z :=
  skipn (Z.to_nat (FlacLowLevelInput.offset r)) (FlacLowLevelInput.data r).

(** Everything a [FlacLowLevelInput] can still deliver: the valid bits of the
    bit buffer, then the bytes of the byte buffer, then the rest of the
    array. *)
Definition unread (r : FlacLowLevelInput.t) : list bool :=
  bits (Z.to_nat (FlacLowLevelInput.bitBufferLen r)) (FlacLowLevelInput.bitBuffer r)
  ++ bytes_bits (buffered r ++ pending r).

(** The state of a [FlacLowLevelInput] between two reads (no [resetCrcs],
    [getCrc8] or [getCrc16] is involved: [crcStartIndex] stays at or before
    [byteBufferIndex]). *)
Record reader_ok (r : FlacLowLevelInput.t) : Prop := {
  rok_len : 0 <= FlacLowLevelInput.bitBufferLen r <= 64;
  rok_buf : List.length (FlacLowLevelInput.byteBuffer r)
            = Z.to_nat FlacLowLevelInput.BUF_SIZE;
  rok_index : 0 <= FlacLowLevelInput.byteBufferIndex r <= FlacLowLevelInput.BUF_SIZE;
  rok_buflen : -1 <= FlacLowLevelInput.byteBufferLen r <= FlacLowLevelInput.BUF_SIZE;
  rok_avail : FlacLowLevelInput.byteBufferLen r = -1 \/
              FlacLowLevelInput.byteBufferIndex r <= FlacLowLevelInput.byteBufferLen r;
  rok_eof : FlacLowLevelInput.byteBufferLen r = -1 ->
            FlacLowLevelInput.offset r = FlacLowLevelInput.length r;
  rok_offset : 0 <= FlacLowLevelInput.offset r <= FlacLowLevelInput.length r;
  rok_length : FlacLowLevelInput.length r < 2 ^ 31;
  rok_crcStart : 0 <= FlacLowLevelInput.crcStartIndex r
                 <= FlacLowLevelInput.byteBufferIndex r;
  rok_crc8 : 0 <= FlacLowLevelInput.crc8 r < 2 ^ 8;
  rok_crc16 : 0 <= FlacLowLevelInput.crc16 r < 2 ^ 16
}.

(** ** Auxiliary notions of the proofs *)

(** [m] throws from every state. *)
Definition throws {S A} (m : M S A) : Prop :=
  forall s, exists e, fst (m s) = Throw e.

(** From a state that satisfies [P], [m] returns a value and a state that
    satisfy [Q]. *)
Definition hoare {S A} (P : S -> Prop) (m : M S A) (Q : A -> S -> Prop) : Prop :=
  forall s, P s -> exists a s', m s = (Ok a, s') /\ Q a s'.

(** [f] checked on the [k] numbers from [c]. *)
Fixpoint check_from (f : Z -> bool) (k : nat) (c : Z) : bool :=
  match k with
  | O => true
  | S k' => f c && check_from f k' (c + 1)
  end.

(** What one iteration of the inner loop of [flush] makes of [crc16]. *)
Definition crc16_shifted (c : Z) : Z :=
  let c1 := uint_fast16_t (Z.shiftl c 1) in
  uint_fast16_t (Z.lxor c1 (Z.shiftr c1 16 * 0x18005)).

(** What one iteration of the inner loop of [flush] makes of [crc8]. *)
Definition crc8_shifted (c : Z) : Z :=
  let c1 := uint_fast8_t (Z.shiftl c 1) in
  uint_fast8_t (Z.lxor c1 (Z.shiftr c1 8 * 0x107)).

(** The byte [flush] takes from a bit buffer that holds [len] bits. *)
Definition top_byte (bitBuffer len : Z) : Z :=
  uint_fast8_t (Z.land (Z.shiftr bitBuffer (len - 8)) 0xFF).

(** The bit buffer after [n] bits of [v] were shifted in. *)
Definition shifted_in (bitBuffer n v : Z) : Z :=
  uint_fast64_t
    (Z.lor (uint_fast64_t (Z.shiftl bitBuffer n))
           (Z.land (int_fast32_t v) (Z.shiftl 1 n - 1))).

(** What one iteration of the loop of [updateCrcs] makes of the two CRCs
    for the byte [x] of the byte buffer. *)
Definition crc8_next (crc8 x : Z) : Z :=
  uint_fast16_t
    (Z.land (nth (Z.to_nat (Z.lxor crc8 (uint_fast8_t (Z.land x 0xFF))))
                 FlacLowLevelInput.CRC8_TABLE 0) 0xFF).

Definition crc16_next (crc16 x : Z) : Z :=
  uint_fast32_t
    (Z.lxor (nth (Z.to_nat (Z.lxor (Z.shiftr crc16 8) (uint_fast8_t (Z.land x 0xFF))))
                 FlacLowLevelInput.CRC16_TABLE 0)
            (Z.shiftl (Z.land crc16 0xFF) 8)).

(** The two CRCs after the loop of [updateCrcs] went over the bytes of
    [buf] at [indices]. *)
Definition crcs_over (buf : list Z) (indices : list Z) (c : Z * Z) : Z * Z :=
  fold_left
    (fun c i => (crc8_next (fst c) (nth (Z.to_nat i) buf 0),
                 crc16_next (snd c) (nth (Z.to_nat i) buf 0)))
    indices c.

(** ** common/StreamInfo.cpp: writing and reading back *)

(** The payload of a STREAMINFO block as a sequence of bits. *)
Definition payload_bits (s : StreamInfo.t) : list bool :=
  bits 16 (StreamInfo.minBlockSize s) ++
  bits 16 (StreamInfo.maxBlockSize s) ++
  bits 24 (StreamInfo.minFrameSize s) ++
  bits 24 (StreamInfo.maxFrameSize s) ++
  bits 20 (StreamInfo.sampleRate s) ++
  bits 3 (StreamInfo.numChannels s - 1) ++
  bits 5 (StreamInfo.sampleDepth s - 1) ++
  bits 18 (int_fast32_t (Z.shiftr (StreamInfo.numSamples s) 18)) ++
  bits 18 (int_fast32_t (Z.shiftr (StreamInfo.numSamples s) 0)) ++
  bytes_bits (StreamInfo.md5Hash s).

(** The header of the metadata block as a sequence of bits. *)
Definition block_header_bits (last : bool) : list bool :=
  bits 1 (if last then 1 else 0) ++ bits 7 0 ++ bits 24 34.

(** The digest is an array of [MD5_DIGEST_LENGTH] bytes. *)
Definition md5_well_typed (s : StreamInfo.t) : Prop :=
  List.length (StreamInfo.md5Hash s) = Z.to_nat StreamInfo.MD5_DIGEST_LENGTH /\
  Forall is_byte (StreamInfo.md5Hash s).

(** ** Rice decoding: what the tables hold *)

(** The index the fast decoder takes from the bit buffer. *)
Definition extractedBits (s : FlacLowLevelInput.t) : Z :=
  Z.land
    (int_fast32_t
       (Z.shiftr (FlacLowLevelInput.bitBuffer s)
          (FlacLowLevelInput.bitBufferLen s - FlacLowLevelInput.RICE_DECODING_TABLE_BITS)))
    FlacLowLevelInput.RICE_DECODING_TABLE_MASK.

(** The initializer's iteration for the symbol [i] writes the cell [e]. *)
Definition written_for (param i e : Z) : Prop :=
  0 <= i < 2 ^ 20 /\
  FlacLowLevelInput.rice_numBits param i <= FlacLowLevelInput.RICE_DECODING_TABLE_BITS /\
  exists j,
    0 <= j < Z.shiftl 1 (FlacLowLevelInput.rice_shift param i) /\
    e = Z.lor (Z.shiftl (FlacLowLevelInput.rice_bits param i)
                        (FlacLowLevelInput.rice_shift param i)) j.

(** Two tables filled by the same loop with the entries [ec] and [ev]:
    they have the same cells written, each by one symbol for both. *)
Definition tables_agree (ec ev : Z -> Z) (param : Z)
    (tc tv : FlacLowLevelInput.cells) : Prop :=
  forall e,
    match tc e, tv e with
    | Some c, Some v => exists i, written_for param i e /\ c = ec i /\ v = ev i
    | None, None => True
    | _, _ => False
    end.

(** ** The loop of [SeekTable::checkValues] *)

(** What the loop of [checkValues] tests, by recursion on the list. *)
Definition check_pair (q p : SeekTable.SeekPoint) : outcome unit :=
  if negb (SeekTable.sampleOffset p =? SeekTable.PLACEHOLDER) then
    if SeekTable.sampleOffset p <=? SeekTable.sampleOffset q
    then Throw (runtime_error "Sample offsets out of order")
    else if SeekTable.fileOffset p <? SeekTable.fileOffset q
    then Throw (runtime_error "File offsets out of order")
    else Ok tt
  else Ok tt.

Fixpoint check_list (q : SeekTable.SeekPoint) (l : list SeekTable.SeekPoint)
  : outcome unit :=
  match l with
  | [] => Ok tt
  | p :: rest =>
      match check_pair q p with
      | Throw e => Throw e
      | Ok _ => check_list p rest
      end
  end.

(** ** Fields written and read back *)

(** [out->writeInt(n, v)] for each field [(n, v)] in turn. *)
Fixpoint write_fields (NDEBUG : bool) (fields : list (Z * Z)) : M BitOutputStream.t unit :=
  match fields with
  | [] => ret tt
  | (n, v) :: rest => BitOutputStream.writeInt NDEBUG n v ;;; write_fields NDEBUG rest
  end.

(** [in->readUint(n)] for each width [n] in turn. *)
Fixpoint read_widths (NDEBUG : bool) (widths : list Z) : M FlacLowLevelInput.t (list Z) :=
  match widths with
  | [] => ret []
  | n :: rest =>
      x <- FlacLowLevelInput.readUint NDEBUG n ;;
      xs <- read_widths NDEBUG rest ;;
      ret (x :: xs)
  end.

(** The fields as a sequence of bits. *)
Definition fields_bits (fields : list (Z * Z)) : list bool :=
  flat_map (fun f => bits (Z.to_nat (fst f)) (snd f)) fields.

(** ** common/FrameInfo.cpp: the codes of the header fields *)

(** The bits [writeHeader] appends after the frame position for a block
    size whose code is [code] ... *)
Definition block_size_tail (code blockSize : Z) : list bool :=
  if code =? 6 then bits 8 (blockSize - 1)
  else if code =? 7 then bits 16 (blockSize - 1)
  else [].

(** ... and for a sample rate whose code is [code]. *)
Definition sample_rate_tail (code sampleRate : Z) : list bool :=
  if code =? 12 then bits 8 sampleRate
  else if code =? 13 then bits 16 sampleRate
  else if code =? 14 then bits 16 (Z.quot sampleRate 10)
  else [].

(** ** common/StreamInfo.cpp: [checkFrame] *)

(** The fields of a frame are [int_fast32_t], those of a stream info are
    within the ranges in which [checkValues] and the constructor keep
    them. *)
Definition check_frame_typed (s : StreamInfo.t) (meta : FrameInfo.t) : Prop :=
  - 2 ^ 31 <= FrameInfo.sampleRate meta < 2 ^ 31 /\
  - 2 ^ 31 <= FrameInfo.blockSize meta < 2 ^ 31 /\
  - 2 ^ 31 <= FrameInfo.frameSize meta < 2 ^ 31 /\
  0 <= StreamInfo.sampleRate s < 2 ^ 20 /\
  0 <= StreamInfo.numSamples s < 2 ^ 36 /\
  0 <= StreamInfo.minFrameSize s < 2 ^ 24 /\
  0 <= StreamInfo.maxFrameSize s < 2 ^ 24.

(** What [checkFrame] requires of a frame, without the casts. *)
Definition frame_fits (s : StreamInfo.t) (meta : FrameInfo.t) : Prop :=
  FrameInfo.numChannels meta = StreamInfo.numChannels s /\
  (FrameInfo.sampleRate meta = -1 \/ FrameInfo.sampleRate meta = StreamInfo.sampleRate s) /\
  (FrameInfo.sampleDepth meta = -1 \/ FrameInfo.sampleDepth meta = StreamInfo.sampleDepth s) /\
  (StreamInfo.numSamples s = 0 \/ 0 <= FrameInfo.blockSize meta <= StreamInfo.numSamples s) /\
  FrameInfo.blockSize meta <= StreamInfo.maxBlockSize s /\
  (StreamInfo.minFrameSize s = 0 \/
   FrameInfo.frameSize meta < 0 \/ StreamInfo.minFrameSize s <= FrameInfo.frameSize meta) /\
  (StreamInfo.maxFrameSize s = 0 \/
   0 <= FrameInfo.frameSize meta <= StreamInfo.maxFrameSize s).

(** ** encode/BitOutputStream.cpp: the byte counter *)

(** [byteCount] counts the bytes of the sink, in a [uint_fast64_t]. *)
Definition counted (w : BitOutputStream.t) : Prop :=
  BitOutputStream.byteCount w
  = Z.of_nat (List.length (BitOutputStream.out w)) mod 2 ^ 64.

(** ** common/SeekTable.cpp: writing and reading back *)

(** A seek point as the 18 bytes of its three big-endian fields. *)
Definition point_bits (p : SeekTable.SeekPoint) : list bool :=
  bits 64 (SeekTable.sampleOffset p) ++
  bits 64 (SeekTable.fileOffset p) ++
  bits 16 (SeekTable.frameSamples p).

Definition points_bits (points : SeekTable.t) : list bool :=
  flat_map point_bits points.

(** The header of the metadata block of a seek table of [n] points. *)
Definition seek_header_bits (last : bool) (n : nat) : list bool :=
  bits 1 (if last then 1 else 0) ++ bits 7 3 ++ bits 24 (Z.of_nat n * 18).

(** ** common/StreamInfo.cpp: the constructor *)

(** What the widths of the fields of a STREAMINFO payload give: every
    stream info that is read from 34 bytes is within these ranges. *)
Definition payload_typed (s : StreamInfo.t) : Prop :=
  0 <= StreamInfo.minBlockSize s < 2 ^ 16 /\
  0 <= StreamInfo.maxBlockSize s < 2 ^ 16 /\
  0 <= StreamInfo.minFrameSize s < 2 ^ 24 /\
  0 <= StreamInfo.maxFrameSize s < 2 ^ 24 /\
  0 <= StreamInfo.sampleRate s < 2 ^ 20 /\
  1 <= StreamInfo.numChannels s <= 8 /\
  1 <= StreamInfo.sampleDepth s <= 32 /\
  0 <= StreamInfo.numSamples s < 2 ^ 36.

(** What the constructor [StreamInfo(b, length)] tests after reading. *)
Definition constructor_accepts (s : StreamInfo.t) : Prop :=
  16 <= StreamInfo.minBlockSize s /\
  StreamInfo.minBlockSize s <= StreamInfo.maxBlockSize s /\
  (StreamInfo.minFrameSize s = 0 \/ StreamInfo.maxFrameSize s = 0 \/
   StreamInfo.minFrameSize s <= StreamInfo.maxFrameSize s) /\
  1 <= StreamInfo.sampleRate s <= 655350.

(** ** The reader between two reads: position and CRCs *)

(** The bytes of the byte buffer from index [a] to index [b]. *)
Definition slice (buf : list Z) (a b : Z) : list Z :=
  firstn (Z.to_nat (b - a)) (skipn (Z.to_nat a) buf).

(** The state of a reader that has not met the end of the data, with [T]
    the bytes of the stream from the last [resetCrcs()] on: the byte buffer
    holds the bytes before [offset], and the two CRCs are those of the
    bytes of [T] that were taken out of the byte buffer before
    [crcStartIndex]. *)
Record reader_inv (r : FlacLowLevelInput.t) (T : list Z) : Prop := {
  rin_ok : reader_ok r;
  rin_open : 0 <= FlacLowLevelInput.byteBufferLen r;
  rin_pos : FlacLowLevelInput.offset r
            = FlacLowLevelInput.byteBufferStartPos r + FlacLowLevelInput.byteBufferLen r;
  rin_crc : exists h,
      FlacLowLevelInput.crc8 r = SpecCrc.crc8 h /\
      FlacLowLevelInput.crc16 r = SpecCrc.crc16 h /\
      h ++ slice (FlacLowLevelInput.byteBuffer r) (FlacLowLevelInput.crcStartIndex r)
                 (FlacLowLevelInput.byteBufferIndex r)
        ++ buffered r ++ pending r = T;
  rin_bytes : Forall is_byte T
}.

(** The number of bits of the stream that were delivered: the bytes moved
    out of the byte buffers, less the bits still in the bit buffer. *)
Definition bit_position (r : FlacLowLevelInput.t) : Z :=
  8 * (FlacLowLevelInput.byteBufferStartPos r + FlacLowLevelInput.byteBufferIndex r)
  - FlacLowLevelInput.bitBufferLen r.

(** [getPosition()] and [getBitPosition()] *)
Definition reader_position : M FlacLowLevelInput.t (Z * Z) :=
  p <- FlacLowLevelInput.getPosition ;;
  b <- FlacLowLevelInput.getBitPosition ;;
  ret (p, b).

(** ** common/FrameInfo.cpp: the coded number of the frame header *)

(** The number of bits of [val]: 0 for 0. *)
Definition bit_length (val : Z) : Z := if val =? 0 then 0 else Z.log2 val + 1.

(** The continuation byte [writeUtf8Integer] writes for the index [i]. *)
Definition utf8_continuation (val i : Z) : Z :=
  Z.lor 0x80 (Z.land (int_fast32_t (Z.shiftr val (i * 6))) 0x3F).

(** The head byte [writeUtf8Integer] writes before [n] continuation bytes,
    as the argument of [writeInt]. *)
Definition utf8_head (val n : Z) : Z :=
  uint_fast32_t (Z.lor (Z.shiftr (uint_fast32_t 0xFF80) n)
                       (int_fast32_t (Z.shiftr val (n * 6)))).

(** What [writeUtf8Integer(val)] hands to [writeInt]: fields of 8 bits. *)
Definition utf8_fields (val : Z) : list (Z * Z) :=
  let bitLen := int_fast32_t (64 - Utilities.numberOfLeadingZeros64 (uint64_t val)) in
  if bitLen <=? 7 then [(8, int_fast32_t val)]
  else
    let n := int_fast32_t (Z.quot (bitLen - 2) 5) in
    (8, utf8_head val n) :: map (fun i => (8, utf8_continuation val i)) (rev (upto n)).

(** What [readUtf8Integer] makes of the head byte [x]: the number of its
    leading ones, and the bits after them. *)
Definition utf8_head_ones (x : Z) : Z :=
  Utilities.numberOfLeadingZeros32
    (uint32_t (Z.lnot (int_fast32_t (Z.shiftl (int_fast32_t x) 24)))).

Definition utf8_head_bits (x : Z) : Z :=
  uint_fast64_t (Z.land (int_fast32_t x) (Z.shiftr 0x7F (utf8_head_ones x))).

(** The byte buffer of a stream that was not repositioned holds a chunk of
    [BUF_SIZE] bytes of the array, or its last bytes, or nothing yet. *)
Definition reader_chunked (r : FlacLowLevelInput.t) : Prop :=
  0 <= FlacLowLevelInput.byteBufferStartPos r /\
  FlacLowLevelInput.byteBufferStartPos r mod FlacLowLevelInput.BUF_SIZE = 0 /\
  FlacLowLevelInput.offset r
  = FlacLowLevelInput.byteBufferStartPos r + FlacLowLevelInput.byteBufferLen r /\
  (FlacLowLevelInput.byteBufferLen r = 0 -> FlacLowLevelInput.byteBufferStartPos r = 0) /\
  (FlacLowLevelInput.byteBufferLen r = FlacLowLevelInput.BUF_SIZE \/
   FlacLowLevelInput.byteBufferLen r = 0 \/
   FlacLowLevelInput.offset r = FlacLowLevelInput.length r).

(** [readByte()] and then [getPosition()] *)
Definition readByte_position (NDEBUG : bool) : M FlacLowLevelInput.t (Z * Z) :=
  b <- FlacLowLevelInput.readByte NDEBUG ;;
  p <- FlacLowLevelInput.getPosition ;;
  ret (b, p).

(** ** The Rice codes the slow decoder of [readRiceSignedInts] reads *)

(** A code as the slow decoder reads it: [fst c] zero bits, a one bit, and
    the [param] low bits of [snd c]. *)
Definition rice_code_bits (param : Z) (c : nat * Z) : list bool :=
  repeat false (fst c) ++ true :: bits (Z.to_nat param) (snd c).

(** The number the slow decoder assembles from a code, and the value it
    makes of it. *)
Definition rice_code_symbol (param : Z) (c : nat * Z) : Z :=
  Z.of_nat (fst c) * 2 ^ param + snd c mod 2 ^ param.

Definition rice_code_value (param : Z) (c : nat * Z) : Z :=
  let u := rice_code_symbol param c in
  if Z.even u then u / 2 else - (u / 2) - 1.
(** * Lemmas *)

(** ** The monad *)

Lemma bind_ok {S A B} (m : M S A) (k : A -> M S B) s a s' :
  m s = (Ok a, s') -> bind m k s = k a s'.
Proof. unfold bind. intros ->. reflexivity. Qed.

Lemma bind_throw {S A B} (m : M S A) (k : A -> M S B) s e s' :
  m s = (Throw e, s') -> bind m k s = (Throw e, s').
Proof. unfold bind. intros ->. reflexivity. Qed.

Lemma throws_bind {S A B} (m : M S A) (k : A -> M S B) :
  (forall a, throws (k a)) -> throws (bind m k).
Proof.
  intros Hk s. unfold bind.
  destruct (m s) as [[a | e] s'].
  - apply Hk.
  - exists e. reflexivity.
Qed.

Lemma throws_bind_l {S A B} (m : M S A) (k : A -> M S B) :
  throws m -> throws (bind m k).
Proof.
  intros Hm s. unfold bind.
  destruct (Hm s) as [e He].
  destruct (m s) as [[a | e'] s']; simpl in He.
  - discriminate.
  - exists e'. reflexivity.
Qed.

Lemma throws_throw {S A} (e : exn) : throws (@throw S A e).
Proof. intros s. exists e. reflexivity. Qed.

Lemma length_upto (n : Z) : List.length (upto n) = Z.to_nat n.
Proof. unfold upto. rewrite length_map, length_seq. reflexivity. Qed.

Lemma nth_error_upto (n : Z) (k : nat) :
  (k < Z.to_nat n)%nat -> nth_error (upto n) k = Some (Z.of_nat k).
Proof.
  intros H. unfold upto.
  rewrite nth_error_map, nth_error_seq.
  destruct (Nat.ltb_spec k (Z.to_nat n)); [reflexivity | lia].
Qed.

(** ** Arithmetic *)

Lemma shiftr_eqb_0 (x n : Z) :
  0 <= n -> ((Z.shiftr x n =? 0) = true <-> 0 <= x < 2 ^ n).
Proof.
  intros Hn. rewrite Z.eqb_eq, Z.shiftr_div_pow2 by exact Hn.
  assert (0 < 2 ^ n) by (apply Z.pow_pos_nonneg; lia).
  rewrite Z.div_small_iff by lia. lia.
Qed.

Lemma shiftr_neqb_0 (x n : Z) :
  0 <= n -> (negb (Z.shiftr x n =? 0) = false <-> 0 <= x < 2 ^ n).
Proof.
  intros Hn. rewrite negb_false_iff. apply shiftr_eqb_0; exact Hn.
Qed.

Lemma pow2_pos (n : Z) : 0 <= n -> 0 < 2 ^ n.
Proof. intros. apply Z.pow_pos_nonneg; lia. Qed.

Lemma uint_small (w x : Z) : 0 <= x < 2 ^ w -> uint w x = x.
Proof. intros. unfold uint. apply Z.mod_small. assumption. Qed.

Lemma uint_range (w x : Z) : 0 <= w -> 0 <= uint w x < 2 ^ w.
Proof. intros. unfold uint. apply Z.mod_pos_bound. apply pow2_pos; assumption. Qed.

Lemma sint_small (w x : Z) :
  0 < w -> - 2 ^ (w - 1) <= x < 2 ^ (w - 1) -> sint w x = x.
Proof.
  intros Hw Hx. unfold sint.
  assert (E : 2 ^ w = 2 * 2 ^ (w - 1)).
  { replace w with (1 + (w - 1)) at 1 by lia.
    rewrite Z.pow_add_r by lia. reflexivity. }
  rewrite Z.mod_small by lia. lia.
Qed.

Lemma sint_mod (w x : Z) : 0 < w -> sint w x mod 2 ^ w = x mod 2 ^ w.
Proof.
  intros Hw. unfold sint.
  rewrite Zminus_mod_idemp_l. f_equal. lia.
Qed.

Lemma testbit_uint (w x i : Z) :
  0 <= w -> Z.testbit (uint w x) i = (i <? w) && Z.testbit x i.
Proof. intros. unfold uint. apply Z.testbit_mod_pow2. assumption. Qed.

Lemma testbit_sint_low (w x i : Z) :
  0 <= i < w -> Z.testbit (sint w x) i = Z.testbit x i.
Proof.
  intros Hi.
  rewrite <- (Z.mod_pow2_bits_low (sint w x) w i) by lia.
  rewrite sint_mod by lia.
  apply Z.mod_pow2_bits_low. lia.
Qed.

(** ** Sequences of bits *)

Lemma sint_mod_low (w n x : Z) :
  0 <= n <= w -> sint w x mod 2 ^ n = x mod 2 ^ n.
Proof.
  intros Hn. apply Z.bits_inj'. intros i Hi.
  rewrite !Z.testbit_mod_pow2 by lia.
  destruct (Z.ltb_spec i n); [|reflexivity].
  cbn [andb]. apply testbit_sint_low. lia.
Qed.

Lemma length_bits (n : nat) (x : Z) : List.length (bits n x) = n.
Proof. induction n; cbn [bits List.length]; congruence. Qed.

Lemma bits_ext (n : nat) (x y : Z) :
  (forall i, 0 <= i < Z.of_nat n -> Z.testbit x i = Z.testbit y i) ->
  bits n x = bits n y.
Proof.
  induction n as [|n IH]; intros H; cbn [bits]; [reflexivity|].
  f_equal.
  - apply H. lia.
  - apply IH. intros i Hi. apply H. lia.
Qed.

Lemma bits_app (n m : nat) (x : Z) :
  bits (n + m) x = bits n (Z.shiftr x (Z.of_nat m)) ++ bits m x.
Proof.
  induction n as [|n IH]; cbn [bits Nat.add app]; [reflexivity|].
  f_equal; [|exact IH].
  rewrite Z.shiftr_spec by lia. f_equal. lia.
Qed.

Lemma value_acc (bs : list bool) (a : Z) :
  fold_left (fun acc (b : bool) => 2 * acc + Z.b2z b) bs a
  = a * 2 ^ Z.of_nat (List.length bs) + value bs.
Proof.
  unfold value. revert a.
  induction bs as [|b bs IH]; intros a; cbn [fold_left List.length].
  - cbn. lia.
  - rewrite IH. rewrite (IH (2 * 0 + Z.b2z b)).
    rewrite Nat2Z.inj_succ, Z.pow_succ_r by lia. ring.
Qed.

Lemma value_app (a b : list bool) :
  value (a ++ b) = value a * 2 ^ Z.of_nat (List.length b) + value b.
Proof.
  unfold value at 1. rewrite fold_left_app. rewrite value_acc. reflexivity.
Qed.

Lemma value_cons (b : bool) (bs : list bool) :
  value (b :: bs) = Z.b2z b * 2 ^ Z.of_nat (List.length bs) + value bs.
Proof.
  unfold value at 1. cbn [fold_left]. rewrite value_acc. ring.
Qed.

Lemma value_bits (n : nat) (x : Z) : value (bits n x) = x mod 2 ^ Z.of_nat n.
Proof.
  induction n as [|n IH]; cbn [bits].
  - cbn. rewrite Z.mod_1_r. reflexivity.
  - rewrite value_cons, length_bits, IH.
    rewrite Nat2Z.inj_succ, Z.pow_succ_r by lia.
    rewrite Z.testbit_spec' by lia.
    assert (0 < 2 ^ Z.of_nat n) by (apply pow2_pos; lia).
    rewrite (Z.mul_comm 2), Z.rem_mul_r by lia. ring.
Qed.

Lemma value_range (bs : list bool) : 0 <= value bs < 2 ^ Z.of_nat (List.length bs).
Proof.
  induction bs as [|b bs IH].
  - cbn. lia.
  - rewrite value_cons. cbn [List.length].
    rewrite Nat2Z.inj_succ, Z.pow_succ_r by lia.
    destruct b; cbn [Z.b2z]; lia.
Qed.

Lemma bits_value_inj (n : nat) (x y : Z) :
  bits n x = bits n y -> x mod 2 ^ Z.of_nat n = y mod 2 ^ Z.of_nat n.
Proof. intros H. rewrite <- !value_bits, H. reflexivity. Qed.

Lemma bits_mod (n : nat) (k x : Z) :
  Z.of_nat n <= k -> bits n (x mod 2 ^ k) = bits n x.
Proof.
  intros H. apply bits_ext. intros i Hi.
  apply Z.mod_pow2_bits_low. lia.
Qed.

Lemma length_bytes_bits (bytes : list Z) :
  List.length (bytes_bits bytes) = (8 * List.length bytes)%nat.
Proof.
  unfold bytes_bits.
  induction bytes as [|b bytes IH]; cbn [flat_map List.length]; [reflexivity|].
  rewrite length_app, length_bits, IH. lia.
Qed.

Lemma bytes_bits_app (a b : list Z) :
  bytes_bits (a ++ b) = bytes_bits a ++ bytes_bits b.
Proof. unfold bytes_bits. apply flat_map_app. Qed.

Lemma app_eq_by_length {A} (p q u v : list A) :
  List.length p = List.length q -> p ++ u = q ++ v -> p = q /\ u = v.
Proof.
  revert q. induction p as [|c p IHp]; intros [|d q] L H; cbn in L; try discriminate.
  - split; [reflexivity | exact H].
  - cbn in H. injection H as -> H. injection L as L.
    destruct (IHp q L H) as [-> ->]. split; reflexivity.
Qed.

Lemma bytes_bits_inj (a b : list Z) :
  Forall is_byte a -> Forall is_byte b -> bytes_bits a = bytes_bits b -> a = b.
Proof.
  intros Ha. revert b.
  induction Ha as [|x a Hx Ha IH]; intros b Hb H.
  - destruct b as [|y b]; [reflexivity|].
    apply (f_equal (@List.length bool)) in H.
    rewrite !length_bytes_bits in H. cbn in H. lia.
  - destruct Hb as [|y b Hy Hb].
    + apply (f_equal (@List.length bool)) in H.
      rewrite !length_bytes_bits in H. cbn in H. lia.
    + unfold bytes_bits in H. cbn [flat_map] in H.
      apply app_eq_by_length in H; [|rewrite !length_bits; reflexivity].
      destruct H as [H8 Hrest].
      apply bits_value_inj in H8. unfold is_byte in Hx, Hy.
      change (2 ^ Z.of_nat 8) with 256 in H8.
      rewrite !Z.mod_small in H8 by lia.
      f_equal; [exact H8 | apply IH; assumption].
Qed.

(** ** Total correctness of monadic code *)

Lemma hoare_bind {S A B} (P : S -> Prop) (m : M S A) (Q : A -> S -> Prop)
    (k : A -> M S B) (R : B -> S -> Prop) :
  hoare P m Q -> (forall a, hoare (Q a) (k a) R) -> hoare P (bind m k) R.
Proof.
  intros Hm Hk s Hs.
  destruct (Hm s Hs) as (a & s1 & E & Ha).
  rewrite (bind_ok _ _ _ _ _ E).
  apply (Hk a s1 Ha).
Qed.

Lemma hoare_ret {S A} (P : S -> Prop) (a : A) (Q : A -> S -> Prop) :
  (forall s, P s -> Q a s) -> hoare P (ret a) Q.
Proof. intros H s Hs. exists a, s. split; [reflexivity | auto]. Qed.

Lemma hoare_weaken {S A} (P P' : S -> Prop) (m : M S A) (Q Q' : A -> S -> Prop) :
  hoare P' m Q' -> (forall s, P s -> P' s) -> (forall a s, Q' a s -> Q a s) ->
  hoare P m Q.
Proof.
  intros Hm HP HQ s Hs.
  destruct (Hm s (HP s Hs)) as (a & s' & E & Ha).
  exists a, s'. split; [exact E | auto].
Qed.

Lemma hoare_gets {S A} (P : S -> Prop) (f : S -> A) (Q : A -> S -> Prop) :
  (forall s, P s -> Q (f s) s) -> hoare P (gets f) Q.
Proof. intros H s Hs. exists (f s), s. split; [reflexivity | auto]. Qed.

Lemma hoare_get {S} (P : S -> Prop) (Q : S -> S -> Prop) :
  (forall s, P s -> Q s s) -> hoare P get Q.
Proof. intros H s Hs. exists s, s. split; [reflexivity | auto]. Qed.

Lemma hoare_modify {S} (P : S -> Prop) (f : S -> S) (Q : unit -> S -> Prop) :
  (forall s, P s -> Q tt (f s)) -> hoare P (modify f) Q.
Proof. intros H s Hs. exists tt, (f s). split; [reflexivity | auto]. Qed.

Lemma hoare_assert {S} (P : S -> Prop) (NDEBUG c : bool) (Q : unit -> S -> Prop) :
  c = true -> (forall s, P s -> Q tt s) -> hoare P (assert NDEBUG c) Q.
Proof.
  intros -> H s Hs. exists tt, s. unfold assert. rewrite orb_true_r.
  split; [reflexivity | auto].
Qed.

Lemma assert_true {S} (NDEBUG c : bool) (s : S) :
  c = true -> assert NDEBUG c s = (Ok tt, s).
Proof. intros ->. unfold assert. rewrite orb_true_r. reflexivity. Qed.

Lemma bind_assert {S B} (NDEBUG c : bool) (k : unit -> M S B) (s : S) :
  c = true -> bind (assert NDEBUG c) k s = k tt s.
Proof. intros H. apply bind_ok. apply assert_true. exact H. Qed.

(** Reduction of the monad's operations applied to a state. *)
Ltac mred := cbn [bind gets get modify ret lift throw when fst snd].

(** ** Bounds from bits *)

Lemma bits_above (n x i : Z) : 0 <= x < 2 ^ n -> n <= i -> Z.testbit x i = false.
Proof.
  intros Hx Hi.
  destruct (Z.ltb_spec n 0).
  - rewrite Z.pow_neg_r in Hx by lia. lia.
  - rewrite <- (Z.mod_small x (2 ^ n)) by lia.
    apply Z.mod_pow2_bits_high. lia.
Qed.

Lemma bounded_by_bits (n x : Z) :
  0 <= n -> (forall i, n <= i -> Z.testbit x i = false) -> 0 <= x < 2 ^ n.
Proof.
  intros Hn H.
  assert (E : x = x mod 2 ^ n).
  { apply Z.bits_inj'. intros i Hi.
    rewrite Z.testbit_mod_pow2 by lia.
    destruct (Z.ltb_spec i n); [reflexivity | apply H; lia]. }
  rewrite E. apply Z.mod_pos_bound. apply pow2_pos; lia.
Qed.

Lemma lxor_bound (n a b : Z) :
  0 <= n -> 0 <= a < 2 ^ n -> 0 <= b < 2 ^ n -> 0 <= Z.lxor a b < 2 ^ n.
Proof.
  intros Hn Ha Hb. apply bounded_by_bits; [exact Hn|].
  intros i Hi. rewrite Z.lxor_spec.
  rewrite (bits_above n a i), (bits_above n b i) by assumption. reflexivity.
Qed.

Lemma lor_bound (n a b : Z) :
  0 <= n -> 0 <= a < 2 ^ n -> 0 <= b < 2 ^ n -> 0 <= Z.lor a b < 2 ^ n.
Proof.
  intros Hn Ha Hb. apply bounded_by_bits; [exact Hn|].
  intros i Hi. rewrite Z.lor_spec.
  rewrite (bits_above n a i), (bits_above n b i) by assumption. reflexivity.
Qed.

Lemma check_from_spec (f : Z -> bool) (k : nat) (c0 : Z) :
  check_from f k c0 = true -> forall c, c0 <= c < c0 + Z.of_nat k -> f c = true.
Proof.
  revert c0. induction k as [|k IH]; intros c0 H c Hc; [lia|].
  cbn [check_from] in H. apply andb_true_iff in H. destruct H as [H0 H].
  destruct (Z.eq_dec c c0) as [-> | Hne]; [exact H0|].
  apply (IH (c0 + 1) H). lia.
Qed.

(** ** encode/BitOutputStream.cpp: the CRC step of [flush] *)

Lemma crc16_shifted_double (c : Z) :
  crc16_shifted c = (2 * c) mod 2 ^ 16.
Proof.
  unfold crc16_shifted. cbv zeta.
  assert (E : Z.shiftr (uint_fast16_t (Z.shiftl c 1)) 16 = 0).
  { apply Z.eqb_eq, shiftr_eqb_0; [lia|]. apply uint_range. cbn. lia. }
  rewrite E, Z.mul_0_l, Z.lxor_0_r.
  unfold uint_fast16_t, uint, fast16_bits.
  rewrite Z.mod_mod by (cbn; lia).
  rewrite Z.shiftl_mul_pow2 by lia. f_equal. lia.
Qed.

Lemma crc16_shifted_range (c : Z) : 0 <= crc16_shifted c < 2 ^ 16.
Proof. rewrite crc16_shifted_double. apply Z.mod_pos_bound. lia. Qed.

Lemma crc8_shifted_double (c : Z) :
  crc8_shifted c = (2 * c) mod 2 ^ 8.
Proof.
  unfold crc8_shifted. cbv zeta.
  assert (E : Z.shiftr (uint_fast8_t (Z.shiftl c 1)) 8 = 0).
  { apply Z.eqb_eq, shiftr_eqb_0; [lia|]. apply uint_range. cbn. lia. }
  rewrite E, Z.mul_0_l, Z.lxor_0_r.
  unfold uint_fast8_t, uint, fast8_bits.
  rewrite Z.mod_mod by (cbn; lia).
  rewrite Z.shiftl_mul_pow2 by lia. f_equal. lia.
Qed.

(** [k + 1] doublings modulo [m]. *)
Lemma iter_doubling (m : Z) (f : Z -> Z) (k : nat) (c : Z) :
  0 < m -> (forall x, f x = (2 * x) mod m) ->
  Nat.iter (S k) f c = (2 ^ Z.of_nat (S k) * c) mod m.
Proof.
  intros Hm Hf. induction k as [|k IH].
  - cbn [Nat.iter]. rewrite Hf. f_equal.
  - rewrite Nat.iter_succ, IH, Hf, Z.mul_mod_idemp_r by lia.
    f_equal. rewrite (Nat2Z.inj_succ (S k)), Z.pow_succ_r by lia. lia.
Qed.

Lemma crc8_shifted_8 (c : Z) : Nat.iter 8 crc8_shifted c = 0.
Proof.
  rewrite (iter_doubling (2 ^ 8) crc8_shifted 7 c ltac:(lia) crc8_shifted_double).
  change (2 ^ Z.of_nat 8) with (2 ^ 8). rewrite Z.mul_comm. apply Z.mod_mul. lia.
Qed.

Lemma crc16_shifted_8 (b : Z) : Nat.iter 8 crc16_shifted (Z.shiftl b 8) = 0.
Proof.
  rewrite (iter_doubling (2 ^ 16) crc16_shifted 7 _ ltac:(lia) crc16_shifted_double).
  change (2 ^ Z.of_nat 8) with (2 ^ 8). rewrite Z.shiftl_mul_pow2 by lia.
  replace (2 ^ 8 * (b * 2 ^ 8)) with (b * 2 ^ 16) by lia. apply Z.mod_mul. lia.
Qed.

(** Reduction of the record operations on a state given by its fields. *)
Ltac wred :=
  cbv [BitOutputStream.out BitOutputStream.bitBuffer BitOutputStream.bitBufferLen
       BitOutputStream.byteCount BitOutputStream.crc8 BitOutputStream.crc16
       BitOutputStream.set_out BitOutputStream.set_bitBuffer
       BitOutputStream.set_bitBufferLen BitOutputStream.set_byteCount
       BitOutputStream.set_crc8 BitOutputStream.set_crc16].

Lemma crc_shift_spec (NDEBUG : bool) (w : BitOutputStream.t) :
  0 <= BitOutputStream.crc16 w < 2 ^ 16 ->
  BitOutputStream.crc_shift NDEBUG w
  = (Ok tt,
     BitOutputStream.set_crc16 (crc16_shifted (BitOutputStream.crc16 w))
       (BitOutputStream.set_crc8 (crc8_shifted (BitOutputStream.crc8 w)) w)).
Proof.
  intros H16. destruct w as [o bb len bc c8 c16]. cbn in H16.
  unfold BitOutputStream.crc_shift. mred. wred.
  fold (crc8_shifted c8). fold (crc16_shifted c16).
  rewrite bind_assert.
  2:{ apply shiftr_eqb_0; [lia|]. rewrite crc8_shifted_double.
      apply Z.mod_pos_bound. lia. }
  mred. wred.
  rewrite assert_true.
  2:{ apply shiftr_eqb_0; [lia|]. apply crc16_shifted_range. }
  reflexivity.
Qed.

Lemma repeat_crc_shift (NDEBUG : bool) (k : nat) (w : BitOutputStream.t) :
  0 <= BitOutputStream.crc16 w < 2 ^ 16 ->
  repeatM k (BitOutputStream.crc_shift NDEBUG) w
  = (Ok tt,
     BitOutputStream.set_crc16 (Nat.iter k crc16_shifted (BitOutputStream.crc16 w))
       (BitOutputStream.set_crc8 (Nat.iter k crc8_shifted (BitOutputStream.crc8 w)) w))
  /\ 0 <= Nat.iter k crc16_shifted (BitOutputStream.crc16 w) < 2 ^ 16.
Proof.
  revert w. induction k as [|k IH]; intros w H16.
  - split; [|exact H16]. destruct w. reflexivity.
  - cbn [repeatM].
    rewrite (bind_ok _ _ _ _ _ (crc_shift_spec NDEBUG w H16)).
    pose proof (crc16_shifted_range (BitOutputStream.crc16 w)) as H16'.
    destruct w as [o bb len bc c8 c16].
    cbn [BitOutputStream.crc16 BitOutputStream.crc8] in *.
    specialize (IH (BitOutputStream.set_crc16 (crc16_shifted c16)
                      (BitOutputStream.set_crc8 (crc8_shifted c8)
                         (BitOutputStream.mk o bb len bc c8 c16))) H16').
    destruct IH as [IH Hb]. rewrite IH.
    revert Hb. wred. rewrite !Nat.iter_succ_r. intros Hb.
    split; [reflexivity | exact Hb].
Qed.

Lemma top_byte_is_byte (bb len : Z) : is_byte (top_byte bb len).
Proof. unfold is_byte, top_byte. apply (uint_range 8). lia. Qed.

Lemma bits_top_byte (bb len : Z) :
  8 <= len -> bits 8 (top_byte bb len) = bits 8 (Z.shiftr bb (len - 8)).
Proof.
  intros H. apply bits_ext. intros i Hi. unfold top_byte, uint_fast8_t.
  rewrite testbit_uint by (unfold fast8_bits; lia).
  change 0xFF with (Z.ones 8).
  rewrite Z.land_spec, Z.testbit_ones_nonneg by lia.
  change fast8_bits with 8.
  destruct (Z.ltb_spec i 8); [|lia].
  rewrite andb_true_r. reflexivity.
Qed.

Lemma flush_byte_spec (NDEBUG : bool) (w : BitOutputStream.t) :
  writer_ok w -> 8 <= BitOutputStream.bitBufferLen w ->
  exists w',
    BitOutputStream.flush_byte NDEBUG w = (Ok tt, w') /\
    writer_ok w' /\
    written w' = written w /\
    BitOutputStream.out w'
      = BitOutputStream.out w
        ++ [top_byte (BitOutputStream.bitBuffer w) (BitOutputStream.bitBufferLen w)] /\
    BitOutputStream.bitBuffer w' = BitOutputStream.bitBuffer w /\
    BitOutputStream.bitBufferLen w' = BitOutputStream.bitBufferLen w - 8.
Proof.
  intros [Hlen H8 H16 Hout] Hge.
  destruct w as [o bb len bc c8 c16]. cbn in Hlen, H8, H16, Hout, Hge. cbn [BitOutputStream.bitBuffer BitOutputStream.bitBufferLen BitOutputStream.out].
  unfold BitOutputStream.flush_byte. mred. wred.
  assert (El : uint_fast8_t (len - 8) = len - 8)
    by (apply uint_small; unfold fast8_bits; lia).
  rewrite El. fold (top_byte bb len).
  set (b := top_byte bb len).
  assert (Hb : 0 <= b < 2 ^ 8) by apply top_byte_is_byte.
  subst c8 c16. rewrite !Z.lxor_0_l.
  assert (Ec16 : uint_fast16_t (Z.shiftl b 8) = Z.shiftl b 8).
  { apply uint_small. rewrite Z.shiftl_mul_pow2 by lia. unfold fast16_bits. lia. }
  rewrite Ec16.
  assert (H16' : 0 <= Z.shiftl b 8 < 2 ^ 16)
    by (rewrite Z.shiftl_mul_pow2 by lia; lia).
  match goal with |- context [repeatM 8 _ ?w0] =>
    destruct (repeat_crc_shift NDEBUG 8 w0 H16') as [E _] end.
  revert E. wred. rewrite crc8_shifted_8, crc16_shifted_8. intros E.
  eexists. split; [exact E|].
  split; [|split; [|split; [reflexivity | split; reflexivity]]].
  - constructor; wred.
    + lia.
    + reflexivity.
    + reflexivity.
    + apply Forall_app. split; [exact Hout|]. constructor; [exact Hb | constructor].
  - unfold written. wred.
    rewrite bytes_bits_app, <- app_assoc. f_equal.
    unfold bytes_bits. cbn [flat_map]. rewrite app_nil_r.
    replace (Z.to_nat len) with (8 + Z.to_nat (len - 8))%nat by lia.
    rewrite bits_app. f_equal.
    unfold b. rewrite bits_top_byte by lia. f_equal. f_equal. lia.
Qed.

Lemma flush_loop_spec (NDEBUG : bool) (fuel : nat) (w : BitOutputStream.t) :
  writer_ok w -> BitOutputStream.bitBufferLen w <= Z.of_nat fuel ->
  exists w',
    BitOutputStream.flush_loop NDEBUG fuel w = (Ok tt, w') /\
    writer_ok w' /\
    written w' = written w /\
    BitOutputStream.bitBuffer w' = BitOutputStream.bitBuffer w /\
    BitOutputStream.bitBufferLen w' = BitOutputStream.bitBufferLen w mod 8.
Proof.
  revert w. induction fuel as [|fuel IH]; intros w Hok Hfuel.
  - pose proof (wok_len w Hok).
    exists w. cbn [BitOutputStream.flush_loop]. mred.
    destruct (Z.leb_spec 8 (BitOutputStream.bitBufferLen w)); [lia|].
    refine (conj eq_refl (conj Hok (conj eq_refl (conj eq_refl _)))).
    rewrite Z.mod_small by lia. reflexivity.
  - pose proof (wok_len w Hok).
    cbn [BitOutputStream.flush_loop]. mred.
    destruct (Z.leb_spec 8 (BitOutputStream.bitBufferLen w)) as [Hge | Hlt].
    + destruct (flush_byte_spec NDEBUG w Hok Hge)
        as (w1 & E1 & Hok1 & Hw1 & _ & Hbb1 & Hlen1).
      rewrite (bind_ok _ _ _ _ _ E1).
      destruct (IH w1 Hok1) as (w2 & E2 & Hok2 & Hw2 & Hbb2 & Hlen2); [lia|].
      exists w2. split; [exact E2|].
      split; [exact Hok2|]. split; [congruence|]. split; [congruence|].
      rewrite Hlen2, Hlen1.
      replace (BitOutputStream.bitBufferLen w)
        with (BitOutputStream.bitBufferLen w - 8 + 1 * 8) at 2 by lia.
      rewrite Z.mod_add by lia. reflexivity.
    + exists w.
      refine (conj eq_refl (conj Hok (conj eq_refl (conj eq_refl _)))).
      rewrite Z.mod_small by lia. reflexivity.
Qed.

Lemma flush_spec (NDEBUG : bool) (w : BitOutputStream.t) :
  writer_ok w ->
  exists w',
    BitOutputStream.flush NDEBUG w = (Ok tt, w') /\
    writer_ok w' /\
    written w' = written w /\
    BitOutputStream.bitBuffer w' = BitOutputStream.bitBuffer w /\
    BitOutputStream.bitBufferLen w' = BitOutputStream.bitBufferLen w mod 8.
Proof.
  intros Hok. pose proof (wok_len w Hok).
  unfold BitOutputStream.flush. mred.
  destruct (flush_loop_spec NDEBUG (Z.to_nat (BitOutputStream.bitBufferLen w)) w Hok)
    as (w1 & E1 & Hok1 & Hw1 & Hbb1 & Hlen1); [lia|].
  rewrite (bind_ok _ _ _ _ _ E1). mred.
  pose proof (wok_len w1 Hok1).
  rewrite assert_true by (apply andb_true_intro; split; apply Z.leb_le; lia).
  exists w1. auto.
Qed.

Lemma bits_shifted_in (bb len n v : Z) :
  0 <= len -> 0 <= n <= 32 -> len + n <= 64 ->
  bits (Z.to_nat (len + n)) (shifted_in bb n v)
  = bits (Z.to_nat len) bb ++ bits (Z.to_nat n) v.
Proof.
  intros Hlen Hn Hsum.
  rewrite Z2Nat.inj_add, bits_app by lia.
  unfold shifted_in, uint_fast64_t, int_fast32_t, fast64_bits, fast32_bits.
  change (Z.shiftl 1 n - 1) with (Z.ones n).
  f_equal; apply bits_ext; intros i Hi.
  - rewrite Z.shiftr_spec by lia.
    rewrite testbit_uint by lia.
    rewrite Z.lor_spec, testbit_uint by lia.
    rewrite Z.shiftl_spec by lia.
    rewrite Z.land_spec, Z.testbit_ones_nonneg by lia.
    destruct (Z.ltb_spec (i + Z.of_nat (Z.to_nat n)) 64); [|lia].
    destruct (Z.ltb_spec (i + Z.of_nat (Z.to_nat n)) n); [lia|].
    cbn [andb]. rewrite andb_false_r, orb_false_r. f_equal. lia.
  - rewrite testbit_uint by lia.
    rewrite Z.lor_spec, testbit_uint by lia.
    rewrite Z.shiftl_spec_low by lia.
    rewrite Z.land_spec, Z.testbit_ones_nonneg by lia.
    rewrite testbit_sint_low by lia.
    destruct (Z.ltb_spec i 64); [|lia].
    destruct (Z.ltb_spec i n); [|lia].
    cbn [andb orb]. rewrite andb_true_r. reflexivity.
Qed.

Lemma writeInt_spec (NDEBUG : bool) (n v : Z) (w : BitOutputStream.t) :
  writer_ok w -> 0 <= n <= 32 ->
  exists w',
    BitOutputStream.writeInt NDEBUG n v w = (Ok tt, w') /\
    writer_ok w' /\
    written w' = written w ++ bits (Z.to_nat n) v.
Proof.
  intros Hok Hn.
  unfold BitOutputStream.writeInt.
  assert (En : int_fast8_t n = n)
    by (apply sint_small; unfold fast8_bits; lia).
  rewrite En.
  destruct (Z.ltb_spec n 0); [lia|]. destruct (Z.ltb_spec 32 n); [lia|].
  cbn [orb]. mred.
  (* the optional flush *)
  assert (Hpre : exists w1,
    when (64 <? BitOutputStream.bitBufferLen w + n)
      (BitOutputStream.flush NDEBUG ;;;
       len <- gets BitOutputStream.bitBufferLen ;;
       assert NDEBUG (len + n <=? 64)) w = (Ok tt, w1) /\
    writer_ok w1 /\ written w1 = written w /\
    BitOutputStream.bitBufferLen w1 + n <= 64).
  { pose proof (wok_len w Hok).
    unfold when.
    destruct (Z.ltb_spec 64 (BitOutputStream.bitBufferLen w + n)).
    - destruct (flush_spec NDEBUG w Hok) as (w1 & E1 & Hok1 & Hw1 & Hbb1 & Hlen1).
      exists w1. rewrite (bind_ok _ _ _ _ _ E1). mred.
      assert (BitOutputStream.bitBufferLen w1 < 8)
        by (rewrite Hlen1; apply Z.mod_pos_bound; lia).
      rewrite assert_true by (apply Z.leb_le; lia).
      split; [reflexivity|]. split; [exact Hok1|]. split; [exact Hw1 | lia].
    - exists w. split; [reflexivity|]. split; [exact Hok|]. split; [reflexivity | lia]. }
  destruct Hpre as (w1 & E1 & Hok1 & Hw1 & Hsum).
  rewrite (bind_ok _ _ _ _ _ E1). mred.
  rewrite <- Hw1. clear E1 Hw1 Hok w.
  destruct Hok1 as [Hlen H8 H16 Hout].
  destruct w1 as [o bb len bc c8 c16].
  cbn [BitOutputStream.bitBufferLen BitOutputStream.crc8 BitOutputStream.crc16
       BitOutputStream.out] in *.
  wred.
  fold (shifted_in bb n v).
  assert (El : uint_fast8_t (len + n) = len + n)
    by (apply uint_small; unfold fast8_bits; lia).
  rewrite El.
  rewrite assert_true by (apply andb_true_intro; split; apply Z.leb_le; lia).
  eexists. split; [reflexivity|]. split.
  - constructor; wred; try assumption. lia.
  - unfold written. wred. rewrite <- app_assoc. f_equal.
    apply bits_shifted_in; lia.
Qed.

(** ** decode/AbstractFlacLowLevelInput.cpp: reading *)

(** Reduction of the monad's operations, also where a step is stuck. *)
Ltac mcbv := cbv beta iota delta [bind gets get modify ret lift throw when fst snd].

(** The setters unfold as soon as they are applied. *)
Arguments FlacLowLevelInput.set_offset v s /.
Arguments FlacLowLevelInput.set_byteBufferStartPos v s /.
Arguments FlacLowLevelInput.set_byteBuffer v s /.
Arguments FlacLowLevelInput.set_byteBufferLen v s /.
Arguments FlacLowLevelInput.set_byteBufferIndex v s /.
Arguments FlacLowLevelInput.set_bitBuffer v s /.
Arguments FlacLowLevelInput.set_bitBufferLen v s /.
Arguments FlacLowLevelInput.set_crc8 v s /.
Arguments FlacLowLevelInput.set_crc16 v s /.
Arguments FlacLowLevelInput.set_crcStartIndex v s /.
Arguments FlacLowLevelInput.length s /.

(** Reduction of the record operations: a field of a state given by its
    fields, and the setters. *)
Ltac rred :=
  cbn [FlacLowLevelInput.data FlacLowLevelInput.offset
       FlacLowLevelInput.byteBufferStartPos FlacLowLevelInput.byteBuffer
       FlacLowLevelInput.byteBufferLen FlacLowLevelInput.byteBufferIndex
       FlacLowLevelInput.bitBuffer FlacLowLevelInput.bitBufferLen
       FlacLowLevelInput.crc8 FlacLowLevelInput.crc16
       FlacLowLevelInput.crcStartIndex FlacLowLevelInput.length
       FlacLowLevelInput.set_offset FlacLowLevelInput.set_byteBufferStartPos
       FlacLowLevelInput.set_byteBuffer FlacLowLevelInput.set_byteBufferLen
       FlacLowLevelInput.set_byteBufferIndex FlacLowLevelInput.set_bitBuffer
       FlacLowLevelInput.set_bitBufferLen FlacLowLevelInput.set_crc8
       FlacLowLevelInput.set_crc16 FlacLowLevelInput.set_crcStartIndex].

Lemma index_ok (a : list Z) (i : Z) :
  0 <= i < Z.of_nat (List.length a) -> index a i = Ok (nth (Z.to_nat i) a 0).
Proof.
  intros H. unfold index.
  destruct (Z.ltb_spec i 0); [lia|].
  destruct (Z.leb_spec (Z.of_nat (List.length a)) i); [lia|].
  cbn [orb].
  rewrite (nth_error_nth' a 0) by lia. reflexivity.
Qed.

Lemma CRC16_TABLE_range (j : Z) :
  0 <= j < 256 -> 0 <= nth (Z.to_nat j) FlacLowLevelInput.CRC16_TABLE 0 < 2 ^ 16.
Proof.
  intros Hj.
  pose (f := fun j => let e := nth (Z.to_nat j) FlacLowLevelInput.CRC16_TABLE 0 in
                      (0 <=? e) && (e <? 2 ^ 16)).
  assert (H : f j = true).
  { apply (check_from_spec f 256 0); [vm_compute; reflexivity | lia]. }
  unfold f in H. cbv zeta in H.
  apply andb_true_iff in H. destruct H as [H1 H2].
  apply Z.leb_le in H1. apply Z.ltb_lt in H2. lia.
Qed.

Lemma land_255_range (x : Z) : 0 <= Z.land x 0xFF < 2 ^ 8.
Proof.
  change 0xFF with (Z.ones 8). rewrite Z.land_ones by lia.
  apply Z.mod_pos_bound. lia.
Qed.

Lemma crc8_next_range (c x : Z) : 0 <= crc8_next c x < 2 ^ 8.
Proof.
  unfold crc8_next, uint_fast16_t. rewrite uint_small.
  - apply land_255_range.
  - pose proof (land_255_range
      (nth (Z.to_nat (Z.lxor c (uint_fast8_t (Z.land x 255))))
           FlacLowLevelInput.CRC8_TABLE 0)).
    unfold fast16_bits. lia.
Qed.

Lemma crc16_next_range (c x : Z) : 0 <= c < 2 ^ 16 -> 0 <= crc16_next c x < 2 ^ 16.
Proof.
  intros Hc.
  assert (Hb : 0 <= uint_fast8_t (Z.land x 0xFF) < 2 ^ 8)
    by (apply uint_range; unfold fast8_bits; lia).
  assert (Hhi : 0 <= Z.shiftr c 8 < 2 ^ 8).
  { rewrite Z.shiftr_div_pow2 by lia. split.
    - apply Z.div_pos; lia.
    - apply Z.div_lt_upper_bound; lia. }
  assert (Hj : 0 <= Z.lxor (Z.shiftr c 8) (uint_fast8_t (Z.land x 0xFF)) < 2 ^ 8)
    by (apply lxor_bound; [lia | assumption | assumption]).
  assert (Hlo : 0 <= Z.shiftl (Z.land c 0xFF) 8 < 2 ^ 16).
  { pose proof (land_255_range c). rewrite Z.shiftl_mul_pow2 by lia. lia. }
  assert (Hx : 0 <= Z.lxor
            (nth (Z.to_nat (Z.lxor (Z.shiftr c 8) (uint_fast8_t (Z.land x 0xFF))))
                 FlacLowLevelInput.CRC16_TABLE 0)
            (Z.shiftl (Z.land c 0xFF) 8) < 2 ^ 16).
  { apply lxor_bound; [lia | | exact Hlo]. apply CRC16_TABLE_range. lia. }
  unfold crc16_next, uint_fast32_t. rewrite uint_small; [exact Hx|].
  unfold fast32_bits. lia.
Qed.

Lemma updateCrcs_byte_spec (NDEBUG : bool) (i : Z) (r : FlacLowLevelInput.t) :
  0 <= i < Z.of_nat (List.length (FlacLowLevelInput.byteBuffer r)) ->
  0 <= FlacLowLevelInput.crc8 r < 2 ^ 8 ->
  0 <= FlacLowLevelInput.crc16 r < 2 ^ 16 ->
  FlacLowLevelInput.updateCrcs_byte NDEBUG i r
  = (Ok tt,
     FlacLowLevelInput.set_crc16
       (crc16_next (FlacLowLevelInput.crc16 r)
                   (nth (Z.to_nat i) (FlacLowLevelInput.byteBuffer r) 0))
       (FlacLowLevelInput.set_crc8
          (crc8_next (FlacLowLevelInput.crc8 r)
                     (nth (Z.to_nat i) (FlacLowLevelInput.byteBuffer r) 0)) r)).
Proof.
  intros Hi H8 H16.
  destruct r as [d off sp buf blen bidx bb len c8 c16 cs].
  cbn [FlacLowLevelInput.byteBuffer FlacLowLevelInput.crc8 FlacLowLevelInput.crc16] in *.
  unfold FlacLowLevelInput.updateCrcs_byte. mred. rred.
  rewrite (index_ok buf i Hi). mred.
  set (x := nth (Z.to_nat i) buf 0).
  assert (Hb : 0 <= uint_fast8_t (Z.land x 0xFF) < 2 ^ 8)
    by (apply uint_range; unfold fast8_bits; lia).
  assert (Hj8 : 0 <= Z.lxor c8 (uint_fast8_t (Z.land x 0xFF)) < 2 ^ 8)
    by (apply lxor_bound; [lia | assumption | assumption]).
  rewrite index_ok by (change (Z.of_nat (List.length FlacLowLevelInput.CRC8_TABLE)) with 256; lia).
  mred. rred.
  assert (Hhi : 0 <= Z.shiftr c16 8 < 2 ^ 8).
  { rewrite Z.shiftr_div_pow2 by lia. split.
    - apply Z.div_pos; lia.
    - apply Z.div_lt_upper_bound; lia. }
  assert (Hj16 : 0 <= Z.lxor (Z.shiftr c16 8) (uint_fast8_t (Z.land x 0xFF)) < 2 ^ 8)
    by (apply lxor_bound; [lia | assumption | assumption]).
  rewrite index_ok by (change (Z.of_nat (List.length FlacLowLevelInput.CRC16_TABLE)) with 256; lia).
  mred. rred.
  fold (crc8_next c8 x). fold (crc16_next c16 x).
  rewrite bind_assert by (apply shiftr_eqb_0; [lia | apply crc8_next_range]).
  mred. rred.
  rewrite assert_true by (apply shiftr_eqb_0; [lia | apply crc16_next_range; exact H16]).
  reflexivity.
Qed.

Lemma crcs_over_range (buf indices : list Z) (c : Z * Z) :
  0 <= fst c < 2 ^ 8 -> 0 <= snd c < 2 ^ 16 ->
  0 <= fst (crcs_over buf indices c) < 2 ^ 8 /\
  0 <= snd (crcs_over buf indices c) < 2 ^ 16.
Proof.
  revert c. induction indices as [|i indices IH]; intros c H8 H16.
  - split; assumption.
  - cbn [crcs_over fold_left]. apply IH; cbn [fst snd].
    + apply crc8_next_range.
    + apply crc16_next_range. exact H16.
Qed.

Lemma updateCrcs_loop_spec (NDEBUG : bool) (indices : list Z) (r : FlacLowLevelInput.t) :
  Forall (fun i => 0 <= i < Z.of_nat (List.length (FlacLowLevelInput.byteBuffer r)))
         indices ->
  0 <= FlacLowLevelInput.crc8 r < 2 ^ 8 ->
  0 <= FlacLowLevelInput.crc16 r < 2 ^ 16 ->
  FlacLowLevelInput.updateCrcs_loop NDEBUG indices r
  = (Ok tt,
     let c := crcs_over (FlacLowLevelInput.byteBuffer r) indices
                (FlacLowLevelInput.crc8 r, FlacLowLevelInput.crc16 r) in
     FlacLowLevelInput.set_crc16 (snd c) (FlacLowLevelInput.set_crc8 (fst c) r)).
Proof.
  revert r. induction indices as [|i indices IH]; intros r Hi H8 H16.
  - destruct r. reflexivity.
  - inversion Hi as [|? ? Hi0 Hi']; subst.
    cbn [FlacLowLevelInput.updateCrcs_loop].
    rewrite (bind_ok _ _ _ _ _ (updateCrcs_byte_spec NDEBUG i r Hi0 H8 H16)).
    destruct r as [d off sp buf blen bidx bb len c8 c16 cs].
    cbn [FlacLowLevelInput.byteBuffer FlacLowLevelInput.crc8 FlacLowLevelInput.crc16] in *.
    rewrite IH.
    + reflexivity.
    + exact Hi'.
    + apply crc8_next_range.
    + apply crc16_next_range. exact H16.
Qed.

Lemma updateCrcs_spec (NDEBUG : bool) (k : Z) (r : FlacLowLevelInput.t) :
  reader_ok r -> 0 <= k <= 8 ->
  exists c8 c16,
    FlacLowLevelInput.updateCrcs NDEBUG k r
    = (Ok tt,
       FlacLowLevelInput.set_crcStartIndex (FlacLowLevelInput.byteBufferIndex r - k)
         (FlacLowLevelInput.set_crc16 c16 (FlacLowLevelInput.set_crc8 c8 r)))
    /\ 0 <= c8 < 2 ^ 8 /\ 0 <= c16 < 2 ^ 16.
Proof.
  intros Hok Hk.
  pose proof (rok_index r Hok) as Hidx. pose proof (rok_crcStart r Hok) as Hcs.
  pose proof (rok_buf r Hok) as Hbuf.
  pose proof (rok_crc8 r Hok) as H8. pose proof (rok_crc16 r Hok) as H16.
  unfold FlacLowLevelInput.BUF_SIZE in *.
  unfold FlacLowLevelInput.updateCrcs. mred.
  assert (Ee : int_fast32_t (FlacLowLevelInput.byteBufferIndex r - k)
               = FlacLowLevelInput.byteBufferIndex r - k)
    by (apply sint_small; unfold fast32_bits; lia).
  rewrite Ee.
  set (indices := map (fun j => FlacLowLevelInput.crcStartIndex r + j)
                      (upto (FlacLowLevelInput.byteBufferIndex r - k
                             - FlacLowLevelInput.crcStartIndex r))).
  assert (Hin : Forall (fun i => 0 <= i < Z.of_nat (List.length (FlacLowLevelInput.byteBuffer r)))
                       indices).
  { apply Forall_forall. intros i Hi. unfold indices, upto in Hi.
    apply in_map_iff in Hi. destruct Hi as (j & <- & Hj).
    apply in_map_iff in Hj. destruct Hj as (j' & <- & Hj').
    apply in_seq in Hj'. rewrite Hbuf. lia. }
  rewrite (bind_ok _ _ _ _ _ (updateCrcs_loop_spec NDEBUG indices r Hin H8 H16)).
  cbv zeta.
  destruct (crcs_over_range (FlacLowLevelInput.byteBuffer r) indices
              (FlacLowLevelInput.crc8 r, FlacLowLevelInput.crc16 r) H8 H16)
    as [H8' H16'].
  eexists _, _. split; [reflexivity | split; assumption].
Qed.

Lemma skipn_nth {A} (i : nat) (l : list A) (d : A) :
  (i < List.length l)%nat -> skipn i l = nth i l d :: skipn (S i) l.
Proof.
  revert l. induction i as [|i IH]; intros [|x l] H; cbn in H; try lia.
  - reflexivity.
  - cbn [skipn nth]. rewrite (IH l) by lia. reflexivity.
Qed.

Lemma bits_land_255 (x : Z) : bits 8 (Z.land x 0xFF) = bits 8 x.
Proof.
  apply bits_ext. intros i Hi.
  change 0xFF with (Z.ones 8).
  rewrite Z.land_spec, Z.testbit_ones_nonneg by lia.
  destruct (Z.ltb_spec i 8); [|lia]. apply andb_true_r.
Qed.

(** [readUnderlying()] when the byte buffer still holds a byte. *)
Lemma readUnderlying_buffered (NDEBUG : bool) (r : FlacLowLevelInput.t) :
  reader_ok r ->
  FlacLowLevelInput.byteBufferIndex r < FlacLowLevelInput.byteBufferLen r ->
  let x := nth (Z.to_nat (FlacLowLevelInput.byteBufferIndex r))
               (FlacLowLevelInput.byteBuffer r) 0 in
  FlacLowLevelInput.readUnderlying NDEBUG r
  = (Ok (Z.land x 0xFF),
     FlacLowLevelInput.set_byteBufferIndex (FlacLowLevelInput.byteBufferIndex r + 1) r)
  /\ buffered r
     = x :: buffered (FlacLowLevelInput.set_byteBufferIndex
                        (FlacLowLevelInput.byteBufferIndex r + 1) r).
Proof.
  intros Hok Hlt x.
  pose proof (rok_index r Hok) as Hidx. pose proof (rok_buflen r Hok) as Hbl.
  pose proof (rok_buf r Hok) as Hbuf.
  unfold FlacLowLevelInput.BUF_SIZE in *.
  destruct r as [d off sp buf blen bidx bb len c8 c16 cs].
  cbn [FlacLowLevelInput.byteBuffer FlacLowLevelInput.byteBufferIndex
       FlacLowLevelInput.byteBufferLen] in *.
  split.
  - unfold FlacLowLevelInput.readUnderlying. mred. rred.
    destruct (Z.leb_spec blen bidx); [lia|]. mred. rred.
    rewrite bind_assert by (apply Z.ltb_lt; lia).
    rewrite index_ok by lia. mred. rred. fold x.
    pose proof (land_255_range x).
    assert (E1 : int_fast16_t (Z.land x 0xFF) = Z.land x 0xFF)
      by (apply sint_small; unfold fast16_bits; lia).
    assert (E2 : int_fast32_t (bidx + 1) = bidx + 1)
      by (apply sint_small; unfold fast32_bits; lia).
    rewrite E1, E2. reflexivity.
  - unfold buffered. rred.
    rewrite (skipn_nth (Z.to_nat bidx) buf 0) by lia.
    replace (Z.to_nat (blen - bidx)) with (S (Z.to_nat (blen - (bidx + 1)))) by lia.
    cbn [firstn]. fold x. f_equal. f_equal.
    replace (Z.to_nat (bidx + 1)) with (S (Z.to_nat bidx)) by lia. reflexivity.
Qed.

Lemma reader_ok_startPos (v : Z) (r : FlacLowLevelInput.t) :
  reader_ok r -> reader_ok (FlacLowLevelInput.set_byteBufferStartPos v r).
Proof. intros []. destruct r. constructor; assumption. Qed.

(** [readUnderlying()] delivers the next byte that was not moved to the
    bit buffer yet, from the byte buffer or, when the byte buffer is
    exhausted, after a refill. *)
Lemma readUnderlying_spec (NDEBUG : bool) (r : FlacLowLevelInput.t) (b : Z)
    (rest : list Z) :
  reader_ok r ->
  buffered r ++ pending r = b :: rest ->
  exists r',
    FlacLowLevelInput.readUnderlying NDEBUG r = (Ok (Z.land b 0xFF), r') /\
    reader_ok r' /\
    buffered r' ++ pending r' = rest /\
    FlacLowLevelInput.bitBuffer r' = FlacLowLevelInput.bitBuffer r /\
    FlacLowLevelInput.bitBufferLen r' = FlacLowLevelInput.bitBufferLen r.
Proof.
  intros Hok Hnext.
  destruct (Z.ltb_spec (FlacLowLevelInput.byteBufferIndex r)
                       (FlacLowLevelInput.byteBufferLen r)) as [Hlt | Hge].
  - (* a byte is left in the byte buffer *)
    destruct (readUnderlying_buffered NDEBUG r Hok Hlt) as [E Hb].
    cbv zeta in E, Hb. rewrite Hb in Hnext. cbn [app] in Hnext.
    injection Hnext as Hx Hrest.
    eexists. split; [rewrite <- Hx; exact E|].
    split; [|split; [|split]].
    + destruct Hok. destruct r.
      cbn [FlacLowLevelInput.byteBufferIndex FlacLowLevelInput.byteBufferLen] in *.
      constructor; rred; unfold FlacLowLevelInput.length in *; rred;
        cbn [FlacLowLevelInput.data FlacLowLevelInput.offset
             FlacLowLevelInput.bitBufferLen FlacLowLevelInput.byteBuffer
             FlacLowLevelInput.byteBufferIndex FlacLowLevelInput.byteBufferLen
             FlacLowLevelInput.crcStartIndex FlacLowLevelInput.crc8
             FlacLowLevelInput.crc16] in *;
        unfold FlacLowLevelInput.BUF_SIZE in *; try assumption; try lia.
    + rewrite <- Hrest. destruct r. reflexivity.
    + destruct r. reflexivity.
    + destruct r. reflexivity.
  - (* the byte buffer is exhausted: refill *)
    pose proof (reader_ok_startPos
      (uint_fast64_t (FlacLowLevelInput.byteBufferStartPos r
                      + FlacLowLevelInput.byteBufferLen r)) r Hok) as Hok1.
    destruct (updateCrcs_spec NDEBUG 0 _ Hok1) as (c8' & c16' & E & H8' & H16');
      [lia|].
    destruct Hok as [Hlen Hbuf Hidx Hbl Hav Heof Hoff Hlength Hcs H8 H16].
    destruct r as [d off sp buf blen bidx bb len c8 c16 cs].
    unfold FlacLowLevelInput.length, FlacLowLevelInput.BUF_SIZE in *.
    cbn [FlacLowLevelInput.data FlacLowLevelInput.offset
         FlacLowLevelInput.bitBufferLen FlacLowLevelInput.byteBuffer
         FlacLowLevelInput.byteBufferIndex FlacLowLevelInput.byteBufferLen
         FlacLowLevelInput.crcStartIndex FlacLowLevelInput.crc8
         FlacLowLevelInput.crc16 FlacLowLevelInput.bitBuffer] in *.
    assert (Hbuffered : buffered (FlacLowLevelInput.mk d off sp buf blen bidx bb len c8 c16 cs) = []).
    { unfold buffered. rred. replace (Z.to_nat (blen - bidx)) with 0%nat by lia.
      reflexivity. }
    rewrite Hbuffered in Hnext. cbn [app] in Hnext.
    unfold pending in Hnext. revert Hnext. rred. intros Hnext.
    assert (Hne : blen <> -1).
    { intros ->. rewrite Heof in Hnext by reflexivity.
      rewrite Nat2Z.id, skipn_all in Hnext. discriminate. }
    assert (Hoff' : off < Z.of_nat (List.length d)).
    { destruct (Z.ltb_spec off (Z.of_nat (List.length d))); [assumption|].
      rewrite skipn_all2 in Hnext by lia. discriminate. }
    unfold FlacLowLevelInput.readUnderlying. mcbv. rred.
    destruct (Z.leb_spec blen bidx); [|lia].
    destruct (Z.eqb_spec blen (-1)) as [? | _]; [contradiction|].
    mcbv. rred.
    revert E. rred. intros E. rewrite E. clear E. mcbv. rred.
    unfold FlacLowLevelInput.readUnderlying_array. mcbv. rred.
    unfold FlacLowLevelInput.BUF_SIZE.
    set (n := Z.min (Z.of_nat (List.length d) - off) 4096).
    assert (Hn : 0 < n <= 4096) by (unfold n; lia).
    assert (En : int (Z.min (uint_fast64_t (Z.of_nat (List.length d) - off)) 4096) = n).
    { unfold uint_fast64_t. rewrite uint_small by (unfold fast64_bits; lia).
      fold n. apply sint_small; unfold int_bits; lia. }
    rewrite En.
    destruct (Z.eqb_spec n 0) as [? | _]; [lia|]. mcbv. rred.
    destruct (Z.leb_spec n 0) as [? | _]; [lia|]. mcbv. rred.
    rewrite assert_true by (apply Z.ltb_lt; lia). mcbv.
    set (chunk := firstn (Z.to_nat n) (skipn (Z.to_nat off) d)).
    assert (Hchunk : List.length chunk = Z.to_nat n).
    { unfold chunk. rewrite length_firstn, length_skipn. unfold n. lia. }
    assert (Eoff : uint_fast64_t (off + n) = off + n).
    { unfold uint_fast64_t. apply uint_small. unfold fast64_bits. lia. }
    rewrite Eoff.
    cbn [firstn app Z.to_nat].
    change (Z.to_nat (0 + n)) with (Z.to_nat n).
    assert (Hlen' : List.length (chunk ++ skipn (Z.to_nat n) buf) = Z.to_nat 4096).
    { rewrite length_app, length_skipn, Hchunk, Hbuf. lia. }
    rewrite index_ok by (rewrite Hlen'; lia). mcbv. rred.
    change (Z.to_nat 0) with 0%nat.
    assert (Hsplit : chunk ++ skipn (Z.to_nat (off + n)) d = b :: rest).
    { rewrite <- Hnext. unfold chunk.
      replace (Z.to_nat (off + n)) with (Z.to_nat n + Z.to_nat off)%nat by lia.
      rewrite <- skipn_skipn. apply firstn_skipn. }
    assert (Hchunk0 : exists chunk', chunk = b :: chunk').
    { destruct chunk as [|c chunk']; [cbn in Hchunk; lia|].
      cbn in Hsplit. injection Hsplit as -> _. eauto. }
    destruct Hchunk0 as (chunk' & Ec).
    rewrite Ec in *. cbn [app nth].
    pose proof (land_255_range b).
    assert (E1 : int_fast16_t (Z.land b 0xFF) = Z.land b 0xFF)
      by (apply sint_small; unfold fast16_bits; lia).
    rewrite E1. change (int_fast32_t (0 + 1)) with 1.
    eexists. split; [reflexivity|].
    split; [|split; [|split; reflexivity]].
    + constructor; rred; unfold FlacLowLevelInput.BUF_SIZE;
        try assumption; try lia; try exact Hlen'; try (intros; lia).
    + unfold buffered, pending. rred.
      change (Z.to_nat 1) with 1%nat. cbn [skipn app].
      cbn [app] in Hsplit. injection Hsplit as Hrest. rewrite <- Hrest.
      f_equal.
      replace (Z.to_nat (n - 1)) with (List.length chunk')
        by (cbn [List.length] in Hchunk; lia).
      rewrite firstn_app, firstn_all, Nat.sub_diag. cbn [firstn]. apply app_nil_r.
Qed.

Lemma bits_pushed (bb len b : Z) :
  0 <= len -> len + 8 <= 64 -> 0 <= b < 2 ^ 8 ->
  bits (Z.to_nat (len + 8)) (uint_fast64_t (Z.lor (Z.shiftl bb 8) b))
  = bits (Z.to_nat len) bb ++ bits 8 b.
Proof.
  intros Hlen Hsum Hb.
  rewrite Z2Nat.inj_add by lia. change (Z.to_nat 8) with 8%nat.
  rewrite bits_app. unfold uint_fast64_t, fast64_bits.
  f_equal; apply bits_ext; intros i Hi.
  - rewrite Z.shiftr_spec by lia.
    rewrite testbit_uint by lia.
    rewrite Z.lor_spec, Z.shiftl_spec by lia.
    rewrite (bits_above 8 b) by lia.
    destruct (Z.ltb_spec (i + Z.of_nat 8) 64); [|lia].
    cbn [andb]. rewrite orb_false_r. f_equal. lia.
  - rewrite testbit_uint by lia.
    rewrite Z.lor_spec, Z.shiftl_spec_low by lia.
    destruct (Z.ltb_spec i 64); [|lia]. reflexivity.
Qed.

Lemma reader_ok_bits (v l : Z) (r : FlacLowLevelInput.t) :
  reader_ok r -> 0 <= l <= 64 ->
  reader_ok (FlacLowLevelInput.set_bitBufferLen l (FlacLowLevelInput.set_bitBuffer v r)).
Proof. intros [] Hl. destruct r. constructor; assumption. Qed.

Lemma reader_ok_len (l : Z) (r : FlacLowLevelInput.t) :
  reader_ok r -> 0 <= l <= 64 ->
  reader_ok (FlacLowLevelInput.set_bitBufferLen l r).
Proof. intros [] Hl. destruct r. constructor; assumption. Qed.

Lemma length_unread (r : FlacLowLevelInput.t) :
  0 <= FlacLowLevelInput.bitBufferLen r ->
  Z.of_nat (List.length (unread r))
  = FlacLowLevelInput.bitBufferLen r
    + 8 * Z.of_nat (List.length (buffered r ++ pending r)).
Proof.
  intros H. unfold unread.
  rewrite length_app, length_bits, length_bytes_bits. lia.
Qed.

Lemma readUint_loop_enough (NDEBUG : bool) (fuel : nat) (n : Z)
    (r : FlacLowLevelInput.t) :
  n <= FlacLowLevelInput.bitBufferLen r ->
  FlacLowLevelInput.readUint_loop NDEBUG fuel n r = (Ok tt, r).
Proof.
  intros H. destruct fuel; cbn [FlacLowLevelInput.readUint_loop]; mcbv;
    destruct (Z.ltb_spec (FlacLowLevelInput.bitBufferLen r) n); try lia; reflexivity.
Qed.

Lemma readUint_loop_spec (NDEBUG : bool) (fuel : nat) (n : Z)
    (r : FlacLowLevelInput.t) :
  reader_ok r -> 0 <= n <= 32 ->
  n <= Z.of_nat (List.length (unread r)) ->
  n - FlacLowLevelInput.bitBufferLen r <= 8 * Z.of_nat fuel ->
  exists r',
    FlacLowLevelInput.readUint_loop NDEBUG fuel n r = (Ok tt, r') /\
    reader_ok r' /\
    unread r' = unread r /\
    n <= FlacLowLevelInput.bitBufferLen r'.
Proof.
  revert r. induction fuel as [|fuel IH]; intros r Hok Hn Hbits Hfuel.
  - exists r. rewrite readUint_loop_enough by lia.
    split; [reflexivity|]. split; [exact Hok|]. split; [reflexivity | lia].
  - destruct (Z.ltb_spec (FlacLowLevelInput.bitBufferLen r) n) as [Hlt | Hge].
    2:{ exists r. rewrite readUint_loop_enough by lia.
        split; [reflexivity|]. split; [exact Hok|]. split; [reflexivity | lia]. }
    pose proof (rok_len r Hok) as Hlen.
    rewrite length_unread in Hbits by lia.
    destruct (buffered r ++ pending r) as [|b rest] eqn:Enext;
      [cbn [List.length] in Hbits; lia|].
    destruct (readUnderlying_spec NDEBUG r b rest Hok Enext)
      as (r1 & E1 & Hok1 & Hnext1 & Hbb1 & Hlen1).
    cbn [FlacLowLevelInput.readUint_loop]. mcbv.
    destruct (Z.ltb_spec (FlacLowLevelInput.bitBufferLen r) n) as [_ | ?]; [|lia].
    unfold FlacLowLevelInput.readUint_byte. mcbv.
    rewrite E1.
    pose proof (land_255_range b) as Hb.
    destruct (Z.eqb_spec (Z.land b 0xFF) (-1)) as [? | _]; [lia|].
    set (r2 := FlacLowLevelInput.set_bitBufferLen
                 (uint_fast8_t (FlacLowLevelInput.bitBufferLen
                    (FlacLowLevelInput.set_bitBuffer
                       (uint_fast64_t
                          (Z.lor (Z.shiftl (FlacLowLevelInput.bitBuffer r1) 8)
                                 (Z.land b 0xFF))) r1) + 8))
                 (FlacLowLevelInput.set_bitBuffer
                    (uint_fast64_t
                       (Z.lor (Z.shiftl (FlacLowLevelInput.bitBuffer r1) 8)
                              (Z.land b 0xFF))) r1)).
    assert (El : FlacLowLevelInput.bitBufferLen r2 = FlacLowLevelInput.bitBufferLen r + 8).
    { unfold r2. destruct r1. rred. cbn [FlacLowLevelInput.bitBufferLen] in Hlen1.
      rewrite Hlen1. apply uint_small. unfold fast8_bits. lia. }
    assert (Hok2 : reader_ok r2).
    { unfold r2. apply reader_ok_bits; [exact Hok1|].
      destruct r1. revert El. unfold r2. rred. intros ->. lia. }
    assert (Hun2 : unread r2 = unread r).
    { unfold unread. rewrite Enext, El.
      assert (Ebuf : buffered r2 ++ pending r2 = rest).
      { rewrite <- Hnext1. unfold r2. destruct r1. reflexivity. }
      rewrite Ebuf.
      assert (Ebb : FlacLowLevelInput.bitBuffer r2
                    = uint_fast64_t (Z.lor (Z.shiftl (FlacLowLevelInput.bitBuffer r) 8)
                                           (Z.land b 0xFF))).
      { unfold r2. rewrite <- Hbb1. destruct r1. reflexivity. }
      rewrite Ebb, bits_pushed by lia.
      rewrite bits_land_255, <- app_assoc. reflexivity. }
    rewrite assert_true.
    2:{ fold r2. rewrite El. apply andb_true_intro. split; apply Z.leb_le; lia. }
    fold r2.
    destruct (IH r2 Hok2 Hn) as (r3 & E3 & Hok3 & Hun3 & Hlen3).
    + rewrite Hun2, length_unread by lia. rewrite Enext. exact Hbits.
    + rewrite El. lia.
    + exists r3. split; [exact E3|]. split; [exact Hok3|].
      split; [congruence | exact Hlen3].
Qed.

Lemma mask_int (n : Z) : 0 <= n <= 31 -> int (int (Z.shiftl 1 n) - 1) = Z.ones n.
Proof.
  intros H.
  assert (Hall : check_from (fun k => int (int (Z.shiftl 1 k) - 1) =? Z.ones k) 32 0 = true)
    by (vm_compute; reflexivity).
  apply Z.eqb_eq. apply (check_from_spec _ _ _ Hall). lia.
Qed.

Lemma masked_value (x n : Z) :
  0 <= n <= 31 ->
  uint_fast32_t (Z.land (uint_fast32_t x) (Z.ones n)) = x mod 2 ^ n.
Proof.
  intros Hn. unfold uint_fast32_t, uint, fast32_bits.
  rewrite Z.land_ones by lia.
  assert (0 < 2 ^ n) by (apply pow2_pos; lia).
  assert (2 ^ n <= 2 ^ 31) by (apply Z.pow_le_mono_r; lia).
  rewrite (Z.mod_small (_ mod 2 ^ n)).
  2:{ pose proof (Z.mod_pos_bound (x mod 2 ^ 32) (2 ^ n)). lia. }
  apply Z.mod_mod_divide.
  exists (2 ^ (32 - n)). rewrite <- Z.pow_add_r by lia. f_equal. lia.
Qed.

(** [readUint(n)] when the bit buffer already holds [n] bits. *)
Lemma readUint_buffered (NDEBUG : bool) (n : Z) (r : FlacLowLevelInput.t) :
  0 <= n <= 31 -> n <= FlacLowLevelInput.bitBufferLen r <= 64 ->
  FlacLowLevelInput.readUint NDEBUG n r
  = (Ok (Z.shiftr (FlacLowLevelInput.bitBuffer r)
                  (FlacLowLevelInput.bitBufferLen r - n) mod 2 ^ n),
     FlacLowLevelInput.set_bitBufferLen (FlacLowLevelInput.bitBufferLen r - n) r).
Proof.
  intros Hn Hlen. unfold FlacLowLevelInput.readUint.
  assert (E : uint_fast8_t n = n) by (apply uint_small; unfold fast8_bits; lia).
  rewrite E.
  destruct (Z.ltb_spec 32 n); [lia|].
  rewrite (bind_ok _ _ _ _ _ (readUint_loop_enough NDEBUG _ n r (proj1 Hlen))).
  destruct (Z.eqb_spec n 32); [lia|]. cbn [negb].
  mcbv.
  rewrite mask_int, masked_value by lia.
  rewrite assert_true.
  2:{ apply Z.eqb_eq. rewrite Z.shiftr_div_pow2 by lia. apply Z.div_small.
      apply Z.mod_pos_bound. apply pow2_pos; lia. }
  destruct r as [d off sp buf blen bidx bb len c8 c16 cs].
  cbn [FlacLowLevelInput.bitBufferLen] in Hlen. rred.
  assert (El : uint_fast8_t (len - n) = len - n)
    by (apply uint_small; unfold fast8_bits; lia).
  rewrite El.
  rewrite assert_true by (apply andb_true_intro; split; apply Z.leb_le; lia).
  reflexivity.
Qed.

(** [readUint(n)] delivers the next [n] bits. *)
Lemma readUint_spec (NDEBUG : bool) (n : Z) (r : FlacLowLevelInput.t) :
  reader_ok r -> 0 <= n <= 31 ->
  n <= Z.of_nat (List.length (unread r)) ->
  exists r',
    FlacLowLevelInput.readUint NDEBUG n r
    = (Ok (value (firstn (Z.to_nat n) (unread r))), r') /\
    reader_ok r' /\
    unread r' = skipn (Z.to_nat n) (unread r).
Proof.
  intros Hok Hn Hbits.
  pose proof (rok_len r Hok) as Hlen.
  destruct (readUint_loop_spec NDEBUG (Z.to_nat n) n r Hok) as (r1 & E1 & Hok1 & Hun1 & Hlen1);
    [lia | exact Hbits | lia |].
  pose proof (rok_len r1 Hok1) as Hlen1'.
  assert (E : FlacLowLevelInput.readUint NDEBUG n r = FlacLowLevelInput.readUint NDEBUG n r1).
  { unfold FlacLowLevelInput.readUint.
    assert (En : uint_fast8_t n = n) by (apply uint_small; unfold fast8_bits; lia).
    rewrite En. destruct (Z.ltb_spec 32 n); [lia|].
    rewrite (bind_ok _ _ _ _ _ E1).
    rewrite (bind_ok _ _ _ _ _ (readUint_loop_enough NDEBUG _ n r1 Hlen1)).
    reflexivity. }
  rewrite E, readUint_buffered by lia.
  rewrite <- Hun1.
  set (len1 := FlacLowLevelInput.bitBufferLen r1) in *.
  set (bb1 := FlacLowLevelInput.bitBuffer r1).
  assert (Esplit : bits (Z.to_nat len1) bb1
                   = bits (Z.to_nat n) (Z.shiftr bb1 (len1 - n))
                     ++ bits (Z.to_nat (len1 - n)) bb1).
  { replace (Z.to_nat len1) with (Z.to_nat n + Z.to_nat (len1 - n))%nat by lia.
    rewrite bits_app. f_equal. f_equal. f_equal. lia. }
  eexists. split; [|split].
  - f_equal. f_equal. unfold unread. fold len1 bb1. rewrite Esplit, <- app_assoc.
    rewrite firstn_app, length_bits, Nat.sub_diag. cbn [firstn].
    rewrite app_nil_r, firstn_all2 by (rewrite length_bits; lia).
    rewrite value_bits. rewrite Z2Nat.id by lia. reflexivity.
  - apply reader_ok_len; [exact Hok1 | lia].
  - unfold unread at 2. fold len1 bb1. rewrite Esplit, <- app_assoc.
    rewrite skipn_app, length_bits, Nat.sub_diag. cbn [skipn].
    rewrite skipn_all2 by (rewrite length_bits; lia). cbn [app].
    unfold unread. destruct r1. reflexivity.
Qed.

(** * common/StreamInfo.cpp: [write] and the constructor from bytes *)

Lemma write_md5_spec (NDEBUG : bool) (hash : list Z) (w : BitOutputStream.t) :
  writer_ok w ->
  exists w',
    StreamInfo.write_md5 NDEBUG hash w = (Ok tt, w') /\
    writer_ok w' /\
    written w' = written w ++ bytes_bits hash.
Proof.
  revert w. induction hash as [|b hash IH]; intros w Hok.
  - exists w. split; [reflexivity|]. split; [exact Hok|].
    cbn. rewrite app_nil_r. reflexivity.
  - cbn [StreamInfo.write_md5]. unfold StreamInfo.writeInt.
    destruct (writeInt_spec NDEBUG 8 b w Hok) as (w1 & E1 & Hok1 & Hw1); [lia|].
    rewrite (bind_ok _ _ _ _ _ E1).
    destruct (IH w1 Hok1) as (w2 & E2 & Hok2 & Hw2).
    exists w2. split; [exact E2|]. split; [exact Hok2|].
    rewrite Hw2, Hw1, <- app_assoc. reflexivity.
Qed.

Lemma write_spec (NDEBUG : bool) (s : StreamInfo.t) (last : bool)
    (w : BitOutputStream.t) :
  writer_ok w -> StreamInfo.checkValues s = Ok tt ->
  exists w',
    StreamInfo.write NDEBUG s last w = (Ok tt, w') /\
    writer_ok w' /\
    written w' = written w ++ block_header_bits last ++ payload_bits s.
Proof.
  intros Hok Hcheck.
  unfold StreamInfo.write, StreamInfo.writeInt. rewrite Hcheck.
  change (bind (lift (Ok tt)) ?k w) with (k tt w). cbv beta.
  set (B := written w).
  assert (HB : written w = B) by reflexivity. clearbody B.
  do 12 (match goal with
         | |- context [bind (BitOutputStream.writeInt ?nd ?n ?v) ?k w] =>
             destruct (writeInt_spec nd n v w Hok) as (w1 & E & Hok1 & Hw); [lia|];
             rewrite (bind_ok _ _ _ _ _ E); clear E; rewrite HB in Hw; clear HB Hok w;
             rename w1 into w; rename Hok1 into Hok;
             match type of Hw with
             | _ = ?B' => let B1 := fresh "B" in set (B1 := B') in Hw; rename Hw into HB
             end
         end).
  destruct (write_md5_spec NDEBUG (StreamInfo.md5Hash s) w Hok) as (w2 & E2 & Hok2 & Hw2).
  exists w2. split; [exact E2|]. split; [exact Hok2|].
  rewrite Hw2, HB.
  unfold block_header_bits, payload_bits.
  repeat match goal with
         | X := _ |- _ => subst X
         end.
  rewrite <- !app_assoc. reflexivity.
Qed.

Lemma writer_create (NDEBUG : bool) :
  BitOutputStream.create NDEBUG = BitOutputStream.mk [] 0 0 0 0 0.
Proof. destruct NDEBUG; reflexivity. Qed.

Lemma writer_create_ok (NDEBUG : bool) :
  writer_ok (BitOutputStream.create NDEBUG) /\
  written (BitOutputStream.create NDEBUG) = [].
Proof.
  rewrite writer_create. split; [|reflexivity].
  constructor; cbn; try lia. constructor.
Qed.

(** After [flush], a stream that was given a whole number of bytes holds
    them all in its sink. *)
Lemma flush_whole_bytes (NDEBUG : bool) (w : BitOutputStream.t) (k : nat) :
  writer_ok w -> List.length (written w) = (8 * k)%nat ->
  exists w',
    BitOutputStream.flush NDEBUG w = (Ok tt, w') /\
    bytes_bits (BitOutputStream.out w') = written w /\
    Forall is_byte (BitOutputStream.out w') /\
    List.length (BitOutputStream.out w') = k.
Proof.
  intros Hok Hk.
  destruct (flush_spec NDEBUG w Hok) as (w' & E & Hok' & Hw' & _ & Hlen').
  pose proof (wok_len w Hok) as Hlen.
  assert (Hlt : 0 <= BitOutputStream.bitBufferLen w' < 8)
    by (rewrite Hlen'; apply Z.mod_pos_bound; lia).
  rewrite <- Hw' in Hk. unfold written in Hk.
  rewrite length_app, length_bytes_bits, length_bits in Hk.
  assert (E0 : BitOutputStream.bitBufferLen w' = 0) by lia.
  exists w'. split; [exact E|]. split; [|split].
  - rewrite <- Hw'. unfold written. rewrite E0. cbn [Z.to_nat bits].
    rewrite app_nil_r. reflexivity.
  - apply (wok_out w' Hok').
  - lia.
Qed.

Lemma reader_create (bytes : list Z) :
  FlacLowLevelInput.create bytes
  = FlacLowLevelInput.mk bytes 0 0 (repeat 0 (Z.to_nat FlacLowLevelInput.BUF_SIZE))
      0 0 0 0 0 0 0.
Proof. reflexivity. Qed.

Lemma reader_create_ok (bytes : list Z) :
  Z.of_nat (List.length bytes) < 2 ^ 31 ->
  reader_ok (FlacLowLevelInput.create bytes) /\
  unread (FlacLowLevelInput.create bytes) = bytes_bits bytes.
Proof.
  intros H. rewrite reader_create. split.
  - constructor; rred; unfold FlacLowLevelInput.BUF_SIZE; try lia;
      try apply repeat_length; try (right; lia).
  - reflexivity.
Qed.

(** [readUint(n)] on a stream that starts with the [n] low bits of [v]. *)
Lemma readUint_field (NDEBUG : bool) (n v : Z) (rest : list bool)
    (r : FlacLowLevelInput.t) :
  reader_ok r -> 0 <= n <= 31 ->
  unread r = bits (Z.to_nat n) v ++ rest ->
  exists r',
    FlacLowLevelInput.readUint NDEBUG n r = (Ok (v mod 2 ^ n), r') /\
    reader_ok r' /\
    unread r' = rest.
Proof.
  intros Hok Hn Hun.
  destruct (readUint_spec NDEBUG n r Hok Hn) as (r' & E & Hok' & Hun').
  { rewrite Hun, length_app, length_bits. lia. }
  exists r'. rewrite E, Hun', Hun.
  rewrite firstn_app, length_bits, Nat.sub_diag. cbn [firstn].
  rewrite app_nil_r, firstn_all2 by (rewrite length_bits; lia).
  rewrite skipn_app, length_bits, Nat.sub_diag. cbn [skipn].
  rewrite skipn_all2 by (rewrite length_bits; lia).
  rewrite value_bits, Z2Nat.id by lia.
  split; [reflexivity|]. split; [exact Hok' | reflexivity].
Qed.

Lemma readFully_loop_spec (NDEBUG : bool) (hash : list Z) (rest : list bool)
    (r : FlacLowLevelInput.t) :
  reader_ok r -> Forall is_byte hash ->
  unread r = bytes_bits hash ++ rest ->
  exists r',
    FlacLowLevelInput.readFully_loop NDEBUG (List.length hash) r = (Ok hash, r') /\
    reader_ok r' /\
    unread r' = rest.
Proof.
  revert r. induction hash as [|b hash IH]; intros r Hok Hbytes Hun.
  - exists r. split; [reflexivity|]. split; [exact Hok | exact Hun].
  - inversion Hbytes as [|? ? Hb Hbytes']; subst.
    cbn [List.length FlacLowLevelInput.readFully_loop].
    unfold bytes_bits in Hun. cbn [flat_map] in Hun. rewrite <- app_assoc in Hun.
    destruct (readUint_field NDEBUG 8 b _ r Hok ltac:(lia) Hun) as (r1 & E1 & Hok1 & Hun1).
    rewrite (bind_ok _ _ _ _ _ E1).
    destruct (IH r1 Hok1 Hbytes' Hun1) as (r2 & E2 & Hok2 & Hun2).
    rewrite (bind_ok _ _ _ _ _ E2).
    exists r2. unfold is_byte in Hb.
    rewrite (Z.mod_small b) by lia.
    unfold uint_fast8_t. rewrite uint_small by (unfold fast8_bits; lia).
    split; [reflexivity|]. split; [exact Hok2 | exact Hun2].
Qed.

Lemma readFully_spec (NDEBUG : bool) (hash : list Z) (r : FlacLowLevelInput.t) :
  reader_ok r -> Forall is_byte hash ->
  unread r = bytes_bits hash ->
  exists r',
    FlacLowLevelInput.readFully NDEBUG (Z.of_nat (List.length hash)) r = (Ok hash, r') /\
    reader_ok r' /\
    unread r' = [].
Proof.
  intros Hok Hbytes Hun.
  pose proof (rok_len r Hok) as Hlen.
  assert (Hal : Z.rem (FlacLowLevelInput.bitBufferLen r) 8 = 0).
  { pose proof (length_unread r (proj1 Hlen)) as HL.
    rewrite Hun, length_bytes_bits in HL.
    rewrite Z.rem_mod_nonneg by lia.
    replace (FlacLowLevelInput.bitBufferLen r)
      with (0 + (Z.of_nat (List.length hash)
                 - Z.of_nat (List.length (buffered r ++ pending r))) * 8) by lia.
    apply Z.mod_add. lia. }
  unfold FlacLowLevelInput.readFully, FlacLowLevelInput.checkByteAligned. mcbv.
  rewrite Hal. cbn [Z.eqb negb]. rewrite Nat2Z.id.
  apply readFully_loop_spec; [exact Hok | exact Hbytes |].
  rewrite app_nil_r. exact Hun.
Qed.

Lemma lor_halves (x : Z) :
  0 <= x < 2 ^ 36 ->
  uint_fast64_t
    (Z.lor (sint long_bits (Z.shiftl (sint long_bits (Z.shiftr x 18 mod 2 ^ 18)) 18))
           (x mod 2 ^ 18)) = x.
Proof.
  intros Hx.
  assert (Hhi : 0 <= Z.shiftr x 18 < 2 ^ 18).
  { rewrite Z.shiftr_div_pow2 by lia. split.
    - apply Z.div_pos; lia.
    - apply Z.div_lt_upper_bound; lia. }
  rewrite (Z.mod_small (Z.shiftr x 18)) by lia.
  rewrite (sint_small long_bits (Z.shiftr x 18)) by (unfold long_bits; lia).
  assert (Hsh : 0 <= Z.shiftl (Z.shiftr x 18) 18 < 2 ^ 36).
  { rewrite Z.shiftl_mul_pow2 by lia. lia. }
  rewrite sint_small by (unfold long_bits; lia).
  assert (E : Z.lor (Z.shiftl (Z.shiftr x 18) 18) (x mod 2 ^ 18) = x).
  { apply Z.bits_inj'. intros i Hi.
    rewrite Z.lor_spec, Z.testbit_mod_pow2 by lia.
    destruct (Z.ltb_spec i 18).
    - rewrite Z.shiftl_spec_low by lia. reflexivity.
    - rewrite Z.shiftl_spec, Z.shiftr_spec by lia.
      cbn [andb]. rewrite orb_false_r. f_equal. lia. }
  rewrite E. unfold uint_fast64_t. apply uint_small. unfold fast64_bits. lia.
Qed.

Lemma read_fields_spec (NDEBUG : bool) (s : StreamInfo.t) (r : FlacLowLevelInput.t) :
  data_model_ranges s -> md5_well_typed s ->
  reader_ok r -> unread r = payload_bits s ->
  fst (StreamInfo.read_fields NDEBUG r) = Ok s.
Proof.
  intros Hr [Hmd5len Hmd5] Hok Hun.
  destruct s as [minB maxB minF maxF rate chans depth samples md5].
  unfold data_model_ranges in Hr. unfold payload_bits in Hun.
  cbn [StreamInfo.minBlockSize StreamInfo.maxBlockSize StreamInfo.minFrameSize
       StreamInfo.maxFrameSize StreamInfo.sampleRate StreamInfo.numChannels
       StreamInfo.sampleDepth StreamInfo.numSamples StreamInfo.md5Hash] in *.
  destruct Hr as (HminB & HmaxB & HminF & HmaxF & Hframes & Hrate & Hchans & Hdepth
                  & Hsamples).
  unfold StreamInfo.read_fields, StreamInfo.readUint.
  destruct (readUint_field NDEBUG 16 _ _ r Hok ltac:(lia) Hun) as (r1 & E1 & Hok1 & Hun1).
  rewrite (bind_ok _ _ _ _ _ E1). clear E1.
  destruct (readUint_field NDEBUG 16 _ _ r1 Hok1 ltac:(lia) Hun1) as (r2 & E2 & Hok2 & Hun2).
  rewrite (bind_ok _ _ _ _ _ E2). clear E2.
  destruct (readUint_field NDEBUG 24 _ _ r2 Hok2 ltac:(lia) Hun2) as (r3 & E3 & Hok3 & Hun3).
  rewrite (bind_ok _ _ _ _ _ E3). clear E3.
  destruct (readUint_field NDEBUG 24 _ _ r3 Hok3 ltac:(lia) Hun3) as (r4 & E4 & Hok4 & Hun4).
  rewrite (bind_ok _ _ _ _ _ E4). clear E4.
  rewrite !Z.mod_small by lia.
  unfold uint_fast16_t, uint_fast32_t.
  rewrite !uint_small by (unfold fast16_bits, fast32_bits; lia).
  destruct (Z.ltb_spec minB 16); [lia|].
  destruct (Z.ltb_spec maxB minB); [lia|].
  assert (Ef : negb (minF =? 0) && negb (maxF =? 0) && (maxF <? minF) = false).
  { destruct (Z.eqb_spec minF 0); [reflexivity|].
    destruct (Z.eqb_spec maxF 0); [reflexivity|].
    destruct (Z.ltb_spec maxF minF); [lia | reflexivity]. }
  rewrite Ef.
  destruct (readUint_field NDEBUG 20 _ _ r4 Hok4 ltac:(lia) Hun4) as (r5 & E5 & Hok5 & Hun5).
  rewrite (bind_ok _ _ _ _ _ E5). clear E5.
  rewrite !Z.mod_small by lia.
  rewrite !uint_small by (unfold fast16_bits, fast32_bits; lia).
  destruct (Z.eqb_spec rate 0); [lia|].
  destruct (Z.ltb_spec 655350 rate); [lia|]. cbn [orb].
  destruct (readUint_field NDEBUG 3 _ _ r5 Hok5 ltac:(lia) Hun5) as (r6 & E6 & Hok6 & Hun6).
  rewrite (bind_ok _ _ _ _ _ E6). clear E6.
  destruct (readUint_field NDEBUG 5 _ _ r6 Hok6 ltac:(lia) Hun6) as (r7 & E7 & Hok7 & Hun7).
  rewrite (bind_ok _ _ _ _ _ E7). clear E7.
  destruct (readUint_field NDEBUG 18 _ _ r7 Hok7 ltac:(lia) Hun7) as (r8 & E8 & Hok8 & Hun8).
  rewrite (bind_ok _ _ _ _ _ E8). clear E8.
  destruct (readUint_field NDEBUG 18 _ _ r8 Hok8 ltac:(lia) Hun8) as (r9 & E9 & Hok9 & Hun9).
  rewrite (bind_ok _ _ _ _ _ E9). clear E9.
  destruct (readFully_spec NDEBUG md5 r9 Hok9 Hmd5) as (r10 & E10 & Hok10 & Hun10).
  { exact Hun9. }
  rewrite Hmd5len, Z2Nat.id in E10 by (unfold StreamInfo.MD5_DIGEST_LENGTH; lia).
  rewrite (bind_ok _ _ _ _ _ E10). clear E10.
  cbn [ret fst]. f_equal.
  rewrite (Z.mod_small (chans - 1)) by lia.
  rewrite (Z.mod_small (depth - 1)) by lia.
  replace (chans - 1 + 1) with chans by lia.
  replace (depth - 1 + 1) with depth by lia.
  unfold uint_fast8_t. rewrite !uint_small by (unfold fast8_bits; lia).
  assert (Ehi : int_fast32_t (Z.shiftr samples 18) = Z.shiftr samples 18).
  { apply sint_small; [unfold fast32_bits; lia|].
    rewrite Z.shiftr_div_pow2 by lia.
    assert (0 <= samples / 2 ^ 18 < 2 ^ 18).
    { split; [apply Z.div_pos; lia | apply Z.div_lt_upper_bound; lia]. }
    unfold fast32_bits. lia. }
  assert (Elo : int_fast32_t (Z.shiftr samples 0) mod 2 ^ 18 = samples mod 2 ^ 18).
  { rewrite Z.shiftr_0_r. apply sint_mod_low. unfold fast32_bits. lia. }
  rewrite Ehi, Elo, lor_halves by lia.
  reflexivity.
Qed.

(** ** [StreamInfo::checkValues] *)

Lemma checkValues_widths (s : StreamInfo.t) :
  StreamInfo.checkValues s = Ok tt <-> field_widths s.
Proof.
  unfold StreamInfo.checkValues, field_widths.
  destruct (negb (Z.shiftr (StreamInfo.minBlockSize s) 16 =? 0)) eqn:E1;
    [apply negb_true_iff, Z.eqb_neq in E1 | apply shiftr_neqb_0 in E1; [|lia]].
  { split; [discriminate|]. intros ?. exfalso. apply E1.
    apply Z.eqb_eq, shiftr_eqb_0; lia. }
  destruct (negb (Z.shiftr (StreamInfo.maxBlockSize s) 16 =? 0)) eqn:E2;
    [apply negb_true_iff, Z.eqb_neq in E2 | apply shiftr_neqb_0 in E2; [|lia]].
  { split; [discriminate|]. intros ?. exfalso. apply E2.
    apply Z.eqb_eq, shiftr_eqb_0; lia. }
  destruct (negb (Z.shiftr (StreamInfo.minFrameSize s) 24 =? 0)) eqn:E3;
    [apply negb_true_iff, Z.eqb_neq in E3 | apply shiftr_neqb_0 in E3; [|lia]].
  { split; [discriminate|]. intros ?. exfalso. apply E3.
    apply Z.eqb_eq, shiftr_eqb_0; lia. }
  destruct (negb (Z.shiftr (StreamInfo.maxFrameSize s) 24 =? 0)) eqn:E4;
    [apply negb_true_iff, Z.eqb_neq in E4 | apply shiftr_neqb_0 in E4; [|lia]].
  { split; [discriminate|]. intros ?. exfalso. apply E4.
    apply Z.eqb_eq, shiftr_eqb_0; lia. }
  destruct (StreamInfo.sampleRate s =? 0) eqn:E5; cbn [orb].
  { apply Z.eqb_eq in E5. split; [discriminate | lia]. }
  apply Z.eqb_neq in E5.
  destruct (negb (Z.shiftr (StreamInfo.sampleRate s) 20 =? 0)) eqn:E6;
    [apply negb_true_iff, Z.eqb_neq in E6 | apply shiftr_neqb_0 in E6; [|lia]].
  { split; [discriminate|]. intros ?. exfalso. apply E6.
    apply Z.eqb_eq, shiftr_eqb_0; lia. }
  destruct (Z.ltb_spec (StreamInfo.numChannels s) 1); cbn [orb].
  { split; [discriminate | lia]. }
  destruct (Z.ltb_spec 8 (StreamInfo.numChannels s)).
  { split; [discriminate | lia]. }
  destruct (Z.ltb_spec (StreamInfo.sampleDepth s) 4); cbn [orb].
  { split; [discriminate | lia]. }
  destruct (Z.ltb_spec 32 (StreamInfo.sampleDepth s)).
  { split; [discriminate | lia]. }
  destruct (negb (Z.shiftr (StreamInfo.numSamples s) 36 =? 0)) eqn:E7;
    [apply negb_true_iff, Z.eqb_neq in E7 | apply shiftr_neqb_0 in E7; [|lia]].
  { split; [discriminate|]. intros ?. exfalso. apply E7.
    apply Z.eqb_eq, shiftr_eqb_0; lia. }
  split; [intros _; lia | reflexivity].
Qed.

Lemma ranges_pass_checkValues (s : StreamInfo.t) :
  data_model_ranges s -> StreamInfo.checkValues s = Ok tt.
Proof.
  intros H. apply checkValues_widths.
  unfold data_model_ranges in H. unfold field_widths. lia.
Qed.

Lemma length_payload_bits (s : StreamInfo.t) :
  md5_well_typed s -> List.length (payload_bits s) = (8 * 34)%nat.
Proof.
  intros [Hlen _]. unfold payload_bits.
  rewrite !length_app, !length_bits, length_bytes_bits, Hlen. reflexivity.
Qed.

Lemma Forall_firstn {A} (P : A -> Prop) (k : nat) (l : list A) :
  Forall P l -> Forall P (firstn k l).
Proof.
  intros H. revert k. induction H as [|x l Hx H IH]; intros [|k]; cbn [firstn];
    constructor; auto.
Qed.

Lemma Forall_skipn {A} (P : A -> Prop) (k : nat) (l : list A) :
  Forall P l -> Forall P (skipn k l).
Proof.
  intros H. revert k. induction H as [|x l Hx H IH]; intros [|k]; cbn [skipn];
    try constructor; auto.
Qed.

(** What [write], then [flush], leave in the sink of a new stream. *)
Lemma write_emits (NDEBUG : bool) (s : StreamInfo.t) (last : bool) :
  data_model_ranges s -> md5_well_typed s ->
  fst ((StreamInfo.write NDEBUG s last ;;; BitOutputStream.flush NDEBUG)
         (BitOutputStream.create NDEBUG)) = Ok tt /\
  List.length (emitted NDEBUG (StreamInfo.write NDEBUG s last)) = 38%nat /\
  Forall is_byte (emitted NDEBUG (StreamInfo.write NDEBUG s last)) /\
  bytes_bits (emitted NDEBUG (StreamInfo.write NDEBUG s last))
  = block_header_bits last ++ payload_bits s.
Proof.
  intros Hr Hmd5. unfold emitted.
  destruct (writer_create_ok NDEBUG) as [Hok0 Hw0].
  destruct (write_spec NDEBUG s last _ Hok0 (ranges_pass_checkValues s Hr))
    as (w1 & E1 & Hok1 & Hw1).
  rewrite Hw0 in Hw1. cbn [app] in Hw1.
  destruct (flush_whole_bytes NDEBUG w1 38 Hok1) as (w2 & E2 & Hbits & Hbytes & Hlen).
  { rewrite Hw1, length_app, (length_payload_bits s Hmd5).
    unfold block_header_bits. rewrite !length_app, !length_bits. reflexivity. }
  rewrite (bind_ok _ _ _ _ _ E1), E2. cbn [fst snd].
  rewrite Hbits, Hw1. auto.
Qed.

(** * decode/AbstractFlacLowLevelInput.cpp: the Rice decoding tables *)

Lemma in_upto (n j : Z) : In j (upto n) -> 0 <= j < n.
Proof.
  unfold upto. intros H. apply in_map_iff in H. destruct H as (k & <- & H).
  apply in_seq in H. lia.
Qed.

Lemma upto_in (n j : Z) : 0 <= j < n -> In j (upto n).
Proof.
  intros H. unfold upto. apply in_map_iff. exists (Z.to_nat j).
  split; [lia|]. apply in_seq. lia.
Qed.

(** The cells of a table after the loop over [j]. *)
Lemma rice_fill_at (b sh v : Z) (table : FlacLowLevelInput.cells) (e : Z) :
  FlacLowLevelInput.rice_fill b sh v table e
  = if existsb (fun j => e =? Z.lor (Z.shiftl b sh) j) (upto (Z.shiftl 1 sh))
    then Some v else table e.
Proof.
  unfold FlacLowLevelInput.rice_fill.
  generalize (upto (Z.shiftl 1 sh)) as l. intros l. revert table.
  induction l as [|j l IH]; intros table; cbn [fold_left existsb]; [reflexivity|].
  rewrite IH. unfold FlacLowLevelInput.store.
  destruct (existsb _ l); [rewrite orb_true_r; reflexivity|].
  rewrite orb_false_r. reflexivity.
Qed.

(** The loops of the two initializers, run side by side. *)
Lemma rice_loop_agree (ec ev : Z -> Z) (param : Z) (fuel : nat) :
  forall (i : Z) (tc tv : FlacLowLevelInput.cells),
    0 <= i -> i + Z.of_nat fuel <= 2 ^ 20 ->
    tables_agree ec ev param tc tv ->
    tables_agree ec ev param
      (FlacLowLevelInput.rice_loop fuel ec param i tc)
      (FlacLowLevelInput.rice_loop fuel ev param i tv).
Proof.
  induction fuel as [|fuel IH]; intros i tc tv Hi Hfuel Hagree;
    cbn [FlacLowLevelInput.rice_loop]; [exact Hagree|].
  destruct (Z.ltb_spec FlacLowLevelInput.RICE_DECODING_TABLE_BITS
              (FlacLowLevelInput.rice_numBits param i)) as [|Hbits];
    [exact Hagree|].
  assert (E : uint_fast32_t (i + 1) = i + 1)
    by (apply uint_small; unfold fast32_bits; lia).
  rewrite E. apply IH; [lia | lia |].
  intros e. rewrite !rice_fill_at.
  destruct (existsb _ _) eqn:Ex; [|apply Hagree].
  apply existsb_exists in Ex. destruct Ex as (j & Hin & Hj).
  apply Z.eqb_eq in Hj. apply in_upto in Hin.
  exists i. split; [|split; reflexivity].
  split; [lia|]. split; [exact Hbits|]. exists j. split; assumption.
Qed.

Lemma fresh_tables_agree (ec ev : Z -> Z) (param : Z) :
  tables_agree ec ev param FlacLowLevelInput.fresh FlacLowLevelInput.fresh.
Proof. intros e. exact I. Qed.

(** The consumed table and the value table for [param]. *)
Lemma rice_tables_agree (param : Z) :
  tables_agree (fun i => uint_fast8_t (FlacLowLevelInput.rice_numBits param i))
    FlacLowLevelInput.rice_value param
    (FlacLowLevelInput.rice_consumed_table param)
    (FlacLowLevelInput.rice_value_table param).
Proof.
  apply rice_loop_agree; [lia | | apply fresh_tables_agree].
  unfold FlacLowLevelInput.rice_fuel, FlacLowLevelInput.RICE_DECODING_TABLE_BITS.
  change (Z.shiftl 1 13) with 8192. lia.
Qed.

Lemma table_at_map (f : Z -> FlacLowLevelInput.cells) (n param : Z)
    (table : FlacLowLevelInput.cells) :
  FlacLowLevelInput.table_at (map f (upto n)) param = Ok table ->
  0 <= param < n /\ table = f param.
Proof.
  unfold FlacLowLevelInput.table_at.
  rewrite length_map, length_upto.
  destruct (Z.ltb_spec param 0); cbn [orb]; [discriminate|].
  destruct (Z.leb_spec (Z.of_nat (Z.to_nat n)) param); [discriminate|].
  rewrite nth_error_map, nth_error_upto by lia. cbn [option_map].
  rewrite Z2Nat.id by lia. intros [= <-]. split; [lia | reflexivity].
Qed.

(** ** The bits of a written cell *)

Lemma lor_split (x p : Z) :
  0 <= p -> Z.lor (Z.shiftl (Z.shiftr x p) p) (x mod 2 ^ p) = x.
Proof.
  intros Hp. apply Z.bits_inj'. intros k Hk.
  rewrite Z.lor_spec, Z.testbit_mod_pow2 by lia.
  destruct (Z.ltb_spec k p).
  - rewrite Z.shiftl_spec_low by lia. reflexivity.
  - rewrite Z.shiftl_spec, Z.shiftr_spec by lia.
    cbn [andb]. rewrite orb_false_r. f_equal. lia.
Qed.

Lemma lor_disjoint (a b p : Z) :
  0 <= p -> 0 <= b < 2 ^ p -> Z.lor (Z.shiftl a p) b = a * 2 ^ p + b.
Proof.
  intros Hp Hb.
  rewrite <- Z.shiftl_mul_pow2 by lia.
  rewrite <- Z.lxor_lor, Z.add_nocarry_lxor; try reflexivity;
    apply Z.bits_inj'; intros k Hk; rewrite Z.land_spec, Z.bits_0;
    (destruct (Z.ltb_spec k p);
     [rewrite Z.shiftl_spec_low by lia; reflexivity
     | rewrite (bits_above p b k) by lia; apply andb_false_r]).
Qed.

(** The window of 13 bits at the head of the bit buffer, and the bits the
    slow decoder reads from it. *)
Lemma window_bits (bb len a n : Z) :
  13 <= len -> 0 <= a -> 0 <= n -> a + n <= 13 ->
  Z.shiftr bb (len - 13 + a) mod 2 ^ n
  = Z.shiftr (Z.land (int_fast32_t (Z.shiftr bb (len - 13))) (Z.shiftl 1 13 - 1)) a
    mod 2 ^ n.
Proof.
  intros Hlen Ha Hn Han.
  change (Z.shiftl 1 13 - 1) with (Z.ones 13).
  apply Z.bits_inj'. intros k Hk.
  rewrite !Z.testbit_mod_pow2 by lia.
  destruct (Z.ltb_spec k n); [|reflexivity]. cbn [andb].
  rewrite !Z.shiftr_spec by lia.
  rewrite Z.land_spec, Z.testbit_ones_nonneg by lia.
  destruct (Z.leb_spec 0 (k + a)); [|lia].
  destruct (Z.ltb_spec (k + a) 13); [|lia].
  cbn [andb]. rewrite andb_true_r.
  unfold int_fast32_t. rewrite testbit_sint_low by (unfold fast32_bits; lia).
  rewrite Z.shiftr_spec by lia. f_equal. lia.
Qed.

(** The symbol [i] written at the cell [e], as the slow decoder sees it:
    [i >> param] zeros, a one, the low [param] bits of [i]. *)
Lemma written_pattern (param i e : Z) :
  0 <= param < 31 -> written_for param i e ->
  0 <= i < 2 ^ 13 /\
  0 <= Z.shiftr i param /\
  FlacLowLevelInput.rice_numBits param i = Z.shiftr i param + 1 + param /\
  Z.shiftr i param + 1 + param <= 13 /\
  0 <= e < 2 ^ 13 /\
  (forall k, 0 <= k < Z.shiftr i param -> Z.shiftr e (12 - k) mod 2 ^ 1 = 0) /\
  Z.shiftr e (12 - Z.shiftr i param) mod 2 ^ 1 = 1 /\
  Z.shiftr e (12 - Z.shiftr i param - param) mod 2 ^ param = i mod 2 ^ param.
Proof.
  intros Hp (Hi & Hbits & j & Hj & He).
  unfold FlacLowLevelInput.rice_shift, FlacLowLevelInput.rice_bits in *.
  unfold FlacLowLevelInput.rice_numBits, FlacLowLevelInput.RICE_DECODING_TABLE_BITS in *.
  set (q := Z.shiftr i param) in *.
  assert (Hq : 0 <= q <= i).
  { unfold q. rewrite Z.shiftr_div_pow2 by lia.
    assert (0 < 2 ^ param) by (apply pow2_pos; lia).
    split; [apply Z.div_pos; lia | apply Z.div_le_upper_bound; nia]. }
  assert (Enb : uint_fast32_t (q + 1 + param) = q + 1 + param)
    by (apply uint_small; unfold fast32_bits; lia).
  rewrite Enb in *.
  assert (Esh : uint_fast32_t (13 - (q + 1 + param)) = 12 - q - param).
  { unfold uint_fast32_t. rewrite uint_small by (unfold fast32_bits; lia). lia. }
  rewrite Esh in *.
  set (sh := 12 - q - param) in *.
  assert (HP : 0 < 2 ^ param) by (apply pow2_pos; lia).
  assert (HS : 0 < 2 ^ sh) by (apply pow2_pos; lia).
  assert (Hrem : 0 <= i mod 2 ^ param < 2 ^ param) by (apply Z.mod_pos_bound; lia).
  assert (Eb : uint_fast32_t (Z.lor (Z.shiftl 1 param) (Z.land i (Z.shiftl 1 param - 1)))
               = 2 ^ param + i mod 2 ^ param).
  { rewrite Z.shiftl_1_l. change (2 ^ param - 1) with (Z.pred (2 ^ param)).
    rewrite <- Z.ones_equiv, Z.land_ones by lia.
    pose proof (lor_disjoint 1 (i mod 2 ^ param) param ltac:(lia) Hrem) as Hd.
    rewrite Z.shiftl_1_l, Z.mul_1_l in Hd. rewrite Hd.
    assert (2 ^ param <= 2 ^ 12) by (apply Z.pow_le_mono_r; lia).
    apply uint_small. unfold fast32_bits. lia. }
  rewrite Eb in He.
  rewrite Z.shiftl_1_l in Hj.
  rewrite lor_disjoint in He by lia.
  assert (Ei : i = q * 2 ^ param + i mod 2 ^ param).
  { unfold q. rewrite Z.shiftr_div_pow2 by lia.
    rewrite (Z.div_mod i (2 ^ param)) at 1 by lia. lia. }
  assert (Hpow : 2 ^ param * 2 ^ sh = 2 ^ (12 - q)).
  { rewrite <- Z.pow_add_r by lia. f_equal. lia. }
  assert (Hlow : 0 <= i mod 2 ^ param * 2 ^ sh + j < 2 ^ (12 - q)) by nia.
  assert (He' : e = 1 * 2 ^ (12 - q) + (i mod 2 ^ param * 2 ^ sh + j)) by lia.
  assert (Hq12 : 2 ^ (12 - q) <= 2 ^ 12) by (apply Z.pow_le_mono_r; lia).
  assert (Hiq : (q + 1) * 2 ^ param <= 2 ^ 13).
  { assert (Hx : forall m, 0 <= m -> m + 1 <= 2 ^ m).
    { intros m Hm. pose proof (Z.pow_gt_lin_r 2 m). lia. }
    assert (q + 1 <= 2 ^ (13 - param)).
    { specialize (Hx (12 - param)). replace (13 - param) with (Z.succ (12 - param)) by lia.
      rewrite Z.pow_succ_r by lia. lia. }
    assert (2 ^ (13 - param) * 2 ^ param = 2 ^ 13)
      by (rewrite <- Z.pow_add_r by lia; f_equal; lia).
    nia. }
  split; [nia|]. split; [lia|]. split; [reflexivity|]. split; [lia|].
  split; [lia|]. split; [|split].
  - intros k Hk. rewrite Z.shiftr_div_pow2 by lia.
    rewrite Z.div_small; [reflexivity|].
    assert (2 * 2 ^ (12 - q) <= 2 ^ (12 - k)).
    { replace (12 - k) with (Z.succ (12 - q) + (q - k - 1)) by lia.
      rewrite Z.pow_add_r, Z.pow_succ_r by lia.
      assert (0 < 2 ^ (q - k - 1)) by (apply pow2_pos; lia). nia. }
    lia.
  - rewrite Z.shiftr_div_pow2 by lia.
    rewrite He', Z.div_add_l by lia.
    rewrite (Z.div_small (_ + j)) by lia. reflexivity.
  - fold sh. rewrite Z.shiftr_div_pow2 by lia.
    replace e with ((2 ^ param + i mod 2 ^ param) * 2 ^ sh + j) by lia.
    rewrite Z.div_add_l, (Z.div_small j) by lia.
    rewrite Z.add_0_r.
    replace (2 ^ param + i mod 2 ^ param) with (i mod 2 ^ param + 1 * 2 ^ param) by lia.
    rewrite Z.mod_add by lia. apply Z.mod_mod. lia.
Qed.

(** ** The slow decoder on buffered bits *)

Lemma set_bitBufferLen_twice (a b : Z) (s : FlacLowLevelInput.t) :
  FlacLowLevelInput.set_bitBufferLen a (FlacLowLevelInput.set_bitBufferLen b s)
  = FlacLowLevelInput.set_bitBufferLen a s.
Proof. destruct s. reflexivity. Qed.

Lemma bitBufferLen_set (a : Z) (s : FlacLowLevelInput.t) :
  FlacLowLevelInput.bitBufferLen (FlacLowLevelInput.set_bitBufferLen a s) = a.
Proof. destruct s. reflexivity. Qed.

Lemma bitBuffer_set_len (a : Z) (s : FlacLowLevelInput.t) :
  FlacLowLevelInput.bitBuffer (FlacLowLevelInput.set_bitBufferLen a s)
  = FlacLowLevelInput.bitBuffer s.
Proof. destruct s. reflexivity. Qed.

(** The unary part: [q] zeros and a one at the head of the bit buffer. *)
Lemma unary_loop_buffered (NDEBUG : bool) (unaryLimit : Z) (q : nat) :
  forall (fuel : nat) (val : Z) (s : FlacLowLevelInput.t),
    (q <= fuel)%nat -> 0 <= val -> val + Z.of_nat q < unaryLimit -> unaryLimit <= 2 ^ 63 ->
    Z.of_nat q + 1 <= FlacLowLevelInput.bitBufferLen s <= 64 ->
    (forall k, 0 <= k < Z.of_nat q ->
       Z.shiftr (FlacLowLevelInput.bitBuffer s)
                (FlacLowLevelInput.bitBufferLen s - 1 - k) mod 2 ^ 1 = 0) ->
    Z.shiftr (FlacLowLevelInput.bitBuffer s)
             (FlacLowLevelInput.bitBufferLen s - 1 - Z.of_nat q) mod 2 ^ 1 = 1 ->
    FlacLowLevelInput.unary_loop NDEBUG fuel unaryLimit val s
    = (Ok (val + Z.of_nat q),
       FlacLowLevelInput.set_bitBufferLen
         (FlacLowLevelInput.bitBufferLen s - Z.of_nat q - 1) s).
Proof.
  induction q as [|q IH]; intros fuel val s Hfuel Hval Hlim Hlim63 Hlen Hzeros Hone.
  - assert (E : FlacLowLevelInput.unary_loop NDEBUG fuel unaryLimit val s
                = bind (FlacLowLevelInput.readUint NDEBUG 1)
                    (fun b => if b =? 0 then
                       match fuel with
                       | O => throw out_of_fuel
                       | S fuel' =>
                           if unaryLimit <=? uint_fast64_t val
                           then throw (DataFormatException "Residual value too large")
                           else FlacLowLevelInput.unary_loop NDEBUG fuel' unaryLimit
                                  (int_fast64_t (val + 1))
                       end
                     else ret val) s)
      by (destruct fuel; reflexivity).
    rewrite E.
    rewrite (bind_ok _ _ _ _ _ (readUint_buffered NDEBUG 1 s ltac:(lia) ltac:(lia))).
    change (Z.of_nat 0) with 0 in *. rewrite Z.sub_0_r in Hone. rewrite Hone.
    cbn [Z.eqb ret]. rewrite Z.add_0_r, Z.sub_0_r. reflexivity.
  - destruct fuel as [|fuel]; [lia|].
    cbn [FlacLowLevelInput.unary_loop].
    rewrite (bind_ok _ _ _ _ _ (readUint_buffered NDEBUG 1 s ltac:(lia) ltac:(lia))).
    pose proof (Hzeros 0 ltac:(lia)) as H0. rewrite Z.sub_0_r in H0. rewrite H0.
    cbn [Z.eqb].
    assert (Eu : uint_fast64_t val = val)
      by (apply uint_small; unfold fast64_bits; lia).
    assert (Ei : int_fast64_t (val + 1) = val + 1)
      by (apply sint_small; unfold fast64_bits; lia).
    rewrite Eu, Ei.
    destruct (Z.leb_spec unaryLimit val); [lia|].
    rewrite IH; rewrite ?bitBufferLen_set, ?bitBuffer_set_len; try lia.
    + rewrite set_bitBufferLen_twice. f_equal; [f_equal; lia | f_equal; lia].
    + intros k Hk.
      replace (FlacLowLevelInput.bitBufferLen s - 1 - 1 - k)
        with (FlacLowLevelInput.bitBufferLen s - 1 - (k + 1)) by lia.
      apply Hzeros. lia.
    + replace (FlacLowLevelInput.bitBufferLen s - 1 - 1 - Z.of_nat q)
        with (FlacLowLevelInput.bitBufferLen s - 1 - Z.of_nat (S q)) by lia.
      exact Hone.
Qed.

(** The two assertions of the slow decoder, and its conversion of the
    symbol [i], for the symbols of the tables. *)
Lemma rice_value_slow (i : Z) :
  0 <= i < 2 ^ 13 ->
  Z.shiftr (uint_fast64_t i) 53 = 0 /\
  (let val := int_fast64_t (Z.lxor (Z.shiftr (uint_fast64_t i) 1)
                                   (uint_fast64_t (- Z.land i 1))) in
   ((Z.shiftr val 52 =? 0) || (Z.shiftr val 52 =? -1) = true) /\
   val = FlacLowLevelInput.rice_value i).
Proof.
  intros Hi.
  assert (Hall : check_from
    (fun i =>
       (Z.shiftr (uint_fast64_t i) 53 =? 0) &&
       (let val := int_fast64_t (Z.lxor (Z.shiftr (uint_fast64_t i) 1)
                                        (uint_fast64_t (- Z.land i 1))) in
        ((Z.shiftr val 52 =? 0) || (Z.shiftr val 52 =? -1)) &&
        (val =? FlacLowLevelInput.rice_value i)))
    (Z.to_nat (2 ^ 13)) 0 = true) by (vm_compute; reflexivity).
  pose proof (check_from_spec _ _ _ Hall i ltac:(lia)) as H.
  cbv beta zeta in H.
  apply andb_true_iff in H. destruct H as [H1 H].
  apply andb_true_iff in H. destruct H as [H2 H3].
  apply Z.eqb_eq in H1, H3.
  split; [exact H1|]. cbv zeta. split; [exact H2 | exact H3].
Qed.

Lemma bind_get {S B} (k : S -> M S B) (s : S) : bind get k s = k s s.
Proof. reflexivity. Qed.

(** The slow decoder on a bit buffer that begins with the bits of a
    written cell: it returns what the value table holds for the cell and
    consumes what the consumed table holds. *)
Lemma slow_decode_written (NDEBUG : bool) (param i : Z) (s : FlacLowLevelInput.t) :
  0 <= param < 31 -> 13 <= FlacLowLevelInput.bitBufferLen s <= 64 ->
  written_for param i (extractedBits s) ->
  FlacLowLevelInput.slow_decode NDEBUG param (uint_fast64_t (Z.shiftl 1 (53 - param))) s
  = (Ok (FlacLowLevelInput.rice_value i),
     FlacLowLevelInput.set_bitBufferLen
       (FlacLowLevelInput.bitBufferLen s - FlacLowLevelInput.rice_numBits param i) s).
Proof.
  intros Hp Hlen Hw.
  destruct (written_pattern param i _ Hp Hw)
    as (Hi & Hq & Enb & Hnb & He & Hzeros & Hone & Hrem).
  rewrite Enb.
  set (q := Z.shiftr i param) in *.
  set (bb := FlacLowLevelInput.bitBuffer s) in *.
  set (len := FlacLowLevelInput.bitBufferLen s) in *.
  assert (Hwin : forall a n, 0 <= a -> 0 <= n -> a + n <= 13 ->
            Z.shiftr bb (len - 13 + a) mod 2 ^ n = Z.shiftr (extractedBits s) a mod 2 ^ n).
  { intros a n Ha Hn Han. apply window_bits; lia. }
  set (limit := uint_fast64_t (Z.shiftl 1 (53 - param))).
  assert (Hlimit : 2 ^ 22 <= limit <= 2 ^ 63).
  { unfold limit. rewrite Z.shiftl_1_l.
    assert (2 ^ 22 <= 2 ^ (53 - param)) by (apply Z.pow_le_mono_r; lia).
    assert (2 ^ (53 - param) <= 2 ^ 53) by (apply Z.pow_le_mono_r; lia).
    unfold uint_fast64_t. rewrite uint_small by (unfold fast64_bits; lia). lia. }
  assert (E1 : FlacLowLevelInput.unary_loop NDEBUG
                 (Z.to_nat (FlacLowLevelInput.remaining_bits s)) limit 0 s
               = (Ok q, FlacLowLevelInput.set_bitBufferLen (len - q - 1) s)).
  { pose proof (unary_loop_buffered NDEBUG limit (Z.to_nat q)
                  (Z.to_nat (FlacLowLevelInput.remaining_bits s)) 0 s) as U.
    rewrite Z2Nat.id, Z.add_0_l in U by lia. fold bb len in U.
    apply U; try lia.
    - unfold FlacLowLevelInput.remaining_bits. fold len. lia.
    - intros k Hk. replace (len - 1 - k) with (len - 13 + (12 - k)) by lia.
      rewrite Hwin by lia. apply Hzeros. lia.
    - replace (len - 1 - q) with (len - 13 + (12 - q)) by lia.
      rewrite Hwin by lia. exact Hone. }
  assert (E2 : FlacLowLevelInput.readUint NDEBUG param
                 (FlacLowLevelInput.set_bitBufferLen (len - q - 1) s)
               = (Ok (i mod 2 ^ param),
                  FlacLowLevelInput.set_bitBufferLen (len - (q + 1 + param)) s)).
  { rewrite readUint_buffered by (rewrite ?bitBufferLen_set; lia).
    rewrite bitBufferLen_set, bitBuffer_set_len, set_bitBufferLen_twice.
    fold bb.
    replace (len - q - 1 - param) with (len - 13 + (12 - q - param)) by lia.
    rewrite Hwin, Hrem by lia.
    do 2 f_equal. lia. }
  unfold FlacLowLevelInput.slow_decode. fold limit.
  rewrite bind_get, (bind_ok _ _ _ _ _ E1), (bind_ok _ _ _ _ _ E2).
  cbv zeta.
  assert (El : Z.lor (Z.shiftl q param) (i mod 2 ^ param) = i)
    by (apply lor_split; lia).
  assert (Ei : int_fast64_t i = i) by (apply sint_small; unfold fast64_bits; lia).
  rewrite !El, !Ei.
  destruct (rice_value_slow i Hi) as (A1 & A2 & A3). cbv zeta in A2, A3.
  rewrite bind_assert by (apply Z.eqb_eq; exact A1).
  rewrite bind_assert by exact A2.
  rewrite A3. reflexivity.
Qed.

(** One iteration of the fast decoder at a written cell. *)
Lemma fast_chunk_written (consumeTable valueTable : FlacLowLevelInput.cells)
    (result : list Z) (start c v : Z) (s : FlacLowLevelInput.t) :
  consumeTable (extractedBits s) = Some c -> valueTable (extractedBits s) = Some v ->
  0 <= extractedBits s < 2 ^ 13 -> 1 <= c <= 13 ->
  13 <= FlacLowLevelInput.bitBufferLen s <= 64 ->
  0 <= start < Z.of_nat (List.length result) ->
  FlacLowLevelInput.fast_chunk 1 consumeTable valueTable result start s
  = (Ok (false,
         firstn (Z.to_nat start) result ++ v :: skipn (S (Z.to_nat start)) result,
         start + 1),
     FlacLowLevelInput.set_bitBufferLen (FlacLowLevelInput.bitBufferLen s - c) s).
Proof.
  intros Hc Hv He Hc13 Hlen Hstart.
  cbn [FlacLowLevelInput.fast_chunk]. rewrite bind_get.
  fold (extractedBits s).
  assert (Ec : FlacLowLevelInput.cell_at consumeTable (extractedBits s) = Ok c).
  { unfold FlacLowLevelInput.cell_at, FlacLowLevelInput.RICE_DECODING_TABLE_BITS.
    rewrite Z.shiftl_1_l, Hc.
    destruct (Z.ltb_spec (extractedBits s) 0); [lia|].
    destruct (Z.leb_spec (2 ^ 13) (extractedBits s)); [lia|]. reflexivity. }
  assert (Ev : FlacLowLevelInput.cell_at valueTable (extractedBits s) = Ok v).
  { unfold FlacLowLevelInput.cell_at, FlacLowLevelInput.RICE_DECODING_TABLE_BITS.
    rewrite Z.shiftl_1_l, Hv.
    destruct (Z.ltb_spec (extractedBits s) 0); [lia|].
    destruct (Z.leb_spec (2 ^ 13) (extractedBits s)); [lia|]. reflexivity. }
  rewrite Ec. cbn [lift bind].
  destruct (Z.eqb_spec c 0); [lia|].
  rewrite Ev.
  unfold FlacLowLevelInput.store_result.
  destruct (Z.ltb_spec start 0); [lia|].
  destruct (Z.leb_spec (Z.of_nat (List.length result)) start); [lia|].
  mcbv.
  unfold uint_fast8_t. rewrite uint_small by (unfold fast8_bits; lia).
  reflexivity.
Qed.

(** A written cell of the consumed table, and the same cell of the value
    table. *)
Lemma written_cells (param : Z) (consumeTable valueTable : FlacLowLevelInput.cells)
    (e c : Z) :
  FlacLowLevelInput.table_at FlacLowLevelInput.RICE_DECODING_CONSUMED_TABLES param
    = Ok consumeTable ->
  FlacLowLevelInput.table_at FlacLowLevelInput.RICE_DECODING_VALUE_TABLES param
    = Ok valueTable ->
  FlacLowLevelInput.cell_at consumeTable e = Ok c ->
  0 <= param < 31 /\ consumeTable e = Some c /\
  exists i,
    written_for param i e /\
    c = FlacLowLevelInput.rice_numBits param i /\
    valueTable e = Some (FlacLowLevelInput.rice_value i).
Proof.
  intros Hct Hvt Hc.
  apply table_at_map in Hct. destruct Hct as [Hp ->].
  apply table_at_map in Hvt. destruct Hvt as [_ ->].
  split; [exact Hp|].
  unfold FlacLowLevelInput.cell_at in Hc.
  destruct ((e <? 0) || (Z.shiftl 1 FlacLowLevelInput.RICE_DECODING_TABLE_BITS <=? e));
    [discriminate|].
  pose proof (rice_tables_agree param e) as Hagree.
  destruct (FlacLowLevelInput.rice_consumed_table param e) as [c'|]; [|discriminate].
  injection Hc as ->. split; [reflexivity|].
  destruct (FlacLowLevelInput.rice_value_table param e) as [v|]; [|contradiction].
  destruct Hagree as (i & Hw & -> & ->).
  exists i. split; [exact Hw|]. split; [|reflexivity].
  destruct (written_pattern param i e Hp Hw) as (_ & Hq & Enb & Hnb & _).
  rewrite Enb. apply uint_small. unfold fast8_bits. lia.
Qed.

(** * common/SeekTable.cpp: [checkValues] *)

Lemma upto_succ (n : Z) : 0 <= n -> upto (n + 1) = 0 :: map (fun k => 1 + k) (upto n).
Proof.
  intros Hn. unfold upto.
  replace (Z.to_nat (n + 1)) with (S (Z.to_nat n)) by lia.
  cbn [seq map]. f_equal.
  rewrite <- seq_shift, !map_map. apply map_ext. intros k. lia.
Qed.

Lemma at_app (pre l : SeekTable.t) (k : nat) (p : SeekTable.SeekPoint) :
  nth_error l k = Some p ->
  SeekTable.at_ (pre ++ l) (Z.of_nat (List.length pre) + Z.of_nat k) = Ok p.
Proof.
  intros H. unfold SeekTable.at_.
  assert (Hk : (k < List.length l)%nat) by (apply nth_error_Some; congruence).
  rewrite length_app.
  destruct (Z.ltb_spec (Z.of_nat (List.length pre) + Z.of_nat k) 0); [lia|].
  destruct (Z.leb_spec (Z.of_nat (List.length pre + List.length l))
              (Z.of_nat (List.length pre) + Z.of_nat k)); [lia|].
  cbn [orb].
  replace (Z.to_nat (Z.of_nat (List.length pre) + Z.of_nat k))
    with (List.length pre + k)%nat by lia.
  rewrite nth_error_app2 by lia.
  replace (List.length pre + k - List.length pre)%nat with k by lia.
  rewrite H. reflexivity.
Qed.

(** The loop over the indices from [base + 1], where [points] holds [q] at
    [base] and then [l]. *)
Lemma check_loop_list (pre : SeekTable.t) (q : SeekTable.SeekPoint)
    (l : list SeekTable.SeekPoint) :
  SeekTable.check_loop (pre ++ q :: l)
    (map (fun k => Z.of_nat (List.length pre) + 1 + k) (upto (Z.of_nat (List.length l))))
  = check_list q l.
Proof.
  revert pre q. induction l as [|p l IH]; intros pre q; [reflexivity|].
  cbn [List.length]. rewrite Nat2Z.inj_succ, <- Z.add_1_r, upto_succ by lia.
  cbn [map SeekTable.check_loop check_list].
  assert (Ep : SeekTable.check_point (pre ++ q :: p :: l)
                 (Z.of_nat (List.length pre) + 1 + 0) = check_pair q p).
  { unfold SeekTable.check_point.
    replace (Z.of_nat (List.length pre) + 1 + 0)
      with (Z.of_nat (List.length pre) + Z.of_nat 1) by lia.
    rewrite (at_app pre (q :: p :: l) 1 p eq_refl).
    replace (Z.of_nat (List.length pre) + Z.of_nat 1 - 1)
      with (Z.of_nat (List.length pre) + Z.of_nat 0) by lia.
    rewrite (at_app pre (q :: p :: l) 0 q eq_refl).
    reflexivity. }
  rewrite Ep. destruct (check_pair q p); [|reflexivity].
  specialize (IH (pre ++ [q]) p).
  rewrite <- app_assoc in IH. cbn [app] in IH.
  rewrite <- IH, map_map. f_equal. apply map_ext. intros k.
  rewrite length_app. cbn [List.length]. lia.
Qed.

Lemma checkValues_list (points : SeekTable.t) :
  SeekTable.checkValues points
  = match points with
    | [] => Ok tt
    | q :: l => check_list q l
    end.
Proof.
  unfold SeekTable.checkValues. destruct points as [|q l].
  - reflexivity.
  - rewrite <- (check_loop_list [] q l). cbn [app List.length].
    replace (Z.of_nat (S (List.length l)) - 1) with (Z.of_nat (List.length l)) by lia.
    reflexivity.
Qed.

Lemma check_pair_cases (q p : SeekTable.SeekPoint) :
  (check_pair q p = Ok tt /\
   (SeekTable.sampleOffset p = SeekTable.PLACEHOLDER \/ in_order q p)) \/
  ((exists what, check_pair q p = Throw (runtime_error what)) /\
   SeekTable.sampleOffset p <> SeekTable.PLACEHOLDER /\ ~ in_order q p).
Proof.
  unfold check_pair, in_order.
  destruct (Z.eqb_spec (SeekTable.sampleOffset p) SeekTable.PLACEHOLDER) as [E|E];
    cbn [negb]; [left; auto|].
  destruct (Z.leb_spec (SeekTable.sampleOffset p) (SeekTable.sampleOffset q)).
  { right. split; [eauto|]. split; [exact E | lia]. }
  destruct (Z.ltb_spec (SeekTable.fileOffset p) (SeekTable.fileOffset q)).
  { right. split; [eauto|]. split; [exact E | lia]. }
  left. split; [reflexivity|]. right. lia.
Qed.

Lemma check_list_throws (q : SeekTable.SeekPoint) (l : list SeekTable.SeekPoint) :
  check_list q l = Ok tt \/ exists what, check_list q l = Throw (runtime_error what).
Proof.
  revert q. induction l as [|p l IH]; intros q; cbn [check_list]; [left; reflexivity|].
  destruct (check_pair_cases q p) as [[E _] | [[what E] _]]; rewrite E.
  - apply IH.
  - right. eauto.
Qed.

Lemma valid_tail (q : SeekTable.SeekPoint) (l : list SeekTable.SeekPoint) :
  seek_table_valid (q :: l) -> seek_table_valid l.
Proof.
  intros (real & rest & E & Hreal & Hrest & Hsorted).
  destruct real as [|q' real].
  - cbn [app] in E. subst rest. exists [], l.
    split; [reflexivity|]. split; [constructor|].
    split; [exact (Forall_inv_tail Hrest) | constructor].
  - cbn [app] in E. injection E as <- ->. exists real, rest.
    split; [reflexivity|]. split; [exact (Forall_inv_tail Hreal)|].
    split; [exact Hrest | exact (proj1 (Sorted_inv Hsorted))].
Qed.

Lemma valid_head (q p : SeekTable.SeekPoint) (l : list SeekTable.SeekPoint) :
  seek_table_valid (q :: p :: l) ->
  SeekTable.sampleOffset p = SeekTable.PLACEHOLDER \/ in_order q p.
Proof.
  intros (real & rest & E & Hreal & Hrest & Hsorted).
  destruct real as [|q' [|p' real]]; cbn [app] in E.
  - subst rest. left. exact (Forall_inv (Forall_inv_tail Hrest)).
  - injection E as <- <-. left. exact (Forall_inv Hrest).
  - injection E as <- <- ->. right.
    pose proof (proj2 (Sorted_inv Hsorted)) as Hd. inversion Hd. assumption.
Qed.

Lemma valid_check_list (q : SeekTable.SeekPoint) (l : list SeekTable.SeekPoint) :
  seek_table_valid (q :: l) -> check_list q l = Ok tt.
Proof.
  revert q. induction l as [|p l IH]; intros q Hvalid; cbn [check_list]; [reflexivity|].
  destruct (check_pair_cases q p) as [[E _] | [_ [Hp Hn]]].
  - rewrite E. apply IH. exact (valid_tail q (p :: l) Hvalid).
  - destruct (valid_head q p l Hvalid); contradiction.
Qed.

Lemma check_list_valid (q : SeekTable.SeekPoint) (l : list SeekTable.SeekPoint) :
  Forall seek_point_typed (q :: l) -> check_list q l = Ok tt ->
  seek_table_valid (q :: l).
Proof.
  revert q. induction l as [|p l IH]; intros q Htyped Hcheck.
  - destruct (Forall_inv Htyped) as (_ & _ & Hfs). change fast16_bits with 16 in Hfs.
    destruct (Z.eq_dec (SeekTable.sampleOffset q) SeekTable.PLACEHOLDER) as [E|E].
    + exists [], [q]. repeat constructor; exact E.
    + exists [q], []. repeat constructor; try lia; exact E.
  - cbn [check_list] in Hcheck.
    destruct (check_pair_cases q p) as [[E Hor] | [[what E] _]];
      rewrite E in Hcheck; [|discriminate].
    destruct (IH p (Forall_inv_tail Htyped) Hcheck)
      as (real & rest & El & Hreal & Hrest & Hsorted).
    destruct (Forall_inv Htyped) as (Hso & _ & Hfs). change fast16_bits with 16 in Hfs.
    destruct (Forall_inv (Forall_inv_tail Htyped)) as (Hsp & _ & _).
    change fast64_bits with 64 in Hso, Hsp.
    destruct (Z.eq_dec (SeekTable.sampleOffset q) SeekTable.PLACEHOLDER) as [Eq|Eq].
    + assert (Hp : SeekTable.sampleOffset p = SeekTable.PLACEHOLDER).
      { destruct Hor as [Hp | [Hlt _]]; [exact Hp|].
        rewrite Eq in Hlt. unfold SeekTable.PLACEHOLDER in *. lia. }
      destruct real as [|p' real]; cbn [app] in El.
      * subst rest. exists [], (q :: p :: l).
        split; [reflexivity|]. split; [constructor|].
        split; [constructor; assumption | constructor].
      * injection El as <- ->. destruct (Forall_inv Hreal). contradiction.
    + exists (q :: real), rest.
      split; [cbn [app]; f_equal; exact El|].
      split; [constructor; [split; [exact Eq | lia] | exact Hreal]|].
      split; [exact Hrest|].
      constructor; [exact Hsorted|].
      destruct real as [|p' real]; [constructor|].
      cbn [app] in El. injection El as <- ->. constructor.
      destruct Hor as [Hp | Hin]; [|exact Hin].
      destruct (Forall_inv Hreal). contradiction.
Qed.

(** * Further properties of the sources *)

(** ** encode/BitOutputStream.cpp *)

Lemma aligned_by_written (w : BitOutputStream.t) :
  writer_ok w ->
  BitOutputStream.bitBufferLen w mod 8 = Z.of_nat (List.length (written w)) mod 8.
Proof.
  intros Hok. pose proof (wok_len w Hok).
  unfold written. rewrite length_app, length_bytes_bits, length_bits.
  rewrite Nat2Z.inj_add, Nat2Z.inj_mul, Z2Nat.id by lia.
  rewrite Z.add_comm, Z.mul_comm. symmetry. apply Z.mod_add. lia.
Qed.

Lemma write_bytes_spec (NDEBUG : bool) (bytes : list Z) (w : BitOutputStream.t) :
  writer_ok w ->
  exists w',
    write_bytes NDEBUG bytes w = (Ok tt, w') /\
    writer_ok w' /\
    written w' = written w ++ bytes_bits bytes.
Proof.
  revert w. induction bytes as [|b bytes IH]; intros w Hok.
  - exists w. split; [reflexivity|]. split; [exact Hok|].
    rewrite app_nil_r. reflexivity.
  - cbn [write_bytes].
    destruct (writeInt_spec NDEBUG 8 b w Hok ltac:(lia)) as (w1 & E1 & Hok1 & Hw1).
    rewrite (bind_ok _ _ _ _ _ E1).
    destruct (IH w1 Hok1) as (w2 & E2 & Hok2 & Hw2).
    exists w2. split; [exact E2|]. split; [exact Hok2|].
    rewrite Hw2, Hw1, <- app_assoc. reflexivity.
Qed.

Lemma checkByteAligned_ok (w : BitOutputStream.t) :
  writer_ok w -> BitOutputStream.bitBufferLen w mod 8 = 0 ->
  BitOutputStream.checkByteAligned w = (Ok tt, w).
Proof.
  intros Hok H0. pose proof (wok_len w Hok).
  unfold BitOutputStream.checkByteAligned. mred.
  rewrite Z.rem_mod_nonneg, H0 by lia. reflexivity.
Qed.

(** [getCrc8()] and [getCrc16()] with assertions compiled out, at a byte
    boundary. *)
Lemma getCrc8_aligned (w : BitOutputStream.t) :
  writer_ok w -> BitOutputStream.bitBufferLen w mod 8 = 0 ->
  exists w',
    BitOutputStream.getCrc8 true w = (Ok 0, w') /\
    writer_ok w' /\ BitOutputStream.bitBufferLen w' mod 8 = 0.
Proof.
  intros Hok Hal. pose proof (wok_len w Hok) as Hlen.
  unfold BitOutputStream.getCrc8.
  rewrite (bind_ok _ _ _ _ _ (checkByteAligned_ok w Hok Hal)).
  destruct (flush_spec true w Hok) as (w1 & E1 & Hok1 & _ & _ & Hlen1).
  rewrite (bind_ok _ _ _ _ _ E1).
  mcbv. rewrite (wok_crc8 w1 Hok1). cbn [assert orb ret].
  exists w1. split; [reflexivity|]. split; [exact Hok1|].
  rewrite Hlen1, Z.mod_mod by lia. exact Hal.
Qed.

Lemma getCrc16_aligned (w : BitOutputStream.t) :
  writer_ok w -> BitOutputStream.bitBufferLen w mod 8 = 0 ->
  exists w', BitOutputStream.getCrc16 true w = (Ok 0, w').
Proof.
  intros Hok Hal. pose proof (wok_len w Hok) as Hlen.
  unfold BitOutputStream.getCrc16.
  rewrite (bind_ok _ _ _ _ _ (checkByteAligned_ok w Hok Hal)).
  destruct (flush_spec true w Hok) as (w1 & E1 & Hok1 & _).
  rewrite (bind_ok _ _ _ _ _ E1).
  mcbv. rewrite (wok_crc16 w1 Hok1). cbn [assert orb ret].
  exists w1. reflexivity.
Qed.

Lemma getCrcs_aligned (w : BitOutputStream.t) :
  writer_ok w -> BitOutputStream.bitBufferLen w mod 8 = 0 ->
  fst ((c8 <- BitOutputStream.getCrc8 true ;;
        c16 <- BitOutputStream.getCrc16 true ;;
        ret (c8, c16)) w) = Ok (0, 0).
Proof.
  intros Hok Hal.
  destruct (getCrc8_aligned w Hok Hal) as (w1 & E1 & Hok1 & Hal1).
  rewrite (bind_ok _ _ _ _ _ E1).
  destruct (getCrc16_aligned w1 Hok1 Hal1) as (w2 & E2).
  rewrite (bind_ok _ _ _ _ _ E2). reflexivity.
Qed.

Lemma resetCrcs_spec (NDEBUG : bool) (w : BitOutputStream.t) :
  writer_ok w ->
  exists w',
    BitOutputStream.resetCrcs NDEBUG w = (Ok tt, w') /\
    writer_ok w' /\
    written w' = written w.
Proof.
  intros Hok. unfold BitOutputStream.resetCrcs.
  destruct (flush_spec NDEBUG w Hok) as (w1 & E1 & Hok1 & Hw1 & _ & _).
  rewrite (bind_ok _ _ _ _ _ E1). mcbv.
  eexists. split; [reflexivity|].
  destruct Hok1. destruct w1. split; [constructor; cbn in *; auto|].
  rewrite <- Hw1. reflexivity.
Qed.

(** ** The assertions of [getCrc8()] and [getCrc16()] *)

Lemma reader_checkByteAligned_ok (r : FlacLowLevelInput.t) :
  reader_ok r -> FlacLowLevelInput.bitBufferLen r mod 8 = 0 ->
  FlacLowLevelInput.checkByteAligned r = (Ok tt, r).
Proof.
  intros Hok H0. pose proof (rok_len r Hok).
  unfold FlacLowLevelInput.checkByteAligned. mcbv.
  rewrite Z.rem_mod_nonneg, H0 by lia. reflexivity.
Qed.

Lemma reader_getCrcs_abort (r : FlacLowLevelInput.t) :
  reader_ok r -> FlacLowLevelInput.bitBufferLen r mod 8 = 0 ->
  fst (FlacLowLevelInput.getCrc8 false r) = Throw assertion_failure /\
  fst (FlacLowLevelInput.getCrc16 false r) = Throw assertion_failure.
Proof.
  intros Hok Hal. pose proof (rok_len r Hok) as Hlen.
  assert (Hk : 0 <= FlacLowLevelInput.bitBufferLen r / 8 <= 8).
  { split; [apply Z.div_pos; lia | apply Z.div_le_upper_bound; lia]. }
  destruct (updateCrcs_spec false _ r Hok Hk) as (c8 & c16 & E & H8 & H16).
  unfold FlacLowLevelInput.getCrc8, FlacLowLevelInput.getCrc16.
  rewrite !(bind_ok _ _ _ _ _ (reader_checkByteAligned_ok r Hok Hal)).
  split.
  - mcbv. rewrite E. destruct r; rred.
    rewrite (proj2 (Z.eqb_eq _ _)); [reflexivity|].
    apply Z.eqb_eq, shiftr_eqb_0; lia.
  - mcbv. rewrite E. destruct r; rred.
    rewrite (proj2 (Z.eqb_eq _ _)); [reflexivity|].
    apply Z.eqb_eq, shiftr_eqb_0; lia.
Qed.

Lemma writer_getCrcs_abort (w : BitOutputStream.t) :
  writer_ok w -> BitOutputStream.bitBufferLen w mod 8 = 0 ->
  fst (BitOutputStream.getCrc8 false w) = Throw assertion_failure /\
  fst (BitOutputStream.getCrc16 false w) = Throw assertion_failure.
Proof.
  intros Hok Hal.
  unfold BitOutputStream.getCrc8, BitOutputStream.getCrc16.
  rewrite !(bind_ok _ _ _ _ _ (checkByteAligned_ok w Hok Hal)).
  destruct (flush_spec false w Hok) as (w1 & E1 & Hok1 & _).
  rewrite !(bind_ok _ _ _ _ _ E1).
  mcbv. rewrite (wok_crc8 w1 Hok1), (wok_crc16 w1 Hok1). split; reflexivity.
Qed.

(** ** The Rice decoding tables *)

Lemma rice_numBits_large (param i : Z) :
  0 <= param < 31 -> 2 ^ 13 <= i < 2 ^ 20 ->
  (FlacLowLevelInput.RICE_DECODING_TABLE_BITS <? FlacLowLevelInput.rice_numBits param i)
  = true.
Proof.
  intros Hp Hi. apply Z.ltb_lt.
  unfold FlacLowLevelInput.rice_numBits, FlacLowLevelInput.RICE_DECODING_TABLE_BITS.
  assert (Hq : 0 <= Z.shiftr i param <= i).
  { rewrite Z.shiftr_div_pow2 by lia.
    assert (0 < 2 ^ param) by (apply pow2_pos; lia).
    split; [apply Z.div_pos; lia | apply Z.div_le_upper_bound; nia]. }
  unfold uint_fast32_t. rewrite uint_small by (unfold fast32_bits; lia).
  destruct (Z.le_gt_cases 13 param) as [|Hlt]; [lia|].
  assert (Hpow : 2 ^ (13 - param) <= Z.shiftr i param).
  { rewrite Z.shiftr_div_pow2 by lia.
    assert (0 < 2 ^ param) by (apply pow2_pos; lia).
    apply Z.div_le_lower_bound; [lia|].
    rewrite <- Z.pow_add_r by lia. replace (param + (13 - param)) with 13 by lia. lia. }
  pose proof (Z.pow_gt_lin_r 2 (13 - param) ltac:(lia) ltac:(lia)). lia.
Qed.

(** More fuel than [rice_fuel] changes nothing: the loop of the
    initializers leaves through its [break]. *)
Lemma rice_loop_more_fuel (entry : Z -> Z) (param : Z) (extra : nat) :
  0 <= param < 31 ->
  forall (fuel : nat) (i : Z) (table : FlacLowLevelInput.cells),
    0 <= i -> 2 ^ 13 <= i + Z.of_nat fuel -> i + Z.of_nat fuel < 2 ^ 20 ->
    FlacLowLevelInput.rice_loop (fuel + extra) entry param i table
    = FlacLowLevelInput.rice_loop fuel entry param i table.
Proof.
  intros Hp. induction fuel as [|fuel IH]; intros i table Hi Hlow Hhigh.
  - cbn [Nat.add FlacLowLevelInput.rice_loop].
    destruct extra as [|extra]; [reflexivity|].
    cbn [FlacLowLevelInput.rice_loop].
    rewrite rice_numBits_large by lia. reflexivity.
  - cbn [Nat.add FlacLowLevelInput.rice_loop].
    destruct (FlacLowLevelInput.RICE_DECODING_TABLE_BITS
              <? FlacLowLevelInput.rice_numBits param i); [reflexivity|].
    assert (E : uint_fast32_t (i + 1) = i + 1)
      by (apply uint_small; unfold fast32_bits; lia).
    rewrite E. apply IH; lia.
Qed.

Lemma rice_loop_break (entry : Z -> Z) (param i : Z) (fuel : nat)
    (table : FlacLowLevelInput.cells) :
  (FlacLowLevelInput.RICE_DECODING_TABLE_BITS <? FlacLowLevelInput.rice_numBits param i)
  = true ->
  FlacLowLevelInput.rice_loop fuel entry param i table = table.
Proof.
  intros H. destruct fuel; cbn [FlacLowLevelInput.rice_loop]; [reflexivity|].
  rewrite H. reflexivity.
Qed.

(** ** common/Utilities.h and the constructor of [SeekTable] *)

Lemma convertToUint16_range (buf : list Z) :
  0 <= Utilities.convertToUint16 buf < 2 ^ 16.
Proof. unfold Utilities.convertToUint16. apply (uint_range 16). lia. Qed.

Lemma land_255 (x : Z) : 0 <= Z.land x 255 < 2 ^ 8.
Proof.
  change 255 with (Z.ones 8). rewrite Z.land_ones by lia.
  apply Z.mod_pos_bound. lia.
Qed.

Lemma convertToUint64_range (buf : list Z) :
  0 <= Utilities.convertToUint64 buf < 2 ^ 64.
Proof.
  unfold Utilities.convertToUint64.
  repeat (apply lor_bound; [lia | | apply (uint_range 64); lia]).
  apply (uint_range 64). lia.
Qed.

(** ** Fields written by a [BitOutputStream] and read by a reader *)

Lemma write_fields_spec (NDEBUG : bool) (fields : list (Z * Z)) (w : BitOutputStream.t) :
  writer_ok w -> Forall (fun f => 0 <= fst f <= 32) fields ->
  exists w',
    write_fields NDEBUG fields w = (Ok tt, w') /\
    writer_ok w' /\
    written w' = written w ++ fields_bits fields.
Proof.
  intros Hok Hall. revert w Hok.
  induction Hall as [|[n v] fields Hn Hall IH]; intros w Hok.
  - exists w. split; [reflexivity|]. split; [exact Hok|].
    cbn. rewrite app_nil_r. reflexivity.
  - cbn [write_fields]. cbn [fst] in Hn.
    destruct (writeInt_spec NDEBUG n v w Hok Hn) as (w1 & E1 & Hok1 & Hw1).
    rewrite (bind_ok _ _ _ _ _ E1).
    destruct (IH w1 Hok1) as (w2 & E2 & Hok2 & Hw2).
    exists w2. split; [exact E2|]. split; [exact Hok2|].
    rewrite Hw2, Hw1, <- app_assoc. reflexivity.
Qed.

Lemma read_widths_spec (NDEBUG : bool) (fields : list (Z * Z)) (rest : list bool)
    (r : FlacLowLevelInput.t) :
  reader_ok r -> Forall (fun f => 0 <= fst f <= 31) fields ->
  unread r = fields_bits fields ++ rest ->
  exists r',
    read_widths NDEBUG (map fst fields) r
    = (Ok (map (fun f => snd f mod 2 ^ fst f) fields), r') /\
    reader_ok r' /\
    unread r' = rest.
Proof.
  intros Hok Hall. revert r Hok.
  induction Hall as [|[n v] fields Hn Hall IH]; intros r Hok Hun.
  - exists r. split; [reflexivity|]. split; [exact Hok | exact Hun].
  - cbn [map read_widths fst snd]. cbn [fst] in Hn.
    unfold fields_bits in Hun. cbn [flat_map fst snd] in Hun.
    rewrite <- app_assoc in Hun.
    destruct (readUint_field NDEBUG n v _ r Hok Hn Hun) as (r1 & E1 & Hok1 & Hun1).
    rewrite (bind_ok _ _ _ _ _ E1).
    destruct (IH r1 Hok1 Hun1) as (r2 & E2 & Hok2 & Hun2).
    rewrite (bind_ok _ _ _ _ _ E2).
    exists r2. split; [reflexivity|]. split; [exact Hok2 | exact Hun2].
Qed.

(** * common/Utilities.h: the two [numberOfLeadingZeros] *)

Lemma int_of_uint32 (u : Z) :
  0 <= u < 2 ^ 32 -> int u = if u <? 2 ^ 31 then u else u - 2 ^ 32.
Proof.
  intros Hu. unfold int, sint, int_bits.
  change (2 ^ (32 - 1)) with (2 ^ 31). 
  destruct (Z.ltb_spec u (2 ^ 31)).
  - rewrite Z.mod_small by lia. lia.
  - replace (u + 2 ^ 31) with (u - 2 ^ 31 + 1 * 2 ^ 32) by lia.
    rewrite Z.mod_add by lia. rewrite Z.mod_small by lia. lia.
Qed.

Lemma int_uint32 (x : Z) : int (uint_fast32_t x) = int x.
Proof.
  unfold int, sint, uint_fast32_t, uint, int_bits, fast32_bits.
  f_equal. rewrite Zplus_mod_idemp_l. reflexivity.
Qed.

(** The step on the signed working copy follows the step on the unsigned
    value it stands for. *)
Lemma nlz_step_s_u (s k n u : Z) :
  0 <= s <= 30 -> 0 <= k -> 0 <= u < 2 ^ 32 ->
  Utilities.nlz_step_s s k (n, int u)
  = (fst (Utilities.nlz_step_u s k (n, u)), int (snd (Utilities.nlz_step_u s k (n, u)))).
Proof.
  intros Hs Hk Hu. unfold Utilities.nlz_step_s, Utilities.nlz_step_u.
  assert (Htest : (Z.shiftr (int u) s =? 0) = (Z.shiftr u s =? 0)).
  { rewrite (int_of_uint32 u Hu). destruct (Z.ltb_spec u (2 ^ 31)); [reflexivity|].
    rewrite !Z.shiftr_div_pow2 by lia.
    assert (H31 : 2 ^ s <= 2 ^ 30) by (apply Z.pow_le_mono_r; lia).
    assert (Hp : 0 < 2 ^ s) by (apply Z.pow_pos_nonneg; lia).
    assert ((u - 2 ^ 32) / 2 ^ s < 0) by (apply Z.div_lt_upper_bound; lia).
    assert (1 <= u / 2 ^ s) by (apply Z.div_le_lower_bound; lia).
    destruct (Z.eqb_spec ((u - 2 ^ 32) / 2 ^ s) 0); [lia|].
    destruct (Z.eqb_spec (u / 2 ^ s) 0); [lia|reflexivity]. }
  rewrite Htest. destruct (Z.shiftr u s =? 0); cbn [fst snd]; [|reflexivity].
  f_equal. rewrite int_uint32.
  unfold int, sint, int_bits. f_equal.
  rewrite !Z.shiftl_mul_pow2 by lia.
  change (2 ^ (32 - 1)) with (2 ^ 31).
  rewrite <- (Zplus_mod_idemp_l (_ * _)), <- (Zplus_mod_idemp_l (u * _)).
  f_equal. f_equal.
  rewrite <- Zmult_mod_idemp_l. symmetry. rewrite <- Zmult_mod_idemp_l. f_equal. f_equal.
  change ((u + 2 ^ 31) mod 2 ^ 32 - 2 ^ 31) with (sint 32 u).
  symmetry. apply (sint_mod 32 u). lia.
Qed.

(** One step [if (i >> s == 0) { n += k; i <<= k; }] with [s + k = 32].  *)
Lemma nlz_step_u_spec (s k n u : Z) :
  s + k = 32 -> 0 < k -> 0 <= s - k -> 2 ^ (s - k) <= u < 2 ^ 32 ->
  Z.Even k ->
  let st := Utilities.nlz_step_u s k (n, u) in
  2 ^ s <= snd st < 2 ^ 32 /\
  fst st - Z.log2 (snd st) = n - Z.log2 u /\
  Z.Even (fst st - n).
Proof.
  intros Hsk Hk Hs Hu Hev. unfold Utilities.nlz_step_u.
  assert (Hp : 0 < 2 ^ (s - k)) by (apply Z.pow_pos_nonneg; lia).
  assert (Hps : 0 < 2 ^ s) by (apply Z.pow_pos_nonneg; lia).
  destruct (Z.eqb_spec (Z.shiftr u s) 0) as [E|E]; cbn [fst snd].
  - assert (Hlt : u < 2 ^ s).
    { apply (proj1 (shiftr_eqb_0 u s ltac:(lia))). apply Z.eqb_eq. exact E. }
    rewrite Z.shiftl_mul_pow2 by lia.
    assert (Hpk : 0 < 2 ^ k) by (apply Z.pow_pos_nonneg; lia).
    assert (E32 : 2 ^ 32 = 2 ^ s * 2 ^ k) by (rewrite <- Z.pow_add_r by lia; f_equal; lia).
    assert (Es : 2 ^ s = 2 ^ (s - k) * 2 ^ k) by (rewrite <- Z.pow_add_r by lia; f_equal; lia).
    unfold uint_fast32_t, uint, fast32_bits.
    rewrite Z.mod_small by nia.
    split; [nia|]. split; [|replace (n + k - n) with k by lia; exact Hev].
    rewrite Z.log2_mul_pow2 by lia. lia.
  - assert (Hge : 2 ^ s <= u).
    { destruct (Z.lt_ge_cases u (2 ^ s)); [|assumption].
      exfalso. apply E. apply Z.eqb_eq. apply shiftr_eqb_0; lia. }
    split; [lia|]. split; [reflexivity|]. replace (n - n) with 0 by lia. exists 0. lia.
Qed.

Lemma log2_top (u : Z) :
  2 ^ 30 <= u < 2 ^ 32 -> Z.shiftr u 31 = Z.log2 u - 30.
Proof.
  intros Hu. rewrite Z.shiftr_div_pow2 by lia.
  destruct (Z.lt_ge_cases u (2 ^ 31)).
  - rewrite Z.div_small by lia.
    rewrite (Z.log2_unique u 30); lia.
  - rewrite (Z.log2_unique u 31) by lia.
    replace u with (u - 2 ^ 31 + 1 * 2 ^ 31) by lia.
    rewrite Z.div_add by lia. rewrite Z.div_small by lia. lia.
Qed.

Lemma numberOfLeadingZeros32_spec (i : Z) :
  0 < i < 2 ^ 32 -> Utilities.numberOfLeadingZeros32 i = 31 - Z.log2 i.
Proof.
  intros Hi. unfold Utilities.numberOfLeadingZeros32.
  destruct (Z.eqb_spec i 0); [lia|]. cbv zeta.
  destruct (nlz_step_u_spec 16 16 1 i eq_refl ltac:(lia) ltac:(lia) ltac:(cbn; lia)
              ltac:(exists 8; reflexivity)) as (B1 & L1 & _).
  destruct (Utilities.nlz_step_u 16 16 (1, i)) as [n1 u1]. cbn [fst snd] in *.
  destruct (nlz_step_u_spec 24 8 n1 u1 eq_refl ltac:(lia) ltac:(lia) B1
              ltac:(exists 4; reflexivity)) as (B2 & L2 & _).
  destruct (Utilities.nlz_step_u 24 8 (n1, u1)) as [n2 u2]. cbn [fst snd] in *.
  destruct (nlz_step_u_spec 28 4 n2 u2 eq_refl ltac:(lia) ltac:(lia) B2
              ltac:(exists 2; reflexivity)) as (B3 & L3 & _).
  destruct (Utilities.nlz_step_u 28 4 (n2, u2)) as [n3 u3]. cbn [fst snd] in *.
  destruct (nlz_step_u_spec 30 2 n3 u3 eq_refl ltac:(lia) ltac:(lia) B3
              ltac:(exists 1; reflexivity)) as (B4 & L4 & _).
  destruct (Utilities.nlz_step_u 30 2 (n3, u3)) as [n4 u4]. cbn [fst snd] in *.
  rewrite (log2_top u4 B4).
  assert (0 <= Z.log2 i < 32).
  { split; [apply Z.log2_nonneg|]. apply Z.log2_lt_pow2; lia. }
  assert (Z.log2 u4 < 32) by (apply Z.log2_lt_pow2; lia).
  assert (30 <= Z.log2 u4) by (apply Z.log2_le_pow2; lia).
  unfold int. rewrite sint_small; unfold int_bits; lia.
Qed.

(** The 64-bit function keeps its working copy in an [int]: the result is
    2 too large whenever the number of leading zeros is even. *)
Lemma numberOfLeadingZeros64_spec (i : Z) :
  0 < i < 2 ^ 64 ->
  Utilities.numberOfLeadingZeros64 i
  = 63 - Z.log2 i + (if Z.even (63 - Z.log2 i) then 2 else 0).
Proof.
  intros Hi. unfold Utilities.numberOfLeadingZeros64.
  destruct (Z.eqb_spec i 0); [lia|]. cbv zeta.
  assert (Hhi : 0 <= Z.shiftr i 32 < 2 ^ 32).
  { rewrite Z.shiftr_div_pow2 by lia. split; [apply Z.div_pos; lia|].
    apply Z.div_lt_upper_bound; lia. }
  set (hi := Z.shiftr i 32) in *.
  assert (Hx0 : (int hi =? 0) = (hi =? 0)).
  { rewrite (int_of_uint32 hi Hhi). destruct (Z.ltb_spec hi (2 ^ 31)); [reflexivity|].
    destruct (Z.eqb_spec (hi - 2 ^ 32) 0); destruct (Z.eqb_spec hi 0); lia. }
  rewrite Hx0.
  (* the word [u] the steps work on, the base [n0] and the zeros before it *)
  assert (Hword : exists n0 u,
            (if hi =? 0 then (1 + 32, int i) else (1, int hi)) = (n0, int u) /\
            0 < u < 2 ^ 32 /\ (n0 = 1 \/ n0 = 33) /\
            63 - Z.log2 i = n0 - 1 + (31 - Z.log2 u)).
  { destruct (Z.eqb_spec hi 0) as [E|E].
    - assert (i < 2 ^ 32).
      { apply (proj1 (shiftr_eqb_0 i 32 ltac:(lia))). apply Z.eqb_eq. exact E. }
      exists 33, i. split; [reflexivity|]. split; [lia|]. split; [right; reflexivity|]. lia.
    - exists 1, hi. split; [reflexivity|]. split; [lia|]. split; [left; reflexivity|].
      assert (Hl : Z.log2 i = Z.log2 hi + 32).
      { unfold hi. rewrite Z.log2_shiftr by lia.
        assert (32 <= Z.log2 i).
        { apply Z.log2_le_pow2; [lia|].
          destruct (Z.lt_ge_cases i (2 ^ 32)); [|assumption].
          exfalso. apply E. apply Z.eqb_eq. apply shiftr_eqb_0; lia. }
        lia. }
      lia. }
  destruct Hword as (n0 & u & -> & Hu & Hn0 & Hz).
  assert (Hodd : Z.Odd n0) by (destruct Hn0; subst n0; [exists 0 | exists 16]; reflexivity).
  rewrite (nlz_step_s_u 16 16 n0 u) by lia.
  destruct (nlz_step_u_spec 16 16 n0 u eq_refl ltac:(lia) ltac:(lia) ltac:(cbn; lia)
              ltac:(exists 8; reflexivity)) as (B1 & L1 & P1).
  destruct (Utilities.nlz_step_u 16 16 (n0, u)) as [n1 u1]. cbn [fst snd] in *.
  rewrite (nlz_step_s_u 24 8 n1 u1) by lia.
  destruct (nlz_step_u_spec 24 8 n1 u1 eq_refl ltac:(lia) ltac:(lia) B1
              ltac:(exists 4; reflexivity)) as (B2 & L2 & P2).
  destruct (Utilities.nlz_step_u 24 8 (n1, u1)) as [n2 u2]. cbn [fst snd] in *.
  rewrite (nlz_step_s_u 28 4 n2 u2) by lia.
  destruct (nlz_step_u_spec 28 4 n2 u2 eq_refl ltac:(lia) ltac:(lia) B2
              ltac:(exists 2; reflexivity)) as (B3 & L3 & P3).
  destruct (Utilities.nlz_step_u 28 4 (n2, u2)) as [n3 u3]. cbn [fst snd] in *.
  rewrite (nlz_step_s_u 30 2 n3 u3) by lia.
  destruct (nlz_step_u_spec 30 2 n3 u3 eq_refl ltac:(lia) ltac:(lia) B3
              ltac:(exists 1; reflexivity)) as (B4 & L4 & P4).
  destruct (Utilities.nlz_step_u 30 2 (n3, u3)) as [n4 u4]. cbn [fst snd] in *.
  assert (Hlu : 0 <= Z.log2 u < 32).
  { split; [apply Z.log2_nonneg|]. apply Z.log2_lt_pow2; lia. }
  assert (Hl4 : 30 <= Z.log2 u4 < 32).
  { split; [apply Z.log2_le_pow2; lia | apply Z.log2_lt_pow2; lia]. }
  assert (Hn4 : Z.Odd n4).
  { destruct Hodd as [a ?], P1 as [a1 ?], P2 as [a2 ?], P3 as [a3 ?], P4 as [a4 ?].
    exists (a + a1 + a2 + a3 + a4). lia. }
  rewrite Hz.
  rewrite (int_of_uint32 u4) by lia.
  destruct (Z.ltb_spec u4 (2 ^ 31)).
  - (* the leading one stopped at bit 30: the count is odd *)
    assert (Z.log2 u4 = 30) by (apply Z.log2_unique; lia).
    rewrite Z.shiftr_div_pow2, Z.div_small by lia.
    replace (n0 - 1 + (31 - Z.log2 u)) with n4 by lia.
    rewrite <- Z.negb_odd. rewrite (proj2 (Z.odd_spec n4) Hn4). cbn [negb].
    unfold int. rewrite sint_small; unfold int_bits; lia.
  - assert (Z.log2 u4 = 31) by (apply Z.log2_unique; lia).
    assert (Z.shiftr (u4 - 2 ^ 32) 31 = -1).
    { rewrite Z.shiftr_div_pow2 by lia.
      replace (u4 - 2 ^ 32) with (u4 - 2 ^ 31 + (-1) * 2 ^ 31) by lia.
      rewrite Z.div_add by lia. rewrite Z.div_small by lia. lia. }
    replace (n0 - 1 + (31 - Z.log2 u)) with (n4 - 1) by lia.
    assert (Hev : Z.even (n4 - 1) = true).
    { apply Z.even_spec. destruct Hn4 as [a ?]. exists a. lia. }
    rewrite Hev, H1.
    unfold int. rewrite sint_small; unfold int_bits; lia.
Qed.

(** * common/FrameInfo.cpp: the codes of block size, sample rate and sample depth *)

Lemma searchFirst_found (table : list (Z * Z)) (key : Z) :
  FrameInfo.searchFirst table key <> -1 ->
  In (key, FrameInfo.searchFirst table key) table.
Proof.
  induction table as [|[v c] rest IH]; cbn [FrameInfo.searchFirst fst snd]; intros H.
  - contradiction.
  - destruct (Z.eqb_spec v key) as [->|]; [left; reflexivity | right; auto].
Qed.

Lemma searchFirst_missing (table : list (Z * Z)) (key : Z) :
  Forall (fun row => snd row <> -1) table ->
  FrameInfo.searchFirst table key = -1 -> ~ In key (map fst table).
Proof.
  induction 1 as [|[v c] rest Hrow Hall IH]; cbn [FrameInfo.searchFirst fst snd map In] in *;
    intros H; [tauto|].
  destruct (Z.eqb_spec v key); [contradiction|]. intros [?|?]; [contradiction | apply IH; assumption].
Qed.

Lemma searchSecond_found (table : list (Z * Z)) (v c : Z) :
  NoDup (map snd table) -> In (v, c) table -> FrameInfo.searchSecond table c = v.
Proof.
  induction table as [|[v' c'] rest IH]; cbn [FrameInfo.searchSecond fst snd map In];
    intros Hnd Hin; [contradiction|].
  inversion Hnd as [|? ? Hnot Hnd']; subst.
  destruct Hin as [E|Hin].
  - injection E as -> ->. rewrite Z.eqb_refl. reflexivity.
  - destruct (Z.eqb_spec c' c) as [->|]; [|auto].
    exfalso. apply Hnot. apply (in_map snd) in Hin. exact Hin.
Qed.

Lemma searchSecond_missing (table : list (Z * Z)) (c : Z) :
  ~ In c (map snd table) -> FrameInfo.searchSecond table c = -1.
Proof.
  induction table as [|[v' c'] rest IH]; cbn [FrameInfo.searchSecond fst snd map In];
    intros H; [reflexivity|].
  destruct (Z.eqb_spec c' c); [tauto | apply IH; tauto].
Qed.


Lemma block_size_code_cases (NDEBUG : bool) (blockSize : Z) :
  1 <= blockSize <= 65536 ->
  exists code,
    FrameInfo.getBlockSizeCode NDEBUG blockSize = Ok code /\
    1 <= code <= 15 /\
    (code = 6 /\ blockSize <= 256 \/
     code = 7 \/
     code <> 6 /\ code <> 7 /\
     FrameInfo.searchSecond FrameInfo.BLOCK_SIZE_CODES code = blockSize).
Proof.
  intros Hb. unfold FrameInfo.getBlockSizeCode. cbv zeta.
  destruct (Z.eqb_spec (FrameInfo.searchFirst FrameInfo.BLOCK_SIZE_CODES blockSize) (-1))
    as [E|E]; cbn [negb].
  - destruct (Z.leb_spec 1 blockSize); [|lia]. cbn [andb].
    destruct (Z.leb_spec blockSize 256).
    + exists 6. split; [destruct NDEBUG; reflexivity|]. split; [lia|].
      left. split; [reflexivity | lia].
    + destruct (Z.leb_spec blockSize 65536); [|lia].
      exists 7. split; [destruct NDEBUG; reflexivity|]. split; [lia|]. right. left. reflexivity.
  - pose proof (searchFirst_found _ _ E) as Hin.
    set (c := FrameInfo.searchFirst FrameInfo.BLOCK_SIZE_CODES blockSize) in *.
    assert (Hc : 1 <= c <= 15 /\ c <> 6 /\ c <> 7).
    { unfold FrameInfo.BLOCK_SIZE_CODES in Hin. cbn [In] in Hin.
      repeat (destruct Hin as [Hin|Hin]; [injection Hin as _ <-; lia|]). contradiction. }
    assert (Hs : (Z.shiftr (uint_fast32_t c) 4 =? 0) = true).
    { unfold uint_fast32_t. rewrite uint_small by (unfold fast32_bits; lia).
      apply shiftr_eqb_0; lia. }
    rewrite Hs, orb_true_r.
    exists (uint_fast8_t c). unfold uint_fast8_t. rewrite uint_small by (unfold fast8_bits; lia).
    split; [reflexivity|]. split; [lia|]. right. right. split; [lia|]. split; [lia|].
    apply searchSecond_found; [|exact Hin].
    unfold FrameInfo.BLOCK_SIZE_CODES. cbn [map snd].
    repeat (constructor; [cbn [In]; lia|]). constructor.
Qed.

Lemma block_size_invalid (NDEBUG : bool) (blockSize : Z) :
  blockSize < 1 \/ 65536 < blockSize ->
  FrameInfo.getBlockSizeCode NDEBUG blockSize
  = Throw (invalid_argument "Invalid block size").
Proof.
  intros Hb. unfold FrameInfo.getBlockSizeCode. cbv zeta.
  destruct (Z.eqb_spec (FrameInfo.searchFirst FrameInfo.BLOCK_SIZE_CODES blockSize) (-1))
    as [E|E]; cbn [negb].
  - destruct (Z.leb_spec 1 blockSize); cbn [andb]; [|reflexivity].
    destruct (Z.leb_spec blockSize 256); [lia|].
    destruct (Z.leb_spec blockSize 65536); [lia|]. reflexivity.
  - exfalso. pose proof (searchFirst_found _ _ E) as Hin.
    unfold FrameInfo.BLOCK_SIZE_CODES in Hin. cbn [In] in Hin.
    repeat (destruct Hin as [Hin|Hin]; [injection Hin as Hv _; lia|]). contradiction.
Qed.

Lemma decodeBlockSize_spec (NDEBUG : bool) (blockSize code : Z) (rest : list bool)
    (r : FlacLowLevelInput.t) :
  1 <= blockSize <= 65536 ->
  FrameInfo.getBlockSizeCode NDEBUG blockSize = Ok code ->
  reader_ok r -> unread r = block_size_tail code blockSize ++ rest ->
  exists r',
    FrameInfo.decodeBlockSize NDEBUG code r = (Ok blockSize, r') /\
    reader_ok r' /\ unread r' = rest.
Proof.
  intros Hb Hc Hok Hun.
  destruct (block_size_code_cases NDEBUG blockSize Hb) as (c & Ec & Hr & Hcase).
  rewrite Hc in Ec. injection Ec as <-.
  unfold FrameInfo.decodeBlockSize.
  assert (Hs : negb (Z.shiftr code 4 =? 0) = false).
  { apply shiftr_neqb_0; lia. }
  rewrite Hs.
  destruct (Z.eqb_spec code 0); [lia|].
  unfold block_size_tail in Hun.
  destruct Hcase as [[-> Hle] | [-> | (H6 & H7 & Hs2)]].
  - cbn [Z.eqb Pos.eqb] in *.
    destruct (readUint_field NDEBUG 8 (blockSize - 1) rest r Hok ltac:(lia) Hun)
      as (r' & E & Hok' & Hun').
    unfold FrameInfo.readUint. rewrite (bind_ok _ _ _ _ _ E).
    exists r'. split; [|split; assumption].
    unfold ret. f_equal. f_equal.
    rewrite Z.mod_small by lia.
    unfold int_fast32_t. rewrite sint_small; unfold fast32_bits; lia.
  - cbn [Z.eqb Pos.eqb] in *.
    destruct (readUint_field NDEBUG 16 (blockSize - 1) rest r Hok ltac:(lia) Hun)
      as (r' & E & Hok' & Hun').
    unfold FrameInfo.readUint. rewrite (bind_ok _ _ _ _ _ E).
    exists r'. split; [|split; assumption].
    unfold ret. f_equal. f_equal.
    rewrite Z.mod_small by lia.
    unfold int_fast32_t. rewrite sint_small; unfold fast32_bits; lia.
  - destruct (Z.eqb_spec code 6); [contradiction|].
    destruct (Z.eqb_spec code 7); [contradiction|].
    cbn [app] in Hun. rewrite Hs2.
    rewrite bind_assert.
    + exists r. split; [reflexivity|]. split; assumption.
    + apply andb_true_intro. split; apply Z.leb_le; lia.
Qed.

(** ** Sample rate *)

Lemma sample_rate_code_cases (NDEBUG : bool) (sampleRate : Z) :
  0 < sampleRate ->
  exists code,
    FrameInfo.getSampleRateCode NDEBUG sampleRate = Ok code /\
    0 <= code <= 14 /\
    (code = 12 /\ sampleRate < 256 \/
     code = 13 /\ sampleRate < 65536 \/
     code = 14 /\ sampleRate < 655360 /\ Z.rem sampleRate 10 = 0 \/
     code = 0 /\ (655360 <= sampleRate \/ 65536 <= sampleRate /\ Z.rem sampleRate 10 <> 0) \/
     1 <= code <= 11 /\
     FrameInfo.searchSecond FrameInfo.SAMPLE_RATE_CODES code = sampleRate).
Proof.
  intros Hb. unfold FrameInfo.getSampleRateCode. cbv zeta.
  destruct (Z.leb_spec sampleRate 0); [lia|].
  destruct (Z.eqb_spec (FrameInfo.searchFirst FrameInfo.SAMPLE_RATE_CODES sampleRate) (-1))
    as [E|E]; cbn [negb].
  - destruct (Z.leb_spec 0 sampleRate); [|lia]. cbn [andb].
    destruct (Z.ltb_spec sampleRate 256).
    { exists 12. split; [destruct NDEBUG; reflexivity|]. split; [lia|]. left. lia. }
    destruct (Z.ltb_spec sampleRate 65536).
    { exists 13. split; [destruct NDEBUG; reflexivity|]. split; [lia|]. right. left. lia. }
    destruct (Z.ltb_spec sampleRate 655360); cbn [andb].
    + destruct (Z.eqb_spec (Z.rem sampleRate 10) 0).
      * exists 14. split; [destruct NDEBUG; reflexivity|]. split; [lia|].
        right. right. left. lia.
      * exists 0. split; [destruct NDEBUG; reflexivity|]. split; [lia|].
        right. right. right. left. lia.
    + exists 0. split; [destruct NDEBUG; reflexivity|]. split; [lia|].
      right. right. right. left. lia.
  - pose proof (searchFirst_found _ _ E) as Hin.
    set (c := FrameInfo.searchFirst FrameInfo.SAMPLE_RATE_CODES sampleRate) in *.
    assert (Hc : 1 <= c <= 11).
    { unfold FrameInfo.SAMPLE_RATE_CODES in Hin. cbn [In] in Hin.
      repeat (destruct Hin as [Hin|Hin]; [injection Hin as _ <-; lia|]). contradiction. }
    assert (Hs : (Z.shiftr (uint_fast32_t c) 4 =? 0) = true).
    { unfold uint_fast32_t. rewrite uint_small by (unfold fast32_bits; lia).
      apply shiftr_eqb_0; lia. }
    rewrite Hs, orb_true_r.
    exists (uint_fast8_t c). unfold uint_fast8_t. rewrite uint_small by (unfold fast8_bits; lia).
    split; [reflexivity|]. split; [lia|]. right. right. right. right. split; [lia|].
    apply searchSecond_found; [|exact Hin].
    unfold FrameInfo.SAMPLE_RATE_CODES. cbn [map snd].
    repeat (constructor; [cbn [In]; lia|]). constructor.
Qed.

Lemma bind_readUint_field {B} (NDEBUG : bool) (n v : Z) (rest : list bool)
    (r : FlacLowLevelInput.t) (k : Z -> M FlacLowLevelInput.t B) :
  reader_ok r -> 0 <= n <= 31 -> unread r = bits (Z.to_nat n) v ++ rest ->
  exists r',
    bind (FlacLowLevelInput.readUint NDEBUG n) k r = k (v mod 2 ^ n) r' /\
    reader_ok r' /\ unread r' = rest.
Proof.
  intros Hok Hn Hun.
  destruct (readUint_field NDEBUG n v rest r Hok Hn Hun) as (r' & E & Hok' & Hun').
  exists r'. rewrite (bind_ok _ _ _ _ _ E). auto.
Qed.

Lemma decodeSampleRate_spec (NDEBUG : bool) (sampleRate code : Z) (rest : list bool)
    (r : FlacLowLevelInput.t) :
  0 < sampleRate ->
  FrameInfo.getSampleRateCode NDEBUG sampleRate = Ok code ->
  reader_ok r -> unread r = sample_rate_tail code sampleRate ++ rest ->
  exists r',
    FrameInfo.decodeSampleRate NDEBUG code r
    = (Ok (if code =? 0 then -1 else sampleRate), r') /\
    reader_ok r' /\ unread r' = rest.
Proof.
  intros Hb Hc Hok Hun.
  destruct (sample_rate_code_cases NDEBUG sampleRate Hb) as (c & Ec & Hr & Hcase).
  rewrite Hc in Ec. injection Ec as <-.
  unfold FrameInfo.decodeSampleRate.
  assert (Hs : negb (Z.shiftr code 4 =? 0) = false).
  { apply shiftr_neqb_0; lia. }
  rewrite Hs. unfold sample_rate_tail in Hun. unfold FrameInfo.readUint.
  destruct Hcase as [[-> Hlt] | [[-> Hlt] | [(-> & Hlt & Hrem) | [[-> _] | [Hr2 Hs2]]]]];
    cbn [Z.eqb Pos.eqb] in *.
  - destruct (bind_readUint_field NDEBUG 8 sampleRate rest r
                (fun x => ret (int_fast32_t x)) Hok ltac:(lia) Hun) as (r' & E & Hok' & Hun').
    rewrite E. exists r'. split; [|split; assumption].
    unfold ret. f_equal. f_equal. rewrite Z.mod_small by lia.
    unfold int_fast32_t. rewrite sint_small; unfold fast32_bits; lia.
  - destruct (bind_readUint_field NDEBUG 16 sampleRate rest r
                (fun x => ret (int_fast32_t x)) Hok ltac:(lia) Hun) as (r' & E & Hok' & Hun').
    rewrite E. exists r'. split; [|split; assumption].
    unfold ret. f_equal. f_equal. rewrite Z.mod_small by lia.
    unfold int_fast32_t. rewrite sint_small; unfold fast32_bits; lia.
  - destruct (bind_readUint_field NDEBUG 16 (Z.quot sampleRate 10) rest r
                (fun x => ret (int_fast32_t (x * 10))) Hok ltac:(lia) Hun)
      as (r' & E & Hok' & Hun').
    rewrite E. exists r'. split; [|split; assumption].
    unfold ret. f_equal. f_equal.
    pose proof (Z.quot_rem' sampleRate 10) as Hq.
    assert (0 <= Z.quot sampleRate 10 < 65536).
    { split; [apply Z.quot_pos; lia|]. apply Z.quot_lt_upper_bound; lia. }
    rewrite Z.mod_small by lia.
    unfold int_fast32_t. rewrite sint_small; unfold fast32_bits; lia.
  - cbn [app] in Hun. exists r. split; [reflexivity|]. split; assumption.
  - assert (code <> 0 /\ code <> 12 /\ code <> 13 /\ code <> 14 /\ code <> 15) as (?&?&?&?&?) by lia.
    destruct (Z.eqb_spec code 0); [contradiction|].
    destruct (Z.eqb_spec code 12); [contradiction|].
    destruct (Z.eqb_spec code 13); [contradiction|].
    destruct (Z.eqb_spec code 14); [contradiction|].
    destruct (Z.eqb_spec code 15); [contradiction|].
    cbn [app] in Hun. rewrite Hs2.
    assert (Hin : In (sampleRate, code) FrameInfo.SAMPLE_RATE_CODES).
    { unfold FrameInfo.getSampleRateCode in Hc. cbv zeta in Hc.
      destruct (Z.leb_spec sampleRate 0); [lia|].
      destruct (Z.eqb_spec (FrameInfo.searchFirst FrameInfo.SAMPLE_RATE_CODES sampleRate) (-1))
        as [E|E]; cbn [negb] in Hc.
      - exfalso.
        destruct ((0 <=? sampleRate) && (sampleRate <? 256));
          [destruct NDEBUG; cbn in Hc; injection Hc as Hc; lia|].
        destruct ((0 <=? sampleRate) && (sampleRate <? 65536));
          [destruct NDEBUG; cbn in Hc; injection Hc as Hc; lia|].
        destruct ((0 <=? sampleRate) && (sampleRate <? 655360) && (Z.rem sampleRate 10 =? 0));
          destruct NDEBUG; cbn in Hc; injection Hc as Hc; lia.
      - pose proof (searchFirst_found _ _ E) as Hin.
        set (c := FrameInfo.searchFirst FrameInfo.SAMPLE_RATE_CODES sampleRate) in *.
        assert (Hcr : 1 <= c <= 11).
        { unfold FrameInfo.SAMPLE_RATE_CODES in Hin. cbn [In] in Hin.
          repeat (destruct Hin as [Hin|Hin]; [injection Hin as _ <-; lia|]). contradiction. }
        destruct (NDEBUG || (Z.shiftr (uint_fast32_t c) 4 =? 0)); [|discriminate].
        injection Hc as Hc. unfold uint_fast8_t in Hc.
        rewrite uint_small in Hc by (unfold fast8_bits; lia). subst code. exact Hin. }
    rewrite bind_assert.
    + exists r. split; [reflexivity|]. split; assumption.
    + unfold FrameInfo.SAMPLE_RATE_CODES in Hin. cbn [In] in Hin.
      repeat (destruct Hin as [Hin|Hin]; [injection Hin as <- _; reflexivity|]). contradiction.
Qed.

(** ** Sample depth *)

Lemma sample_depth_code_cases (NDEBUG : bool) (sampleDepth : Z) :
  sampleDepth = -1 \/ 1 <= sampleDepth <= 32 ->
  exists code,
    FrameInfo.getSampleDepthCode NDEBUG sampleDepth = Ok code /\
    (code = 0 /\ ~ In sampleDepth [8; 12; 16; 20; 24] \/
     In (sampleDepth, code) FrameInfo.SAMPLE_DEPTH_CODES).
Proof.
  intros Hd. unfold FrameInfo.getSampleDepthCode. cbv zeta.
  assert (Hg : negb (sampleDepth =? -1) && ((sampleDepth <? 1) || (32 <? sampleDepth)) = false).
  { destruct (Z.eqb_spec sampleDepth (-1)); [reflexivity|]. cbn [negb andb].
    destruct (Z.ltb_spec sampleDepth 1); [lia|].
    destruct (Z.ltb_spec 32 sampleDepth); [lia|]. reflexivity. }
  rewrite Hg.
  destruct (Z.eqb_spec (FrameInfo.searchFirst FrameInfo.SAMPLE_DEPTH_CODES sampleDepth) (-1))
    as [E|E].
  - exists 0. split; [destruct NDEBUG; reflexivity|]. left. split; [reflexivity|].
    apply (searchFirst_missing FrameInfo.SAMPLE_DEPTH_CODES) in E; [exact E|].
    unfold FrameInfo.SAMPLE_DEPTH_CODES. repeat (constructor; [cbn; lia|]). constructor.
  - pose proof (searchFirst_found _ _ E) as Hin.
    set (c := FrameInfo.searchFirst FrameInfo.SAMPLE_DEPTH_CODES sampleDepth) in *.
    assert (Hc : 1 <= c <= 6).
    { unfold FrameInfo.SAMPLE_DEPTH_CODES in Hin. cbn [In] in Hin.
      repeat (destruct Hin as [Hin|Hin]; [injection Hin as _ <-; lia|]). contradiction. }
    assert (Hs : (Z.shiftr (uint_fast32_t c) 3 =? 0) = true).
    { unfold uint_fast32_t. rewrite uint_small by (unfold fast32_bits; lia).
      apply shiftr_eqb_0; lia. }
    rewrite Hs, orb_true_r.
    exists (uint_fast8_t c). unfold uint_fast8_t. rewrite uint_small by (unfold fast8_bits; lia).
    split; [reflexivity|]. right. exact Hin.
Qed.

Lemma sample_depth_invalid (NDEBUG : bool) (sampleDepth : Z) :
  sampleDepth < -1 \/ sampleDepth = 0 \/ 32 < sampleDepth ->
  FrameInfo.getSampleDepthCode NDEBUG sampleDepth
  = Throw (invalid_argument "Invalid bit depth").
Proof.
  intros Hd. unfold FrameInfo.getSampleDepthCode.
  destruct (Z.eqb_spec sampleDepth (-1)); [lia|]. cbn [negb andb].
  destruct (Z.ltb_spec sampleDepth 1); [reflexivity|].
  destruct (Z.ltb_spec 32 sampleDepth); [reflexivity|]. lia.
Qed.

Lemma decodeSampleDepth_spec (NDEBUG : bool) (sampleDepth code : Z)
    (r : FlacLowLevelInput.t) :
  sampleDepth = -1 \/ 1 <= sampleDepth <= 32 ->
  FrameInfo.getSampleDepthCode NDEBUG sampleDepth = Ok code ->
  FrameInfo.decodeSampleDepth NDEBUG code r
  = (Ok (if code =? 0 then -1 else sampleDepth), r) /\
  (code <> 0 <-> In sampleDepth [8; 12; 16; 20; 24]).
Proof.
  intros Hd Hc.
  destruct (sample_depth_code_cases NDEBUG sampleDepth Hd) as (c & Ec & Hcase).
  rewrite Hc in Ec. injection Ec as <-.
  unfold FrameInfo.decodeSampleDepth.
  destruct Hcase as [[-> Hnot] | Hin].
  - split; [reflexivity|]. split; [congruence | intros; contradiction].
  - assert (Hs : FrameInfo.searchSecond FrameInfo.SAMPLE_DEPTH_CODES code = sampleDepth).
    { apply searchSecond_found; [|exact Hin].
      unfold FrameInfo.SAMPLE_DEPTH_CODES. cbn [map snd].
      repeat (constructor; [cbn [In]; lia|]). constructor. }
    rewrite Hs.
    unfold FrameInfo.SAMPLE_DEPTH_CODES in Hin. cbn [In] in Hin.
    repeat (destruct Hin as [Hin|Hin];
            [injection Hin as <- <-; split;
             [destruct NDEBUG; reflexivity | split; [intros _; cbn; tauto | discriminate]]|]).
    contradiction.
Qed.

Lemma decodeSampleDepth_reserved (NDEBUG : bool) (code : Z) (r : FlacLowLevelInput.t) :
  code = 3 \/ code = 7 ->
  FrameInfo.decodeSampleDepth NDEBUG code r
  = (Throw (DataFormatException "Reserved bit depth"), r).
Proof. intros [->| ->]; reflexivity. Qed.

(** * decode/AbstractFlacLowLevelInput.cpp: [readUint(32)] and [readSignedInt] *)

Lemma readUint_buffered_32 (NDEBUG : bool) (r : FlacLowLevelInput.t) :
  32 <= FlacLowLevelInput.bitBufferLen r <= 64 ->
  FlacLowLevelInput.readUint NDEBUG 32 r
  = (Ok (Z.shiftr (FlacLowLevelInput.bitBuffer r)
                  (FlacLowLevelInput.bitBufferLen r - 32) mod 2 ^ 32),
     FlacLowLevelInput.set_bitBufferLen (FlacLowLevelInput.bitBufferLen r - 32) r).
Proof.
  intros Hlen. unfold FlacLowLevelInput.readUint.
  change (uint_fast8_t 32) with 32. cbn [Z.ltb Z.compare Pos.compare Pos.compare_cont].
  rewrite (bind_ok _ _ _ _ _ (readUint_loop_enough NDEBUG _ 32 r (proj1 Hlen))).
  cbn [Z.eqb Pos.eqb negb]. mcbv.
  destruct r as [d off sp buf blen bidx bb len c8 c16 cs].
  cbn [FlacLowLevelInput.bitBufferLen] in Hlen. rred.
  assert (El : uint_fast8_t (len - 32) = len - 32)
    by (apply uint_small; unfold fast8_bits; lia).
  rewrite El.
  rewrite assert_true by (apply andb_true_intro; split; apply Z.leb_le; lia).
  reflexivity.
Qed.

(** [readUint(n)] delivers the next [n] bits, for every [n] it accepts. *)
Lemma readUint_bits (NDEBUG : bool) (n : Z) (r : FlacLowLevelInput.t) :
  reader_ok r -> 0 <= n <= 32 ->
  n <= Z.of_nat (List.length (unread r)) ->
  exists r',
    FlacLowLevelInput.readUint NDEBUG n r
    = (Ok (value (firstn (Z.to_nat n) (unread r))), r') /\
    reader_ok r' /\
    unread r' = skipn (Z.to_nat n) (unread r).
Proof.
  intros Hok Hn Hbits.
  destruct (Z.eq_dec n 32) as [->|Hne]; [|apply readUint_spec; [assumption | lia | assumption]].
  pose proof (rok_len r Hok) as Hlen.
  destruct (readUint_loop_spec NDEBUG (Z.to_nat 32) 32 r Hok) as (r1 & E1 & Hok1 & Hun1 & Hlen1);
    [lia | exact Hbits | lia |].
  pose proof (rok_len r1 Hok1) as Hlen1'.
  assert (E : FlacLowLevelInput.readUint NDEBUG 32 r = FlacLowLevelInput.readUint NDEBUG 32 r1).
  { unfold FlacLowLevelInput.readUint.
    change (uint_fast8_t 32) with 32. cbn [Z.ltb Z.compare Pos.compare Pos.compare_cont].
    rewrite (bind_ok _ _ _ _ _ E1).
    rewrite (bind_ok _ _ _ _ _ (readUint_loop_enough NDEBUG _ 32 r1 Hlen1)).
    reflexivity. }
  rewrite E, readUint_buffered_32 by lia.
  rewrite <- Hun1.
  set (len1 := FlacLowLevelInput.bitBufferLen r1) in *.
  set (bb1 := FlacLowLevelInput.bitBuffer r1).
  assert (Esplit : bits (Z.to_nat len1) bb1
                   = bits (Z.to_nat 32) (Z.shiftr bb1 (len1 - 32))
                     ++ bits (Z.to_nat (len1 - 32)) bb1).
  { replace (Z.to_nat len1) with (Z.to_nat 32 + Z.to_nat (len1 - 32))%nat by lia.
    rewrite bits_app. f_equal. f_equal. f_equal. lia. }
  eexists. split; [|split].
  - f_equal. f_equal. unfold unread. fold len1 bb1. rewrite Esplit, <- app_assoc.
    rewrite firstn_app, length_bits, Nat.sub_diag. cbn [firstn].
    rewrite app_nil_r, firstn_all2 by (rewrite length_bits; lia).
    rewrite value_bits. rewrite Z2Nat.id by lia. reflexivity.
  - apply reader_ok_len; [exact Hok1 | lia].
  - unfold unread at 2. fold len1 bb1. rewrite Esplit, <- app_assoc.
    rewrite skipn_app, length_bits, Nat.sub_diag. cbn [skipn].
    rewrite skipn_all2 by (rewrite length_bits; lia). cbn [app].
    unfold unread. destruct r1. reflexivity.
Qed.

(** [(readUint(n) << shift) >> shift] is computed in [uint_fast32_t]: both
    shifts are logical, and the value comes back as it was. *)
Lemma readSignedInt_spec (NDEBUG : bool) (n : Z) (r : FlacLowLevelInput.t) :
  reader_ok r -> 0 <= n <= 32 ->
  n <= Z.of_nat (List.length (unread r)) ->
  exists r',
    FlacLowLevelInput.readSignedInt NDEBUG n r
    = (Ok (let v := value (firstn (Z.to_nat n) (unread r)) in
           if n =? 32 then int_fast32_t v else v), r') /\
    FlacLowLevelInput.readUint NDEBUG n r
    = (Ok (value (firstn (Z.to_nat n) (unread r))), r') /\
    reader_ok r' /\
    unread r' = skipn (Z.to_nat n) (unread r).
Proof.
  intros Hok Hn Hbits.
  destruct (readUint_bits NDEBUG n r Hok Hn Hbits) as (r' & E & Hok' & Hun').
  exists r'. split; [|split; [exact E | split; assumption]].
  unfold FlacLowLevelInput.readSignedInt.
  assert (En : uint_fast8_t n = n) by (apply uint_small; unfold fast8_bits; lia).
  rewrite En. destruct (Z.ltb_spec 32 n); [lia|]. cbv zeta.
  rewrite (bind_ok _ _ _ _ _ E). unfold ret. f_equal. f_equal.
  set (v := value (firstn (Z.to_nat n) (unread r))).
  assert (Hv : 0 <= v < 2 ^ n).
  { pose proof (value_range (firstn (Z.to_nat n) (unread r))) as Hr.
    rewrite length_firstn, Nat.min_l in Hr by lia. rewrite Z2Nat.id in Hr by lia. exact Hr. }
  assert (Es : int_fast32_t (32 - n) = 32 - n).
  { unfold int_fast32_t. apply sint_small; unfold fast32_bits; lia. }
  rewrite Es.
  assert (Eshift : Z.shiftr (uint_fast32_t (Z.shiftl v (32 - n))) (32 - n) = v).
  { rewrite Z.shiftl_mul_pow2 by lia.
    assert (Hp : 0 < 2 ^ (32 - n)) by (apply Z.pow_pos_nonneg; lia).
    assert (E32 : 2 ^ 32 = 2 ^ n * 2 ^ (32 - n)).
    { rewrite <- Z.pow_add_r by lia. f_equal. lia. }
    unfold uint_fast32_t. rewrite uint_small by (unfold fast32_bits; nia).
    rewrite Z.shiftr_div_pow2 by lia. apply Z.div_mul. lia. }
  rewrite Eshift.
  destruct (Z.eqb_spec n 32); [reflexivity|].
  unfold int_fast32_t. apply sint_small; [unfold fast32_bits; lia|].
  unfold fast32_bits. change (2 ^ (32 - 1)) with (2 ^ 31).
  assert (2 ^ n <= 2 ^ 31) by (apply Z.pow_le_mono_r; lia). lia.
Qed.

(** * common/StreamInfo.cpp: [checkFrame] *)

Lemma uint_of_int32 (w x : Z) :
  32 <= w -> - 2 ^ 31 <= x < 2 ^ 31 ->
  uint w x = if x <? 0 then x + 2 ^ w else x.
Proof.
  intros Hw Hx. unfold uint.
  assert (2 ^ 32 <= 2 ^ w) by (apply Z.pow_le_mono_r; lia).
  destruct (Z.ltb_spec x 0).
  - replace x with (x + 2 ^ w + (-1) * 2 ^ w) at 1 by lia.
    rewrite Z.mod_add by lia. apply Z.mod_small. lia.
  - apply Z.mod_small. lia.
Qed.

Lemma checkFrame_spec (s : StreamInfo.t) (meta : FrameInfo.t) :
  check_frame_typed s meta ->
  (StreamInfo.checkFrame s meta = Ok tt <-> frame_fits s meta) /\
  (StreamInfo.checkFrame s meta <> Ok tt ->
   exists what, StreamInfo.checkFrame s meta = Throw (DataFormatException what)).
Proof.
  intros (Hsr & Hbs & Hfs & Hssr & Hns & Hmin & Hmax).
  unfold StreamInfo.checkFrame, frame_fits.
  unfold uint_fast32_t, uint_fast64_t, fast32_bits, fast64_bits.
  rewrite (uint_of_int32 32 (FrameInfo.sampleRate meta)) by lia.
  rewrite (uint_of_int32 64 (FrameInfo.blockSize meta)) by lia.
  rewrite (uint_of_int32 32 (FrameInfo.frameSize meta)) by lia.
  destruct (Z.ltb_spec (FrameInfo.sampleRate meta) 0);
  destruct (Z.ltb_spec (FrameInfo.blockSize meta) 0);
  destruct (Z.ltb_spec (FrameInfo.frameSize meta) 0).
  all: repeat first
    [ match goal with
      | |- (Ok tt = Ok tt <-> _) /\ _ =>
          split; [split; [intros _; repeat split; lia | reflexivity] | congruence]
      | |- (Throw _ = Ok tt <-> _) /\ _ =>
          split; [split; [discriminate | lia] | intros _; eexists; reflexivity]
      | |- ((if ?c then _ else _) = Ok tt <-> _) /\ _ =>
          match c with
          | context [Z.eqb ?a ?b] => destruct (Z.eqb_spec a b)
          | context [Z.ltb ?a ?b] => destruct (Z.ltb_spec a b)
          end; cbn [negb andb]
      end ].
Qed.

(** * encode/BitOutputStream.cpp: [getByteCount], [alignToByte], [close] *)

Lemma flush_byte_count (NDEBUG : bool) (w : BitOutputStream.t) :
  writer_ok w -> 8 <= BitOutputStream.bitBufferLen w -> counted w ->
  counted (snd (BitOutputStream.flush_byte NDEBUG w)).
Proof.
  intros [Hlen H8 H16 Hout] Hge Hc. unfold counted in *.
  destruct w as [o bb len bc c8 c16].
  cbn [BitOutputStream.bitBufferLen BitOutputStream.crc8 BitOutputStream.crc16
       BitOutputStream.out BitOutputStream.byteCount] in *.
  unfold BitOutputStream.flush_byte. mred. wred.
  set (b := uint_fast8_t (Z.land (Z.shiftr bb (uint_fast8_t (len - 8))) 255)).
  assert (Hb : 0 <= b < 2 ^ 8) by (apply (uint_range 8); lia).
  subst c8 c16. rewrite !Z.lxor_0_l.
  assert (Ec16 : uint_fast16_t (Z.shiftl b 8) = Z.shiftl b 8).
  { apply uint_small. rewrite Z.shiftl_mul_pow2 by lia. unfold fast16_bits. lia. }
  rewrite Ec16.
  assert (H16' : 0 <= Z.shiftl b 8 < 2 ^ 16)
    by (rewrite Z.shiftl_mul_pow2 by lia; lia).
  match goal with |- context [repeatM 8 _ ?w0] =>
    destruct (repeat_crc_shift NDEBUG 8 w0 H16') as [E _] end.
  rewrite E. cbn [snd]. wred.
  rewrite length_app. cbn [List.length]. rewrite Hc.
  unfold uint_fast64_t, uint, fast64_bits.
  rewrite Zplus_mod_idemp_l. f_equal. lia.
Qed.

Lemma flush_loop_count (NDEBUG : bool) (fuel : nat) (w : BitOutputStream.t) :
  writer_ok w -> counted w ->
  counted (snd (BitOutputStream.flush_loop NDEBUG fuel w)).
Proof.
  revert w. induction fuel as [|fuel IH]; intros w Hok Hc;
    cbn [BitOutputStream.flush_loop]; mred;
    destruct (Z.leb_spec 8 (BitOutputStream.bitBufferLen w)) as [Hge|Hlt];
    try exact Hc.
  destruct (flush_byte_spec NDEBUG w Hok Hge) as (w1 & E1 & Hok1 & _).
  pose proof (flush_byte_count NDEBUG w Hok Hge Hc) as Hc1.
  rewrite E1 in Hc1. cbn [snd] in Hc1.
  rewrite (bind_ok _ _ _ _ _ E1). apply IH; assumption.
Qed.

Lemma flush_count (NDEBUG : bool) (w : BitOutputStream.t) :
  writer_ok w -> counted w -> counted (snd (BitOutputStream.flush NDEBUG w)).
Proof.
  intros Hok Hc.
  pose proof (wok_len w Hok) as Hlen.
  pose proof (flush_loop_count NDEBUG (Z.to_nat (BitOutputStream.bitBufferLen w)) w Hok Hc)
    as Hc1.
  destruct (flush_loop_spec NDEBUG (Z.to_nat (BitOutputStream.bitBufferLen w)) w Hok
              ltac:(lia)) as (w1 & E1 & Hok1 & _ & _ & Hlen1).
  rewrite E1 in Hc1. cbn [snd] in Hc1.
  unfold BitOutputStream.flush. mred. rewrite (bind_ok _ _ _ _ _ E1). mred.
  assert (0 <= BitOutputStream.bitBufferLen w1 < 8)
    by (rewrite Hlen1; apply Z.mod_pos_bound; lia).
  rewrite assert_true by (apply andb_true_intro; split; apply Z.leb_le; lia).
  exact Hc1.
Qed.

Lemma writeInt_count (NDEBUG : bool) (n v : Z) (w : BitOutputStream.t) :
  writer_ok w -> 0 <= n <= 32 -> counted w ->
  counted (snd (BitOutputStream.writeInt NDEBUG n v w)).
Proof.
  intros Hok Hn Hc.
  unfold BitOutputStream.writeInt.
  assert (En : int_fast8_t n = n)
    by (apply sint_small; unfold fast8_bits; lia).
  rewrite En.
  destruct (Z.ltb_spec n 0); [lia|]. destruct (Z.ltb_spec 32 n); [lia|].
  cbn [orb]. mred.
  assert (Hpre : exists w1,
    when (64 <? BitOutputStream.bitBufferLen w + n)
      (BitOutputStream.flush NDEBUG ;;;
       len <- gets BitOutputStream.bitBufferLen ;;
       assert NDEBUG (len + n <=? 64)) w = (Ok tt, w1) /\
    writer_ok w1 /\ counted w1 /\
    BitOutputStream.bitBufferLen w1 + n <= 64).
  { pose proof (wok_len w Hok).
    unfold when.
    destruct (Z.ltb_spec 64 (BitOutputStream.bitBufferLen w + n)).
    - destruct (flush_spec NDEBUG w Hok) as (w1 & E1 & Hok1 & Hw1 & Hbb1 & Hlen1).
      pose proof (flush_count NDEBUG w Hok Hc) as Hc1. rewrite E1 in Hc1. cbn [snd] in Hc1.
      exists w1. rewrite (bind_ok _ _ _ _ _ E1). mred.
      assert (BitOutputStream.bitBufferLen w1 < 8)
        by (rewrite Hlen1; apply Z.mod_pos_bound; lia).
      rewrite assert_true by (apply Z.leb_le; lia).
      split; [reflexivity|]. split; [exact Hok1|]. split; [exact Hc1 | lia].
    - exists w. split; [reflexivity|]. split; [exact Hok|]. split; [exact Hc | lia]. }
  destruct Hpre as (w1 & E1 & Hok1 & Hc1 & Hsum).
  rewrite (bind_ok _ _ _ _ _ E1). mred.
  destruct Hok1 as [Hlen H8 H16 Hout].
  destruct w1 as [o bb len bc c8 c16]. unfold counted in *.
  cbn [BitOutputStream.bitBufferLen BitOutputStream.crc8 BitOutputStream.crc16
       BitOutputStream.out BitOutputStream.byteCount] in *.
  wred.
  assert (El : uint_fast8_t (len + n) = len + n)
    by (apply uint_small; unfold fast8_bits; lia).
  rewrite El.
  rewrite assert_true by (apply andb_true_intro; split; apply Z.leb_le; lia).
  cbn [snd]. wred. exact Hc1.
Qed.

Lemma length_written (w : BitOutputStream.t) :
  0 <= BitOutputStream.bitBufferLen w ->
  Z.of_nat (List.length (written w))
  = 8 * Z.of_nat (List.length (BitOutputStream.out w)) + BitOutputStream.bitBufferLen w.
Proof.
  intros Hlen. unfold written.
  rewrite length_app, length_bytes_bits, length_bits. lia.
Qed.

(** [getByteCount()] is the number of whole bytes written so far. *)
Lemma getByteCount_spec (w : BitOutputStream.t) :
  writer_ok w -> counted w ->
  BitOutputStream.getByteCount w
  = (Ok ((Z.of_nat (List.length (written w)) / 8) mod 2 ^ 64), w).
Proof.
  intros Hok Hc. pose proof (wok_len w Hok) as Hlen.
  unfold BitOutputStream.getByteCount. mred. unfold ret. f_equal. f_equal.
  rewrite length_written by lia. rewrite Hc.
  unfold uint_fast64_t, uint, fast64_bits.
  rewrite Zplus_mod_idemp_l. f_equal.
  rewrite Z.mul_comm, Z.div_add_l by lia. reflexivity.
Qed.

(** [alignToByte()] appends the zero bits that are missing to a whole
    number of bytes. *)
Lemma alignToByte_spec (NDEBUG : bool) (w : BitOutputStream.t) :
  writer_ok w ->
  exists w',
    BitOutputStream.alignToByte NDEBUG w = (Ok tt, w') /\
    writer_ok w' /\
    written w'
    = written w
      ++ repeat false (Z.to_nat ((- Z.of_nat (List.length (written w))) mod 8)) /\
    Z.of_nat (List.length (written w')) mod 8 = 0.
Proof.
  intros Hok. pose proof (wok_len w Hok) as Hlen.
  unfold BitOutputStream.alignToByte. mred.
  set (len := BitOutputStream.bitBufferLen w) in *.
  assert (Ek : Z.rem (64 - len) 8 = (- Z.of_nat (List.length (written w))) mod 8).
  { rewrite Z.rem_mod_nonneg by lia.
    rewrite length_written by (fold len; lia). fold len.
    replace (64 - len) with (- (8 * Z.of_nat (List.length (BitOutputStream.out w)) + len)
                             + (8 + Z.of_nat (List.length (BitOutputStream.out w))) * 8) by lia.
    apply Z.mod_add. lia. }
  set (k := (- Z.of_nat (List.length (written w))) mod 8) in *.
  assert (Hk : 0 <= k < 8) by (apply Z.mod_pos_bound; lia).
  rewrite Ek.
  assert (E8 : int_fast8_t k = k) by (apply sint_small; unfold fast8_bits; lia).
  rewrite E8.
  destruct (writeInt_spec NDEBUG k 0 w Hok ltac:(lia)) as (w' & E & Hok' & Hw').
  exists w'. split; [exact E|]. split; [exact Hok'|].
  assert (Ez : bits (Z.to_nat k) 0 = repeat false (Z.to_nat k)).
  { generalize (Z.to_nat k). intros m. induction m as [|m IH]; [reflexivity|].
    cbn [bits repeat]. rewrite Z.bits_0, IH. reflexivity. }
  split; [rewrite Hw', Ez; reflexivity|].
  rewrite Hw', length_app, length_bits, Nat2Z.inj_add, Z2Nat.id by lia.
  unfold k. rewrite Zplus_mod_idemp_r.
  replace (Z.of_nat (List.length (written w)) + - Z.of_nat (List.length (written w)))
    with 0 by lia. reflexivity.
Qed.

Lemma checkByteAligned_throw (w : BitOutputStream.t) :
  0 <= BitOutputStream.bitBufferLen w -> BitOutputStream.bitBufferLen w mod 8 <> 0 ->
  BitOutputStream.checkByteAligned w = (Throw (runtime_error "Not a byte boundary"), w).
Proof.
  intros Hlen Hm. unfold BitOutputStream.checkByteAligned, bind, gets.
  rewrite Z.rem_mod_nonneg by lia.
  destruct (Z.eqb_spec (BitOutputStream.bitBufferLen w mod 8) 0); [contradiction|].
  reflexivity.
Qed.

(** [close()] delivers what was written when it is a whole number of
    bytes, and otherwise throws before anything is flushed. *)
Lemma close_spec (NDEBUG : bool) (w : BitOutputStream.t) :
  writer_ok w ->
  (Z.of_nat (List.length (written w)) mod 8 = 0 ->
   exists w',
     BitOutputStream.close NDEBUG w = (Ok tt, w') /\
     bytes_bits (BitOutputStream.out w') = written w /\
     Forall is_byte (BitOutputStream.out w')) /\
  (Z.of_nat (List.length (written w)) mod 8 <> 0 ->
   BitOutputStream.close NDEBUG w
   = (Throw (runtime_error "Not a byte boundary"), w)).
Proof.
  intros Hok. pose proof (wok_len w Hok) as Hlen.
  pose proof (aligned_by_written w Hok) as Ha.
  unfold BitOutputStream.close. split; intros Hm.
  - rewrite (bind_ok _ _ _ _ _ (checkByteAligned_ok w Hok ltac:(lia))).
    assert (Hk : exists k, List.length (written w) = (8 * k)%nat).
    { exists (Z.to_nat (Z.of_nat (List.length (written w)) / 8)).
      pose proof (Z.div_mod (Z.of_nat (List.length (written w))) 8 ltac:(lia)).
      assert (0 <= Z.of_nat (List.length (written w)) / 8) by (apply Z.div_pos; lia).
      lia. }
    destruct Hk as [k Hk].
    destruct (flush_whole_bytes NDEBUG w k Hok Hk) as (w' & E & Hb & Hall & _).
    exists w'. split; [exact E|]. split; assumption.
  - apply bind_throw. apply checkByteAligned_throw; lia.
Qed.

(** * common/SeekTable.cpp: [write] and the constructor *)

Lemma bits_int32 (n : nat) (x : Z) :
  (n <= 32)%nat -> bits n (int_fast32_t x) = bits n x.
Proof.
  intros Hn. apply bits_ext. intros i Hi.
  unfold int_fast32_t. apply testbit_sint_low. unfold fast32_bits. lia.
Qed.

Lemma bits_64_halves (x : Z) :
  bits 32 (int_fast32_t (Z.shiftr x 32)) ++ bits 32 (int_fast32_t (Z.shiftr x 0))
  = bits 64 x.
Proof.
  rewrite !bits_int32 by lia. rewrite Z.shiftr_0_r.
  change 64%nat with (32 + 32)%nat. rewrite bits_app. reflexivity.
Qed.

Lemma write_points_spec (NDEBUG : bool) (points : SeekTable.t) (w : BitOutputStream.t) :
  writer_ok w ->
  exists w',
    SeekTable.write_points NDEBUG points w = (Ok tt, w') /\
    writer_ok w' /\
    written w' = written w ++ points_bits points.
Proof.
  revert w. induction points as [|p points IH]; intros w Hok.
  - exists w. split; [reflexivity|]. split; [exact Hok|].
    cbn. rewrite app_nil_r. reflexivity.
  - cbn [SeekTable.write_points]. unfold SeekTable.writeInt.
    destruct (writeInt_spec NDEBUG 32 (int_fast32_t (Z.shiftr (SeekTable.sampleOffset p) 32))
                w Hok ltac:(lia)) as (w1 & E1 & Hok1 & Hw1).
    rewrite (bind_ok _ _ _ _ _ E1).
    destruct (writeInt_spec NDEBUG 32 (int_fast32_t (Z.shiftr (SeekTable.sampleOffset p) 0))
                w1 Hok1 ltac:(lia)) as (w2 & E2 & Hok2 & Hw2).
    rewrite (bind_ok _ _ _ _ _ E2).
    destruct (writeInt_spec NDEBUG 32 (int_fast32_t (Z.shiftr (SeekTable.fileOffset p) 32))
                w2 Hok2 ltac:(lia)) as (w3 & E3 & Hok3 & Hw3).
    rewrite (bind_ok _ _ _ _ _ E3).
    destruct (writeInt_spec NDEBUG 32 (int_fast32_t (Z.shiftr (SeekTable.fileOffset p) 0))
                w3 Hok3 ltac:(lia)) as (w4 & E4 & Hok4 & Hw4).
    rewrite (bind_ok _ _ _ _ _ E4).
    destruct (writeInt_spec NDEBUG 16 (SeekTable.frameSamples p) w4 Hok4 ltac:(lia))
      as (w5 & E5 & Hok5 & Hw5).
    rewrite (bind_ok _ _ _ _ _ E5).
    destruct (IH w5 Hok5) as (w6 & E6 & Hok6 & Hw6).
    exists w6. split; [exact E6|]. split; [exact Hok6|].
    rewrite Hw6, Hw5, Hw4, Hw3, Hw2, Hw1.
    change (Z.to_nat 32) with 32%nat. change (Z.to_nat 16) with 16%nat.
    change (points_bits (p :: points)) with (point_bits p ++ points_bits points).
    unfold point_bits.
    rewrite <- (bits_64_halves (SeekTable.sampleOffset p)).
    rewrite <- (bits_64_halves (SeekTable.fileOffset p)).
    rewrite <- !app_assoc. reflexivity.
Qed.

Lemma seek_write_spec (NDEBUG : bool) (points : SeekTable.t) (last : bool)
    (w : BitOutputStream.t) :
  writer_ok w ->
  Z.of_nat (List.length points) <= 932067 ->
  SeekTable.checkValues points = Ok tt ->
  exists w',
    SeekTable.write NDEBUG points last w = (Ok tt, w') /\
    writer_ok w' /\
    written w'
    = written w ++ seek_header_bits last (List.length points) ++ points_bits points.
Proof.
  intros Hok Hn Hcheck. unfold SeekTable.write.
  change (Z.quot (Z.shiftl 1 24 - 1) 18) with 932067.
  destruct (Z.ltb_spec 932067 (Z.of_nat (List.length points))); [lia|].
  rewrite Hcheck. unfold SeekTable.writeInt.
  change (bind (lift (Ok tt)) ?k w) with (k tt w). cbv beta.
  destruct (writeInt_spec NDEBUG 1 (if last then 1 else 0) w Hok ltac:(lia))
    as (w1 & E1 & Hok1 & Hw1).
  rewrite (bind_ok _ _ _ _ _ E1).
  destruct (writeInt_spec NDEBUG 7 3 w1 Hok1 ltac:(lia)) as (w2 & E2 & Hok2 & Hw2).
  rewrite (bind_ok _ _ _ _ _ E2).
  destruct (writeInt_spec NDEBUG 24 (uint 64 (Z.of_nat (List.length points) * 18)) w2 Hok2
              ltac:(lia)) as (w3 & E3 & Hok3 & Hw3).
  rewrite (bind_ok _ _ _ _ _ E3).
  destruct (write_points_spec NDEBUG points w3 Hok3) as (w4 & E4 & Hok4 & Hw4).
  exists w4. split; [exact E4|]. split; [exact Hok4|].
  rewrite Hw4, Hw3, Hw2, Hw1. unfold seek_header_bits.
  rewrite uint_small by lia.
  rewrite <- !app_assoc. reflexivity.
Qed.

Lemma seek_write_too_many (NDEBUG : bool) (points : SeekTable.t) (last : bool)
    (w : BitOutputStream.t) :
  932067 < Z.of_nat (List.length points) ->
  SeekTable.write NDEBUG points last w
  = (Throw (runtime_error "Too many seek points"), w).
Proof.
  intros Hn. unfold SeekTable.write.
  change (Z.quot (Z.shiftl 1 24 - 1) 18) with 932067.
  destruct (Z.ltb_spec 932067 (Z.of_nat (List.length points))); [reflexivity | lia].
Qed.

Lemma seek_write_invalid (NDEBUG : bool) (points : SeekTable.t) (last : bool)
    (w : BitOutputStream.t) (e : exn) :
  SeekTable.checkValues points = Throw e ->
  Z.of_nat (List.length points) <= 932067 ->
  SeekTable.write NDEBUG points last w = (Throw e, w).
Proof.
  intros Hc Hn. unfold SeekTable.write.
  change (Z.quot (Z.shiftl 1 24 - 1) 18) with 932067.
  destruct (Z.ltb_spec 932067 (Z.of_nat (List.length points))); [lia|].
  rewrite Hc. reflexivity.
Qed.

(** ** The big-endian conversions of [Utilities.h] *)

Lemma lor_add (a b p : Z) :
  0 <= p -> a mod 2 ^ p = 0 -> 0 <= b < 2 ^ p -> Z.lor a b = a + b.
Proof.
  intros Hp Ha Hb.
  assert (E : a = Z.shiftl (a / 2 ^ p) p).
  { rewrite Z.shiftl_mul_pow2 by lia.
    pose proof (Z.div_mod a (2 ^ p) ltac:(lia)). lia. }
  rewrite E at 1. rewrite lor_disjoint by lia.
  pose proof (Z.div_mod a (2 ^ p) ltac:(lia)). lia.
Qed.

Lemma value_bytes_cons (b : Z) (rest : list Z) :
  value (bytes_bits (b :: rest))
  = (b mod 2 ^ 8) * 2 ^ (8 * Z.of_nat (List.length rest)) + value (bytes_bits rest).
Proof.
  unfold bytes_bits. cbn [flat_map]. fold (bytes_bits rest).
  rewrite value_app, value_bits, length_bytes_bits.
  f_equal. f_equal. f_equal. lia.
Qed.

Lemma shifted_byte (x s : Z) :
  0 <= s <= 56 ->
  uint_fast64_t (Z.shiftl (Z.land x 255) s) = (x mod 2 ^ 8) * 2 ^ s.
Proof.
  intros Hs. change 255 with (Z.ones 8). rewrite Z.land_ones by lia.
  rewrite Z.shiftl_mul_pow2 by lia.
  apply uint_small. unfold fast64_bits.
  pose proof (Z.mod_pos_bound x (2 ^ 8) ltac:(lia)).
  assert (2 ^ s <= 2 ^ 56) by (apply Z.pow_le_mono_r; lia).
  assert (0 < 2 ^ s) by (apply Z.pow_pos_nonneg; lia).
  nia.
Qed.

Lemma convertToUint64_value (l rest : list Z) :
  List.length l = 8%nat ->
  Utilities.convertToUint64 (l ++ rest) = value (bytes_bits l).
Proof.
  intros Hl.
  destruct l as [|b0 [|b1 [|b2 [|b3 [|b4 [|b5 [|b6 [|b7 [|? ?]]]]]]]]]; try discriminate.
  unfold Utilities.convertToUint64. cbn [app nth].
  rewrite !value_bytes_cons. cbn [List.length].
  change (value (bytes_bits [])) with 0.
  rewrite !shifted_byte by lia.
  replace (uint_fast64_t (Z.land b7 255)) with ((b7 mod 2 ^ 8) * 2 ^ 0)
    by (rewrite <- (shifted_byte b7 0) by lia; rewrite Z.shiftl_0_r; reflexivity).
  pose proof (Z.mod_pos_bound b0 (2 ^ 8) ltac:(lia)).
  pose proof (Z.mod_pos_bound b1 (2 ^ 8) ltac:(lia)).
  pose proof (Z.mod_pos_bound b2 (2 ^ 8) ltac:(lia)).
  pose proof (Z.mod_pos_bound b3 (2 ^ 8) ltac:(lia)).
  pose proof (Z.mod_pos_bound b4 (2 ^ 8) ltac:(lia)).
  pose proof (Z.mod_pos_bound b5 (2 ^ 8) ltac:(lia)).
  pose proof (Z.mod_pos_bound b6 (2 ^ 8) ltac:(lia)).
  pose proof (Z.mod_pos_bound b7 (2 ^ 8) ltac:(lia)).
  set (c0 := b0 mod 2 ^ 8) in *. set (c1 := b1 mod 2 ^ 8) in *.
  set (c2 := b2 mod 2 ^ 8) in *. set (c3 := b3 mod 2 ^ 8) in *.
  set (c4 := b4 mod 2 ^ 8) in *. set (c5 := b5 mod 2 ^ 8) in *.
  set (c6 := b6 mod 2 ^ 8) in *. set (c7 := b7 mod 2 ^ 8) in *.
  rewrite (lor_add (c0 * 2 ^ 56) (c1 * 2 ^ 48) 56);
    [| lia | apply Z.mod_mul; lia | lia].
  rewrite (lor_add _ (c2 * 2 ^ 40) 48);
    [| lia
     | replace (c0 * 2 ^ 56 + c1 * 2 ^ 48) with ((c0 * 2 ^ 8 + c1) * 2 ^ 48) by lia;
       apply Z.mod_mul; lia
     | lia].
  rewrite (lor_add _ (c3 * 2 ^ 32) 40);
    [| lia
     | replace (c0 * 2 ^ 56 + c1 * 2 ^ 48 + c2 * 2 ^ 40)
         with ((c0 * 2 ^ 16 + c1 * 2 ^ 8 + c2) * 2 ^ 40) by lia;
       apply Z.mod_mul; lia
     | lia].
  rewrite (lor_add _ (c4 * 2 ^ 24) 32);
    [| lia
     | replace (c0 * 2 ^ 56 + c1 * 2 ^ 48 + c2 * 2 ^ 40 + c3 * 2 ^ 32)
         with ((c0 * 2 ^ 24 + c1 * 2 ^ 16 + c2 * 2 ^ 8 + c3) * 2 ^ 32) by lia;
       apply Z.mod_mul; lia
     | lia].
  rewrite (lor_add _ (c5 * 2 ^ 16) 24);
    [| lia
     | replace (c0 * 2 ^ 56 + c1 * 2 ^ 48 + c2 * 2 ^ 40 + c3 * 2 ^ 32 + c4 * 2 ^ 24)
         with ((c0 * 2 ^ 32 + c1 * 2 ^ 24 + c2 * 2 ^ 16 + c3 * 2 ^ 8 + c4) * 2 ^ 24) by lia;
       apply Z.mod_mul; lia
     | lia].
  rewrite (lor_add _ (c6 * 2 ^ 8) 16);
    [| lia
     | replace (c0 * 2 ^ 56 + c1 * 2 ^ 48 + c2 * 2 ^ 40 + c3 * 2 ^ 32 + c4 * 2 ^ 24
                + c5 * 2 ^ 16)
         with ((c0 * 2 ^ 40 + c1 * 2 ^ 32 + c2 * 2 ^ 24 + c3 * 2 ^ 16 + c4 * 2 ^ 8 + c5)
               * 2 ^ 16) by lia;
       apply Z.mod_mul; lia
     | lia].
  rewrite (lor_add _ (c7 * 2 ^ 0) 8);
    [| lia
     | replace (c0 * 2 ^ 56 + c1 * 2 ^ 48 + c2 * 2 ^ 40 + c3 * 2 ^ 32 + c4 * 2 ^ 24
                + c5 * 2 ^ 16 + c6 * 2 ^ 8)
         with ((c0 * 2 ^ 48 + c1 * 2 ^ 40 + c2 * 2 ^ 32 + c3 * 2 ^ 24 + c4 * 2 ^ 16
                + c5 * 2 ^ 8 + c6) * 2 ^ 8) by lia;
       apply Z.mod_mul; lia
     | lia].
  cbn [Z.of_nat Pos.of_succ_nat Pos.succ Z.mul Pos.mul Pos.add].
  lia.
Qed.

Lemma convertToUint16_value (l rest : list Z) :
  List.length l = 2%nat ->
  Utilities.convertToUint16 (l ++ rest) = value (bytes_bits l).
Proof.
  intros Hl. destruct l as [|b0 [|b1 [|? ?]]]; try discriminate.
  unfold Utilities.convertToUint16. cbn [app nth].
  rewrite !value_bytes_cons. cbn [List.length].
  change (value (bytes_bits [])) with 0.
  change 255 with (Z.ones 8). rewrite !Z.land_ones by lia.
  pose proof (Z.mod_pos_bound b0 (2 ^ 8) ltac:(lia)).
  pose proof (Z.mod_pos_bound b1 (2 ^ 8) ltac:(lia)).
  rewrite lor_disjoint by lia.
  unfold uint_fast16_t. rewrite uint_small by (unfold fast16_bits; lia).
  cbn [Z.of_nat Pos.of_succ_nat Pos.succ Z.mul Pos.mul Pos.add]. lia.
Qed.

(** ** The constructor reads back what [write] wrote *)

Lemma length_point_bits (p : SeekTable.SeekPoint) :
  List.length (point_bits p) = 144%nat.
Proof. unfold point_bits. rewrite !length_app, !length_bits. reflexivity. Qed.

Lemma length_points_bits (points : SeekTable.t) :
  List.length (points_bits points) = (144 * List.length points)%nat.
Proof.
  induction points as [|p points IH]; [reflexivity|].
  change (points_bits (p :: points)) with (point_bits p ++ points_bits points).
  rewrite length_app, length_point_bits, IH. cbn [List.length]. lia.
Qed.

Lemma skipn_skipn_app {A} (n m : nat) (h t : list A) :
  List.length h = n -> skipn (n + m) (h ++ t) = skipn m t.
Proof.
  intros <-. rewrite skipn_app.
  rewrite skipn_all2 by lia. cbn [app]. f_equal. lia.
Qed.

(** The point the constructor builds from 18 bytes. *)
Lemma parse_point (p : SeekTable.SeekPoint) (h t : list Z) :
  seek_point_typed p -> List.length h = 18%nat ->
  bytes_bits h = point_bits p ->
  SeekTable.mkPoint (Utilities.convertToUint64 (skipn 0 (h ++ t)))
                    (Utilities.convertToUint64 (skipn 8 (h ++ t)))
                    (Utilities.convertToUint16 (skipn 16 (h ++ t))) = p.
Proof.
  intros (Hso & Hfo & Hfs) Hl Hbits.
  unfold fast64_bits in Hso, Hfo. unfold fast16_bits in Hfs.
  rewrite <- (firstn_skipn 8 h) in Hbits |- *.
  rewrite <- (firstn_skipn 8 (skipn 8 h)) in Hbits |- *.
  set (h1 := firstn 8 h) in *. set (h2 := firstn 8 (skipn 8 h)) in *.
  set (h3 := skipn 8 (skipn 8 h)) in *.
  assert (L1 : List.length h1 = 8%nat) by (unfold h1; rewrite length_firstn; lia).
  assert (L2 : List.length h2 = 8%nat)
    by (unfold h2; rewrite length_firstn, length_skipn; lia).
  assert (L3 : List.length h3 = 2%nat) by (unfold h3; rewrite !length_skipn; lia).
  rewrite !bytes_bits_app in Hbits. unfold point_bits in Hbits.
  apply app_eq_by_length in Hbits; [|rewrite length_bytes_bits, length_bits; lia].
  destruct Hbits as [B1 Hbits].
  apply app_eq_by_length in Hbits; [|rewrite length_bytes_bits, length_bits; lia].
  destruct Hbits as [B2 B3].
  rewrite <- !app_assoc.
  change (skipn 0 (h1 ++ h2 ++ h3 ++ t)) with (h1 ++ h2 ++ h3 ++ t).
  rewrite (convertToUint64_value h1 _ L1), B1, value_bits.
  replace (skipn 8 (h1 ++ h2 ++ h3 ++ t)) with (h2 ++ h3 ++ t)
    by (rewrite <- (Nat.add_0_r 8), (skipn_skipn_app 8 0 h1 _ L1); reflexivity).
  rewrite (convertToUint64_value h2 _ L2), B2, value_bits.
  replace (skipn 16 (h1 ++ h2 ++ h3 ++ t)) with (h3 ++ t).
  2:{ rewrite (app_assoc h1 h2). rewrite <- (Nat.add_0_r 16).
      rewrite (skipn_skipn_app 16 0 (h1 ++ h2)); [reflexivity|].
      rewrite length_app. lia. }
  rewrite (convertToUint16_value h3 _ L3), B3, value_bits.
  destruct p as [so fo fs]. cbn [SeekTable.sampleOffset SeekTable.fileOffset
                                  SeekTable.frameSamples] in *.
  rewrite !Z.mod_small by (cbn; lia). reflexivity.
Qed.

Lemma length_of_points_bits (points : SeekTable.t) (b : list Z) :
  bytes_bits b = points_bits points ->
  List.length b = (18 * List.length points)%nat.
Proof.
  intros Hbits. apply (f_equal (@List.length bool)) in Hbits.
  rewrite length_bytes_bits, length_points_bits in Hbits. lia.
Qed.

Lemma parse_points (points : SeekTable.t) (b : list Z) :
  Forall seek_point_typed points ->
  bytes_bits b = points_bits points ->
  map (fun k =>
         let i := Z.to_nat (18 * k) in
         SeekTable.mkPoint (Utilities.convertToUint64 (skipn i b))
                           (Utilities.convertToUint64 (skipn (i + 8) b))
                           (Utilities.convertToUint16 (skipn (i + 16) b)))
      (upto (Z.of_nat (List.length points)))
  = points.
Proof.
  intros Htyped. revert b. induction Htyped as [|p points Hp Htyped IH]; intros b Hbits.
  - reflexivity.
  - pose proof (length_of_points_bits _ _ Hbits) as Hlen. cbn [List.length] in Hlen.
    rewrite <- (firstn_skipn 18 b) in Hbits |- *.
    set (h := firstn 18 b) in *. set (t := skipn 18 b) in *.
    assert (Lh : List.length h = 18%nat) by (unfold h; rewrite length_firstn; lia).
    change (points_bits (p :: points)) with (point_bits p ++ points_bits points) in Hbits.
    rewrite bytes_bits_app in Hbits.
    apply app_eq_by_length in Hbits; [|rewrite length_bytes_bits, length_point_bits; lia].
    destruct Hbits as [Bh Bt].
    specialize (IH t Bt).
    cbn [List.length]. rewrite Nat2Z.inj_succ, <- Z.add_1_r.
    rewrite upto_succ by lia. rewrite map_cons. f_equal.
    + cbv zeta. change (Z.to_nat (18 * 0)) with 0%nat.
      change (0 + 8)%nat with 8%nat. change (0 + 16)%nat with 16%nat.
      apply parse_point; assumption.
    + rewrite map_map. rewrite <- IH at 2.
      apply map_ext_in. intros k Hk. apply in_upto in Hk. cbv zeta.
      replace (Z.to_nat (18 * (1 + k))) with (18 + Z.to_nat (18 * k))%nat by lia.
      rewrite <- !Nat.add_assoc.
      rewrite !(skipn_skipn_app 18 _ h t Lh). reflexivity.
Qed.

Lemma seek_parse_bits (points : SeekTable.t) (b : list Z) :
  Forall seek_point_typed points ->
  bytes_bits b = points_bits points ->
  SeekTable.parse b = Ok points.
Proof.
  intros Htyped Hbits.
  pose proof (parse_points points b Htyped Hbits) as Hmap.
  pose proof (length_of_points_bits _ _ Hbits) as Hlen.
  unfold SeekTable.parse. cbv zeta. rewrite Hlen.
  assert (Em : Z.rem (Z.of_nat (18 * List.length points)) 18 = 0).
  { rewrite Z.rem_mod_nonneg by lia.
    rewrite Nat2Z.inj_mul, Z.mul_comm. apply Z.mod_mul. lia. }
  assert (Ed : Z.of_nat (18 * List.length points) / 18 = Z.of_nat (List.length points)).
  { rewrite Nat2Z.inj_mul, Z.mul_comm. apply Z.div_mul. lia. }
  rewrite Em, Ed. change (negb (0 =? 0)) with false. cbv iota.
  cbv zeta in Hmap. rewrite Hmap. reflexivity.
Qed.

Lemma bits_24_bytes (x : Z) :
  bytes_bits [x / 65536; (x / 256) mod 256; x mod 256] = bits 24 x.
Proof.
  unfold bytes_bits. cbn [flat_map]. rewrite app_nil_r.
  change 24%nat with (8 + 16)%nat. rewrite bits_app.
  change 16%nat with (8 + 8)%nat at 2. rewrite bits_app.
  change (Z.of_nat 16) with 16. change (Z.of_nat 8) with 8.
  rewrite !Z.shiftr_div_pow2 by lia.
  change 256 with (2 ^ 8). rewrite !bits_mod by (cbn; lia). reflexivity.
Qed.

Lemma seek_write_emits (NDEBUG : bool) (points : SeekTable.t) (last : bool) :
  Z.of_nat (List.length points) <= 932067 ->
  SeekTable.checkValues points = Ok tt ->
  fst ((SeekTable.write NDEBUG points last ;;; BitOutputStream.flush NDEBUG)
         (BitOutputStream.create NDEBUG)) = Ok tt /\
  List.length (emitted NDEBUG (SeekTable.write NDEBUG points last))
  = (4 + 18 * List.length points)%nat /\
  Forall is_byte (emitted NDEBUG (SeekTable.write NDEBUG points last)) /\
  bytes_bits (emitted NDEBUG (SeekTable.write NDEBUG points last))
  = seek_header_bits last (List.length points) ++ points_bits points.
Proof.
  intros Hn Hcheck. unfold emitted.
  destruct (writer_create_ok NDEBUG) as [Hok0 Hw0].
  destruct (seek_write_spec NDEBUG points last _ Hok0 Hn Hcheck)
    as (w1 & E1 & Hok1 & Hw1).
  rewrite Hw0 in Hw1. cbn [app] in Hw1.
  destruct (flush_whole_bytes NDEBUG w1 (4 + 18 * List.length points) Hok1)
    as (w2 & E2 & Hbits & Hbytes & Hlen).
  { rewrite Hw1, length_app, length_points_bits.
    unfold seek_header_bits. rewrite !length_app, !length_bits. lia. }
  rewrite (bind_ok _ _ _ _ _ E1), E2. cbn [fst snd].
  rewrite Hbits, Hw1. auto.
Qed.

(** * common/StreamInfo.cpp: the constructor on arbitrary bytes *)

Lemma bits_value (l : list bool) : bits (List.length l) (value l) = l.
Proof.
  induction l as [|b l IH]; [reflexivity|].
  cbn [List.length bits]. rewrite value_cons.
  pose proof (value_range l) as Hr.
  assert (Hp : 0 < 2 ^ Z.of_nat (List.length l)) by (apply pow2_pos; lia).
  f_equal.
  - apply Z.b2z_inj. rewrite Z.testbit_spec' by lia.
    rewrite Z.div_add_l by lia. rewrite Z.div_small by lia.
    destruct b; reflexivity.
  - rewrite <- (bits_mod _ (Z.of_nat (List.length l))) by lia.
    rewrite Z.add_comm, Z.mod_add by lia. rewrite Z.mod_small by exact Hr. exact IH.
Qed.

(** The next [n] bits of a sequence are the bits of a number. *)
Lemma split_field (n : nat) (u : list bool) :
  (n <= List.length u)%nat ->
  exists v rest,
    u = bits n v ++ rest /\ 0 <= v < 2 ^ Z.of_nat n /\
    List.length rest = (List.length u - n)%nat.
Proof.
  intros Hn. exists (value (firstn n u)), (skipn n u).
  assert (L : List.length (firstn n u) = n) by (rewrite length_firstn; lia).
  split; [|split].
  - pose proof (bits_value (firstn n u)) as Hb. rewrite L in Hb. rewrite Hb.
    symmetry. apply firstn_skipn.
  - pose proof (value_range (firstn n u)) as Hv. rewrite L in Hv. exact Hv.
  - apply length_skipn.
Qed.

Lemma read_fields_cases (NDEBUG : bool) (s : StreamInfo.t) (r : FlacLowLevelInput.t) :
  payload_typed s -> md5_well_typed s ->
  reader_ok r -> unread r = payload_bits s ->
  (constructor_accepts s -> fst (StreamInfo.read_fields NDEBUG r) = Ok s) /\
  (~ constructor_accepts s ->
   exists what, fst (StreamInfo.read_fields NDEBUG r) = Throw (DataFormatException what)).
Proof.
  intros Hr [Hmd5len Hmd5] Hok Hun.
  destruct s as [minB maxB minF maxF rate chans depth samples md5].
  unfold payload_typed, constructor_accepts in *. unfold payload_bits in Hun.
  cbn [StreamInfo.minBlockSize StreamInfo.maxBlockSize StreamInfo.minFrameSize
       StreamInfo.maxFrameSize StreamInfo.sampleRate StreamInfo.numChannels
       StreamInfo.sampleDepth StreamInfo.numSamples StreamInfo.md5Hash] in *.
  destruct Hr as (HminB & HmaxB & HminF & HmaxF & Hrate & Hchans & Hdepth & Hsamples).
  unfold StreamInfo.read_fields, StreamInfo.readUint.
  destruct (readUint_field NDEBUG 16 _ _ r Hok ltac:(lia) Hun) as (r1 & E1 & Hok1 & Hun1).
  rewrite (bind_ok _ _ _ _ _ E1). clear E1.
  destruct (readUint_field NDEBUG 16 _ _ r1 Hok1 ltac:(lia) Hun1) as (r2 & E2 & Hok2 & Hun2).
  rewrite (bind_ok _ _ _ _ _ E2). clear E2.
  destruct (readUint_field NDEBUG 24 _ _ r2 Hok2 ltac:(lia) Hun2) as (r3 & E3 & Hok3 & Hun3).
  rewrite (bind_ok _ _ _ _ _ E3). clear E3.
  destruct (readUint_field NDEBUG 24 _ _ r3 Hok3 ltac:(lia) Hun3) as (r4 & E4 & Hok4 & Hun4).
  rewrite (bind_ok _ _ _ _ _ E4). clear E4.
  rewrite !Z.mod_small by lia.
  unfold uint_fast16_t, uint_fast32_t.
  rewrite !uint_small by (unfold fast16_bits, fast32_bits; lia).
  destruct (Z.ltb_spec minB 16);
    [split; [lia | intros _; eexists; reflexivity]|].
  destruct (Z.ltb_spec maxB minB);
    [split; [lia | intros _; eexists; reflexivity]|].
  destruct (negb (minF =? 0) && negb (maxF =? 0) && (maxF <? minF)) eqn:Ef.
  { split; [|intros _; eexists; reflexivity].
    intros (_ & _ & Hf & _). exfalso.
    apply andb_prop in Ef. destruct Ef as [Ef Ef3]. apply andb_prop in Ef.
    destruct Ef as [Ef1 Ef2].
    apply negb_true_iff, Z.eqb_neq in Ef1. apply negb_true_iff, Z.eqb_neq in Ef2.
    apply Z.ltb_lt in Ef3. lia. }
  assert (Hf : minF = 0 \/ maxF = 0 \/ minF <= maxF).
  { destruct (Z.eqb_spec minF 0); [lia|]. destruct (Z.eqb_spec maxF 0); [lia|].
    cbn [negb andb] in Ef. apply Z.ltb_ge in Ef. lia. }
  destruct (readUint_field NDEBUG 20 _ _ r4 Hok4 ltac:(lia) Hun4) as (r5 & E5 & Hok5 & Hun5).
  rewrite (bind_ok _ _ _ _ _ E5). clear E5.
  rewrite !Z.mod_small by lia.
  rewrite !uint_small by (unfold fast16_bits, fast32_bits; lia).
  destruct (Z.eqb_spec rate 0);
    [split; [lia | intros _; eexists; reflexivity]|].
  destruct (Z.ltb_spec 655350 rate); cbn [orb];
    [split; [lia | intros _; eexists; reflexivity]|].
  split; [intros _ | intros Hnot; exfalso; apply Hnot; lia].
  destruct (readUint_field NDEBUG 3 _ _ r5 Hok5 ltac:(lia) Hun5) as (r6 & E6 & Hok6 & Hun6).
  rewrite (bind_ok _ _ _ _ _ E6). clear E6.
  destruct (readUint_field NDEBUG 5 _ _ r6 Hok6 ltac:(lia) Hun6) as (r7 & E7 & Hok7 & Hun7).
  rewrite (bind_ok _ _ _ _ _ E7). clear E7.
  destruct (readUint_field NDEBUG 18 _ _ r7 Hok7 ltac:(lia) Hun7) as (r8 & E8 & Hok8 & Hun8).
  rewrite (bind_ok _ _ _ _ _ E8). clear E8.
  destruct (readUint_field NDEBUG 18 _ _ r8 Hok8 ltac:(lia) Hun8) as (r9 & E9 & Hok9 & Hun9).
  rewrite (bind_ok _ _ _ _ _ E9). clear E9.
  destruct (readFully_spec NDEBUG md5 r9 Hok9 Hmd5) as (r10 & E10 & Hok10 & Hun10).
  { exact Hun9. }
  rewrite Hmd5len, Z2Nat.id in E10 by (unfold StreamInfo.MD5_DIGEST_LENGTH; lia).
  rewrite (bind_ok _ _ _ _ _ E10). clear E10.
  cbn [ret fst]. f_equal.
  rewrite (Z.mod_small (chans - 1)) by lia.
  rewrite (Z.mod_small (depth - 1)) by lia.
  replace (chans - 1 + 1) with chans by lia.
  replace (depth - 1 + 1) with depth by lia.
  unfold uint_fast8_t. rewrite !uint_small by (unfold fast8_bits; lia).
  assert (Ehi : int_fast32_t (Z.shiftr samples 18) = Z.shiftr samples 18).
  { apply sint_small; [unfold fast32_bits; lia|].
    rewrite Z.shiftr_div_pow2 by lia.
    assert (0 <= samples / 2 ^ 18 < 2 ^ 18).
    { split; [apply Z.div_pos; lia | apply Z.div_lt_upper_bound; lia]. }
    unfold fast32_bits. lia. }
  assert (Elo : int_fast32_t (Z.shiftr samples 0) mod 2 ^ 18 = samples mod 2 ^ 18).
  { rewrite Z.shiftr_0_r. apply sint_mod_low. unfold fast32_bits. lia. }
  rewrite Ehi, Elo, lor_halves by lia.
  reflexivity.
Qed.

(** Every 34 bytes are the payload of a stream info within the ranges of
    the field widths. *)
Lemma payload_of_bytes (b : list Z) :
  List.length b = 34%nat -> Forall is_byte b ->
  exists s, payload_typed s /\ md5_well_typed s /\ payload_bits s = bytes_bits b.
Proof.
  intros Hlen Hb.
  rewrite <- (firstn_skipn 18 b), bytes_bits_app.
  set (md5 := skipn 18 b).
  assert (Lmd5 : List.length md5 = 16%nat) by (unfold md5; rewrite length_skipn; lia).
  assert (Hmd5 : Forall is_byte md5) by (apply Forall_skipn; exact Hb).
  assert (Lu : List.length (bytes_bits (firstn 18 b)) = 144%nat)
    by (rewrite length_bytes_bits, length_firstn; lia).
  generalize dependent (bytes_bits (firstn 18 b)). intros u Lu.
  destruct (split_field 16 u ltac:(lia)) as (v1 & u1 & -> & H1 & L1).
  destruct (split_field 16 u1 ltac:(lia)) as (v2 & u2 & -> & H2 & L2).
  destruct (split_field 24 u2 ltac:(lia)) as (v3 & u3 & -> & H3 & L3).
  destruct (split_field 24 u3 ltac:(lia)) as (v4 & u4 & -> & H4 & L4).
  destruct (split_field 20 u4 ltac:(lia)) as (v5 & u5 & -> & H5 & L5).
  destruct (split_field 3 u5 ltac:(lia)) as (v6 & u6 & -> & H6 & L6).
  destruct (split_field 5 u6 ltac:(lia)) as (v7 & u7 & -> & H7 & L7).
  destruct (split_field 18 u7 ltac:(lia)) as (v8 & u8 & -> & H8 & L8).
  destruct (split_field 18 u8 ltac:(lia)) as (v9 & u9 & -> & H9 & L9).
  assert (u9 = []) by (destruct u9; [reflexivity | cbn in *; lia]). subst u9.
  change (2 ^ Z.of_nat 16) with (2 ^ 16) in *. change (2 ^ Z.of_nat 24) with (2 ^ 24) in *.
  change (2 ^ Z.of_nat 20) with (2 ^ 20) in *. change (2 ^ Z.of_nat 3) with 8 in *.
  change (2 ^ Z.of_nat 5) with 32 in *. change (2 ^ Z.of_nat 18) with (2 ^ 18) in *.
  exists (StreamInfo.mk v1 v2 v3 v4 v5 (v6 + 1) (v7 + 1) (v8 * 2 ^ 18 + v9) md5).
  split; [|split].
  - unfold payload_typed.
    cbn [StreamInfo.minBlockSize StreamInfo.maxBlockSize StreamInfo.minFrameSize
         StreamInfo.maxFrameSize StreamInfo.sampleRate StreamInfo.numChannels
         StreamInfo.sampleDepth StreamInfo.numSamples]. lia.
  - split; [exact Lmd5 | exact Hmd5].
  - unfold payload_bits.
    cbn [StreamInfo.minBlockSize StreamInfo.maxBlockSize StreamInfo.minFrameSize
         StreamInfo.maxFrameSize StreamInfo.sampleRate StreamInfo.numChannels
         StreamInfo.sampleDepth StreamInfo.numSamples StreamInfo.md5Hash].
    rewrite !bits_int32 by lia. rewrite Z.shiftr_0_r.
    replace (v6 + 1 - 1) with v6 by lia. replace (v7 + 1 - 1) with v7 by lia.
    assert (E8 : bits 18 (Z.shiftr (v8 * 2 ^ 18 + v9) 18) = bits 18 v8).
    { f_equal. rewrite Z.shiftr_div_pow2 by lia.
      rewrite Z.div_add_l by lia. rewrite Z.div_small by lia. lia. }
    assert (E9 : bits 18 (v8 * 2 ^ 18 + v9) = bits 18 v9).
    { rewrite <- (bits_mod 18 18 (v8 * 2 ^ 18 + v9)) by lia.
      f_equal. rewrite Z.add_comm, Z.mod_add by lia. apply Z.mod_small. lia. }
    rewrite E8, E9, app_nil_r. rewrite <- !app_assoc. reflexivity.
Qed.

Lemma checkValues_small_depth (s : StreamInfo.t) :
  payload_typed s -> constructor_accepts s -> StreamInfo.sampleDepth s < 4 ->
  StreamInfo.checkValues s = Throw (runtime_error "Invalid sample depth").
Proof.
  intros (HminB & HmaxB & HminF & HmaxF & Hrate & Hchans & Hdepth & Hsamples)
         (_ & _ & _ & Hr) Hd.
  unfold StreamInfo.checkValues.
  rewrite (proj2 (shiftr_neqb_0 (StreamInfo.minBlockSize s) 16 ltac:(lia))) by lia.
  rewrite (proj2 (shiftr_neqb_0 (StreamInfo.maxBlockSize s) 16 ltac:(lia))) by lia.
  rewrite (proj2 (shiftr_neqb_0 (StreamInfo.minFrameSize s) 24 ltac:(lia))) by lia.
  rewrite (proj2 (shiftr_neqb_0 (StreamInfo.maxFrameSize s) 24 ltac:(lia))) by lia.
  rewrite (proj2 (shiftr_neqb_0 (StreamInfo.sampleRate s) 20 ltac:(lia))) by lia.
  destruct (Z.eqb_spec (StreamInfo.sampleRate s) 0); [lia|]. cbn [orb].
  destruct (Z.ltb_spec (StreamInfo.numChannels s) 1); [lia|].
  destruct (Z.ltb_spec 8 (StreamInfo.numChannels s)); [lia|]. cbn [orb].
  destruct (Z.ltb_spec (StreamInfo.sampleDepth s) 4); [reflexivity | lia].
Qed.

Lemma parse_cases (NDEBUG : bool) (b : list Z) :
  List.length b = 34%nat -> Forall is_byte b ->
  exists s,
    payload_typed s /\ md5_well_typed s /\ payload_bits s = bytes_bits b /\
    (constructor_accepts s -> StreamInfo.parse NDEBUG b = Ok s) /\
    (~ constructor_accepts s ->
     exists what, StreamInfo.parse NDEBUG b = Throw (DataFormatException what)).
Proof.
  intros Hlen Hb.
  destruct (payload_of_bytes b Hlen Hb) as (s & Ht & Hmd5 & Hbits).
  exists s. split; [exact Ht|]. split; [exact Hmd5|]. split; [exact Hbits|].
  unfold StreamInfo.parse. rewrite Hlen.
  change (negb (Z.of_nat 34 =? 34)) with false. cbv iota.
  destruct (reader_create_ok b) as [Hok Hun]; [rewrite Hlen; cbn; lia|].
  apply read_fields_cases; [exact Ht | exact Hmd5 | exact Hok |].
  rewrite Hun. symmetry. exact Hbits.
Qed.
(** * The reader: CRCs, position and the end of the data *)
(** * The table-driven CRCs of the reader are the bitwise CRCs *)

(** One bit of the division is linear over [xor] on 16-bit remainders. *)
Lemma shift_bit_lxor (w poly a b : Z) :
  0 <= w ->
  SpecCrc.shift_bit w poly (Z.lxor a b)
  = Z.lxor (SpecCrc.shift_bit w poly a) (SpecCrc.shift_bit w poly b).
Proof.
  intros Hw. unfold SpecCrc.shift_bit. cbv zeta.
  assert (E : 2 * Z.lxor a b = Z.lxor (2 * a) (2 * b)).
  { assert (Hd : forall v, 2 * v = Z.shiftl v 1)
      by (intros v; rewrite Z.shiftl_mul_pow2 by lia; lia).
    rewrite !Hd. apply Z.shiftl_lxor. }
  rewrite E, Z.lxor_spec.
  destruct (Z.testbit (2 * a) w), (Z.testbit (2 * b) w); cbn [xorb].
  - rewrite (Z.lxor_comm (2 * b) poly), Z.lxor_assoc, <- (Z.lxor_assoc poly poly).
    rewrite Z.lxor_nilpotent, Z.lxor_0_l. reflexivity.
  - rewrite !Z.lxor_assoc. f_equal. apply Z.lxor_comm.
  - rewrite Z.lxor_assoc. reflexivity.
  - reflexivity.
Qed.

Lemma iter_shift_bit_lxor (w poly : Z) (k : nat) (a b : Z) :
  0 <= w ->
  Nat.iter k (SpecCrc.shift_bit w poly) (Z.lxor a b)
  = Z.lxor (Nat.iter k (SpecCrc.shift_bit w poly) a)
           (Nat.iter k (SpecCrc.shift_bit w poly) b).
Proof.
  intros Hw. induction k as [|k IH]; [reflexivity|].
  rewrite !Nat.iter_succ, IH. apply shift_bit_lxor. exact Hw.
Qed.

Lemma crc8_next_update (c x : Z) :
  0 <= c < 2 ^ 8 -> is_byte x ->
  crc8_next c x = SpecCrc.update 8 0x107 c x.
Proof.
  intros Hc Hx. unfold is_byte in Hx.
  assert (Hall : check_from
            (fun k => crc8_next (k / 256) (k mod 256)
                      =? SpecCrc.update 8 0x107 (k / 256) (k mod 256)) (Z.to_nat 65536) 0 = true)
    by (vm_compute; reflexivity).
  pose proof (check_from_spec _ _ _ Hall (c * 256 + x) ltac:(lia)) as H.
  cbv beta in H. apply Z.eqb_eq in H.
  rewrite Z.div_add_l, Z.div_small, Z.add_0_r in H by lia.
  rewrite Z.add_comm, Z.mod_add, Z.mod_small in H by lia. exact H.
Qed.

Lemma crc16_table_entry (t : Z) :
  0 <= t < 256 ->
  nth (Z.to_nat t) FlacLowLevelInput.CRC16_TABLE 0
  = Nat.iter 8 (SpecCrc.shift_bit 16 0x18005) (t * 2 ^ 8).
Proof.
  intros Ht.
  assert (Hall : check_from
            (fun t => nth (Z.to_nat t) FlacLowLevelInput.CRC16_TABLE 0
                      =? Nat.iter 8 (SpecCrc.shift_bit 16 0x18005) (t * 2 ^ 8)) 256 0 = true)
    by (vm_compute; reflexivity).
  apply Z.eqb_eq. apply (check_from_spec _ _ _ Hall). lia.
Qed.

Lemma crc16_low_byte (lo : Z) :
  0 <= lo < 256 ->
  Nat.iter 8 (SpecCrc.shift_bit 16 0x18005) lo = lo * 2 ^ 8.
Proof.
  intros Ht.
  assert (Hall : check_from
            (fun lo => Nat.iter 8 (SpecCrc.shift_bit 16 0x18005) lo =? lo * 2 ^ 8)
            256 0 = true)
    by (vm_compute; reflexivity).
  apply Z.eqb_eq. apply (check_from_spec _ _ _ Hall). lia.
Qed.

Lemma crc16_next_update (c x : Z) :
  0 <= c < 2 ^ 16 -> is_byte x ->
  crc16_next c x = SpecCrc.update 16 0x18005 c x.
Proof.
  intros Hc Hx. unfold is_byte in Hx.
  unfold crc16_next, SpecCrc.update.
  assert (Ex : uint_fast8_t (Z.land x 255) = x).
  { change 255 with (Z.ones 8). rewrite Z.land_ones by lia.
    rewrite Z.mod_small by lia. apply uint_small. unfold fast8_bits. lia. }
  rewrite Ex.
  assert (Hhi : 0 <= Z.shiftr c 8 < 256).
  { rewrite Z.shiftr_div_pow2 by lia. split; [apply Z.div_pos; lia|].
    apply Z.div_lt_upper_bound; lia. }
  assert (Hlo : 0 <= Z.land c 255 < 256) by apply land_255.
  assert (Ht : 0 <= Z.lxor (Z.shiftr c 8) x < 256) by (apply (lxor_bound 8); lia).
  assert (Esplit : Z.lxor c (x * 2 ^ (16 - 8))
                   = Z.lxor (Z.lxor (Z.shiftr c 8) x * 2 ^ 8) (Z.land c 255)).
  { change (16 - 8) with 8. rewrite <- !Z.shiftl_mul_pow2 by lia.
    rewrite Z.shiftl_lxor.
    rewrite (Z.lxor_comm (Z.shiftl (Z.shiftr c 8) 8)), Z.lxor_assoc, Z.lxor_comm.
    f_equal.
    change 255 with (Z.ones 8). rewrite Z.land_ones by lia.
    rewrite Z.lxor_lor.
    - symmetry. apply lor_split. lia.
    - apply Z.bits_inj'. intros k Hk. rewrite Z.land_spec, Z.bits_0.
      rewrite Z.testbit_mod_pow2 by lia.
      destruct (Z.ltb_spec k 8).
      + rewrite Z.shiftl_spec_low by lia. reflexivity.
      + cbn [andb]. apply andb_false_r. }
  rewrite Esplit, iter_shift_bit_lxor by lia.
  rewrite <- crc16_table_entry by lia.
  rewrite crc16_low_byte by lia.
  rewrite Z.shiftl_mul_pow2 by lia.
  apply uint_small.
  apply (lxor_bound 32); [lia | | lia].
  pose proof (CRC16_TABLE_range (Z.lxor (Z.shiftr c 8) x) ltac:(lia)). lia.
Qed.
(** * The reader: CRCs and position *)

Lemma fold_left_snoc {A B} (f : A -> B -> A) (l : list B) (x : B) (a : A) :
  fold_left f (l ++ [x]) a = f (fold_left f l a) x.
Proof. rewrite fold_left_app. reflexivity. Qed.

Lemma spec_crcs_range (h : list Z) :
  Forall is_byte h ->
  0 <= SpecCrc.crc8 h < 2 ^ 8 /\ 0 <= SpecCrc.crc16 h < 2 ^ 16.
Proof.
  induction h as [|x h IH] using rev_ind; intros Hh.
  - cbv. repeat split; congruence.
  - apply Forall_app in Hh. destruct Hh as [Hh Hx]. apply Forall_inv in Hx.
    destruct (IH Hh) as [H8 H16].
    unfold SpecCrc.crc8, SpecCrc.crc16 in *. rewrite !fold_left_snoc.
    rewrite <- crc8_next_update, <- crc16_next_update by assumption.
    split; [apply crc8_next_range | apply crc16_next_range; exact H16].
Qed.

Lemma crcs_over_spec (buf indices h : list Z) :
  Forall is_byte h ->
  Forall is_byte (map (fun i => nth (Z.to_nat i) buf 0) indices) ->
  crcs_over buf indices (SpecCrc.crc8 h, SpecCrc.crc16 h)
  = (SpecCrc.crc8 (h ++ map (fun i => nth (Z.to_nat i) buf 0) indices),
     SpecCrc.crc16 (h ++ map (fun i => nth (Z.to_nat i) buf 0) indices)).
Proof.
  revert h. induction indices as [|i indices IH]; intros h Hh Hi.
  - cbn. rewrite app_nil_r. reflexivity.
  - cbn [map] in Hi |- *. inversion Hi as [|? ? Hx Hrest]; subst.
    change (crcs_over buf (i :: indices) (SpecCrc.crc8 h, SpecCrc.crc16 h))
      with (crcs_over buf indices
              (crc8_next (SpecCrc.crc8 h) (nth (Z.to_nat i) buf 0),
               crc16_next (SpecCrc.crc16 h) (nth (Z.to_nat i) buf 0))).
    destruct (spec_crcs_range h Hh) as [H8 H16].
    rewrite crc8_next_update, crc16_next_update by assumption.
    assert (E8 : SpecCrc.update 8 263 (SpecCrc.crc8 h) (nth (Z.to_nat i) buf 0)
                 = SpecCrc.crc8 (h ++ [nth (Z.to_nat i) buf 0]))
      by (unfold SpecCrc.crc8; rewrite fold_left_snoc; reflexivity).
    assert (E16 : SpecCrc.update 16 98309 (SpecCrc.crc16 h) (nth (Z.to_nat i) buf 0)
                  = SpecCrc.crc16 (h ++ [nth (Z.to_nat i) buf 0]))
      by (unfold SpecCrc.crc16; rewrite fold_left_snoc; reflexivity).
    rewrite E8, E16.
    rewrite IH; [|apply Forall_app; split; [exact Hh | constructor; [exact Hx | constructor]]
                 |exact Hrest].
    rewrite <- app_assoc. reflexivity.
Qed.

Lemma slice_indices (buf : list Z) (a b : Z) :
  0 <= a <= b -> b <= Z.of_nat (List.length buf) ->
  map (fun i => nth (Z.to_nat i) buf 0) (map (fun k => a + k) (upto (b - a)))
  = slice buf a b.
Proof.
  intros Hab Hb. unfold slice, upto. rewrite !map_map.
  remember (Z.to_nat (b - a)) as m eqn:Em.
  assert (Hm : (Z.to_nat a + m <= List.length buf)%nat) by lia.
  assert (Ha : 0 <= a) by lia.
  clear Em Hb Hab. revert a Ha Hm. induction m as [|m IH]; intros a Ha Hm.
  - reflexivity.
  - cbn [seq map]. rewrite Z.add_0_r.
    rewrite (skipn_nth (Z.to_nat a) buf 0) by lia. cbn [firstn]. f_equal.
    rewrite <- seq_shift, map_map.
    specialize (IH (a + 1) ltac:(lia) ltac:(lia)).
    replace (Z.to_nat (a + 1)) with (S (Z.to_nat a)) in IH by lia.
    rewrite <- IH. apply map_ext. intros k. f_equal. lia.
Qed.

Lemma slice_nil (buf : list Z) (a : Z) : slice buf a a = [].
Proof. unfold slice. rewrite Z.sub_diag. reflexivity. Qed.

Lemma slice_snoc (buf : list Z) (a b : Z) :
  0 <= a <= b -> b < Z.of_nat (List.length buf) ->
  slice buf a (b + 1) = slice buf a b ++ [nth (Z.to_nat b) buf 0].
Proof.
  intros Hab Hb. unfold slice.
  replace (Z.to_nat (b + 1 - a)) with (Z.to_nat (b - a) + 1)%nat by lia.
  rewrite <- (firstn_skipn (Z.to_nat (b - a)) (skipn (Z.to_nat a) buf)) at 1.
  rewrite firstn_app, length_firstn, length_skipn.
  replace (Z.to_nat (b - a) + 1 - Nat.min (Z.to_nat (b - a)) (List.length buf - Z.to_nat a))%nat
    with 1%nat by lia.
  rewrite firstn_firstn, Nat.min_r by lia. f_equal.
  rewrite skipn_skipn.
  replace (Z.to_nat (b - a) + Z.to_nat a)%nat with (Z.to_nat b) by lia.
  rewrite (skipn_nth (Z.to_nat b) buf 0) by lia. reflexivity.
Qed.

(** [updateCrcs(k)] with its result written out. *)
Lemma updateCrcs_explicit (NDEBUG : bool) (k : Z) (r : FlacLowLevelInput.t) :
  reader_ok r -> 0 <= k <= 8 ->
  FlacLowLevelInput.updateCrcs NDEBUG k r
  = (Ok tt,
     let c := crcs_over (FlacLowLevelInput.byteBuffer r)
                (map (fun j => FlacLowLevelInput.crcStartIndex r + j)
                     (upto (FlacLowLevelInput.byteBufferIndex r - k
                            - FlacLowLevelInput.crcStartIndex r)))
                (FlacLowLevelInput.crc8 r, FlacLowLevelInput.crc16 r) in
     FlacLowLevelInput.set_crcStartIndex (FlacLowLevelInput.byteBufferIndex r - k)
       (FlacLowLevelInput.set_crc16 (snd c) (FlacLowLevelInput.set_crc8 (fst c) r))).
Proof.
  intros Hok Hk.
  pose proof (rok_index r Hok) as Hidx. pose proof (rok_crcStart r Hok) as Hcs.
  pose proof (rok_buf r Hok) as Hbuf.
  pose proof (rok_crc8 r Hok) as H8. pose proof (rok_crc16 r Hok) as H16.
  unfold FlacLowLevelInput.BUF_SIZE in *.
  unfold FlacLowLevelInput.updateCrcs. mred.
  assert (Ee : int_fast32_t (FlacLowLevelInput.byteBufferIndex r - k)
               = FlacLowLevelInput.byteBufferIndex r - k)
    by (apply sint_small; unfold fast32_bits; lia).
  rewrite Ee.
  set (indices := map (fun j => FlacLowLevelInput.crcStartIndex r + j)
                      (upto (FlacLowLevelInput.byteBufferIndex r - k
                             - FlacLowLevelInput.crcStartIndex r))).
  assert (Hin : Forall (fun i => 0 <= i < Z.of_nat (List.length (FlacLowLevelInput.byteBuffer r)))
                       indices).
  { apply Forall_forall. intros i Hi. unfold indices, upto in Hi.
    apply in_map_iff in Hi. destruct Hi as (j & <- & Hj).
    apply in_map_iff in Hj. destruct Hj as (j' & <- & Hj').
    apply in_seq in Hj'. rewrite Hbuf. lia. }
  rewrite (bind_ok _ _ _ _ _ (updateCrcs_loop_spec NDEBUG indices r Hin H8 H16)).
  reflexivity.
Qed.

(** ** [readUnderlying()] *)

(** The refill of the byte buffer, with the state it leaves. *)
Lemma readUnderlying_refill (NDEBUG : bool) (r : FlacLowLevelInput.t) :
  reader_ok r ->
  FlacLowLevelInput.byteBufferLen r <= FlacLowLevelInput.byteBufferIndex r ->
  FlacLowLevelInput.byteBufferLen r <> -1 ->
  FlacLowLevelInput.offset r < FlacLowLevelInput.length r ->
  let n := Z.min (FlacLowLevelInput.length r - FlacLowLevelInput.offset r) 4096 in
  let chunk := firstn (Z.to_nat n)
                 (skipn (Z.to_nat (FlacLowLevelInput.offset r)) (FlacLowLevelInput.data r)) in
  let c := crcs_over (FlacLowLevelInput.byteBuffer r)
             (map (fun j => FlacLowLevelInput.crcStartIndex r + j)
                  (upto (FlacLowLevelInput.byteBufferIndex r
                         - FlacLowLevelInput.crcStartIndex r)))
             (FlacLowLevelInput.crc8 r, FlacLowLevelInput.crc16 r) in
  FlacLowLevelInput.readUnderlying NDEBUG r
  = (Ok (Z.land (nth 0 chunk 0) 0xFF),
     FlacLowLevelInput.mk (FlacLowLevelInput.data r)
       (FlacLowLevelInput.offset r + n)
       (uint_fast64_t (FlacLowLevelInput.byteBufferStartPos r
                       + FlacLowLevelInput.byteBufferLen r))
       (chunk ++ skipn (Z.to_nat n) (FlacLowLevelInput.byteBuffer r))
       n 1 (FlacLowLevelInput.bitBuffer r) (FlacLowLevelInput.bitBufferLen r)
       (fst c) (snd c) 0).
Proof.
  intros Hok Hge Hne Hoff'.
  pose proof (reader_ok_startPos
    (uint_fast64_t (FlacLowLevelInput.byteBufferStartPos r
                    + FlacLowLevelInput.byteBufferLen r)) r Hok) as Hok1.
  pose proof (updateCrcs_explicit NDEBUG 0 _ Hok1 ltac:(lia)) as E.
  destruct Hok as [Hlen Hbuf Hidx Hbl Hav Heof Hoff Hlength Hcs H8 H16].
  destruct r as [d off sp buf blen bidx bb len c8 c16 cs].
  unfold FlacLowLevelInput.length, FlacLowLevelInput.BUF_SIZE in *.
  cbn [FlacLowLevelInput.data FlacLowLevelInput.offset
       FlacLowLevelInput.bitBufferLen FlacLowLevelInput.byteBuffer
       FlacLowLevelInput.byteBufferIndex FlacLowLevelInput.byteBufferLen
       FlacLowLevelInput.crcStartIndex FlacLowLevelInput.crc8
       FlacLowLevelInput.byteBufferStartPos
       FlacLowLevelInput.crc16 FlacLowLevelInput.bitBuffer] in *.
  cbv zeta.
  unfold FlacLowLevelInput.readUnderlying. mcbv. rred.
  destruct (Z.leb_spec blen bidx); [|lia].
  destruct (Z.eqb_spec blen (-1)) as [? | _]; [contradiction|].
  mcbv. rred.
  revert E. rred. rewrite Z.sub_0_r. cbv zeta. intros E. rewrite E. clear E. mcbv. rred.
  unfold FlacLowLevelInput.readUnderlying_array. mcbv. rred.
  unfold FlacLowLevelInput.BUF_SIZE.
  set (n := Z.min (Z.of_nat (List.length d) - off) 4096).
  assert (Hn : 0 < n <= 4096) by (unfold n; lia).
  assert (En : int (Z.min (uint_fast64_t (Z.of_nat (List.length d) - off)) 4096) = n).
  { unfold uint_fast64_t. rewrite uint_small by (unfold fast64_bits; lia).
    fold n. apply sint_small; unfold int_bits; lia. }
  rewrite En.
  destruct (Z.eqb_spec n 0) as [? | _]; [lia|]. mcbv. rred.
  destruct (Z.leb_spec n 0) as [? | _]; [lia|]. mcbv. rred.
  rewrite assert_true by (apply Z.ltb_lt; lia). mcbv.
  set (chunk := firstn (Z.to_nat n) (skipn (Z.to_nat off) d)).
  assert (Hchunk : List.length chunk = Z.to_nat n).
  { unfold chunk. rewrite length_firstn, length_skipn. unfold n. lia. }
  assert (Eoff : uint_fast64_t (off + n) = off + n).
  { unfold uint_fast64_t. apply uint_small. unfold fast64_bits. lia. }
  rewrite Eoff.
  cbn [firstn app Z.to_nat].
  change (Z.to_nat (0 + n)) with (Z.to_nat n).
  assert (Hlen' : List.length (chunk ++ skipn (Z.to_nat n) buf) = Z.to_nat 4096).
  { rewrite length_app, length_skipn, Hchunk, Hbuf. lia. }
  rewrite index_ok by (rewrite Hlen'; lia). mcbv. rred.
  change (Z.to_nat 0) with 0%nat.
  destruct chunk as [|x chunk'] eqn:Ec; [cbn in Hchunk; lia|].
  cbn [app nth].
  pose proof (land_255_range x).
  assert (E1 : int_fast16_t (Z.land x 0xFF) = Z.land x 0xFF)
    by (apply sint_small; unfold fast16_bits; lia).
  rewrite E1. change (int_fast32_t (0 + 1)) with 1.
  reflexivity.
Qed.

Lemma reader_inv_parts (r : FlacLowLevelInput.t) (T : list Z) :
  reader_inv r T ->
  exists h,
    FlacLowLevelInput.crc8 r = SpecCrc.crc8 h /\
    FlacLowLevelInput.crc16 r = SpecCrc.crc16 h /\
    h ++ slice (FlacLowLevelInput.byteBuffer r) (FlacLowLevelInput.crcStartIndex r)
               (FlacLowLevelInput.byteBufferIndex r)
      ++ buffered r ++ pending r = T /\
    Forall is_byte h /\
    Forall is_byte (slice (FlacLowLevelInput.byteBuffer r) (FlacLowLevelInput.crcStartIndex r)
                          (FlacLowLevelInput.byteBufferIndex r)).
Proof.
  intros [_ _ _ (h & H8 & H16 & HT) Hb]. exists h.
  split; [exact H8|]. split; [exact H16|]. split; [exact HT|].
  rewrite <- HT in Hb. apply Forall_app in Hb. destruct Hb as [Hh Hb].
  apply Forall_app in Hb. destruct Hb as [Hs _]. split; assumption.
Qed.

Lemma readUnderlying_inv (NDEBUG : bool) (r : FlacLowLevelInput.t) (T : list Z) (b : Z)
    (rest : list Z) :
  reader_inv r T ->
  buffered r ++ pending r = b :: rest ->
  exists r',
    FlacLowLevelInput.readUnderlying NDEBUG r = (Ok (Z.land b 0xFF), r') /\
    reader_inv r' T /\
    buffered r' ++ pending r' = rest /\
    FlacLowLevelInput.bitBuffer r' = FlacLowLevelInput.bitBuffer r /\
    FlacLowLevelInput.bitBufferLen r' = FlacLowLevelInput.bitBufferLen r /\
    FlacLowLevelInput.data r' = FlacLowLevelInput.data r /\
    FlacLowLevelInput.byteBufferStartPos r' + FlacLowLevelInput.byteBufferIndex r'
    = FlacLowLevelInput.byteBufferStartPos r + FlacLowLevelInput.byteBufferIndex r + 1.
Proof.
  intros Hinv Hnext.
  destruct (reader_inv_parts r T Hinv) as (h & Hc8 & Hc16 & HT & Hh & Hs).
  destruct Hinv as [Hok Hopen Hpos _ Hbytes].
  destruct (readUnderlying_spec NDEBUG r b rest Hok Hnext)
    as (r' & E & Hok' & Hrest & Hbb & Hlen).
  exists r'. split; [exact E|].
  assert (Hgoal : reader_inv r' T /\ FlacLowLevelInput.data r' = FlacLowLevelInput.data r /\
                  FlacLowLevelInput.byteBufferStartPos r' + FlacLowLevelInput.byteBufferIndex r'
                  = FlacLowLevelInput.byteBufferStartPos r
                    + FlacLowLevelInput.byteBufferIndex r + 1);
    [|destruct Hgoal as (? & ? & ?); auto 10].
  pose proof (rok_buf r Hok) as Hbuf. pose proof (rok_index r Hok) as Hidx.
  pose proof (rok_buflen r Hok) as Hbl. pose proof (rok_crcStart r Hok) as Hcs.
  pose proof (rok_offset r Hok) as Hoff. pose proof (rok_length r Hok) as Hlength.
  unfold FlacLowLevelInput.BUF_SIZE in *.
  destruct (Z.ltb_spec (FlacLowLevelInput.byteBufferIndex r)
                       (FlacLowLevelInput.byteBufferLen r)) as [Hlt | Hge].
  - (* a byte is left in the byte buffer *)
    destruct (readUnderlying_buffered NDEBUG r Hok Hlt) as [E' Hb].
    cbv zeta in E', Hb. rewrite E' in E. injection E as _ <-.
    destruct r as [d off sp buf blen bidx bb len c8 c16 cs].
    revert Hb Hok'. rred. intros Hb Hok'.
    cbn [FlacLowLevelInput.data FlacLowLevelInput.offset
         FlacLowLevelInput.bitBufferLen FlacLowLevelInput.byteBuffer
         FlacLowLevelInput.byteBufferIndex FlacLowLevelInput.byteBufferLen
         FlacLowLevelInput.crcStartIndex FlacLowLevelInput.crc8
         FlacLowLevelInput.byteBufferStartPos
         FlacLowLevelInput.crc16 FlacLowLevelInput.bitBuffer] in *.
    split; [|split; [reflexivity | lia]].
    constructor; rred.
    + exact Hok'.
    + exact Hopen.
    + exact Hpos.
    + exists h. split; [exact Hc8|]. split; [exact Hc16|].
      rewrite <- HT, Hb.
      rewrite slice_snoc by lia.
      rewrite <- !app_assoc. reflexivity.
    + exact Hbytes.
  - (* the byte buffer is exhausted: refill *)
    assert (Hbuffered : buffered r = []).
    { unfold buffered.
      replace (Z.to_nat (FlacLowLevelInput.byteBufferLen r
                         - FlacLowLevelInput.byteBufferIndex r)) with 0%nat by lia.
      reflexivity. }
    rewrite Hbuffered in Hnext, HT. cbn [app] in Hnext, HT.
    assert (Hoff' : FlacLowLevelInput.offset r < FlacLowLevelInput.length r).
    { destruct (Z.ltb_spec (FlacLowLevelInput.offset r) (FlacLowLevelInput.length r));
        [assumption|].
      unfold pending in Hnext. rewrite skipn_all2 in Hnext; [discriminate|].
      unfold FlacLowLevelInput.length in *. lia. }
    pose proof (readUnderlying_refill NDEBUG r Hok Hge ltac:(lia) Hoff') as E'.
    cbv zeta in E'. rewrite E' in E. injection E as _ <-.
    unfold FlacLowLevelInput.length in *.
    set (n := Z.min (Z.of_nat (List.length (FlacLowLevelInput.data r))
                     - FlacLowLevelInput.offset r) 4096) in *.
    assert (Hn : 0 < n <= 4096) by (unfold n; lia).
    set (chunk := firstn (Z.to_nat n)
                    (skipn (Z.to_nat (FlacLowLevelInput.offset r))
                           (FlacLowLevelInput.data r))) in *.
    assert (Hchunk : List.length chunk = Z.to_nat n).
    { unfold chunk. rewrite length_firstn, length_skipn. unfold n. lia. }
    assert (Eidx : FlacLowLevelInput.byteBufferIndex r = FlacLowLevelInput.byteBufferLen r).
    { destruct (rok_avail r Hok); lia. }
    split; [|split; [reflexivity|]].
    2:{ rred. unfold uint_fast64_t. rewrite uint_small by (unfold fast64_bits; lia). lia. }
    constructor; rred.
    + exact Hok'.
    + lia.
    + unfold uint_fast64_t. rewrite uint_small by (unfold fast64_bits; lia). lia.
    + exists (h ++ slice (FlacLowLevelInput.byteBuffer r)
                         (FlacLowLevelInput.crcStartIndex r)
                         (FlacLowLevelInput.byteBufferIndex r)).
      rewrite Hc8, Hc16.
      assert (Hsl : map (fun i => nth (Z.to_nat i) (FlacLowLevelInput.byteBuffer r) 0)
                      (map (fun j => FlacLowLevelInput.crcStartIndex r + j)
                           (upto (FlacLowLevelInput.byteBufferIndex r
                                  - FlacLowLevelInput.crcStartIndex r)))
                    = slice (FlacLowLevelInput.byteBuffer r)
                            (FlacLowLevelInput.crcStartIndex r)
                            (FlacLowLevelInput.byteBufferIndex r))
        by (apply slice_indices; lia).
      rewrite crcs_over_spec by (try rewrite Hsl; assumption).
      rewrite Hsl. cbn [fst snd].
      split; [reflexivity|]. split; [reflexivity|].
      rewrite <- HT, <- app_assoc. f_equal. f_equal.
      unfold slice, buffered, pending. rred.
      change (Z.to_nat (1 - 0)) with 1%nat. change (Z.to_nat 0) with 0%nat.
      change (Z.to_nat 1) with 1%nat. cbn [skipn].
      destruct chunk as [|x chunk'] eqn:Ec; [cbn in Hchunk; lia|].
      cbn [app firstn skipn].
      replace (Z.to_nat (n - 1)) with (List.length chunk')
        by (cbn [List.length] in Hchunk; lia).
      rewrite firstn_app, firstn_all, Nat.sub_diag. cbn [firstn]. rewrite app_nil_r.
      change (x :: chunk' ++ ?l) with ((x :: chunk') ++ l). rewrite <- Ec. unfold chunk.
      replace (Z.to_nat (FlacLowLevelInput.offset r + n))
        with (Z.to_nat n + Z.to_nat (FlacLowLevelInput.offset r))%nat by lia.
      rewrite <- skipn_skipn. apply firstn_skipn.
    + exact Hbytes.
Qed.

(** ** [readUint(n)] keeps the invariant *)

Lemma reader_inv_bits (v l : Z) (r : FlacLowLevelInput.t) (T : list Z) :
  reader_inv r T -> 0 <= l <= 64 ->
  reader_inv (FlacLowLevelInput.set_bitBufferLen l (FlacLowLevelInput.set_bitBuffer v r)) T.
Proof.
  intros [Hok Hopen Hpos Hcrc Hb] Hl.
  pose proof (reader_ok_bits v l r Hok Hl) as Hok'.
  destruct r. constructor; assumption.
Qed.

Lemma reader_inv_len (l : Z) (r : FlacLowLevelInput.t) (T : list Z) :
  reader_inv r T -> 0 <= l <= 64 ->
  reader_inv (FlacLowLevelInput.set_bitBufferLen l r) T.
Proof.
  intros [Hok Hopen Hpos Hcrc Hb] Hl.
  pose proof (reader_ok_len l r Hok Hl) as Hok'.
  destruct r. constructor; assumption.
Qed.

Lemma readUint_loop_inv (NDEBUG : bool) (fuel : nat) (n : Z)
    (r : FlacLowLevelInput.t) (T : list Z) :
  reader_inv r T -> 0 <= n <= 32 ->
  n <= Z.of_nat (List.length (unread r)) ->
  n - FlacLowLevelInput.bitBufferLen r <= 8 * Z.of_nat fuel ->
  exists r',
    FlacLowLevelInput.readUint_loop NDEBUG fuel n r = (Ok tt, r') /\
    reader_inv r' T /\
    unread r' = unread r /\
    n <= FlacLowLevelInput.bitBufferLen r' /\
    FlacLowLevelInput.data r' = FlacLowLevelInput.data r /\
    (FlacLowLevelInput.bitBufferLen r < n + 8 ->
     FlacLowLevelInput.bitBufferLen r' < n + 8) /\
    exists k : nat,
      buffered r' ++ pending r' = skipn k (buffered r ++ pending r) /\
      FlacLowLevelInput.bitBufferLen r' = FlacLowLevelInput.bitBufferLen r + 8 * Z.of_nat k /\
      FlacLowLevelInput.byteBufferStartPos r' + FlacLowLevelInput.byteBufferIndex r'
      = FlacLowLevelInput.byteBufferStartPos r + FlacLowLevelInput.byteBufferIndex r
        + Z.of_nat k.
Proof.
  revert r. induction fuel as [|fuel IH]; intros r Hinv Hn Hbits Hfuel.
  - exists r. rewrite readUint_loop_enough by lia.
    split; [reflexivity|]. split; [exact Hinv|]. split; [reflexivity|].
    split; [lia|]. split; [reflexivity|]. split; [auto|].
    exists 0%nat. split; [reflexivity | split; lia].
  - destruct (Z.ltb_spec (FlacLowLevelInput.bitBufferLen r) n) as [Hlt | Hge].
    2:{ exists r. rewrite readUint_loop_enough by lia.
        split; [reflexivity|]. split; [exact Hinv|]. split; [reflexivity|].
        split; [lia|]. split; [reflexivity|]. split; [auto|].
    exists 0%nat. split; [reflexivity | split; lia]. }
    pose proof (rin_ok r T Hinv) as Hok.
    pose proof (rok_len r Hok) as Hlen.
    rewrite length_unread in Hbits by lia.
    destruct (buffered r ++ pending r) as [|b rest] eqn:Enext;
      [cbn [List.length] in Hbits; lia|].
    destruct (readUnderlying_inv NDEBUG r T b rest Hinv Enext)
      as (r1 & E1 & Hinv1 & Hnext1 & Hbb1 & Hlen1 & Hd1 & Hp1).
    cbn [FlacLowLevelInput.readUint_loop]. mcbv.
    destruct (Z.ltb_spec (FlacLowLevelInput.bitBufferLen r) n) as [_ | ?]; [|lia].
    unfold FlacLowLevelInput.readUint_byte. mcbv.
    rewrite E1.
    pose proof (land_255_range b) as Hb.
    destruct (Z.eqb_spec (Z.land b 0xFF) (-1)) as [? | _]; [lia|].
    set (r2 := FlacLowLevelInput.set_bitBufferLen
                 (uint_fast8_t (FlacLowLevelInput.bitBufferLen
                    (FlacLowLevelInput.set_bitBuffer
                       (uint_fast64_t
                          (Z.lor (Z.shiftl (FlacLowLevelInput.bitBuffer r1) 8)
                                 (Z.land b 0xFF))) r1) + 8))
                 (FlacLowLevelInput.set_bitBuffer
                    (uint_fast64_t
                       (Z.lor (Z.shiftl (FlacLowLevelInput.bitBuffer r1) 8)
                              (Z.land b 0xFF))) r1)).
    assert (El : FlacLowLevelInput.bitBufferLen r2 = FlacLowLevelInput.bitBufferLen r + 8).
    { unfold r2. destruct r1. rred. cbn [FlacLowLevelInput.bitBufferLen] in Hlen1.
      rewrite Hlen1. apply uint_small. unfold fast8_bits. lia. }
    assert (Hinv2 : reader_inv r2 T).
    { unfold r2. apply reader_inv_bits; [exact Hinv1|].
      destruct r1. revert El. unfold r2. rred. intros ->. lia. }
    assert (Hd2 : FlacLowLevelInput.data r2 = FlacLowLevelInput.data r).
    { rewrite <- Hd1. unfold r2. destruct r1. reflexivity. }
    assert (Ebuf : buffered r2 ++ pending r2 = rest).
    { rewrite <- Hnext1. unfold r2. destruct r1. reflexivity. }
    assert (Hun2 : unread r2 = unread r).
    { unfold unread. rewrite Enext, El.
      rewrite Ebuf.
      assert (Ebb : FlacLowLevelInput.bitBuffer r2
                    = uint_fast64_t (Z.lor (Z.shiftl (FlacLowLevelInput.bitBuffer r) 8)
                                           (Z.land b 0xFF))).
      { unfold r2. rewrite <- Hbb1. destruct r1. reflexivity. }
      rewrite Ebb, bits_pushed by lia.
      rewrite bits_land_255, <- app_assoc. reflexivity. }
    rewrite assert_true.
    2:{ fold r2. rewrite El. apply andb_true_intro. split; apply Z.leb_le; lia. }
    fold r2.
    destruct (IH r2 Hinv2 Hn)
      as (r3 & E3 & Hinv3 & Hun3 & Hlen3 & Hd3 & Hsmall3 & k & Hk & Hlk & Hpk).
    + rewrite Hun2, length_unread by lia. rewrite Enext. exact Hbits.
    + rewrite El. lia.
    + exists r3. split; [exact E3|]. split; [exact Hinv3|].
      split; [congruence|]. split; [exact Hlen3|]. split; [congruence|].
      split; [intros _; apply Hsmall3; rewrite El; lia|].
      exists (S k). rewrite Hk, Ebuf, Hlk, El. split; [reflexivity|]. split; [lia|].
      rewrite Hpk. replace (FlacLowLevelInput.byteBufferStartPos r2
                            + FlacLowLevelInput.byteBufferIndex r2)
        with (FlacLowLevelInput.byteBufferStartPos r1
              + FlacLowLevelInput.byteBufferIndex r1)
        by (unfold r2; destruct r1; reflexivity).
      lia.
Qed.

(** [readUint(n)] delivers the next [n] bits and keeps the invariant;
    when fewer than 8 bits were left in the bit buffer, fewer than 8 are
    left again. *)
Lemma readUint_inv (NDEBUG : bool) (n : Z) (r : FlacLowLevelInput.t) (T : list Z) :
  reader_inv r T -> 0 <= n <= 32 ->
  n <= Z.of_nat (List.length (unread r)) ->
  exists r',
    FlacLowLevelInput.readUint NDEBUG n r
    = (Ok (value (firstn (Z.to_nat n) (unread r))), r') /\
    reader_inv r' T /\
    unread r' = skipn (Z.to_nat n) (unread r) /\
    FlacLowLevelInput.data r' = FlacLowLevelInput.data r /\
    (FlacLowLevelInput.bitBufferLen r < 8 -> FlacLowLevelInput.bitBufferLen r' < 8) /\
    exists k : nat,
      buffered r' ++ pending r' = skipn k (buffered r ++ pending r) /\
      FlacLowLevelInput.bitBufferLen r' = FlacLowLevelInput.bitBufferLen r + 8 * Z.of_nat k - n /\
      bit_position r' = bit_position r + n.
Proof.
  intros Hinv Hn Hbits.
  pose proof (rin_ok r T Hinv) as Hok.
  destruct (readUint_bits NDEBUG n r Hok Hn Hbits) as (r' & E & Hok' & Hun').
  exists r'. split; [exact E|].
  destruct (readUint_loop_inv NDEBUG (Z.to_nat n) n r T Hinv Hn Hbits ltac:(pose proof (rok_len r Hok); lia))
    as (r1 & E1 & Hinv1 & Hun1 & Hlen1 & Hd1 & Hsmall1 & k & Hk & Hlk & Hpk).
  pose proof (rok_len r1 (rin_ok r1 T Hinv1)) as Hlen1'.
  assert (Er' : r' = FlacLowLevelInput.set_bitBufferLen
                       (FlacLowLevelInput.bitBufferLen r1 - n) r1).
  { assert (E2 : FlacLowLevelInput.readUint NDEBUG n r
                 = FlacLowLevelInput.readUint NDEBUG n r1).
    { unfold FlacLowLevelInput.readUint.
      assert (En : uint_fast8_t n = n) by (apply uint_small; unfold fast8_bits; lia).
      rewrite En. destruct (Z.ltb_spec 32 n); [lia|].
      rewrite (bind_ok _ _ _ _ _ E1).
      rewrite (bind_ok _ _ _ _ _ (readUint_loop_enough NDEBUG _ n r1 Hlen1)).
      reflexivity. }
    rewrite E2 in E.
    destruct (Z.eq_dec n 32) as [->|Hne].
    - rewrite readUint_buffered_32 in E by lia. injection E as _ <-. reflexivity.
    - rewrite readUint_buffered in E by lia. injection E as _ <-. reflexivity. }
  subst r'.
  split; [apply reader_inv_len; [exact Hinv1 | lia]|].
  split; [exact Hun'|]. split; [rewrite <- Hd1; destruct r1; reflexivity|].
  split.
  - intros Hs. specialize (Hsmall1 ltac:(lia)). destruct r1. rred.
    cbn [FlacLowLevelInput.bitBufferLen] in *. lia.
  - exists k. unfold bit_position. rewrite <- Hk.
    replace (FlacLowLevelInput.byteBufferStartPos r + FlacLowLevelInput.byteBufferIndex r)
      with (FlacLowLevelInput.byteBufferStartPos r1 + FlacLowLevelInput.byteBufferIndex r1
            - Z.of_nat k) by lia.
    replace (FlacLowLevelInput.bitBufferLen r)
      with (FlacLowLevelInput.bitBufferLen r1 - 8 * Z.of_nat k) by lia.
    destruct r1. rred. repeat split; try reflexivity; lia.
Qed.

(** ** The invariant at the start, and what [resetCrcs] and the getters do *)

Lemma reader_inv_create (bytes : list Z) :
  Forall is_byte bytes -> Z.of_nat (List.length bytes) < 2 ^ 31 ->
  reader_inv (FlacLowLevelInput.create bytes) bytes.
Proof.
  intros Hb Hlen. destruct (reader_create_ok bytes Hlen) as [Hok _].
  rewrite reader_create in *. constructor.
  - exact Hok.
  - rred. lia.
  - rred. lia.
  - exists []. split; [reflexivity|]. split; [reflexivity|]. reflexivity.
  - exact Hb.
Qed.

Lemma reader_inv_suffix (r : FlacLowLevelInput.t) (T : list Z) :
  reader_inv r T -> Forall is_byte (buffered r ++ pending r).
Proof.
  intros [_ _ _ (h & _ & _ & HT) Hb]. rewrite <- HT in Hb.
  apply Forall_app in Hb. destruct Hb as [_ Hb].
  apply Forall_app in Hb. destruct Hb as [_ Hb]. exact Hb.
Qed.

Lemma resetCrcs_inv (r : FlacLowLevelInput.t) (T : list Z) :
  reader_inv r T -> FlacLowLevelInput.bitBufferLen r = 0 ->
  exists r',
    FlacLowLevelInput.resetCrcs r = (Ok tt, r') /\
    reader_inv r' (buffered r ++ pending r) /\
    buffered r' ++ pending r' = buffered r ++ pending r /\
    FlacLowLevelInput.bitBufferLen r' = 0 /\
    FlacLowLevelInput.data r' = FlacLowLevelInput.data r.
Proof.
  intros Hinv Hlen. pose proof (reader_inv_suffix r T Hinv) as Hsuf.
  destruct Hinv as [Hok Hopen Hpos _ _].
  pose proof (rok_index r Hok) as Hidx.
  unfold FlacLowLevelInput.resetCrcs.
  rewrite (bind_ok _ _ _ _ _ (reader_checkByteAligned_ok r Hok ltac:(rewrite Hlen; reflexivity))).
  mred. eexists. split; [reflexivity|].
  rewrite Hlen. change (0 / 8) with 0. rewrite Z.sub_0_r.
  assert (Ei : int_fast32_t (FlacLowLevelInput.byteBufferIndex r)
               = FlacLowLevelInput.byteBufferIndex r).
  { unfold FlacLowLevelInput.BUF_SIZE in Hidx. apply sint_small; unfold fast32_bits; lia. }
  rewrite Ei. destruct Hok. destruct r. revert Hsuf. unfold buffered, pending. rred.
  cbn [FlacLowLevelInput.bitBufferLen FlacLowLevelInput.byteBufferIndex
       FlacLowLevelInput.byteBufferLen FlacLowLevelInput.offset
       FlacLowLevelInput.byteBufferStartPos FlacLowLevelInput.crcStartIndex
       FlacLowLevelInput.crc8 FlacLowLevelInput.crc16 FlacLowLevelInput.byteBuffer
       FlacLowLevelInput.data FlacLowLevelInput.length] in *.
  intros Hsuf.
  split; [|split; [reflexivity|split; [exact Hlen | reflexivity]]].
  constructor; rred; try assumption; try lia.
  - constructor; rred; try assumption; try lia.
  - exists []. split; [reflexivity|]. split; [reflexivity|].
    rewrite slice_nil. reflexivity.
Qed.

(** [updateCrcs(0)] at a byte boundary brings both CRCs up to the bytes
    consumed so far. *)
Lemma updateCrcs_inv (NDEBUG : bool) (r : FlacLowLevelInput.t) (T P : list Z) :
  reader_inv r T -> P ++ buffered r ++ pending r = T ->
  exists r',
    FlacLowLevelInput.updateCrcs NDEBUG 0 r = (Ok tt, r') /\
    FlacLowLevelInput.crc8 r' = SpecCrc.crc8 P /\
    FlacLowLevelInput.crc16 r' = SpecCrc.crc16 P /\
    0 <= SpecCrc.crc8 P < 2 ^ 8 /\ 0 <= SpecCrc.crc16 P < 2 ^ 16 /\
    reader_inv r' T /\
    buffered r' ++ pending r' = buffered r ++ pending r /\
    FlacLowLevelInput.bitBufferLen r' = FlacLowLevelInput.bitBufferLen r /\
    FlacLowLevelInput.bitBuffer r' = FlacLowLevelInput.bitBuffer r /\
    FlacLowLevelInput.byteBufferStartPos r' = FlacLowLevelInput.byteBufferStartPos r /\
    FlacLowLevelInput.byteBufferIndex r' = FlacLowLevelInput.byteBufferIndex r /\
    FlacLowLevelInput.data r' = FlacLowLevelInput.data r.
Proof.
  intros Hinv HP.
  destruct (reader_inv_parts r T Hinv) as (h & Hc8 & Hc16 & HT & Hh & Hs).
  destruct Hinv as [Hok Hopen Hpos _ Hbytes].
  pose proof (rok_index r Hok) as Hidx. pose proof (rok_crcStart r Hok) as Hcs.
  pose proof (rok_buf r Hok) as Hbuf.
  assert (EP : P = h ++ slice (FlacLowLevelInput.byteBuffer r)
                         (FlacLowLevelInput.crcStartIndex r)
                         (FlacLowLevelInput.byteBufferIndex r)).
  { rewrite <- HP, app_assoc in HT. apply app_inv_tail in HT. symmetry. exact HT. }
  assert (HPb : Forall is_byte P) by (rewrite EP; apply Forall_app; split; assumption).
  destruct (spec_crcs_range P HPb) as [R8 R16].
  rewrite (updateCrcs_explicit NDEBUG 0 r Hok ltac:(lia)).
  rewrite Z.sub_0_r.
  assert (Eidx : map (fun i => nth (Z.to_nat i) (FlacLowLevelInput.byteBuffer r) 0)
                   (map (fun j => FlacLowLevelInput.crcStartIndex r + j)
                        (upto (FlacLowLevelInput.byteBufferIndex r
                               - FlacLowLevelInput.crcStartIndex r)))
                 = slice (FlacLowLevelInput.byteBuffer r)
                         (FlacLowLevelInput.crcStartIndex r)
                         (FlacLowLevelInput.byteBufferIndex r)).
  { apply slice_indices; [lia|]. rewrite Hbuf. unfold FlacLowLevelInput.BUF_SIZE in *. lia. }
  rewrite Hc8, Hc16, crcs_over_spec by (rewrite ?Eidx; assumption).
  rewrite Eidx, <- EP. cbn zeta. cbn [fst snd].
  eexists. split; [reflexivity|].
  destruct Hok. destruct r. unfold buffered, pending in *. rred.
  cbn [FlacLowLevelInput.bitBufferLen FlacLowLevelInput.byteBufferIndex
       FlacLowLevelInput.byteBufferLen FlacLowLevelInput.offset
       FlacLowLevelInput.byteBufferStartPos FlacLowLevelInput.crcStartIndex
       FlacLowLevelInput.crc8 FlacLowLevelInput.crc16 FlacLowLevelInput.byteBuffer
       FlacLowLevelInput.bitBuffer
       FlacLowLevelInput.data FlacLowLevelInput.length] in *.
  repeat (split; [first [reflexivity | lia]|]). split; [|repeat split; reflexivity].
  constructor; rred; try assumption; try lia.
  - constructor; rred; try assumption; try lia.
  - exists P. split; [reflexivity|]. split; [reflexivity|].
    rewrite slice_nil. exact HP.
Qed.

Lemma getCrc8_inv (r : FlacLowLevelInput.t) (T P : list Z) :
  reader_inv r T -> FlacLowLevelInput.bitBufferLen r = 0 ->
  P ++ buffered r ++ pending r = T ->
  exists r',
    FlacLowLevelInput.getCrc8 true r = (Ok (SpecCrc.crc8 P), r') /\
    reader_inv r' T /\
    buffered r' ++ pending r' = buffered r ++ pending r /\
    FlacLowLevelInput.bitBufferLen r' = 0 /\
    FlacLowLevelInput.data r' = FlacLowLevelInput.data r.
Proof.
  intros Hinv Hlen HP.
  destruct (updateCrcs_inv true r T P Hinv HP)
    as (r' & E & H8 & H16 & R8 & R16 & Hinv' & Hbp & Hl & _ & _ & _ & Hd).
  unfold FlacLowLevelInput.getCrc8.
  rewrite (bind_ok _ _ _ _ _
             (reader_checkByteAligned_ok r (rin_ok r T Hinv) ltac:(rewrite Hlen; reflexivity))).
  mred. rewrite Hlen. change (0 / 8) with 0.
  rewrite (bind_ok _ _ _ _ _ E). mred. unfold assert. cbn [orb]. mred.
  exists r'. rewrite H8, (uint_small fast8_bits) by (unfold fast8_bits; lia).
  split; [reflexivity|]. split; [exact Hinv'|]. split; [exact Hbp|].
  split; [congruence | exact Hd].
Qed.

Lemma getCrc16_inv (r : FlacLowLevelInput.t) (T P : list Z) :
  reader_inv r T -> FlacLowLevelInput.bitBufferLen r = 0 ->
  P ++ buffered r ++ pending r = T ->
  exists r',
    FlacLowLevelInput.getCrc16 true r = (Ok (SpecCrc.crc16 P), r') /\
    reader_inv r' T /\
    buffered r' ++ pending r' = buffered r ++ pending r /\
    FlacLowLevelInput.bitBufferLen r' = 0 /\
    FlacLowLevelInput.data r' = FlacLowLevelInput.data r.
Proof.
  intros Hinv Hlen HP.
  destruct (updateCrcs_inv true r T P Hinv HP)
    as (r' & E & H8 & H16 & R8 & R16 & Hinv' & Hbp & Hl & _ & _ & _ & Hd).
  unfold FlacLowLevelInput.getCrc16.
  rewrite (bind_ok _ _ _ _ _
             (reader_checkByteAligned_ok r (rin_ok r T Hinv) ltac:(rewrite Hlen; reflexivity))).
  mred. rewrite Hlen. change (0 / 8) with 0.
  rewrite (bind_ok _ _ _ _ _ E). mred. unfold assert. cbn [orb]. mred.
  exists r'. rewrite H16, (uint_small fast16_bits) by (unfold fast16_bits; lia).
  split; [reflexivity|]. split; [exact Hinv'|]. split; [exact Hbp|].
  split; [congruence | exact Hd].
Qed.

(** ** Reading whole bytes *)

Lemma readUint_byte_inv (NDEBUG : bool) (r : FlacLowLevelInput.t) (T : list Z) (b : Z)
    (rest : list Z) :
  reader_inv r T -> FlacLowLevelInput.bitBufferLen r = 0 ->
  buffered r ++ pending r = b :: rest ->
  exists r',
    FlacLowLevelInput.readUint NDEBUG 8 r = (Ok b, r') /\
    reader_inv r' T /\
    FlacLowLevelInput.bitBufferLen r' = 0 /\
    buffered r' ++ pending r' = rest /\
    FlacLowLevelInput.data r' = FlacLowLevelInput.data r /\
    bit_position r' = bit_position r + 8.
Proof.
  intros Hinv Hlen Hnext.
  pose proof (reader_inv_suffix r T Hinv) as Hsuf. rewrite Hnext in Hsuf.
  inversion Hsuf as [|? ? Hb _]; subst.
  assert (Hun : unread r = bits 8 b ++ bytes_bits rest).
  { unfold unread. rewrite Hlen, Hnext. reflexivity. }
  destruct (readUint_inv NDEBUG 8 r T Hinv ltac:(lia)) as (r' & E & Hinv' & _ & Hd & Hs & k & Hk & Hlk & Hp).
  { rewrite Hun, length_app, length_bits. lia. }
  exists r'. rewrite E, Hun.
  rewrite firstn_app, length_bits.
  change (Z.to_nat 8) with 8%nat. rewrite Nat.sub_diag.
  rewrite firstn_O, app_nil_r, (firstn_all2 (n := 8)) by (rewrite length_bits; lia).
  rewrite value_bits. change (Z.of_nat 8) with 8.
  unfold is_byte in Hb. rewrite Z.mod_small by lia.
  split; [reflexivity|]. split; [exact Hinv'|].
  specialize (Hs ltac:(lia)).
  pose proof (rok_len r' (rin_ok r' T Hinv')) as Hl'.
  assert (k = 1%nat) by lia. subst k.
  split; [lia|]. split; [rewrite Hk, Hnext; reflexivity|]. split; [exact Hd | exact Hp].
Qed.

Lemma readFully_loop_inv (NDEBUG : bool) (bs : list Z) (r : FlacLowLevelInput.t)
    (T rest : list Z) :
  reader_inv r T -> FlacLowLevelInput.bitBufferLen r = 0 ->
  buffered r ++ pending r = bs ++ rest ->
  exists r',
    FlacLowLevelInput.readFully_loop NDEBUG (List.length bs) r = (Ok bs, r') /\
    reader_inv r' T /\
    FlacLowLevelInput.bitBufferLen r' = 0 /\
    buffered r' ++ pending r' = rest /\
    FlacLowLevelInput.data r' = FlacLowLevelInput.data r /\
    bit_position r' = bit_position r + 8 * Z.of_nat (List.length bs).
Proof.
  revert r. induction bs as [|b bs IH]; intros r Hinv Hlen Hnext.
  - exists r. cbn [List.length FlacLowLevelInput.readFully_loop]. mred.
    split; [reflexivity|]. split; [exact Hinv|]. split; [exact Hlen|].
    split; [exact Hnext|]. split; [reflexivity | lia].
  - pose proof (reader_inv_suffix r T Hinv) as Hsuf. rewrite Hnext in Hsuf.
    inversion Hsuf as [|? ? Hb _]; subst.
    destruct (readUint_byte_inv NDEBUG r T b (bs ++ rest) Hinv Hlen Hnext)
      as (r1 & E1 & Hinv1 & Hlen1 & Hnext1 & Hd1 & Hp1).
    destruct (IH r1 Hinv1 Hlen1 Hnext1) as (r2 & E2 & Hinv2 & Hlen2 & Hnext2 & Hd2 & Hp2).
    exists r2. cbn [List.length FlacLowLevelInput.readFully_loop].
    rewrite (bind_ok _ _ _ _ _ E1), (bind_ok _ _ _ _ _ E2). mred.
    unfold is_byte in Hb. rewrite (uint_small fast8_bits) by (unfold fast8_bits; lia).
    split; [reflexivity|]. split; [exact Hinv2|]. split; [exact Hlen2|].
    split; [exact Hnext2|]. split; [congruence|].
    rewrite Hp2, Hp1. cbn [List.length]. lia.
Qed.

Lemma readFully_inv (NDEBUG : bool) (bs : list Z) (r : FlacLowLevelInput.t)
    (T rest : list Z) :
  reader_inv r T -> FlacLowLevelInput.bitBufferLen r = 0 ->
  buffered r ++ pending r = bs ++ rest ->
  exists r',
    FlacLowLevelInput.readFully NDEBUG (Z.of_nat (List.length bs)) r = (Ok bs, r') /\
    reader_inv r' T /\
    FlacLowLevelInput.bitBufferLen r' = 0 /\
    buffered r' ++ pending r' = rest /\
    FlacLowLevelInput.data r' = FlacLowLevelInput.data r /\
    bit_position r' = bit_position r + 8 * Z.of_nat (List.length bs).
Proof.
  intros Hinv Hlen Hnext. unfold FlacLowLevelInput.readFully.
  rewrite (bind_ok _ _ _ _ _
             (reader_checkByteAligned_ok r (rin_ok r T Hinv) ltac:(rewrite Hlen; reflexivity))).
  rewrite Nat2Z.id. apply readFully_loop_inv; assumption.
Qed.

(** ** The position *)

Lemma getPosition_inv (r : FlacLowLevelInput.t) (T : list Z) :
  reader_inv r T -> 0 <= bit_position r ->
  FlacLowLevelInput.getPosition r = (Ok (bit_position r / 8), r).
Proof.
  intros [Hok Hopen Hpos _ _] H0.
  pose proof (rok_len r Hok) as Hlen. pose proof (rok_index r Hok) as Hidx.
  pose proof (rok_buflen r Hok) as Hbl. pose proof (rok_offset r Hok) as Hoff.
  pose proof (rok_length r Hok) as Hlength.
  unfold FlacLowLevelInput.BUF_SIZE in *.
  unfold FlacLowLevelInput.getPosition, bit_position in *. mred.
  set (a := FlacLowLevelInput.byteBufferStartPos r + FlacLowLevelInput.byteBufferIndex r) in *.
  set (l := FlacLowLevelInput.bitBufferLen r) in *.
  assert (E : (8 * a - l) / 8 = a - (l + 7) / 8).
  { pose proof (Z.div_mod (8 * a - l) 8 ltac:(lia)).
    pose proof (Z.mod_pos_bound (8 * a - l) 8 ltac:(lia)).
    pose proof (Z.div_mod (l + 7) 8 ltac:(lia)).
    pose proof (Z.mod_pos_bound (l + 7) 8 ltac:(lia)). lia. }
  rewrite E.
  assert (R : 0 <= a - (l + 7) / 8 < 2 ^ 64).
  { rewrite <- E. split; [apply Z.div_pos; lia|].
    apply Z.div_lt_upper_bound; lia. }
  unfold uint_fast64_t. rewrite (uint_small fast64_bits) by (unfold fast64_bits; lia).
  reflexivity.
Qed.

Lemma getBitPosition_inv (r : FlacLowLevelInput.t) :
  FlacLowLevelInput.getBitPosition r = (Ok (bit_position r mod 8), r).
Proof.
  unfold FlacLowLevelInput.getBitPosition, bit_position. mred.
  change 7 with (Z.ones 3). rewrite Z.land_ones by lia. change (2 ^ 3) with 8.
  pose proof (Z.mod_pos_bound (- FlacLowLevelInput.bitBufferLen r) 8 ltac:(lia)).
  unfold uint_fast8_t. rewrite (uint_small fast8_bits) by (unfold fast8_bits; lia).
  f_equal. f_equal.
  replace (8 * (FlacLowLevelInput.byteBufferStartPos r + FlacLowLevelInput.byteBufferIndex r)
           - FlacLowLevelInput.bitBufferLen r)
    with (- FlacLowLevelInput.bitBufferLen r
          + (FlacLowLevelInput.byteBufferStartPos r + FlacLowLevelInput.byteBufferIndex r) * 8)
    by lia.
  rewrite Z.mod_add by lia. reflexivity.
Qed.

Lemma reader_position_inv (r : FlacLowLevelInput.t) (T : list Z) :
  reader_inv r T -> 0 <= bit_position r ->
  reader_position r = (Ok (bit_position r / 8, bit_position r mod 8), r).
Proof.
  intros Hinv H0. unfold reader_position.
  rewrite (bind_ok _ _ _ _ _ (getPosition_inv r T Hinv H0)).
  rewrite (bind_ok _ _ _ _ _ (getBitPosition_inv r)). reflexivity.
Qed.

Lemma read_widths_inv (NDEBUG : bool) (widths : list Z) (r : FlacLowLevelInput.t)
    (T : list Z) :
  reader_inv r T -> Forall (fun n => 0 <= n <= 32) widths ->
  fold_right Z.add 0 widths <= Z.of_nat (List.length (unread r)) ->
  exists xs r',
    read_widths NDEBUG widths r = (Ok xs, r') /\
    reader_inv r' T /\
    bit_position r' = bit_position r + fold_right Z.add 0 widths /\
    FlacLowLevelInput.data r' = FlacLowLevelInput.data r /\
    Z.of_nat (List.length (unread r'))
    = Z.of_nat (List.length (unread r)) - fold_right Z.add 0 widths.
Proof.
  revert r. induction widths as [|n widths IH]; intros r Hinv Hall Hsum.
  - exists [], r. cbn [read_widths fold_right]. mred.
    split; [reflexivity|]. split; [exact Hinv|]. split; [lia|].
    split; [reflexivity | lia].
  - inversion Hall as [|? ? Hn Hrest]; subst. cbn [fold_right] in Hsum |- *.
    assert (Hs : 0 <= fold_right Z.add 0 widths).
    { clear -Hrest. induction Hrest; cbn [fold_right]; lia. }
    destruct (readUint_inv NDEBUG n r T Hinv Hn ltac:(lia))
      as (r1 & E1 & Hinv1 & Hun1 & Hd1 & _ & k & _ & _ & Hp1).
    assert (Hl1 : Z.of_nat (List.length (unread r1))
                  = Z.of_nat (List.length (unread r)) - n)
      by (rewrite Hun1, length_skipn; lia).
    destruct (IH r1 Hinv1 Hrest) as (xs & r2 & E2 & Hinv2 & Hp2 & Hd2 & Hl2); [lia|].
    eexists; exists r2. cbn [read_widths].
    rewrite (bind_ok _ _ _ _ _ E1), (bind_ok _ _ _ _ _ E2). mred.
    split; [reflexivity|]. split; [exact Hinv2|]. split; [lia|].
    split; [congruence | lia].
Qed.

(** ** [seekTo] *)

Lemma seekTo_inv (r : FlacLowLevelInput.t) (pos : Z) :
  Forall is_byte (FlacLowLevelInput.data r) ->
  FlacLowLevelInput.length r < 2 ^ 31 ->
  0 <= pos <= FlacLowLevelInput.length r ->
  exists r',
    FlacLowLevelInput.seekTo pos r = (Ok tt, r') /\
    reader_inv r' (skipn (Z.to_nat pos) (FlacLowLevelInput.data r)) /\
    FlacLowLevelInput.bitBufferLen r' = 0 /\
    buffered r' ++ pending r' = skipn (Z.to_nat pos) (FlacLowLevelInput.data r) /\
    FlacLowLevelInput.data r' = FlacLowLevelInput.data r /\
    bit_position r' = 8 * pos.
Proof.
  intros Hb Hlength Hpos.
  assert (Ep : uint_fast64_t pos = pos).
  { apply uint_small. unfold fast64_bits. lia. }
  exists (FlacLowLevelInput.mk (FlacLowLevelInput.data r) pos pos
            (repeat 0 (Z.to_nat FlacLowLevelInput.BUF_SIZE)) 0 0 0 0 0 0 0).
  split.
  { destruct r. unfold FlacLowLevelInput.seekTo, FlacLowLevelInput.positionChanged,
      FlacLowLevelInput.resetCrcs, FlacLowLevelInput.checkByteAligned.
    mcbv. rred. rewrite Ep. reflexivity. }
  unfold bit_position, buffered, pending. rred.
  split; [|split; [reflexivity | split; [reflexivity | split; [reflexivity | lia]]]].
  unfold FlacLowLevelInput.length in *.
  constructor; rred.
  - constructor; rred; unfold FlacLowLevelInput.BUF_SIZE, FlacLowLevelInput.length; rred;
      try lia; try apply repeat_length.
  - lia.
  - lia.
  - exists []. split; [reflexivity|]. split; [reflexivity|]. reflexivity.
  - apply Forall_forall. intros x Hx. rewrite Forall_forall in Hb. apply Hb.
    rewrite <- (firstn_skipn (Z.to_nat pos)). apply in_or_app. right. exact Hx.
Qed.

(** ** The end of the data *)

(** With nothing left in the byte buffer and in the array,
    [readUnderlying()] returns -1 and leaves the bit buffer alone. *)
Lemma readUnderlying_eof (NDEBUG : bool) (r : FlacLowLevelInput.t) :
  reader_ok r -> buffered r ++ pending r = [] ->
  exists r',
    FlacLowLevelInput.readUnderlying NDEBUG r = (Ok (-1), r') /\
    reader_ok r' /\
    buffered r' ++ pending r' = [] /\
    FlacLowLevelInput.bitBuffer r' = FlacLowLevelInput.bitBuffer r /\
    FlacLowLevelInput.bitBufferLen r' = FlacLowLevelInput.bitBufferLen r.
Proof.
  intros Hok Hnext.
  apply app_eq_nil in Hnext. destruct Hnext as [Hbuf0 Hpend0].
  pose proof (reader_ok_startPos
    (uint_fast64_t (FlacLowLevelInput.byteBufferStartPos r
                    + FlacLowLevelInput.byteBufferLen r)) r Hok) as Hok1.
  pose proof (updateCrcs_explicit NDEBUG 0 _ Hok1 ltac:(lia)) as E.
  pose proof (crcs_over_range (FlacLowLevelInput.byteBuffer r)
    (map (fun j => FlacLowLevelInput.crcStartIndex r + j)
         (upto (FlacLowLevelInput.byteBufferIndex r - 0
                - FlacLowLevelInput.crcStartIndex r)))
    (FlacLowLevelInput.crc8 r, FlacLowLevelInput.crc16 r)) as Hrange.
  destruct Hok as [Hlen Hbuf Hidx Hbl Hav Heof Hoff Hlength Hcs H8 H16].
  assert (Hoff' : FlacLowLevelInput.offset r = FlacLowLevelInput.length r).
  { unfold pending in Hpend0. apply (f_equal (@List.length Z)) in Hpend0.
    rewrite length_skipn in Hpend0. cbn [List.length] in Hpend0.
    unfold FlacLowLevelInput.length in *. lia. }
  assert (Hge : FlacLowLevelInput.byteBufferLen r <= FlacLowLevelInput.byteBufferIndex r).
  { unfold buffered in Hbuf0. apply (f_equal (@List.length Z)) in Hbuf0.
    rewrite length_firstn, length_skipn, Hbuf in Hbuf0. cbn [List.length] in Hbuf0.
    unfold FlacLowLevelInput.BUF_SIZE in *. lia. }
  destruct r as [d off sp buf blen bidx bb len c8 c16 cs].
  unfold FlacLowLevelInput.length, FlacLowLevelInput.BUF_SIZE, buffered, pending in *.
  cbn [FlacLowLevelInput.data FlacLowLevelInput.offset
       FlacLowLevelInput.bitBufferLen FlacLowLevelInput.byteBuffer
       FlacLowLevelInput.byteBufferIndex FlacLowLevelInput.byteBufferLen
       FlacLowLevelInput.crcStartIndex FlacLowLevelInput.crc8
       FlacLowLevelInput.byteBufferStartPos
       FlacLowLevelInput.crc16 FlacLowLevelInput.bitBuffer] in *.
  unfold FlacLowLevelInput.readUnderlying. mcbv. rred.
  destruct (Z.leb_spec blen bidx); [|lia].
  destruct (Z.eqb_spec blen (-1)) as [-> | Hne].
  - mred. eexists. split; [reflexivity|].
    split; [constructor; rred; unfold FlacLowLevelInput.BUF_SIZE, FlacLowLevelInput.length;
            rred; try assumption; try lia|].
    unfold buffered, pending. rred. rewrite Hbuf0, Hpend0. auto.
  - revert E. rred. intros E. rewrite E. mred. rred.
    unfold FlacLowLevelInput.readUnderlying_array. mcbv. rred.
    unfold FlacLowLevelInput.length. rred. rewrite Hoff', Z.sub_diag.
    change (int (Z.min (uint_fast64_t 0) 4096)) with 0.
    cbn [Z.eqb]. mred. rred. cbn [Z.leb Z.compare]. mred.
    eexists. split; [reflexivity|].
    split.
    + specialize (Hrange ltac:(cbn [fst snd]; lia) ltac:(cbn [fst snd]; lia)).
      cbn [fst snd] in Hrange.
      constructor; rred; unfold FlacLowLevelInput.BUF_SIZE, FlacLowLevelInput.length;
        rred; try assumption; try lia; apply Hrange.
    + unfold buffered, pending. rred. rewrite <- Hoff', Hpend0.
      replace (Z.to_nat (-1 - bidx)) with 0%nat by lia. auto.
Qed.

Lemma readUint_loop_eof (NDEBUG : bool) (fuel : nat) (n : Z) (r : FlacLowLevelInput.t) :
  reader_ok r -> 0 <= n <= 32 ->
  Z.of_nat (List.length (unread r)) < n ->
  (List.length (buffered r ++ pending r) < fuel)%nat ->
  fst (FlacLowLevelInput.readUint_loop NDEBUG fuel n r)
  = Throw (runtime_error "End of data").
Proof.
  revert r. induction fuel as [|fuel IH]; intros r Hok Hn Hbits Hfuel; [lia|].
  pose proof (rok_len r Hok) as Hlen.
  rewrite length_unread in Hbits by lia.
  cbn [FlacLowLevelInput.readUint_loop]. mcbv.
  destruct (Z.ltb_spec (FlacLowLevelInput.bitBufferLen r) n) as [_ | ?]; [|lia].
  unfold FlacLowLevelInput.readUint_byte. mcbv.
  destruct (buffered r ++ pending r) as [|b rest] eqn:Enext.
  - destruct (readUnderlying_eof NDEBUG r Hok Enext) as (r1 & E1 & _).
    rewrite E1. reflexivity.
  - destruct (readUnderlying_spec NDEBUG r b rest Hok Enext)
      as (r1 & E1 & Hok1 & Hnext1 & Hbb1 & Hlen1).
    rewrite E1.
    pose proof (land_255_range b) as Hb.
    destruct (Z.eqb_spec (Z.land b 0xFF) (-1)) as [? | _]; [lia|].
    cbn [List.length] in Hbits, Hfuel.
    set (r2 := FlacLowLevelInput.set_bitBufferLen
                 (uint_fast8_t (FlacLowLevelInput.bitBufferLen
                    (FlacLowLevelInput.set_bitBuffer
                       (uint_fast64_t
                          (Z.lor (Z.shiftl (FlacLowLevelInput.bitBuffer r1) 8)
                                 (Z.land b 0xFF))) r1) + 8))
                 (FlacLowLevelInput.set_bitBuffer
                    (uint_fast64_t
                       (Z.lor (Z.shiftl (FlacLowLevelInput.bitBuffer r1) 8)
                              (Z.land b 0xFF))) r1)).
    assert (El : FlacLowLevelInput.bitBufferLen r2 = FlacLowLevelInput.bitBufferLen r + 8).
    { unfold r2. destruct r1. rred. cbn [FlacLowLevelInput.bitBufferLen] in Hlen1.
      rewrite Hlen1. apply uint_small. unfold fast8_bits. lia. }
    assert (Hok2 : reader_ok r2).
    { unfold r2. apply reader_ok_bits; [exact Hok1|].
      destruct r1. revert El. unfold r2. rred. intros ->. lia. }
    assert (Ebuf : buffered r2 ++ pending r2 = rest).
    { rewrite <- Hnext1. unfold r2. destruct r1. reflexivity. }
    rewrite assert_true.
    2:{ fold r2. rewrite El. apply andb_true_intro. split; apply Z.leb_le; lia. }
    fold r2. apply IH; [exact Hok2 | exact Hn | |].
    + rewrite length_unread, Ebuf, El by (rewrite El; lia). lia.
    + rewrite Ebuf. lia.
Qed.

(** [readUint(n)] with fewer than [n] bits left. *)
Lemma readUint_eof (NDEBUG : bool) (n : Z) (r : FlacLowLevelInput.t) :
  reader_ok r -> 0 <= n <= 32 ->
  Z.of_nat (List.length (unread r)) < n ->
  fst (FlacLowLevelInput.readUint NDEBUG n r) = Throw (runtime_error "End of data").
Proof.
  intros Hok Hn Hbits. unfold FlacLowLevelInput.readUint.
  assert (En : uint_fast8_t n = n) by (apply uint_small; unfold fast8_bits; lia).
  rewrite En. destruct (Z.ltb_spec 32 n); [lia|].
  assert (Ht : fst (FlacLowLevelInput.readUint_loop NDEBUG (Z.to_nat n) n r)
              = Throw (runtime_error "End of data")).
  { apply readUint_loop_eof; try assumption.
    pose proof (rok_len r Hok) as Hlen.
    rewrite length_unread in Hbits by lia. lia. }
  destruct (FlacLowLevelInput.readUint_loop NDEBUG (Z.to_nat n) n r) as [o s'] eqn:E.
  cbn [fst] in Ht. subst o.
  rewrite (bind_throw _ _ _ _ _ E). reflexivity.
Qed.

(** [readByte()] at a byte boundary: the next byte, or -1 at the end. *)
Lemma readByte_inv (NDEBUG : bool) (r : FlacLowLevelInput.t) (T : list Z) :
  reader_inv r T -> FlacLowLevelInput.bitBufferLen r = 0 ->
  exists r',
    FlacLowLevelInput.readByte NDEBUG r = (Ok (nth 0 (buffered r ++ pending r) (-1)), r') /\
    buffered r' ++ pending r' = tl (buffered r ++ pending r) /\
    FlacLowLevelInput.bitBufferLen r' = 0 /\
    (buffered r ++ pending r <> [] -> reader_inv r' T).
Proof.
  intros Hinv Hlen. pose proof (rin_ok r T Hinv) as Hok.
  pose proof (reader_inv_suffix r T Hinv) as Hsuf.
  unfold FlacLowLevelInput.readByte.
  rewrite (bind_ok _ _ _ _ _
             (reader_checkByteAligned_ok r Hok ltac:(rewrite Hlen; reflexivity))).
  mred. rewrite Hlen. cbn [Z.leb Z.compare].
  rewrite bind_assert by reflexivity.
  destruct (buffered r ++ pending r) as [|b rest] eqn:Enext.
  - destruct (readUnderlying_eof NDEBUG r Hok Enext) as (r1 & E1 & _ & Hn1 & _ & Hl1).
    exists r1. rewrite E1. split; [reflexivity|]. split; [exact Hn1|].
    split; [congruence | congruence].
  - destruct (readUnderlying_inv NDEBUG r T b rest Hinv Enext)
      as (r1 & E1 & Hinv1 & Hn1 & _ & Hl1 & _).
    pose proof (Forall_inv Hsuf) as Hb. unfold is_byte in Hb.
    exists r1. rewrite E1.
    change 0xFF with (Z.ones 8). rewrite Z.land_ones, Z.mod_small by (change (2 ^ 8) with 256; lia).
    split; [reflexivity|]. split; [exact Hn1|]. split; [congruence | auto].
Qed.

(** ** A new stream, and a stream after a prefix was read *)

Lemma reader_create_inv (bytes : list Z) :
  Forall is_byte bytes -> Z.of_nat (List.length bytes) < 2 ^ 31 ->
  reader_inv (FlacLowLevelInput.create bytes) bytes /\
  FlacLowLevelInput.bitBufferLen (FlacLowLevelInput.create bytes) = 0 /\
  buffered (FlacLowLevelInput.create bytes) ++ pending (FlacLowLevelInput.create bytes)
  = bytes /\
  bit_position (FlacLowLevelInput.create bytes) = 0 /\
  FlacLowLevelInput.data (FlacLowLevelInput.create bytes) = bytes.
Proof.
  intros Hb Hlen. split; [apply reader_inv_create; assumption|].
  rewrite reader_create. repeat split.
Qed.

Lemma reader_after_prefix (NDEBUG : bool) (pre rest : list Z) :
  Forall is_byte (pre ++ rest) -> Z.of_nat (List.length (pre ++ rest)) < 2 ^ 31 ->
  exists r,
    FlacLowLevelInput.readFully NDEBUG (Z.of_nat (List.length pre))
      (FlacLowLevelInput.create (pre ++ rest)) = (Ok pre, r) /\
    reader_inv r (pre ++ rest) /\
    FlacLowLevelInput.bitBufferLen r = 0 /\
    buffered r ++ pending r = rest /\
    FlacLowLevelInput.data r = pre ++ rest /\
    bit_position r = 8 * Z.of_nat (List.length pre).
Proof.
  intros Hb Hlen.
  destruct (reader_create_inv (pre ++ rest) Hb Hlen) as (Hinv & Hl & Hbp & Hp & Hd).
  destruct (readFully_inv NDEBUG pre _ _ rest Hinv Hl Hbp)
    as (r & E & Hinv' & Hl' & Hbp' & Hd' & Hp').
  exists r. split; [exact E|]. split; [exact Hinv'|]. split; [exact Hl'|].
  split; [exact Hbp'|]. split; [congruence | lia].
Qed.

(** The first 6 bits of a byte. *)
Lemma value_firstn_6 (b : Z) (rest : list bool) :
  is_byte b -> value (firstn 6 (bits 8 b ++ rest)) = b / 4.
Proof.
  intros Hb. unfold is_byte in Hb.
  change 8%nat with (6 + 2)%nat. rewrite bits_app, <- app_assoc.
  rewrite firstn_app, length_bits, Nat.sub_diag, firstn_O, app_nil_r.
  rewrite firstn_all2 by (rewrite length_bits; lia).
  rewrite value_bits, Z.shiftr_div_pow2 by lia.
  change (2 ^ Z.of_nat 2) with 4. change (2 ^ Z.of_nat 6) with 64.
  apply Z.mod_small. split; [apply Z.div_pos; lia|].
  apply Z.div_lt_upper_bound; lia.
Qed.

(** [readFrame] up to the test of the sync code. *)
Lemma readFrame_start (NDEBUG : bool) (r : FlacLowLevelInput.t) (T : list Z) :
  reader_inv r T -> FlacLowLevelInput.bitBufferLen r = 0 ->
  (buffered r ++ pending r = [] -> fst (FrameInfo.readFrame NDEBUG r) = Ok None) /\
  (forall b, buffered r ++ pending r = [b] ->
             fst (FrameInfo.readFrame NDEBUG r) = Throw (runtime_error "End of data")) /\
  (forall b0 b1 tail, buffered r ++ pending r = b0 :: b1 :: tail ->
                      64 * b0 + b1 / 4 <> 0x3FFE ->
                      fst (FrameInfo.readFrame NDEBUG r)
                      = Throw (DataFormatException "Sync code expected")).
Proof.
  intros Hinv Hlen.
  destruct (resetCrcs_inv r T Hinv Hlen) as (r1 & E1 & Hinv1 & Hbp1 & Hlen1 & _).
  destruct (readByte_inv NDEBUG r1 _ Hinv1 Hlen1) as (r2 & E2 & Hbp2 & Hlen2 & Hinv2).
  pose proof (reader_inv_suffix r T Hinv) as Hsuf.
  unfold FrameInfo.readFrame.
  rewrite (bind_ok _ _ _ _ _ E1), (bind_ok _ _ _ _ _ E2).
  rewrite Hbp1 in *. clear E1 E2.
  split; [|split].
  - intros E. rewrite E. reflexivity.
  - intros b E. rewrite E in *. cbn [nth tl] in *.
    pose proof (Forall_inv Hsuf) as Hb. unfold is_byte in Hb.
    destruct (Z.eqb_spec b (-1)) as [? | _]; [lia|].
    specialize (Hinv2 ltac:(discriminate)).
    pose proof (readUint_eof NDEBUG 6 r2 (rin_ok _ _ Hinv2) ltac:(lia)) as Ht.
    rewrite length_unread, Hbp2, Hlen2 in Ht by lia.
    specialize (Ht ltac:(cbn; lia)).
    unfold FrameInfo.readUint.
    destruct (FlacLowLevelInput.readUint NDEBUG 6 r2) as [o s'] eqn:E'.
    cbn [fst] in Ht. subst o. rewrite (bind_throw _ _ _ _ _ E'). reflexivity.
  - intros b0 b1 tail E Hsync. rewrite E in *. cbn [nth tl] in *.
    pose proof (Forall_inv Hsuf) as Hb0. unfold is_byte in Hb0.
    pose proof (Forall_inv (Forall_inv_tail Hsuf)) as Hb1.
    destruct (Z.eqb_spec b0 (-1)) as [? | _]; [lia|].
    specialize (Hinv2 ltac:(discriminate)).
    assert (Hun : unread r2 = bits 8 b1 ++ bytes_bits tail).
    { unfold unread. rewrite Hlen2, Hbp2. reflexivity. }
    destruct (readUint_inv NDEBUG 6 r2 _ Hinv2 ltac:(lia)) as (r3 & E3 & _).
    { rewrite Hun, length_app, length_bits. lia. }
    rewrite Hun in E3. change (Z.to_nat 6) with 6%nat in E3.
    rewrite value_firstn_6 in E3 by exact Hb1.
    unfold FrameInfo.readUint. rewrite (bind_ok _ _ _ _ _ E3).
    assert (Hq : 0 <= b1 / 4 < 2 ^ 6).
    { unfold is_byte in Hb1. split; [apply Z.div_pos; lia|].
      apply Z.div_lt_upper_bound; lia. }
    rewrite lor_disjoint by lia.
    unfold uint_fast16_t. rewrite (uint_small fast16_bits) by (unfold fast16_bits; lia).
    destruct (Z.eqb_spec (b0 * 2 ^ 6 + b1 / 4) 0x3FFE) as [? | _]; [lia|].
    reflexivity.
Qed.

(** * The coded number of the frame header *)

Lemma bind_ret_tt {S} (m : M S unit) (s : S) : (m ;;; ret tt) s = m s.
Proof. unfold bind. destruct (m s) as [[[]|e] s']; reflexivity. Qed.

Lemma writeUtf8_loop_fields (NDEBUG : bool) (indices : list Z) (val : Z)
    (w : BitOutputStream.t) :
  FrameInfo.writeUtf8_loop NDEBUG indices val w
  = write_fields NDEBUG (map (fun i => (8, utf8_continuation val i)) indices) w.
Proof.
  revert w. induction indices as [|i indices IH]; intros w; [reflexivity|].
  cbn [FrameInfo.writeUtf8_loop map write_fields]. unfold bind.
  unfold FrameInfo.writeInt, utf8_continuation.
  destruct (BitOutputStream.writeInt NDEBUG 8 _ w) as [[[]|e] w1]; [apply IH | reflexivity].
Qed.

Lemma writeUtf8Integer_fields (NDEBUG : bool) (val : Z) (w : BitOutputStream.t) :
  0 <= val < 2 ^ 36 ->
  FrameInfo.writeUtf8Integer NDEBUG val w = write_fields NDEBUG (utf8_fields val) w.
Proof.
  intros Hval. unfold FrameInfo.writeUtf8Integer, utf8_fields.
  rewrite Z.shiftr_div_pow2, Z.div_small by lia. cbn [Z.eqb negb]. cbv zeta.
  destruct (_ <=? 7).
  - cbn [write_fields]. rewrite bind_ret_tt. reflexivity.
  - cbn [write_fields]. unfold bind, FrameInfo.writeInt, utf8_head.
    destruct (BitOutputStream.writeInt NDEBUG 8 _ w) as [[[]|e] w1]; [|reflexivity].
    apply writeUtf8_loop_fields.
Qed.

(** [64 - numberOfLeadingZeros(val)] is 2 less than the number of bits of
    [val] when that number is even. *)
Lemma utf8_bitLen (val : Z) :
  0 <= val < 2 ^ 36 ->
  int_fast32_t (64 - Utilities.numberOfLeadingZeros64 (uint64_t val))
  = if Z.even (bit_length val) && negb (val =? 0)
    then bit_length val - 2 else bit_length val.
Proof.
  intros Hval. unfold bit_length.
  assert (Eu : uint64_t val = val) by (apply uint_small; lia).
  rewrite Eu.
  destruct (Z.eqb_spec val 0) as [-> | Hne]; [reflexivity|].
  rewrite numberOfLeadingZeros64_spec by lia.
  assert (Hlog : 0 <= Z.log2 val < 36).
  { split; [apply Z.log2_nonneg|]. apply Z.log2_lt_pow2; lia. }
  replace (63 - Z.log2 val) with (64 - (Z.log2 val + 1)) by lia.
  rewrite Z.even_sub. change (Z.even 64) with true.
  destruct (Z.even (Z.log2 val + 1)); cbn [Bool.eqb andb negb];
    (etransitivity; [apply sint_small; unfold fast32_bits; lia | lia]).
Qed.

Lemma bit_length_range (val : Z) :
  0 <= val < 2 ^ 36 ->
  0 <= bit_length val <= 36 /\ val < 2 ^ bit_length val /\
  (val = 0 <-> bit_length val = 0) /\
  (0 < val -> 2 ^ (bit_length val - 1) <= val).
Proof.
  intros Hval. unfold bit_length.
  destruct (Z.eqb_spec val 0) as [-> | Hne].
  - cbn. repeat split; lia.
  - pose proof (Z.log2_spec val ltac:(lia)) as Hs.
    pose proof (Z.log2_nonneg val) as H0.
    assert (Z.log2 val < 36) by (apply Z.log2_lt_pow2; lia).
    replace (Z.log2 val + 1 - 1) with (Z.log2 val) by lia.
    replace (Z.succ (Z.log2 val)) with (Z.log2 val + 1) in Hs by lia.
    repeat split; lia.
Qed.

(** The fields of a value whose number of bits is not 8, 12, 18, 22, 28 or
    32: one byte below 128, and otherwise a head byte with room for the
    bits above the [n] continuation bytes. *)
Lemma utf8_fields_cases (val : Z) :
  0 <= val < 2 ^ 36 ->
  ~ In (bit_length val) [8; 12; 18; 22; 28; 32] ->
  (val < 128 /\ utf8_fields val = [(8, int_fast32_t val)]) \/
  (exists n, 1 <= n <= 6 /\ val < 2 ^ (5 * n + 6) /\
             utf8_fields val
             = (8, utf8_head val n)
               :: map (fun i => (8, utf8_continuation val i)) (rev (upto n))).
Proof.
  intros Hval Hgood.
  destruct (bit_length_range val Hval) as (HL & Hlt & H0 & _).
  unfold utf8_fields. rewrite (utf8_bitLen val Hval). cbv zeta.
  assert (E0 : negb (val =? 0) = negb (bit_length val =? 0)).
  { destruct (Z.eqb_spec val 0), (Z.eqb_spec (bit_length val) 0); try reflexivity;
      exfalso; tauto. }
  rewrite E0. clear E0 H0.
  set (L := bit_length val) in *.
  assert (Hcheck :
    check_from (fun L =>
      (existsb (Z.eqb L) [8; 12; 18; 22; 28; 32]) ||
      (let bl := if Z.even L && negb (L =? 0) then L - 2 else L in
       if bl <=? 7 then L <=? 7
       else let n := int_fast32_t (Z.quot (bl - 2) 5) in
            (1 <=? n) && (n <=? 6) && (L <=? 5 * n + 6))) 37 0 = true)
    by (vm_compute; reflexivity).
  pose proof (check_from_spec _ _ _ Hcheck L ltac:(lia)) as HcL. cbv beta in HcL.
  apply orb_true_iff in HcL. destruct HcL as [Hbad | HcL].
  { exfalso. apply Hgood. apply existsb_exists in Hbad.
    destruct Hbad as (x & Hin & Hx). apply Z.eqb_eq in Hx. subst x. exact Hin. }
  cbv zeta in HcL.
  destruct (_ <=? 7).
  - left. split; [|reflexivity]. apply Z.leb_le in HcL.
    apply Z.lt_le_trans with (2 ^ L); [exact Hlt|].
    change 128 with (2 ^ 7). apply Z.pow_le_mono_r; lia.
  - right. eexists. apply andb_true_iff in HcL. destruct HcL as [HcL H3].
    apply andb_true_iff in HcL. destruct HcL as [H1 H2].
    apply Z.leb_le in H1, H2, H3.
    split; [split; [exact H1 | exact H2]|]. split; [|reflexivity].
    apply Z.lt_le_trans with (2 ^ L); [exact Hlt|].
    apply Z.pow_le_mono_r; lia.
Qed.

(** A head byte written before [n] continuation bytes is read as one with
    [n + 1] leading ones, and its other bits are the bits written. *)
Lemma utf8_head_read (n v : Z) :
  1 <= n <= 6 -> 0 <= v < 2 ^ (6 - n) ->
  let x := uint_fast32_t (Z.lor (Z.shiftr (uint_fast32_t 0xFF80) n) (int_fast32_t v))
           mod 2 ^ 8 in
  utf8_head_ones x = n + 1 /\ utf8_head_bits x = v.
Proof.
  intros Hn Hv.
  assert (Hcheck :
    check_from (fun n =>
      check_from (fun v =>
        (2 ^ (6 - n) <=? v) ||
        (let x := uint_fast32_t (Z.lor (Z.shiftr (uint_fast32_t 0xFF80) n)
                                       (int_fast32_t v)) mod 2 ^ 8 in
         (utf8_head_ones x =? n + 1) && (utf8_head_bits x =? v))) 32 0) 6 1 = true)
    by (vm_compute; reflexivity).
  pose proof (check_from_spec _ _ _ Hcheck n ltac:(lia)) as Hc. cbv beta in Hc.
  assert (Hv32 : v < 32).
  { apply Z.lt_le_trans with (2 ^ (6 - n)); [lia|].
    change 32 with (2 ^ 5). apply Z.pow_le_mono_r; lia. }
  pose proof (check_from_spec _ _ _ Hc v ltac:(lia)) as Hcv. cbv beta in Hcv.
  apply orb_true_iff in Hcv. destruct Hcv as [Hbad | Hcv]; [apply Z.leb_le in Hbad; lia|].
  cbv zeta in Hcv |- *. apply andb_true_iff in Hcv. destruct Hcv as [H1 H2].
  apply Z.eqb_eq in H1, H2. split; assumption.
Qed.

(** A byte below 128 is read as a head byte without leading ones. *)
Lemma utf8_single_read (v : Z) :
  0 <= v < 128 ->
  utf8_head_ones (int_fast32_t v mod 2 ^ 8) = 0 /\
  uint_fast64_t (int_fast32_t (int_fast32_t v mod 2 ^ 8)) = v.
Proof.
  intros Hv.
  assert (Hcheck :
    check_from (fun v =>
      (utf8_head_ones (int_fast32_t v mod 2 ^ 8) =? 0) &&
      (uint_fast64_t (int_fast32_t (int_fast32_t v mod 2 ^ 8)) =? v)) 128 0 = true)
    by (vm_compute; reflexivity).
  pose proof (check_from_spec _ _ _ Hcheck v ltac:(lia)) as Hc. cbv beta in Hc.
  apply andb_true_iff in Hc. destruct Hc as [H1 H2].
  apply Z.eqb_eq in H1, H2. split; assumption.
Qed.

(** A continuation byte: the marker 10, then 6 bits of the value. *)
Lemma utf8_continuation_read (val i : Z) :
  0 <= val -> 0 <= i ->
  let c := utf8_continuation val i mod 2 ^ 8 in
  Z.land c 0xC0 = 0x80 /\ Z.land c 0x3F = Z.shiftr val (6 * i) mod 64.
Proof.
  intros Hval Hi. unfold utf8_continuation.
  change 0x3F with (Z.ones 6). rewrite (Z.land_ones _ 6) by lia.
  rewrite (sint_mod_low fast32_bits 6) by (unfold fast32_bits; lia).
  replace (i * 6) with (6 * i) by lia.
  change (2 ^ 6) with 64.
  pose proof (Z.mod_pos_bound (Z.shiftr val (6 * i)) 64 ltac:(lia)) as Hq.
  set (q := Z.shiftr val (6 * i) mod 64) in *.
  assert (Hcheck :
    check_from (fun q =>
      (Z.land (Z.lor 0x80 q mod 2 ^ 8) 0xC0 =? 0x80) &&
      (Z.land (Z.lor 0x80 q mod 2 ^ 8) (Z.ones 6) =? q)) 64 0 = true)
    by (vm_compute; reflexivity).
  pose proof (check_from_spec _ _ _ Hcheck q ltac:(lia)) as Hc. cbv beta in Hc.
  apply andb_true_iff in Hc. destruct Hc as [H1 H2].
  apply Z.eqb_eq in H1, H2. cbv zeta. split; assumption.
Qed.

Lemma fields_bits_cons (n v : Z) (fields : list (Z * Z)) :
  fields_bits ((n, v) :: fields) = bits (Z.to_nat n) v ++ fields_bits fields.
Proof. reflexivity. Qed.

Lemma rev_upto_succ (k : nat) :
  rev (upto (Z.of_nat (S k))) = Z.of_nat k :: rev (upto (Z.of_nat k)).
Proof.
  unfold upto. rewrite !Nat2Z.id, seq_S, map_app, rev_app_distr. reflexivity.
Qed.

(** The loop of [readUtf8Integer] over [k] continuation bytes of [val]:
    6 bits of [val] are appended to the result for each byte. *)
Lemma readUtf8_loop_gen (NDEBUG : bool) (k : nat) (val res : Z) (rest : list bool)
    (r : FlacLowLevelInput.t) :
  reader_ok r -> 0 <= val -> 0 <= res -> (res + 1) * 2 ^ (6 * Z.of_nat k) <= 2 ^ 58 ->
  unread r
  = fields_bits (map (fun i => (8, utf8_continuation val i)) (rev (upto (Z.of_nat k))))
    ++ rest ->
  exists r',
    FrameInfo.readUtf8_loop NDEBUG k res r
    = (Ok (res * 2 ^ (6 * Z.of_nat k) + val mod 2 ^ (6 * Z.of_nat k)), r') /\
    reader_ok r' /\ unread r' = rest.
Proof.
  revert r res. induction k as [|k IH]; intros r res Hok Hval Hres Hfit Hun.
  - exists r. cbn [FrameInfo.readUtf8_loop]. change (6 * Z.of_nat 0) with 0.
    rewrite Z.pow_0_r, Z.mod_1_r, Z.mul_1_r, Z.add_0_r.
    split; [reflexivity|]. split; [exact Hok | exact Hun].
  - rewrite rev_upto_succ in Hun. cbn [map] in Hun.
    rewrite fields_bits_cons, <- app_assoc in Hun.
    destruct (readUint_field NDEBUG 8 _ _ r Hok ltac:(lia) Hun) as (r1 & E1 & Hok1 & Hun1).
    destruct (utf8_continuation_read val (Z.of_nat k) Hval ltac:(lia)) as [Hm Hq].
    cbv zeta in Hm, Hq.
    set (q := Z.shiftr val (6 * Z.of_nat k) mod 64) in *.
    assert (Hb : 0 <= q < 64) by (apply Z.mod_pos_bound; lia).
    assert (Hp : 0 < 2 ^ (6 * Z.of_nat k)) by (apply Z.pow_pos_nonneg; lia).
    assert (Epow : 2 ^ (6 * Z.of_nat (S k)) = 2 ^ (6 * Z.of_nat k) * 64).
    { replace (6 * Z.of_nat (S k)) with (6 * Z.of_nat k + 6) by lia.
      rewrite Z.pow_add_r by lia. reflexivity. }
    rewrite Epow in Hfit |- *.
    assert (Er : uint_fast64_t (Z.lor (Z.shiftl res 6) q) = res * 64 + q).
    { rewrite lor_disjoint by (change (2 ^ 6) with 64; lia). change (2 ^ 6) with 64.
      unfold uint_fast64_t. apply uint_small. unfold fast64_bits. nia. }
    destruct (IH r1 (res * 64 + q) Hok1 Hval ltac:(lia) ltac:(nia) Hun1)
      as (r2 & E2 & Hok2 & Hun2).
    exists r2. cbn [FrameInfo.readUtf8_loop]. unfold FrameInfo.readUint.
    rewrite (bind_ok _ _ _ _ _ E1).
    rewrite Hm, Hq. cbn [Z.eqb Pos.eqb negb]. rewrite Er, E2.
    split; [|split; [exact Hok2 | exact Hun2]]. f_equal. f_equal.
    rewrite (Z.rem_mul_r val (2 ^ (6 * Z.of_nat k)) 64) by lia.
    unfold q. rewrite Z.shiftr_div_pow2 by lia. ring.
Qed.

Lemma readUtf8_loop_spec (NDEBUG : bool) (k : nat) (val : Z) (rest : list bool)
    (r : FlacLowLevelInput.t) :
  reader_ok r -> 0 <= val < 2 ^ 36 -> (k <= 6)%nat ->
  unread r
  = fields_bits (map (fun i => (8, utf8_continuation val i)) (rev (upto (Z.of_nat k))))
    ++ rest ->
  exists r',
    FrameInfo.readUtf8_loop NDEBUG k (Z.shiftr val (6 * Z.of_nat k)) r = (Ok val, r') /\
    reader_ok r' /\ unread r' = rest.
Proof.
  intros Hok Hval Hk Hun.
  assert (Hp : 0 < 2 ^ (6 * Z.of_nat k)) by (apply Z.pow_pos_nonneg; lia).
  assert (Hp' : 2 ^ (6 * Z.of_nat k) <= 2 ^ 36) by (apply Z.pow_le_mono_r; lia).
  pose proof (Z.div_mod val (2 ^ (6 * Z.of_nat k)) ltac:(lia)) as Hdm.
  pose proof (Z.mod_pos_bound val (2 ^ (6 * Z.of_nat k)) ltac:(lia)) as Hm.
  assert (Hd : 0 <= val / 2 ^ (6 * Z.of_nat k)) by (apply Z.div_pos; lia).
  destruct (readUtf8_loop_gen NDEBUG k val (Z.shiftr val (6 * Z.of_nat k)) rest r Hok
              ltac:(lia))
    as (r' & E & Hok' & Hun');
    [rewrite Z.shiftr_div_pow2 by lia; exact Hd
    |rewrite Z.shiftr_div_pow2 by lia; nia
    |exact Hun|].
  exists r'. rewrite E, Z.shiftr_div_pow2 by lia.
  split; [|split; [exact Hok' | exact Hun']]. f_equal. f_equal. lia.
Qed.

(** With fewer continuation bytes than the head byte announced, and nothing
    after them, the loop meets the end of the data. *)
Lemma readUtf8_loop_short (NDEBUG : bool) (m k : nat) (val res : Z)
    (r : FlacLowLevelInput.t) :
  reader_ok r -> 0 <= val -> (m < k)%nat ->
  unread r
  = fields_bits (map (fun i => (8, utf8_continuation val i)) (rev (upto (Z.of_nat m)))) ->
  fst (FrameInfo.readUtf8_loop NDEBUG k res r) = Throw (runtime_error "End of data").
Proof.
  revert r k res. induction m as [|m IH]; intros r k res Hok Hval Hk Hun;
    (destruct k as [|k]; [lia|]); cbn [FrameInfo.readUtf8_loop]; unfold FrameInfo.readUint.
  - pose proof (readUint_eof NDEBUG 8 r Hok ltac:(lia)) as Ht.
    rewrite Hun in Ht. specialize (Ht ltac:(cbn; lia)).
    destruct (FlacLowLevelInput.readUint NDEBUG 8 r) as [o s'] eqn:E.
    cbn [fst] in Ht. subst o. rewrite (bind_throw _ _ _ _ _ E). reflexivity.
  - rewrite rev_upto_succ in Hun. cbn [map] in Hun.
    rewrite fields_bits_cons in Hun.
    destruct (readUint_field NDEBUG 8 _ _ r Hok ltac:(lia) Hun) as (r1 & E1 & Hok1 & Hun1).
    destruct (utf8_continuation_read val (Z.of_nat m) Hval ltac:(lia)) as [Hm _].
    cbv zeta in Hm. rewrite (bind_ok _ _ _ _ _ E1), Hm. cbn [Z.eqb Pos.eqb negb].
    apply IH; [exact Hok1 | exact Hval | lia | exact Hun1].
Qed.

(** [readUtf8Integer] on the bytes [writeUtf8Integer(val)] wrote. *)
Lemma readUtf8Integer_fields (NDEBUG : bool) (val : Z) (rest : list bool)
    (r : FlacLowLevelInput.t) :
  0 <= val < 2 ^ 36 ->
  ~ In (bit_length val) [8; 12; 18; 22; 28; 32] ->
  reader_ok r -> unread r = fields_bits (utf8_fields val) ++ rest ->
  exists r',
    FrameInfo.readUtf8Integer NDEBUG r = (Ok val, r') /\
    reader_ok r' /\ unread r' = rest.
Proof.
  intros Hval Hgood Hok Hun.
  destruct (utf8_fields_cases val Hval Hgood) as [[Hsmall Ef] | (n & Hn & Hlt & Ef)];
    rewrite Ef in Hun; rewrite fields_bits_cons, <- app_assoc in Hun;
    destruct (readUint_field NDEBUG 8 _ _ r Hok ltac:(lia) Hun) as (r1 & E1 & Hok1 & Hun1);
    unfold FrameInfo.readUtf8Integer, FrameInfo.readUint;
    rewrite (bind_ok _ _ _ _ _ E1).
  - destruct (utf8_single_read val ltac:(lia)) as [H0 Hv].
    unfold utf8_head_ones in H0. cbv zeta. rewrite H0.
    rewrite bind_assert by reflexivity. cbn [Z.eqb]. mred.
    exists r1. rewrite Hv. cbn [app] in Hun1. auto.
  - set (v := Z.shiftr val (n * 6)).
    assert (Hv : 0 <= v < 2 ^ (6 - n)).
    { unfold v. rewrite Z.shiftr_div_pow2 by lia. split; [apply Z.div_pos; lia|].
      apply Z.div_lt_upper_bound; [lia|].
      rewrite <- Z.pow_add_r by lia. replace (n * 6 + (6 - n)) with (5 * n + 6) by lia.
      exact Hlt. }
    assert (Hv31 : int_fast32_t v = v).
    { apply sint_small; unfold fast32_bits; [lia|].
      assert (2 ^ (6 - n) <= 2 ^ 5) by (apply Z.pow_le_mono_r; lia). lia. }
    destruct (utf8_head_read n v Hn Hv) as [H1 H2]. cbv zeta in H1, H2.
    unfold utf8_head in E1 |- *. fold v in E1 |- *. rewrite Hv31 in *.
    unfold utf8_head_ones in H1. unfold utf8_head_bits, utf8_head_ones in H2.
    cbv zeta. rewrite H1.
    rewrite bind_assert by (apply andb_true_intro; split; apply Z.leb_le; lia).
    destruct (Z.eqb_spec (n + 1) 0) as [? | _]; [lia|].
    destruct (Z.eqb_spec (n + 1) 1) as [? | _]; [lia|].
    destruct (Z.eqb_spec (n + 1) 8) as [? | _]; [lia|]. cbn [orb].
    rewrite H1 in H2. rewrite H2.
    replace (n + 1 - 1) with n by lia.
    destruct (readUtf8_loop_spec NDEBUG (Z.to_nat n) val rest r1 Hok1 Hval)
      as (r2 & E2 & Hok2 & Hun2); [lia| |].
    { rewrite Z2Nat.id by lia. exact Hun1. }
    rewrite Z2Nat.id in E2 by lia. unfold v. replace (n * 6) with (6 * n) by lia.
    rewrite (bind_ok _ _ _ _ _ E2).
    rewrite Z.shiftr_div_pow2, Z.div_small by lia. cbn [Z.eqb negb]. mred.
    exists r2. auto.
Qed.

(** The fields of a value whose number of bits is 8, 12, 18, 22, 28 or 32:
    the branch taken is the one for 2 bits less, and the bits above the
    continuation bytes do not fit into the head byte. *)
Lemma utf8_fields_lost (val : Z) :
  0 <= val < 2 ^ 36 ->
  In (bit_length val) [8; 12; 18; 22; 28; 32] ->
  (128 <= val < 256 /\ utf8_fields val = [(8, int_fast32_t val)]) \/
  (exists n, 1 <= n <= 5 /\ 2 ^ (5 * n + 6) <= val < 2 ^ (5 * n + 8) /\
             utf8_fields val
             = (8, utf8_head val n)
               :: map (fun i => (8, utf8_continuation val i)) (rev (upto n))).
Proof.
  intros Hval Hbad.
  destruct (bit_length_range val Hval) as (HL & Hlt & H0 & Hge).
  assert (Hpos : 0 < val).
  { destruct (Z.eq_dec val 0) as [E | ?]; [|lia].
    apply H0 in E. rewrite E in Hbad. cbn in Hbad. lia. }
  specialize (Hge Hpos).
  unfold utf8_fields. rewrite (utf8_bitLen val Hval). cbv zeta.
  assert (E0 : negb (val =? 0) = negb (bit_length val =? 0)).
  { destruct (Z.eqb_spec val 0), (Z.eqb_spec (bit_length val) 0); try reflexivity;
      exfalso; tauto. }
  rewrite E0. clear E0 H0.
  set (L := bit_length val) in *.
  assert (Hcheck :
    check_from (fun L =>
      negb (existsb (Z.eqb L) [8; 12; 18; 22; 28; 32]) ||
      (let bl := if Z.even L && negb (L =? 0) then L - 2 else L in
       if bl <=? 7 then L =? 8
       else let n := int_fast32_t (Z.quot (bl - 2) 5) in
            (1 <=? n) && (n <=? 5) && (5 * n + 7 <=? L) && (L <=? 5 * n + 8))) 37 0 = true)
    by (vm_compute; reflexivity).
  pose proof (check_from_spec _ _ _ Hcheck L ltac:(lia)) as HcL. cbv beta in HcL.
  apply orb_true_iff in HcL. destruct HcL as [Hgood | HcL].
  { exfalso. apply negb_true_iff in Hgood.
    assert (Hex : existsb (Z.eqb L) [8; 12; 18; 22; 28; 32] = true); [|congruence].
    apply existsb_exists. exists L. split; [exact Hbad | apply Z.eqb_refl]. }
  cbv zeta in HcL.
  destruct (_ <=? 7).
  - left. split; [|reflexivity]. apply Z.eqb_eq in HcL. rewrite HcL in *.
    change (2 ^ (8 - 1)) with 128 in Hge. change (2 ^ 8) with 256 in Hlt. lia.
  - right. eexists.
    repeat (apply andb_true_iff in HcL; destruct HcL as [HcL ?]).
    repeat match goal with H : (_ <=? _) = true |- _ => apply Z.leb_le in H end.
    split; [split; eassumption|]. split; [|reflexivity]. split.
    + apply Z.le_trans with (2 ^ (L - 1)); [|exact Hge]. apply Z.pow_le_mono_r; lia.
    + apply Z.lt_le_trans with (2 ^ L); [exact Hlt|]. apply Z.pow_le_mono_r; lia.
Qed.

(** A head byte whose bits do not fit: it is read with at least [n + 1]
    leading ones, and with exactly [n + 1] the bits after them are fewer
    than the bits written. *)
Lemma utf8_head_lost (n v : Z) :
  1 <= n <= 5 -> 2 ^ (6 - n) <= v < 2 ^ (8 - n) ->
  let x := uint_fast32_t (Z.lor (Z.shiftr (uint_fast32_t 0xFF80) n) (int_fast32_t v))
           mod 2 ^ 8 in
  n + 1 <= utf8_head_ones x <= 8 /\
  (utf8_head_ones x = n + 1 -> 0 <= utf8_head_bits x < 2 ^ (6 - n)).
Proof.
  intros Hn Hv.
  assert (Hcheck :
    check_from (fun n =>
      check_from (fun v =>
        negb ((2 ^ (6 - n) <=? v) && (v <? 2 ^ (8 - n))) ||
        (let x := uint_fast32_t (Z.lor (Z.shiftr (uint_fast32_t 0xFF80) n)
                                       (int_fast32_t v)) mod 2 ^ 8 in
         (n + 1 <=? utf8_head_ones x) && (utf8_head_ones x <=? 8) &&
         (negb (utf8_head_ones x =? n + 1) ||
          ((0 <=? utf8_head_bits x) && (utf8_head_bits x <? 2 ^ (6 - n)))))) 128 0) 5 1
    = true)
    by (vm_compute; reflexivity).
  pose proof (check_from_spec _ _ _ Hcheck n ltac:(lia)) as Hc. cbv beta in Hc.
  assert (Hv128 : 0 <= v < 128).
  { assert (0 < 2 ^ (6 - n)) by (apply Z.pow_pos_nonneg; lia).
    assert (2 ^ (8 - n) <= 2 ^ 7) by (apply Z.pow_le_mono_r; lia). lia. }
  pose proof (check_from_spec _ _ _ Hc v ltac:(lia)) as Hcv. cbv beta in Hcv.
  apply orb_true_iff in Hcv. destruct Hcv as [Hout | Hcv].
  { apply negb_true_iff, andb_false_iff in Hout.
    destruct Hout as [Hout | Hout]; [apply Z.leb_gt in Hout | apply Z.ltb_ge in Hout]; lia. }
  cbv zeta in Hcv |- *.
  apply andb_true_iff in Hcv. destruct Hcv as [Hcv H3].
  apply andb_true_iff in Hcv. destruct Hcv as [H1 H2].
  apply Z.leb_le in H1, H2. split; [lia|]. intros E.
  apply orb_true_iff in H3. destruct H3 as [H3 | H3].
  - apply negb_true_iff, Z.eqb_neq in H3. contradiction.
  - apply andb_true_iff in H3. destruct H3 as [H4 H5].
    apply Z.leb_le in H4. apply Z.ltb_lt in H5. lia.
Qed.

Lemma utf8_single_lost (v : Z) :
  128 <= v < 256 -> 1 <= utf8_head_ones (int_fast32_t v mod 2 ^ 8) <= 8.
Proof.
  intros Hv.
  assert (Hcheck :
    check_from (fun v =>
      (1 <=? utf8_head_ones (int_fast32_t v mod 2 ^ 8)) &&
      (utf8_head_ones (int_fast32_t v mod 2 ^ 8) <=? 8)) 128 128 = true)
    by (vm_compute; reflexivity).
  pose proof (check_from_spec _ _ _ Hcheck v ltac:(lia)) as Hc. cbv beta in Hc.
  apply andb_true_iff in Hc. destruct Hc as [H1 H2]. apply Z.leb_le in H1, H2. lia.
Qed.

(** [readUtf8Integer] on the bytes [writeUtf8Integer(val)] wrote, and
    nothing after them, for a value of 8, 12, 18, 22, 28 or 32 bits. *)
Lemma readUtf8Integer_lost (NDEBUG : bool) (val : Z) (r : FlacLowLevelInput.t) :
  0 <= val < 2 ^ 36 ->
  In (bit_length val) [8; 12; 18; 22; 28; 32] ->
  reader_ok r -> unread r = fields_bits (utf8_fields val) ->
  fst (FrameInfo.readUtf8Integer NDEBUG r) <> Ok val.
Proof.
  intros Hval Hbad Hok Hun.
  destruct (utf8_fields_lost val Hval Hbad) as [[Hsmall Ef] | (n & Hn & Hlt & Ef)];
    rewrite Ef in Hun; rewrite fields_bits_cons in Hun;
    destruct (readUint_field NDEBUG 8 _ _ r Hok ltac:(lia) Hun) as (r1 & E1 & Hok1 & Hun1);
    unfold FrameInfo.readUtf8Integer, FrameInfo.readUint;
    rewrite (bind_ok _ _ _ _ _ E1); cbv zeta.
  - pose proof (utf8_single_lost val Hsmall) as Ho. unfold utf8_head_ones in Ho.
    set (o := Utilities.numberOfLeadingZeros32 _) in *.
    rewrite bind_assert by (apply andb_true_intro; split; apply Z.leb_le; lia).
    destruct (Z.eqb_spec o 0) as [? | _]; [lia|].
    destruct ((o =? 1) || (o =? 8)) eqn:Einv; [cbn; discriminate|].
    apply orb_false_iff in Einv. destruct Einv as [E1' E8]. apply Z.eqb_neq in E1', E8.
    pose proof (readUtf8_loop_short NDEBUG 0 (Z.to_nat (o - 1)) val
                  (uint_fast64_t (Z.land (int_fast32_t (int_fast32_t val mod 2 ^ 8))
                                         (Z.shiftr 0x7F o)))
                  r1 Hok1 ltac:(lia) ltac:(lia) Hun1) as Ht.
    destruct (FrameInfo.readUtf8_loop NDEBUG _ _ r1) as [res s'] eqn:E.
    cbn [fst] in Ht. subst res. rewrite (bind_throw _ _ _ _ _ E). cbn. discriminate.
  - set (v := Z.shiftr val (n * 6)).
    assert (Hp : 0 < 2 ^ (n * 6)) by (apply Z.pow_pos_nonneg; lia).
    assert (Hv : 2 ^ (6 - n) <= v < 2 ^ (8 - n)).
    { unfold v. rewrite Z.shiftr_div_pow2 by lia. split.
      - apply Z.div_le_lower_bound; [lia|].
        rewrite <- Z.pow_add_r by lia. replace (n * 6 + (6 - n)) with (5 * n + 6) by lia. lia.
      - apply Z.div_lt_upper_bound; [lia|].
        rewrite <- Z.pow_add_r by lia. replace (n * 6 + (8 - n)) with (5 * n + 8) by lia. lia. }
    assert (Hv128 : 0 <= v < 128).
    { assert (0 < 2 ^ (6 - n)) by (apply Z.pow_pos_nonneg; lia).
      assert (2 ^ (8 - n) <= 2 ^ 7) by (apply Z.pow_le_mono_r; lia). lia. }
    assert (Hv31 : int_fast32_t v = v) by (apply sint_small; unfold fast32_bits; lia).
    destruct (utf8_head_lost n v Hn Hv) as [Ho Hbits]. cbv zeta in Ho, Hbits.
    unfold utf8_head in E1 |- *. fold v in E1 |- *. rewrite Hv31 in *.
    unfold utf8_head_bits in Hbits. unfold utf8_head_ones in Ho, Hbits.
    set (x := uint_fast32_t (Z.lor (Z.shiftr (uint_fast32_t 65408) n) v) mod 2 ^ 8) in *.
    set (o := Utilities.numberOfLeadingZeros32 _) in *.
    rewrite bind_assert by (apply andb_true_intro; split; apply Z.leb_le; lia).
    destruct (Z.eqb_spec o 0) as [? | _]; [lia|].
    destruct ((o =? 1) || (o =? 8)) eqn:Einv; [cbn; discriminate|].
    apply orb_false_iff in Einv. destruct Einv as [E1' E8]. apply Z.eqb_neq in E1', E8.
    destruct (Z.eq_dec o (n + 1)) as [Eo | Hne].
    + specialize (Hbits Eo).
      set (hb := uint_fast64_t (Z.land (int_fast32_t x) (Z.shiftr 127 o))) in *.
      assert (Hp30 : 2 ^ (6 * Z.of_nat (Z.to_nat (o - 1))) <= 2 ^ 30)
        by (apply Z.pow_le_mono_r; lia).
      assert (Hb32 : 2 ^ (6 - n) <= 2 ^ 5) by (apply Z.pow_le_mono_r; lia).
      destruct (readUtf8_loop_gen NDEBUG (Z.to_nat (o - 1)) val hb [] r1 Hok1
                  ltac:(lia) ltac:(lia))
        as (r2 & E2 & _); [nia | rewrite Z2Nat.id by lia;
                                 replace (o - 1) with n by lia; rewrite app_nil_r; exact Hun1 |].
      rewrite (bind_ok _ _ _ _ _ E2).
      rewrite Z2Nat.id by lia. replace (o - 1) with n by lia.
      destruct (negb _); [cbn; discriminate|]. cbn [ret fst].
      intros Heq0.
      assert (Heq : hb * 2 ^ (6 * n) + val mod 2 ^ (6 * n) = val) by congruence.
      pose proof (Z.div_mod val (2 ^ (n * 6)) ltac:(lia)) as Hdm.
      unfold v in Hv. rewrite Z.shiftr_div_pow2 in Hv by lia.
      replace (6 * n) with (n * 6) in Heq by lia.
      assert (Hc : hb * 2 ^ (n * 6) = val / 2 ^ (n * 6) * 2 ^ (n * 6)) by lia.
      apply Z.mul_cancel_r in Hc; lia.
    + pose proof (readUtf8_loop_short NDEBUG (Z.to_nat n) (Z.to_nat (o - 1)) val
                    (uint_fast64_t (Z.land (int_fast32_t x) (Z.shiftr 0x7F o)))
                    r1 Hok1 ltac:(lia) ltac:(lia)) as Ht.
      rewrite Z2Nat.id in Ht by lia. specialize (Ht Hun1).
      destruct (FrameInfo.readUtf8_loop NDEBUG _ _ r1) as [res s'] eqn:E.
      cbn [fst] in Ht. subst res. rewrite (bind_throw _ _ _ _ _ E). cbn. discriminate.
Qed.

Lemma utf8_fields_shape (val : Z) :
  0 <= val < 2 ^ 36 ->
  Forall (fun f => fst f = 8) (utf8_fields val) /\
  (List.length (utf8_fields val) <= 7)%nat.
Proof.
  intros Hval.
  assert (Hshape : forall n, 1 <= n <= 6 ->
            Forall (fun f : Z * Z => fst f = 8)
              ((8, utf8_head val n)
               :: map (fun i => (8, utf8_continuation val i)) (rev (upto n))) /\
            (List.length ((8%Z, utf8_head val n)
               :: map (fun i => (8%Z, utf8_continuation val i)) (rev (upto n))) <= 7)%nat).
  { intros n Hn. split.
    - constructor; [reflexivity|]. apply Forall_forall. intros f Hf.
      apply in_map_iff in Hf. destruct Hf as (i & <- & _). reflexivity.
    - cbn [List.length]. rewrite length_map, length_rev, length_upto. lia. }
  destruct (in_dec Z.eq_dec (bit_length val) [8; 12; 18; 22; 28; 32]) as [Hbad | Hgood].
  - destruct (utf8_fields_lost val Hval Hbad) as [[_ ->] | (n & Hn & _ & ->)].
    + split; [repeat constructor | cbn; lia].
    + apply Hshape. lia.
  - destruct (utf8_fields_cases val Hval Hgood) as [[_ ->] | (n & Hn & _ & ->)].
    + split; [repeat constructor | cbn; lia].
    + apply Hshape. lia.
Qed.

(** [writeUtf8Integer(val)] on a new stream, and the stream over the bytes
    it wrote. *)
Lemma utf8_emitted (NDEBUG : bool) (val : Z) :
  0 <= val < 2 ^ 36 ->
  fst (FrameInfo.writeUtf8Integer NDEBUG val (BitOutputStream.create NDEBUG)) = Ok tt /\
  reader_ok (FlacLowLevelInput.create
               (emitted NDEBUG (FrameInfo.writeUtf8Integer NDEBUG val))) /\
  unread (FlacLowLevelInput.create
            (emitted NDEBUG (FrameInfo.writeUtf8Integer NDEBUG val)))
  = fields_bits (utf8_fields val).
Proof.
  intros Hval. destruct (utf8_fields_shape val Hval) as [Hall Hlen].
  destruct (writer_create_ok NDEBUG) as [Hok0 Hw0].
  assert (Hall32 : Forall (fun f : Z * Z => 0 <= fst f <= 32) (utf8_fields val)).
  { eapply Forall_impl; [|exact Hall]. cbv beta. intros f Hf. lia. }
  destruct (write_fields_spec NDEBUG _ _ Hok0 Hall32) as (w1 & E1 & Hok1 & Hw1).
  rewrite Hw0 in Hw1. cbn [app] in Hw1.
  assert (Hbits : List.length (fields_bits (utf8_fields val))
                  = (8 * List.length (utf8_fields val))%nat).
  { clear -Hall. induction Hall as [|[n v] fields Hf Hall IH]; [reflexivity|].
    cbn [fst] in Hf. subst n. rewrite fields_bits_cons, length_app, length_bits, IH.
    cbn [List.length]. lia. }
  destruct (flush_whole_bytes NDEBUG w1 _ Hok1 ltac:(rewrite Hw1; exact Hbits))
    as (w2 & E2 & Hout & _ & Hk).
  unfold emitted.
  rewrite (bind_ok _ _ _ _ _
             (eq_trans (writeUtf8Integer_fields NDEBUG val _ Hval) E1)), E2.
  rewrite (writeUtf8Integer_fields NDEBUG val _ Hval), E1. cbn [fst snd].
  split; [reflexivity|].
  destruct (reader_create_ok (BitOutputStream.out w2)) as [Hok Hun]; [rewrite Hk; lia|].
  split; [exact Hok|]. rewrite Hun, Hout. exact Hw1.
Qed.

(** ** Off a byte boundary *)

Lemma reader_checkByteAligned_throw (r : FlacLowLevelInput.t) :
  reader_ok r -> FlacLowLevelInput.bitBufferLen r mod 8 <> 0 ->
  FlacLowLevelInput.checkByteAligned r
  = (Throw (runtime_error "Not at a byte boundary"), r).
Proof.
  intros Hok H0. pose proof (rok_len r Hok).
  unfold FlacLowLevelInput.checkByteAligned. mcbv.
  rewrite Z.rem_mod_nonneg by lia.
  destruct (Z.eqb_spec (FlacLowLevelInput.bitBufferLen r mod 8) 0); [contradiction|].
  reflexivity.
Qed.

(** After [read_widths], the bit buffer holds a whole number of bytes
    exactly when a whole number of bytes was read. *)
Lemma read_widths_alignment (NDEBUG : bool) (widths bytes : list Z) :
  Forall is_byte bytes -> Z.of_nat (List.length bytes) < 2 ^ 31 ->
  Forall (fun n => 0 <= n <= 32) widths ->
  fold_right Z.add 0 widths <= 8 * Z.of_nat (List.length bytes) ->
  exists xs r,
    read_widths NDEBUG widths (FlacLowLevelInput.create bytes) = (Ok xs, r) /\
    reader_ok r /\
    FlacLowLevelInput.bitBufferLen r mod 8 = (- fold_right Z.add 0 widths) mod 8.
Proof.
  intros Hb Hlen Hall Hsum.
  destruct (reader_create_inv bytes Hb Hlen) as (Hinv & _ & _ & Hp & _).
  destruct (reader_create_ok bytes Hlen) as [_ Hun].
  destruct (read_widths_inv NDEBUG widths _ _ Hinv Hall) as (xs & r & E & Hinv' & Hp' & _).
  { rewrite Hun, length_bytes_bits. lia. }
  exists xs, r. split; [exact E|]. split; [exact (rin_ok _ _ Hinv')|].
  rewrite Hp in Hp'. unfold bit_position in Hp'.
  replace (FlacLowLevelInput.bitBufferLen r)
    with (- fold_right Z.add 0 widths
          + (FlacLowLevelInput.byteBufferStartPos r + FlacLowLevelInput.byteBufferIndex r) * 8)
    by lia.
  apply Z.mod_add. lia.
Qed.

(** ** The position after the end of the data was met *)

Lemma reader_chunked_bits (v l : Z) (r : FlacLowLevelInput.t) :
  reader_chunked r ->
  reader_chunked (FlacLowLevelInput.set_bitBufferLen l (FlacLowLevelInput.set_bitBuffer v r)).
Proof. destruct r. exact (fun H => H). Qed.

Lemma reader_chunked_len (l : Z) (r : FlacLowLevelInput.t) :
  reader_chunked r -> reader_chunked (FlacLowLevelInput.set_bitBufferLen l r).
Proof. destruct r. exact (fun H => H). Qed.

Lemma readUnderlying_chunked (NDEBUG : bool) (r : FlacLowLevelInput.t) (b : Z)
    (rest : list Z) :
  reader_ok r -> reader_chunked r ->
  buffered r ++ pending r = b :: rest ->
  reader_chunked (snd (FlacLowLevelInput.readUnderlying NDEBUG r)).
Proof.
  intros Hok (Hs0 & Hsm & Hpos & Hz & Hfull) Hnext.
  pose proof (rok_buf r Hok) as Hbuf. pose proof (rok_index r Hok) as Hidx.
  pose proof (rok_buflen r Hok) as Hbl. pose proof (rok_offset r Hok) as Hoff.
  pose proof (rok_length r Hok) as Hlength.
  unfold FlacLowLevelInput.BUF_SIZE in *.
  destruct (Z.ltb_spec (FlacLowLevelInput.byteBufferIndex r)
                       (FlacLowLevelInput.byteBufferLen r)) as [Hlt | Hge].
  - destruct (readUnderlying_buffered NDEBUG r Hok Hlt) as [E _].
    cbv zeta in E. rewrite E. cbn [snd]. destruct r.
    unfold reader_chunked, FlacLowLevelInput.BUF_SIZE. rred. auto.
  - assert (Hbuffered : buffered r = []).
    { unfold buffered.
      replace (Z.to_nat (FlacLowLevelInput.byteBufferLen r
                         - FlacLowLevelInput.byteBufferIndex r)) with 0%nat by lia.
      reflexivity. }
    rewrite Hbuffered in Hnext. cbn [app] in Hnext.
    assert (Hoff' : FlacLowLevelInput.offset r < FlacLowLevelInput.length r).
    { destruct (Z.ltb_spec (FlacLowLevelInput.offset r) (FlacLowLevelInput.length r));
        [assumption|].
      unfold pending in Hnext. rewrite skipn_all2 in Hnext; [discriminate|].
      unfold FlacLowLevelInput.length in *. lia. }
    pose proof (readUnderlying_refill NDEBUG r Hok Hge ltac:(lia) Hoff') as E.
    cbv zeta in E. rewrite E. cbn [snd].
    unfold reader_chunked, FlacLowLevelInput.BUF_SIZE, FlacLowLevelInput.length in *. rred.
    assert (Es : uint_fast64_t (FlacLowLevelInput.byteBufferStartPos r
                                + FlacLowLevelInput.byteBufferLen r)
                 = FlacLowLevelInput.byteBufferStartPos r
                   + FlacLowLevelInput.byteBufferLen r).
    { apply uint_small. unfold fast64_bits. lia. }
    rewrite Es.
    split; [lia|]. split.
    { destruct Hfull as [H4096 | [H0 | Hend]]; [| |lia].
      - rewrite H4096. rewrite <- Z.add_mod_idemp_l, Hsm by lia. reflexivity.
      - rewrite H0, Z.add_0_r. exact Hsm. }
    split; [lia|]. split; lia.
Qed.

Lemma readUint_loop_chunked (NDEBUG : bool) (fuel : nat) (n : Z)
    (r r' : FlacLowLevelInput.t) :
  reader_ok r -> reader_chunked r -> 0 <= n <= 32 ->
  FlacLowLevelInput.readUint_loop NDEBUG fuel n r = (Ok tt, r') ->
  reader_ok r' /\ reader_chunked r' /\ n <= FlacLowLevelInput.bitBufferLen r'.
Proof.
  revert r. induction fuel as [|fuel IH]; intros r Hok Hch Hn;
    cbn [FlacLowLevelInput.readUint_loop]; mcbv;
    destruct (Z.ltb_spec (FlacLowLevelInput.bitBufferLen r) n) as [Hlt | Hge];
    try (intros E; injection E as <-; auto); try discriminate.
  pose proof (rok_len r Hok) as Hlen.
  unfold FlacLowLevelInput.readUint_byte. mcbv.
  destruct (buffered r ++ pending r) as [|b rest] eqn:Enext.
  - destruct (readUnderlying_eof NDEBUG r Hok Enext) as (r1 & E1 & _).
    rewrite E1. discriminate.
  - pose proof (readUnderlying_chunked NDEBUG r b rest Hok Hch Enext) as Hch1.
    destruct (readUnderlying_spec NDEBUG r b rest Hok Enext)
      as (r1 & E1 & Hok1 & Hnext1 & Hbb1 & Hlen1).
    rewrite E1 in Hch1 |- *. cbn [snd] in Hch1.
    pose proof (land_255_range b) as Hb.
    destruct (Z.eqb_spec (Z.land b 0xFF) (-1)) as [? | _]; [lia|].
    set (r2 := FlacLowLevelInput.set_bitBufferLen
                 (uint_fast8_t (FlacLowLevelInput.bitBufferLen
                    (FlacLowLevelInput.set_bitBuffer
                       (uint_fast64_t
                          (Z.lor (Z.shiftl (FlacLowLevelInput.bitBuffer r1) 8)
                                 (Z.land b 0xFF))) r1) + 8))
                 (FlacLowLevelInput.set_bitBuffer
                    (uint_fast64_t
                       (Z.lor (Z.shiftl (FlacLowLevelInput.bitBuffer r1) 8)
                              (Z.land b 0xFF))) r1)).
    assert (El : FlacLowLevelInput.bitBufferLen r2 = FlacLowLevelInput.bitBufferLen r + 8).
    { unfold r2. destruct r1. rred. cbn [FlacLowLevelInput.bitBufferLen] in Hlen1.
      rewrite Hlen1. apply uint_small. unfold fast8_bits. lia. }
    assert (Hok2 : reader_ok r2).
    { unfold r2. apply reader_ok_bits; [exact Hok1|].
      destruct r1. revert El. unfold r2. rred. intros ->. lia. }
    assert (Hch2 : reader_chunked r2) by (apply reader_chunked_bits; exact Hch1).
    rewrite assert_true.
    2:{ fold r2. rewrite El. apply andb_true_intro. split; apply Z.leb_le; lia. }
    fold r2. exact (IH r2 Hok2 Hch2 Hn).
Qed.

Lemma readUint_chunked (NDEBUG : bool) (n x : Z) (r r' : FlacLowLevelInput.t) :
  reader_ok r -> reader_chunked r -> 0 <= n <= 32 ->
  FlacLowLevelInput.readUint NDEBUG n r = (Ok x, r') ->
  reader_ok r' /\ reader_chunked r'.
Proof.
  intros Hok Hch Hn E.
  destruct (FlacLowLevelInput.readUint_loop NDEBUG (Z.to_nat n) n r) as [[[]|e] r1] eqn:E1.
  2:{ unfold FlacLowLevelInput.readUint in E.
      assert (En : uint_fast8_t n = n) by (apply uint_small; unfold fast8_bits; lia).
      rewrite En in E. destruct (Z.ltb_spec 32 n); [lia|].
      rewrite (bind_throw _ _ _ _ _ E1) in E. discriminate. }
  destruct (readUint_loop_chunked NDEBUG _ n r r1 Hok Hch Hn E1) as (Hok1 & Hch1 & Hlen1).
  pose proof (rok_len r1 Hok1) as Hl1.
  assert (E2 : FlacLowLevelInput.readUint NDEBUG n r
               = FlacLowLevelInput.readUint NDEBUG n r1).
  { unfold FlacLowLevelInput.readUint.
    assert (En : uint_fast8_t n = n) by (apply uint_small; unfold fast8_bits; lia).
    rewrite En. destruct (Z.ltb_spec 32 n); [lia|].
    rewrite (bind_ok _ _ _ _ _ E1).
    rewrite (bind_ok _ _ _ _ _ (readUint_loop_enough NDEBUG _ n r1 Hlen1)).
    reflexivity. }
  rewrite E2 in E.
  assert (Er' : r' = FlacLowLevelInput.set_bitBufferLen
                       (FlacLowLevelInput.bitBufferLen r1 - n) r1).
  { destruct (Z.eq_dec n 32) as [-> | Hne].
    - rewrite readUint_buffered_32 in E by lia. injection E as _ <-. reflexivity.
    - rewrite readUint_buffered in E by lia. injection E as _ <-. reflexivity. }
  subst r'. split; [apply reader_ok_len; [exact Hok1 | lia]|].
  apply reader_chunked_len. exact Hch1.
Qed.

Lemma readFully_loop_chunked (NDEBUG : bool) (k : nat) (bs : list Z)
    (r r' : FlacLowLevelInput.t) :
  reader_ok r -> reader_chunked r ->
  FlacLowLevelInput.readFully_loop NDEBUG k r = (Ok bs, r') ->
  reader_chunked r'.
Proof.
  revert r bs. induction k as [|k IH]; intros r bs Hok Hch E;
    cbn [FlacLowLevelInput.readFully_loop] in E.
  - injection E as _ <-. exact Hch.
  - destruct (FlacLowLevelInput.readUint NDEBUG 8 r) as [[x|e] r1] eqn:E1.
    2:{ rewrite (bind_throw _ _ _ _ _ E1) in E. discriminate. }
    destruct (readUint_chunked NDEBUG 8 x r r1 Hok Hch ltac:(lia) E1) as [Hok1 Hch1].
    rewrite (bind_ok _ _ _ _ _ E1) in E.
    destruct (FlacLowLevelInput.readFully_loop NDEBUG k r1) as [[xs|e] r2] eqn:E2.
    2:{ rewrite (bind_throw _ _ _ _ _ E2) in E. discriminate. }
    rewrite (bind_ok _ _ _ _ _ E2) in E. injection E as _ <-.
    exact (IH r1 xs Hok1 Hch1 E2).
Qed.

(** The state after [readUnderlying()] met the end of the data for the
    first time: the start position has moved on by the length of the byte
    buffer, and the index into the byte buffer was not reset. *)
Lemma readUnderlying_eof_position (NDEBUG : bool) (r : FlacLowLevelInput.t) :
  reader_ok r -> buffered r ++ pending r = [] ->
  FlacLowLevelInput.byteBufferLen r <> -1 ->
  fst (FlacLowLevelInput.readUnderlying NDEBUG r) = Ok (-1) /\
  FlacLowLevelInput.byteBufferStartPos (snd (FlacLowLevelInput.readUnderlying NDEBUG r))
  = uint_fast64_t (FlacLowLevelInput.byteBufferStartPos r
                   + FlacLowLevelInput.byteBufferLen r) /\
  FlacLowLevelInput.byteBufferIndex (snd (FlacLowLevelInput.readUnderlying NDEBUG r))
  = FlacLowLevelInput.byteBufferIndex r /\
  FlacLowLevelInput.bitBufferLen (snd (FlacLowLevelInput.readUnderlying NDEBUG r))
  = FlacLowLevelInput.bitBufferLen r.
Proof.
  intros Hok Hnext Hopen.
  apply app_eq_nil in Hnext. destruct Hnext as [Hbuf0 Hpend0].
  pose proof (reader_ok_startPos
    (uint_fast64_t (FlacLowLevelInput.byteBufferStartPos r
                    + FlacLowLevelInput.byteBufferLen r)) r Hok) as Hok1.
  pose proof (updateCrcs_explicit NDEBUG 0 _ Hok1 ltac:(lia)) as E.
  destruct Hok as [Hlen Hbuf Hidx Hbl Hav Heof Hoff Hlength Hcs H8 H16].
  assert (Hoff' : FlacLowLevelInput.offset r = FlacLowLevelInput.length r).
  { unfold pending in Hpend0. apply (f_equal (@List.length Z)) in Hpend0.
    rewrite length_skipn in Hpend0. cbn [List.length] in Hpend0.
    unfold FlacLowLevelInput.length in *. lia. }
  assert (Hge : FlacLowLevelInput.byteBufferLen r <= FlacLowLevelInput.byteBufferIndex r).
  { unfold buffered in Hbuf0. apply (f_equal (@List.length Z)) in Hbuf0.
    rewrite length_firstn, length_skipn, Hbuf in Hbuf0. cbn [List.length] in Hbuf0.
    unfold FlacLowLevelInput.BUF_SIZE in *. lia. }
  destruct r as [d off sp buf blen bidx bb len c8 c16 cs].
  unfold FlacLowLevelInput.length, FlacLowLevelInput.BUF_SIZE, buffered, pending in *.
  cbn [FlacLowLevelInput.data FlacLowLevelInput.offset
       FlacLowLevelInput.bitBufferLen FlacLowLevelInput.byteBuffer
       FlacLowLevelInput.byteBufferIndex FlacLowLevelInput.byteBufferLen
       FlacLowLevelInput.crcStartIndex FlacLowLevelInput.crc8
       FlacLowLevelInput.byteBufferStartPos
       FlacLowLevelInput.crc16 FlacLowLevelInput.bitBuffer] in *.
  unfold FlacLowLevelInput.readUnderlying. mcbv. rred.
  destruct (Z.leb_spec blen bidx); [|lia].
  destruct (Z.eqb_spec blen (-1)) as [? | _]; [contradiction|].
  revert E. rred. intros E. rewrite E. mred. rred.
  unfold FlacLowLevelInput.readUnderlying_array. mcbv. rred.
  unfold FlacLowLevelInput.length. rred. rewrite Hoff', Z.sub_diag.
  change (int (Z.min (uint_fast64_t 0) 4096)) with 0.
  cbn [Z.eqb]. mred. rred. cbn [Z.leb Z.compare]. mred.
  repeat split; reflexivity.
Qed.

Lemma reader_chunked_create (bytes : list Z) :
  reader_chunked (FlacLowLevelInput.create bytes).
Proof.
  rewrite reader_create. unfold reader_chunked, FlacLowLevelInput.BUF_SIZE. rred.
  split; [lia|]. split; [reflexivity|]. split; [reflexivity|]. split; [reflexivity|].
  right. left. reflexivity.
Qed.

(** [readByte()] and [getPosition()] after every byte of the array was
    read. *)
Lemma position_after_the_end (NDEBUG : bool) (bytes : list Z) :
  Forall is_byte bytes -> Z.of_nat (List.length bytes) < 2 ^ 31 ->
  exists r,
    FlacLowLevelInput.readFully NDEBUG (Z.of_nat (List.length bytes))
      (FlacLowLevelInput.create bytes) = (Ok bytes, r) /\
    fst (readByte_position NDEBUG r)
    = Ok (-1, Z.of_nat (List.length bytes)
              + (if Z.of_nat (List.length bytes) =? 0 then 0
                 else (Z.of_nat (List.length bytes) - 1) mod 4096 + 1)).
Proof.
  intros Hb Hlen.
  destruct (reader_after_prefix NDEBUG bytes []) as (r & E & Hinv & Hl & Hbp & _ & Hp);
    try (rewrite app_nil_r; assumption).
  rewrite app_nil_r in E, Hinv. exists r. split; [exact E|].
  set (n := Z.of_nat (List.length bytes)) in *.
  pose proof (rin_ok _ _ Hinv) as Hok.
  assert (Hch : reader_chunked r).
  { destruct (reader_create_ok bytes Hlen) as [Hok0 _].
    unfold FlacLowLevelInput.readFully in E.
    rewrite (bind_ok _ _ _ _ _ (reader_checkByteAligned_ok _ Hok0 eq_refl)) in E.
    exact (readFully_loop_chunked NDEBUG _ _ _ _ Hok0 (reader_chunked_create bytes) E). }
  pose proof (rin_open _ _ Hinv) as Hopen.
  destruct (readUnderlying_eof_position NDEBUG r Hok Hbp ltac:(lia)) as (Ef & Es & Ei & Elen).
  destruct (FlacLowLevelInput.readUnderlying NDEBUG r) as [o r2] eqn:E2.
  cbn [fst snd] in Ef, Es, Ei, Elen. subst o.
  assert (Erb : FlacLowLevelInput.readByte NDEBUG r = (Ok (-1), r2)).
  { unfold FlacLowLevelInput.readByte.
    rewrite (bind_ok _ _ _ _ _
               (reader_checkByteAligned_ok r Hok ltac:(rewrite Hl; reflexivity))).
    mred. rewrite Hl. cbn [Z.leb Z.compare]. rewrite bind_assert by reflexivity.
    exact E2. }
  unfold readByte_position. rewrite (bind_ok _ _ _ _ _ Erb).
  unfold FlacLowLevelInput.getPosition. mred.
  rewrite Es, Ei, Elen, Hl. change ((0 + 7) / 8) with 0. rewrite Z.sub_0_r.
  destruct Hch as (Hs0 & Hsm & Hpos & Hz & Hfull).
  pose proof (rok_buflen r Hok) as Hbl. pose proof (rok_index r Hok) as Hidx.
  pose proof (rok_buf r Hok) as Hbuf.
  unfold FlacLowLevelInput.BUF_SIZE in *.
  assert (Eidx : FlacLowLevelInput.byteBufferIndex r = FlacLowLevelInput.byteBufferLen r).
  { apply app_eq_nil in Hbp. destruct Hbp as [Hbuf0 _].
    unfold buffered in Hbuf0. apply (f_equal (@List.length Z)) in Hbuf0.
    rewrite length_firstn, length_skipn, Hbuf in Hbuf0. cbn [List.length] in Hbuf0.
    destruct (rok_avail r Hok); lia. }
  unfold bit_position in Hp. rewrite Hl, Eidx in Hp. rewrite Eidx.
  assert (Hsum : FlacLowLevelInput.byteBufferStartPos r + FlacLowLevelInput.byteBufferLen r
                 = n) by lia.
  rewrite Hsum.
  assert (Hn0 : 0 <= n < 2 ^ 31) by (unfold n; lia).
  unfold uint_fast64_t. rewrite (uint_small fast64_bits n) by (unfold fast64_bits; lia).
  rewrite (uint_small fast64_bits) by (unfold fast64_bits; lia).
  f_equal. f_equal. f_equal.
  destruct (Z.eqb_spec n 0) as [E0 | Hne]; [lia|].
  assert (Hbpos : 1 <= FlacLowLevelInput.byteBufferLen r) by lia.
  replace (n - 1) with (FlacLowLevelInput.byteBufferLen r - 1
                        + FlacLowLevelInput.byteBufferStartPos r) by lia.
  rewrite <- Z.add_mod_idemp_r, Hsm, Z.add_0_r, Z.mod_small by lia. lia.
Qed.

(** * The slow decoder of [readRiceSignedInts] *)

Lemma unary_loop_unfold (NDEBUG : bool) (fuel : nat) (unaryLimit val : Z)
    (s : FlacLowLevelInput.t) :
  FlacLowLevelInput.unary_loop NDEBUG fuel unaryLimit val s
  = bind (FlacLowLevelInput.readUint NDEBUG 1)
      (fun b => if b =? 0 then
         match fuel with
         | O => throw out_of_fuel
         | S fuel' =>
             if unaryLimit <=? uint_fast64_t val
             then throw (DataFormatException "Residual value too large")
             else FlacLowLevelInput.unary_loop NDEBUG fuel' unaryLimit
                    (int_fast64_t (val + 1))
         end
       else ret val) s.
Proof. destruct fuel; reflexivity. Qed.

(** [readUint(1)] on a stream whose next bit is [b]. *)
Lemma readUint_one_bit (NDEBUG : bool) (b : bool) (rest : list bool)
    (r : FlacLowLevelInput.t) :
  reader_ok r -> unread r = b :: rest ->
  exists r',
    FlacLowLevelInput.readUint NDEBUG 1 r = (Ok (Z.b2z b), r') /\
    reader_ok r' /\ unread r' = rest.
Proof.
  intros Hok Hun.
  destruct (readUint_bits NDEBUG 1 r Hok ltac:(lia)) as (r' & E & Hok' & Hun').
  { rewrite Hun. cbn [List.length]. lia. }
  exists r'. rewrite E, Hun', Hun. change (Z.to_nat 1) with 1%nat.
  cbn [firstn skipn]. split; [|auto]. destruct b; reflexivity.
Qed.

(** The unary part: [q] zero bits that the limit lets pass, and a one. *)
Lemma unary_loop_spec (NDEBUG : bool) (unaryLimit : Z) (q : nat) :
  forall (fuel : nat) (val : Z) (rest : list bool) (r : FlacLowLevelInput.t),
    reader_ok r -> (q <= fuel)%nat -> 0 <= val ->
    val + Z.of_nat q <= unaryLimit -> unaryLimit <= 2 ^ 62 ->
    unread r = repeat false q ++ true :: rest ->
    exists r',
      FlacLowLevelInput.unary_loop NDEBUG fuel unaryLimit val r
      = (Ok (val + Z.of_nat q), r') /\
      reader_ok r' /\ unread r' = rest.
Proof.
  induction q as [|q IH]; intros fuel val rest r Hok Hfuel Hval Hlim Hlim62 Hun;
    rewrite unary_loop_unfold; cbn [repeat app] in Hun;
    destruct (readUint_one_bit NDEBUG _ _ r Hok Hun) as (r1 & E1 & Hok1 & Hun1);
    rewrite (bind_ok _ _ _ _ _ E1); cbn [Z.b2z Z.eqb].
  - exists r1. mred. rewrite Z.add_0_r. auto.
  - destruct fuel as [|fuel]; [lia|].
    assert (Eu : uint_fast64_t val = val)
      by (apply uint_small; unfold fast64_bits; lia).
    assert (Ei : int_fast64_t (val + 1) = val + 1)
      by (apply sint_small; unfold fast64_bits; lia).
    rewrite Eu, Ei.
    destruct (Z.leb_spec unaryLimit val); [lia|].
    destruct (IH fuel (val + 1) rest r1 Hok1 ltac:(lia) ltac:(lia) ltac:(lia) Hlim62 Hun1)
      as (r2 & E2 & Hok2 & Hun2).
    exists r2. rewrite E2. split; [f_equal; f_equal; lia | auto].
Qed.

(** More zero bits than the limit lets pass. *)
Lemma unary_loop_too_long (NDEBUG : bool) (unaryLimit : Z) (m : nat) :
  forall (fuel : nat) (val : Z) (rest : list bool) (r : FlacLowLevelInput.t),
    reader_ok r -> (m < fuel)%nat -> 0 <= val ->
    val + Z.of_nat m = unaryLimit -> unaryLimit <= 2 ^ 62 ->
    unread r = repeat false (S m) ++ rest ->
    fst (FlacLowLevelInput.unary_loop NDEBUG fuel unaryLimit val r)
    = Throw (DataFormatException "Residual value too large").
Proof.
  induction m as [|m IH]; intros fuel val rest r Hok Hfuel Hval Hlim Hlim62 Hun;
    rewrite unary_loop_unfold; cbn [repeat app] in Hun;
    destruct (readUint_one_bit NDEBUG _ _ r Hok Hun) as (r1 & E1 & Hok1 & Hun1);
    rewrite (bind_ok _ _ _ _ _ E1); cbn [Z.b2z Z.eqb];
    (destruct fuel as [|fuel]; [lia|]);
    assert (Eu : uint_fast64_t val = val)
      by (apply uint_small; unfold fast64_bits; lia);
    rewrite Eu.
  - destruct (Z.leb_spec unaryLimit val); [reflexivity | lia].
  - destruct (Z.leb_spec unaryLimit val); [lia|].
    assert (Ei : int_fast64_t (val + 1) = val + 1)
      by (apply sint_small; unfold fast64_bits; lia).
    rewrite Ei.
    apply (IH fuel (val + 1) rest r1 Hok1); try lia. exact Hun1.
Qed.

(** The conversion [(val >> 1) ^ -(val & 1)] of the slow decoder. *)
Lemma lxor_all_ones (a : Z) :
  0 <= a < 2 ^ 64 -> Z.lxor a (2 ^ 64 - 1) = 2 ^ 64 - 1 - a.
Proof.
  intros Ha. change (2 ^ 64 - 1) with (Z.ones 64).
  replace (Z.ones 64 - a) with (Z.lnot a mod 2 ^ 64).
  2:{ unfold Z.lnot. rewrite Z.ones_equiv.
      replace (Z.pred (- a)) with (Z.pred (2 ^ 64) - a + -1 * 2 ^ 64) by lia.
      rewrite Z.mod_add by lia. apply Z.mod_small. lia. }
  apply Z.bits_inj'. intros i Hi.
  rewrite Z.lxor_spec, Z.testbit_ones_nonneg, Z.testbit_mod_pow2 by lia.
  destruct (Z.ltb_spec i 64).
  - cbn [andb]. rewrite Z.lnot_spec by lia. destruct (Z.testbit a i); reflexivity.
  - rewrite (bits_above 64 a i) by lia. reflexivity.
Qed.

Lemma rice_conversion (u : Z) :
  0 <= u < 2 ^ 62 ->
  int_fast64_t (Z.lxor (Z.shiftr (uint_fast64_t u) 1) (uint_fast64_t (- Z.land u 1)))
  = if Z.even u then u / 2 else - (u / 2) - 1.
Proof.
  intros Hu.
  assert (Eu : uint_fast64_t u = u) by (apply uint_small; unfold fast64_bits; lia).
  rewrite Eu, Z.shiftr_div_pow2 by lia. change (2 ^ 1) with 2.
  change 1 with (Z.ones 1) at 1. rewrite Z.land_ones by lia. change (2 ^ 1) with 2.
  assert (Hh : 0 <= u / 2 < 2 ^ 61).
  { split; [apply Z.div_pos; lia|]. apply Z.div_lt_upper_bound; lia. }
  rewrite Zmod_even. destruct (Z.even u).
  - change (uint_fast64_t (- 0)) with 0. rewrite Z.lxor_0_r.
    apply sint_small; unfold fast64_bits; lia.
  - change (uint_fast64_t (- 1)) with (2 ^ 64 - 1).
    rewrite lxor_all_ones by lia.
    unfold int_fast64_t, sint, fast64_bits.
    replace (2 ^ 64 - 1 - u / 2 + 2 ^ (64 - 1))
      with (- (u / 2) - 1 + 2 ^ 63 + 1 * 2 ^ 64) by lia.
    rewrite Z.mod_add by lia. rewrite Z.mod_small by lia. lia.
Qed.

Lemma bind_assert_off {S B} (c : bool) (k : unit -> M S B) (s : S) :
  bind (assert true c) k s = k tt s.
Proof. reflexivity. Qed.

Lemma unread_le_remaining (r : FlacLowLevelInput.t) :
  reader_ok r ->
  Z.of_nat (List.length (unread r)) <= FlacLowLevelInput.remaining_bits r.
Proof.
  intros Hok. pose proof (rok_len r Hok) as Hlen.
  rewrite length_unread by lia. rewrite length_app.
  unfold FlacLowLevelInput.remaining_bits, buffered, pending.
  rewrite length_firstn, !length_skipn. unfold FlacLowLevelInput.length. lia.
Qed.

Lemma length_rice_code_bits (param : Z) (c : nat * Z) :
  List.length (rice_code_bits param c) = (fst c + 1 + Z.to_nat param)%nat.
Proof.
  unfold rice_code_bits. rewrite length_app, repeat_length. cbn [List.length].
  rewrite length_bits. lia.
Qed.

(** The slow decoder on a code whose unary part the limit lets pass. *)
Lemma slow_decode_spec (NDEBUG : bool) (param : Z) (c : nat * Z) (rest : list bool)
    (r : FlacLowLevelInput.t) :
  reader_ok r -> 0 <= param <= 31 ->
  Z.of_nat (fst c) <= 2 ^ (53 - param) ->
  Z.of_nat (fst c) < 2 ^ (53 - param) \/ NDEBUG = true ->
  unread r = rice_code_bits param c ++ rest ->
  exists r',
    FlacLowLevelInput.slow_decode NDEBUG param (uint_fast64_t (Z.shiftl 1 (53 - param))) r
    = (Ok (rice_code_value param c), r') /\
    reader_ok r' /\ unread r' = rest.
Proof.
  intros Hok Hp Hq Hmode Hun. destruct c as [q v]. cbn [fst snd] in *.
  assert (Hlim : 2 ^ 22 <= 2 ^ (53 - param) <= 2 ^ 53).
  { split; apply Z.pow_le_mono_r; lia. }
  assert (El : uint_fast64_t (Z.shiftl 1 (53 - param)) = 2 ^ (53 - param)).
  { rewrite Z.shiftl_1_l. apply uint_small. unfold fast64_bits. lia. }
  rewrite El.
  unfold rice_code_bits in Hun. cbn [fst snd] in Hun. rewrite <- app_assoc in Hun.
  cbn [app] in Hun.
  pose proof (unread_le_remaining r Hok) as Hrem.
  assert (Hfuel : (q <= Z.to_nat (FlacLowLevelInput.remaining_bits r))%nat).
  { rewrite Hun, length_app, repeat_length in Hrem. lia. }
  destruct (unary_loop_spec NDEBUG (2 ^ (53 - param)) q _ 0 _ r Hok Hfuel
              ltac:(lia) ltac:(lia) ltac:(lia) Hun) as (r1 & E1 & Hok1 & Hun1).
  destruct (readUint_field NDEBUG param v _ r1 Hok1 ltac:(lia) Hun1)
    as (r2 & E2 & Hok2 & Hun2).
  unfold FlacLowLevelInput.slow_decode. rewrite bind_get.
  rewrite (bind_ok _ _ _ _ _ E1), (bind_ok _ _ _ _ _ E2). cbn [Z.add].
  assert (Hx : 0 <= v mod 2 ^ param < 2 ^ param)
    by (apply Z.mod_pos_bound; apply Z.pow_pos_nonneg; lia).
  assert (Hpp : 2 ^ param <= 2 ^ 31) by (apply Z.pow_le_mono_r; lia).
  rewrite lor_disjoint by lia.
  assert (Hprod : 2 ^ (53 - param) * 2 ^ param = 2 ^ 53).
  { rewrite <- Z.pow_add_r by lia. f_equal. lia. }
  set (u := Z.of_nat q * 2 ^ param + v mod 2 ^ param).
  assert (Hu : 0 <= u < 2 ^ 62) by (unfold u; nia).
  assert (Ei : int_fast64_t u = u) by (apply sint_small; unfold fast64_bits; lia).
  rewrite Ei, rice_conversion by exact Hu.
  assert (Hval : rice_code_value param (q, v) = if Z.even u then u / 2 else - (u / 2) - 1)
    by reflexivity.
  rewrite Hval.
  destruct Hmode as [Hlt | ->].
  - assert (Hu53 : u < 2 ^ 53) by (unfold u; nia).
    assert (Eu : uint_fast64_t u = u) by (apply uint_small; unfold fast64_bits; lia).
    rewrite bind_assert
      by (rewrite Eu, Z.shiftr_div_pow2, Z.div_small by lia; reflexivity).
    assert (Hh : 0 <= u / 2 < 2 ^ 52).
    { split; [apply Z.div_pos; lia|]. apply Z.div_lt_upper_bound; lia. }
    rewrite bind_assert.
    2:{ rewrite Z.shiftr_div_pow2 by lia. destruct (Z.even u).
        - rewrite Z.div_small by lia. reflexivity.
        - replace ((- (u / 2) - 1) / 2 ^ 52) with (-1);
            [reflexivity|].
          apply Z.div_unique with (2 ^ 52 - (u / 2) - 1); lia. }
    exists r2. auto.
  - rewrite !bind_assert_off. exists r2. auto.
Qed.

(** The unary part with exactly as many zero bits as the limit: the test
    lets it pass, and the number assembled needs more than 53 bits. *)
Lemma slow_decode_at_the_limit (param : Z) (c : nat * Z) (rest : list bool)
    (r : FlacLowLevelInput.t) :
  reader_ok r -> 0 <= param <= 31 ->
  Z.of_nat (fst c) = 2 ^ (53 - param) ->
  unread r = rice_code_bits param c ++ rest ->
  fst (FlacLowLevelInput.slow_decode false param
         (uint_fast64_t (Z.shiftl 1 (53 - param))) r)
  = Throw assertion_failure.
Proof.
  intros Hok Hp Hq Hun. destruct c as [q v]. cbn [fst snd] in *.
  assert (Hlim : 2 ^ 22 <= 2 ^ (53 - param) <= 2 ^ 53).
  { split; apply Z.pow_le_mono_r; lia. }
  assert (El : uint_fast64_t (Z.shiftl 1 (53 - param)) = 2 ^ (53 - param)).
  { rewrite Z.shiftl_1_l. apply uint_small. unfold fast64_bits. lia. }
  rewrite El.
  unfold rice_code_bits in Hun. cbn [fst snd] in Hun. rewrite <- app_assoc in Hun.
  cbn [app] in Hun.
  pose proof (unread_le_remaining r Hok) as Hrem.
  assert (Hfuel : (q <= Z.to_nat (FlacLowLevelInput.remaining_bits r))%nat).
  { rewrite Hun, length_app, repeat_length in Hrem. lia. }
  destruct (unary_loop_spec false (2 ^ (53 - param)) q _ 0 _ r Hok Hfuel
              ltac:(lia) ltac:(lia) ltac:(lia) Hun) as (r1 & E1 & Hok1 & Hun1).
  destruct (readUint_field false param v _ r1 Hok1 ltac:(lia) Hun1)
    as (r2 & E2 & Hok2 & Hun2).
  unfold FlacLowLevelInput.slow_decode. rewrite bind_get.
  rewrite (bind_ok _ _ _ _ _ E1), (bind_ok _ _ _ _ _ E2). cbn [Z.add].
  assert (Hx : 0 <= v mod 2 ^ param < 2 ^ param)
    by (apply Z.mod_pos_bound; apply Z.pow_pos_nonneg; lia).
  assert (Hpp : 2 ^ param <= 2 ^ 31) by (apply Z.pow_le_mono_r; lia).
  rewrite lor_disjoint by lia.
  assert (Hprod : 2 ^ (53 - param) * 2 ^ param = 2 ^ 53).
  { rewrite <- Z.pow_add_r by lia. f_equal. lia. }
  rewrite Hq, Hprod.
  assert (Ei : int_fast64_t (2 ^ 53 + v mod 2 ^ param) = 2 ^ 53 + v mod 2 ^ param)
    by (apply sint_small; unfold fast64_bits; lia).
  assert (Eu : uint_fast64_t (2 ^ 53 + v mod 2 ^ param) = 2 ^ 53 + v mod 2 ^ param)
    by (apply uint_small; unfold fast64_bits; lia).
  rewrite Ei, Eu.
  assert (Es : Z.shiftr (2 ^ 53 + v mod 2 ^ param) 53 = 1).
  { rewrite Z.shiftr_div_pow2 by lia. symmetry.
    apply Z.div_unique with (v mod 2 ^ param); lia. }
  rewrite Es. reflexivity.
Qed.

(** More zero bits than the limit. *)
Lemma slow_decode_too_large (NDEBUG : bool) (param : Z) (rest : list bool)
    (r : FlacLowLevelInput.t) :
  reader_ok r -> 0 <= param <= 31 ->
  unread r = repeat false (S (Z.to_nat (2 ^ (53 - param)))) ++ rest ->
  fst (FlacLowLevelInput.slow_decode NDEBUG param
         (uint_fast64_t (Z.shiftl 1 (53 - param))) r)
  = Throw (DataFormatException "Residual value too large").
Proof.
  intros Hok Hp Hun.
  assert (Hlim : 2 ^ 22 <= 2 ^ (53 - param) <= 2 ^ 53).
  { split; apply Z.pow_le_mono_r; lia. }
  assert (El : uint_fast64_t (Z.shiftl 1 (53 - param)) = 2 ^ (53 - param)).
  { rewrite Z.shiftl_1_l. apply uint_small. unfold fast64_bits. lia. }
  rewrite El.
  pose proof (unread_le_remaining r Hok) as Hrem.
  assert (Hfuel : (Z.to_nat (2 ^ (53 - param))
                   < Z.to_nat (FlacLowLevelInput.remaining_bits r))%nat).
  { rewrite Hun, length_app, repeat_length in Hrem. lia. }
  pose proof (unary_loop_too_long NDEBUG (2 ^ (53 - param)) _ _ 0 _ r Hok Hfuel
                ltac:(lia) ltac:(lia) ltac:(lia) Hun) as Ht.
  unfold FlacLowLevelInput.slow_decode. rewrite bind_get.
  destruct (FlacLowLevelInput.unary_loop NDEBUG _ _ 0 r) as [o s'] eqn:E.
  cbn [fst] in Ht. subst o. rewrite (bind_throw _ _ _ _ _ E). reflexivity.
Qed.

(** ** [readRiceSignedInts] for fewer values than the fast decoder takes *)

Lemma fast_loop_skip (NDEBUG : bool) (fuel : nat)
    (consumeTable valueTable : FlacLowLevelInput.cells) (result : list Z)
    (start end_ : Z) (r : FlacLowLevelInput.t) :
  end_ - start < 4 ->
  FlacLowLevelInput.fast_loop NDEBUG fuel consumeTable valueTable result start end_ r
  = (Ok (result, start), r).
Proof.
  intros H. destruct fuel; cbn [FlacLowLevelInput.fast_loop];
    unfold FlacLowLevelInput.RICE_DECODING_CHUNK;
    destruct (Z.leb_spec start (end_ - 4)); try lia; reflexivity.
Qed.

Lemma stored_values (res vs : list Z) (s : nat) (v : Z) :
  (s + S (List.length vs) <= List.length res)%nat ->
  firstn (S s) (firstn s res ++ v :: skipn (S s) res) ++ vs
    ++ skipn (S s + List.length vs) (firstn s res ++ v :: skipn (S s) res)
  = firstn s res ++ (v :: vs) ++ skipn (s + S (List.length vs)) res.
Proof.
  intros H.
  assert (Hl : List.length (firstn s res) = s) by (rewrite length_firstn; lia).
  rewrite firstn_app, Hl, firstn_all2 by lia.
  replace (S s - s)%nat with 1%nat by lia. cbn [firstn].
  rewrite skipn_app, Hl, (skipn_all2 (firstn s res)) by lia.
  replace (S s + List.length vs - s)%nat with (S (List.length vs)) by lia.
  rewrite skipn_cons, skipn_skipn, <- app_assoc. cbn [app].
  replace (List.length vs + S s)%nat with (s + S (List.length vs))%nat by lia.
  reflexivity.
Qed.

Lemma rice_decode_loop_slow (NDEBUG : bool) (param : Z)
    (consumeTable valueTable : FlacLowLevelInput.cells) (rest : list bool)
    (codes : list (nat * Z)) :
  forall (fuel : nat) (result : list Z) (start : Z) (r : FlacLowLevelInput.t),
    reader_ok r -> 0 <= param <= 31 -> (List.length codes <= 3)%nat ->
    Forall (fun c => Z.of_nat (fst c) <= 2 ^ (53 - param) /\
                       (Z.of_nat (fst c) < 2 ^ (53 - param) \/ NDEBUG = true)) codes ->
    0 <= start -> start + Z.of_nat (List.length codes) <= Z.of_nat (List.length result) ->
    (List.length codes < fuel)%nat ->
    unread r = flat_map (rice_code_bits param) codes ++ rest ->
    exists r',
      FlacLowLevelInput.rice_decode_loop NDEBUG fuel param
        (uint_fast64_t (Z.shiftl 1 (53 - param))) consumeTable valueTable
        result start (start + Z.of_nat (List.length codes)) r
      = (Ok (firstn (Z.to_nat start) result ++ map (rice_code_value param) codes
             ++ skipn (Z.to_nat start + List.length codes) result), r') /\
      reader_ok r' /\ unread r' = rest.
Proof.
  induction codes as [|c codes IH];
    intros fuel result start r Hok Hp Hk Hall Hs Hfit Hfuel Hun;
    (destruct fuel as [|fuel]; [cbn [List.length] in Hfuel; lia|]);
    cbn [List.length] in *;
    cbn [FlacLowLevelInput.rice_decode_loop];
    (erewrite bind_ok; [|apply fast_loop_skip; lia]); cbv beta iota.
  - exists r. rewrite Z.add_0_r, Z.leb_refl. cbn [map app]. rewrite Nat.add_0_r.
    rewrite firstn_skipn. cbn [flat_map app] in Hun. auto.
  - destruct (Z.leb_spec (start + Z.of_nat (S (List.length codes))) start); [lia|].
    inversion Hall as [|? ? Hc Hrest]; subst.
    cbn [flat_map] in Hun. rewrite <- app_assoc in Hun.
    destruct (slow_decode_spec NDEBUG param c _ r Hok Hp (proj1 Hc) (proj2 Hc) Hun)
      as (r1 & E1 & Hok1 & Hun1).
    rewrite (bind_ok _ _ _ _ _ E1).
    unfold FlacLowLevelInput.store_result.
    destruct (Z.ltb_spec start 0); [lia|].
    destruct (Z.leb_spec (Z.of_nat (List.length result)) start); [lia|].
    cbn [orb lift]. rewrite bind_ok with (a := firstn (Z.to_nat start) result
      ++ rice_code_value param c :: skipn (S (Z.to_nat start)) result) (s' := r1)
      by reflexivity.
    set (res1 := firstn (Z.to_nat start) result
                 ++ rice_code_value param c :: skipn (S (Z.to_nat start)) result).
    assert (Hl1 : List.length res1 = List.length result).
    { unfold res1. rewrite length_app, length_firstn. cbn [List.length].
      rewrite length_skipn. lia. }
    destruct (IH fuel res1 (start + 1) r1 Hok1 Hp ltac:(lia) Hrest ltac:(lia)
                ltac:(rewrite Hl1; lia) ltac:(lia) Hun1) as (r2 & E2 & Hok2 & Hun2).
    replace (start + 1 + Z.of_nat (List.length codes))
      with (start + Z.of_nat (S (List.length codes))) in E2 by lia.
    exists r2. rewrite E2. split; [|auto]. f_equal. f_equal.
    replace (Z.to_nat (start + 1)) with (S (Z.to_nat start)) by lia.
    cbn [map]. rewrite <- (length_map (rice_code_value param) codes).
    unfold res1. apply stored_values. rewrite length_map. lia.
Qed.

Lemma rice_tables_at (param : Z) :
  0 <= param <= 30 ->
  FlacLowLevelInput.table_at FlacLowLevelInput.RICE_DECODING_CONSUMED_TABLES param
  = Ok (FlacLowLevelInput.rice_consumed_table param) /\
  FlacLowLevelInput.table_at FlacLowLevelInput.RICE_DECODING_VALUE_TABLES param
  = Ok (FlacLowLevelInput.rice_value_table param).
Proof.
  intros Hp.
  unfold FlacLowLevelInput.table_at, FlacLowLevelInput.RICE_DECODING_CONSUMED_TABLES,
    FlacLowLevelInput.RICE_DECODING_VALUE_TABLES,
    FlacLowLevelInput.RICE_DECODING_TABLE_LEN.
  rewrite !length_map, !length_upto.
  destruct (Z.ltb_spec param 0); [lia|].
  destruct (Z.leb_spec (Z.of_nat (Z.to_nat 31)) param); [lia|].
  cbn [orb].
  rewrite !nth_error_map, nth_error_upto by lia. cbn [option_map].
  rewrite Z2Nat.id by lia. split; reflexivity.
Qed.

(** [readRiceSignedInts] for at most 3 values: the fast decoder, which
    takes 4 values at a time, is not entered. *)
Lemma readRiceSignedInts_slow (NDEBUG : bool) (param : Z) (codes : list (nat * Z))
    (result : list Z) (start : Z) (rest : list bool) (r : FlacLowLevelInput.t) :
  reader_ok r -> 0 <= param <= 30 -> (List.length codes <= 3)%nat ->
  Forall (fun c => Z.of_nat (fst c) <= 2 ^ (53 - param) /\
                     (Z.of_nat (fst c) < 2 ^ (53 - param) \/ NDEBUG = true)) codes ->
  0 <= start -> start + Z.of_nat (List.length codes) <= Z.of_nat (List.length result) ->
  unread r = flat_map (rice_code_bits param) codes ++ rest ->
  exists r',
    FlacLowLevelInput.readRiceSignedInts NDEBUG param result start
      (start + Z.of_nat (List.length codes)) r
    = (Ok (firstn (Z.to_nat start) result ++ map (rice_code_value param) codes
           ++ skipn (Z.to_nat start + List.length codes) result), r') /\
    reader_ok r' /\ unread r' = rest.
Proof.
  intros Hok Hp Hk Hall Hs Hfit Hun.
  unfold FlacLowLevelInput.readRiceSignedInts.
  destruct (Z.ltb_spec param 0); [lia|]. destruct (Z.ltb_spec 31 param); [lia|].
  cbn [orb]. cbv zeta.
  destruct (rice_tables_at param Hp) as [Ec Ev]. rewrite Ec, Ev. mred.
  apply rice_decode_loop_slow; try assumption; lia.
Qed.

(** [readRiceSignedInts] for fewer than 4 values, the first of which the
    slow decoder rejects. *)
Lemma readRiceSignedInts_throws (NDEBUG : bool) (param : Z) (result : list Z)
    (start end_ : Z) (e : exn) (r : FlacLowLevelInput.t) :
  0 <= param <= 30 -> start < end_ -> end_ - start < 4 ->
  fst (FlacLowLevelInput.slow_decode NDEBUG param
         (uint_fast64_t (Z.shiftl 1 (53 - param))) r) = Throw e ->
  fst (FlacLowLevelInput.readRiceSignedInts NDEBUG param result start end_ r) = Throw e.
Proof.
  intros Hp Hlt Hfew Ht.
  unfold FlacLowLevelInput.readRiceSignedInts.
  destruct (Z.ltb_spec param 0); [lia|]. destruct (Z.ltb_spec 31 param); [lia|].
  cbn [orb]. cbv zeta.
  destruct (rice_tables_at param Hp) as [Ec Ev]. rewrite Ec, Ev. mred.
  cbn [FlacLowLevelInput.rice_decode_loop].
  (erewrite bind_ok; [|apply fast_loop_skip; lia]); cbv beta iota.
  destruct (Z.leb_spec end_ start); [lia|].
  destruct (FlacLowLevelInput.slow_decode NDEBUG param _ r) as [o s'] eqn:E.
  cbn [fst] in Ht. subst o. rewrite (bind_throw _ _ _ _ _ E). reflexivity.
Qed.

(** A stream of zero bytes. *)
Lemma zero_stream (n : nat) :
  Z.of_nat n < 2 ^ 31 ->
  reader_ok (FlacLowLevelInput.create (repeat 0 n)) /\
  unread (FlacLowLevelInput.create (repeat 0 n)) = repeat false (8 * n).
Proof.
  intros Hn.
  destruct (reader_create_ok (repeat 0 n)) as [Hok Hun]; [rewrite repeat_length; exact Hn|].
  split; [exact Hok|]. rewrite Hun. clear.
  induction n as [|n IH]; [reflexivity|].
  replace (8 * S n)%nat with (8 + 8 * n)%nat by lia.
  rewrite repeat_app, <- IH. reflexivity.
Qed.

(** * [fillBitBuffer] *)

(** The loop of [fillBitBuffer] moves [k] bytes of the byte buffer, from
    the index [i], behind the [L] valid bits of the bit buffer. *)
Lemma fillBitBuffer_loop_spec (k : nat) :
  forall (i L : Z) (r : FlacLowLevelInput.t),
    0 <= i -> i + Z.of_nat k <= Z.of_nat (List.length (FlacLowLevelInput.byteBuffer r)) ->
    0 <= L -> L + 8 * Z.of_nat k <= 64 ->
    exists bb,
      FlacLowLevelInput.fillBitBuffer_loop k i r
      = (Ok tt, FlacLowLevelInput.set_bitBuffer bb r) /\
      bits (Z.to_nat (L + 8 * Z.of_nat k)) bb
      = bits (Z.to_nat L) (FlacLowLevelInput.bitBuffer r)
        ++ bytes_bits (firstn k (skipn (Z.to_nat i) (FlacLowLevelInput.byteBuffer r))).
Proof.
  induction k as [|k IH]; intros i L r Hi Hfit HL Hroom.
  - exists (FlacLowLevelInput.bitBuffer r). split.
    + cbn [FlacLowLevelInput.fillBitBuffer_loop]. destruct r. reflexivity.
    + cbn [firstn]. unfold bytes_bits. cbn [flat_map]. rewrite app_nil_r.
      f_equal. lia.
  - cbn [FlacLowLevelInput.fillBitBuffer_loop]. rewrite bind_get.
    rewrite (bind_ok _ _ _ _ _
               (f_equal (fun o => (o, r))
                  (index_ok (FlacLowLevelInput.byteBuffer r) i ltac:(lia)))).
    mred.
    set (x := nth (Z.to_nat i) (FlacLowLevelInput.byteBuffer r) 0).
    set (r1 := FlacLowLevelInput.set_bitBuffer
                 (uint_fast64_t (Z.lor (Z.shiftl (FlacLowLevelInput.bitBuffer r) 8)
                                       (Z.land x 0xFF))) r).
    destruct (IH (i + 1) (L + 8) r1) as (bb & E & Hbits).
    + lia.
    + unfold r1. destruct r. rred. cbn [FlacLowLevelInput.byteBuffer] in Hfit. lia.
    + lia.
    + lia.
    + exists bb. split.
      * rewrite E. unfold r1. destruct r. reflexivity.
      * replace (L + 8 * Z.of_nat (S k)) with (L + 8 + 8 * Z.of_nat k) by lia.
        rewrite Hbits.
        assert (Eb1 : FlacLowLevelInput.bitBuffer r1
                      = uint_fast64_t (Z.lor (Z.shiftl (FlacLowLevelInput.bitBuffer r) 8)
                                             (Z.land x 0xFF)))
          by (unfold r1; destruct r; reflexivity).
        assert (Eu1 : FlacLowLevelInput.byteBuffer r1 = FlacLowLevelInput.byteBuffer r)
          by (unfold r1; destruct r; reflexivity).
        rewrite Eb1, Eu1, bits_pushed by (try apply land_255_range; lia).
        rewrite bits_land_255, <- app_assoc. f_equal.
        rewrite (skipn_nth (Z.to_nat i) (FlacLowLevelInput.byteBuffer r) 0) by lia.
        fold x. cbn [firstn]. unfold bytes_bits. cbn [flat_map].
        replace (Z.to_nat (i + 1)) with (S (Z.to_nat i)) by lia. reflexivity.
Qed.

Lemma firstn_plus {A} (n m : nat) (l : list A) :
  firstn (n + m) l = firstn n l ++ firstn m (skipn n l).
Proof.
  revert l. induction n as [|n IH]; intros [|x l]; cbn [Nat.add firstn skipn app];
    try reflexivity.
  - rewrite firstn_nil. reflexivity.
  - f_equal. apply IH.
Qed.

(** [fillBitBuffer()] as [readRiceSignedInts] calls it, with at least 8
    bytes left in the byte buffer: bytes move from the byte buffer to the
    bit buffer until fewer than 8 bits of it are free. *)
Lemma fillBitBuffer_spec (NDEBUG : bool) (r : FlacLowLevelInput.t) :
  reader_ok r ->
  FlacLowLevelInput.byteBufferIndex r <= FlacLowLevelInput.byteBufferLen r - 8 ->
  exists r',
    FlacLowLevelInput.fillBitBuffer NDEBUG r = (Ok tt, r') /\
    reader_ok r' /\
    unread r' = unread r /\
    56 < FlacLowLevelInput.bitBufferLen r' <= 64 /\
    FlacLowLevelInput.byteBufferIndex r' - FlacLowLevelInput.byteBufferIndex r
    = (64 - FlacLowLevelInput.bitBufferLen r) / 8.
Proof.
  intros Hok Hguard.
  destruct Hok as [Hlen Hbuf Hidx Hbl Hav Heof Hoff Hlength Hcs H8 H16].
  destruct r as [d off sp buf blen bidx bb len c8 c16 cs].
  unfold FlacLowLevelInput.length, FlacLowLevelInput.BUF_SIZE in *.
  cbn [FlacLowLevelInput.data FlacLowLevelInput.offset
       FlacLowLevelInput.bitBufferLen FlacLowLevelInput.byteBuffer
       FlacLowLevelInput.byteBufferIndex FlacLowLevelInput.byteBufferLen
       FlacLowLevelInput.crcStartIndex FlacLowLevelInput.crc8
       FlacLowLevelInput.byteBufferStartPos
       FlacLowLevelInput.crc16 FlacLowLevelInput.bitBuffer] in *.
  set (n := (64 - len) / 8).
  assert (Hn : 0 <= n <= 8 /\ 64 - len - 8 < 8 * n <= 64 - len).
  { unfold n. pose proof (Z.div_mod (64 - len) 8 ltac:(lia)).
    pose proof (Z.mod_pos_bound (64 - len) 8 ltac:(lia)). lia. }
  assert (En : Z.min (int_fast32_t (Z.shiftr (uint 32 (64 - len)) 3)) (blen - bidx) = n).
  { rewrite uint_small by lia. rewrite Z.shiftr_div_pow2 by lia. change (2 ^ 3) with 8.
    fold n. unfold int_fast32_t. rewrite sint_small by (unfold fast32_bits; lia). lia. }
  unfold FlacLowLevelInput.fillBitBuffer. rewrite bind_get. rred. rewrite En.
  destruct (Z.ltb_spec 0 n) as [Hpos | Hzero].
  - destruct (fillBitBuffer_loop_spec (Z.to_nat n) bidx len
                (FlacLowLevelInput.mk d off sp buf blen bidx bb len c8 c16 cs))
      as (bb' & E & Hbits); rred; try lia.
    rewrite Z2Nat.id in Hbits by lia. revert E Hbits. rred. intros E Hbits.
    rewrite (bind_ok _ _ _ _ _ (bind_ok _ _ _ _ _ E)). mred. rred.
    rewrite Z.shiftl_mul_pow2 by lia. change (2 ^ 3) with 8.
    assert (El : uint_fast8_t (len + n * 8) = len + 8 * n)
      by (unfold uint_fast8_t; rewrite uint_small by (unfold fast8_bits; lia); lia).
    rewrite El.
    rewrite bind_assert by (apply andb_true_intro; split; apply Z.leb_le; lia).
    mred. rred.
    assert (Ei : int_fast32_t (bidx + n) = bidx + n)
      by (apply sint_small; unfold fast32_bits; lia).
    unfold modify. rred. rewrite Ei. eexists. split; [reflexivity|].
    split; [constructor; rred; unfold FlacLowLevelInput.BUF_SIZE, FlacLowLevelInput.length;
            rred; try assumption; try lia|].
    split; [|rred; split; lia].
    unfold unread, buffered, pending. rred. rewrite Hbits, <- app_assoc. f_equal.
    rewrite <- bytes_bits_app. f_equal. rewrite app_assoc. f_equal.
    replace (Z.to_nat (blen - bidx)) with (Z.to_nat n + Z.to_nat (blen - (bidx + n)))%nat
      by lia.
    rewrite firstn_plus, skipn_skipn. do 3 f_equal. lia.
  - assert (n = 0) by lia. subst n.
    destruct (Z.leb_spec len 56); [lia|]. mred. rred.
    rewrite bind_assert by (apply andb_true_intro; split; apply Z.leb_le; lia).
    mred. rred.
    assert (Ei : int_fast32_t (bidx + (64 - len) / 8) = bidx)
      by (rewrite H, Z.add_0_r; apply sint_small; unfold fast32_bits; lia).
    unfold modify. rred. rewrite Ei. eexists. split; [reflexivity|].
    split; [constructor; rred; unfold FlacLowLevelInput.BUF_SIZE, FlacLowLevelInput.length;
            rred; try assumption; try lia|].
    split; [reflexivity|]. rred. split; lia.
Qed.
(** * The fast decoder of [readRiceSignedInts] at cells no initializer wrote *)

(** ** The cells the initializers leave unwritten *)

(** A cell whose index is below [2 ^ param] is written by neither
    initializer: the symbol of a written cell has its terminating one among
    the upper [13 - param] bits of the index. For [param] from 13 on these
    are all the cells of the table. *)
Lemma unwritten_cells (param e : Z) :
  0 <= param <= 30 -> e < 2 ^ param ->
  FlacLowLevelInput.rice_consumed_table param e = None /\
  FlacLowLevelInput.rice_value_table param e = None.
Proof.
  intros Hp He.
  pose proof (rice_tables_agree param e) as H.
  destruct (FlacLowLevelInput.rice_consumed_table param e) as [c|],
           (FlacLowLevelInput.rice_value_table param e) as [v|];
    try contradiction; [|split; reflexivity].
  exfalso. destruct H as (i & Hw & _).
  destruct (written_pattern param i e ltac:(lia) Hw)
    as (_ & Hq & _ & Hnb & He13 & _ & Hone & _).
  rewrite Z.shiftr_div_pow2 in Hone by lia.
  assert (Hle : 2 ^ param <= 2 ^ (12 - Z.shiftr i param))
    by (apply Z.pow_le_mono_r; lia).
  rewrite Z.div_small in Hone by lia.
  discriminate Hone.
Qed.

(** ** The index the fast decoder extracts, as bits of the stream *)

Lemma extractedBits_range (s : FlacLowLevelInput.t) :
  0 <= extractedBits s < 2 ^ 13.
Proof.
  unfold extractedBits, FlacLowLevelInput.RICE_DECODING_TABLE_MASK,
    FlacLowLevelInput.RICE_DECODING_TABLE_BITS.
  change (Z.shiftl 1 13 - 1) with (Z.ones 13).
  rewrite Z.land_ones by lia. apply Z.mod_pos_bound. lia.
Qed.

Lemma extractedBits_unread (s : FlacLowLevelInput.t) :
  13 <= FlacLowLevelInput.bitBufferLen s <= 64 ->
  extractedBits s = value (firstn 13 (unread s)).
Proof.
  intros Hlen.
  unfold unread.
  replace (Z.to_nat (FlacLowLevelInput.bitBufferLen s))
    with (13 + Z.to_nat (FlacLowLevelInput.bitBufferLen s - 13))%nat by lia.
  rewrite bits_app, <- app_assoc.
  rewrite firstn_app, length_bits, Nat.sub_diag, firstn_O, app_nil_r.
  rewrite firstn_all2 by (rewrite length_bits; lia).
  rewrite value_bits, Z2Nat.id by lia.
  unfold extractedBits, FlacLowLevelInput.RICE_DECODING_TABLE_MASK,
    FlacLowLevelInput.RICE_DECODING_TABLE_BITS.
  change (Z.shiftl 1 13 - 1) with (Z.ones 13).
  rewrite Z.land_ones by lia.
  unfold int_fast32_t. apply sint_mod_low. unfold fast32_bits. lia.
Qed.

Lemma value_zeros (n : nat) : value (repeat false n) = 0.
Proof.
  induction n as [|n IH]; [reflexivity|].
  cbn [repeat]. rewrite value_cons, IH. cbn [Z.b2z]. lia.
Qed.

(** The first 13 bits of a code of more than 13 bits, as a number: the
    unary part leaves fewer than [param] bits of them. *)
Lemma long_code_window (param : Z) (c : nat * Z) (rest : list bool) :
  0 <= param -> 13 <= Z.of_nat (fst c) + param ->
  value (firstn 13 (rice_code_bits param c ++ rest)) < 2 ^ param.
Proof.
  intros Hp Hlong. destruct c as [q v]. cbn [fst] in Hlong.
  unfold rice_code_bits. cbn [fst snd]. rewrite <- app_assoc.
  rewrite firstn_app, repeat_length, value_app.
  assert (Ez : value (firstn 13 (repeat false q)) = 0).
  { rewrite <- (firstn_skipn 13 (repeat false q)) at 1.
    pose proof (value_zeros q) as Hz.
    rewrite <- (firstn_skipn 13 (repeat false q)), value_app in Hz.
    pose proof (value_range (firstn 13 (repeat false q))).
    pose proof (value_range (skipn 13 (repeat false q))).
    assert (0 < 2 ^ Z.of_nat (List.length (skipn 13 (repeat false q))))
      by (apply pow2_pos; lia).
    rewrite firstn_skipn. nia. }
  rewrite Ez, Z.mul_0_l, Z.add_0_l.
  pose proof (value_range (firstn (13 - q) ((true :: bits (Z.to_nat param) v) ++ rest)))
    as Hr.
  pose proof (firstn_le_length (13 - q) ((true :: bits (Z.to_nat param) v) ++ rest))
    as Hl.
  assert (2 ^ Z.of_nat (List.length
            (firstn (13 - q) ((true :: bits (Z.to_nat param) v) ++ rest)))
          <= 2 ^ param) by (apply Z.pow_le_mono_r; lia).
  lia.
Qed.

(** ** The fast decoder at an unwritten cell *)

Lemma cell_at_unwritten (table : FlacLowLevelInput.cells) (e : Z) :
  0 <= e < 2 ^ 13 -> table e = None ->
  FlacLowLevelInput.cell_at table e = Throw indeterminate_value.
Proof.
  intros He Hc.
  unfold FlacLowLevelInput.cell_at, FlacLowLevelInput.RICE_DECODING_TABLE_BITS.
  rewrite Z.shiftl_1_l, Hc.
  destruct (Z.ltb_spec e 0); [lia|].
  destruct (Z.leb_spec (2 ^ 13) e); [lia|]. reflexivity.
Qed.

Lemma fast_chunk_unwritten (k : nat)
    (consumeTable valueTable : FlacLowLevelInput.cells)
    (result : list Z) (start : Z) (s : FlacLowLevelInput.t) :
  consumeTable (extractedBits s) = None ->
  FlacLowLevelInput.fast_chunk (S k) consumeTable valueTable result start s
  = (Throw indeterminate_value, s).
Proof.
  intros Hc.
  cbn [FlacLowLevelInput.fast_chunk]. rewrite bind_get.
  fold (extractedBits s).
  rewrite (cell_at_unwritten _ _ (extractedBits_range s) Hc). reflexivity.
Qed.

(** The loop of the fast decoder, entered with at least 4 values to decode
    and either 52 bits in the bit buffer or 8 bytes in the byte buffer:
    when the next 13 bits of the stream index an unwritten cell, the first
    look into the consumed table reads it. *)
Lemma fast_loop_unwritten (NDEBUG : bool) (fuel : nat)
    (consumeTable valueTable : FlacLowLevelInput.cells)
    (result : list Z) (start end_ : Z) (s : FlacLowLevelInput.t) :
  reader_ok s -> start <= end_ - 4 ->
  52 <= FlacLowLevelInput.bitBufferLen s \/
  FlacLowLevelInput.byteBufferIndex s <= FlacLowLevelInput.byteBufferLen s - 8 ->
  consumeTable (value (firstn 13 (unread s))) = None ->
  fst (FlacLowLevelInput.fast_loop NDEBUG (S fuel) consumeTable valueTable
         result start end_ s)
  = Throw indeterminate_value.
Proof.
  intros Hok Hmany Henter Hc.
  cbn [FlacLowLevelInput.fast_loop].
  unfold FlacLowLevelInput.RICE_DECODING_CHUNK, FlacLowLevelInput.RICE_DECODING_TABLE_BITS.
  destruct (Z.leb_spec start (end_ - 4)); [|lia].
  rewrite bind_get. change (4 * 13) with 52.
  pose proof (rok_len _ Hok) as Hlen.
  destruct (Z.ltb_spec (FlacLowLevelInput.bitBufferLen s) 52) as [Hfew|Hfull].
  - destruct (Z.leb_spec (FlacLowLevelInput.byteBufferIndex s)
                (FlacLowLevelInput.byteBufferLen s - 8)) as [Hbytes|]; [|lia].
    destruct (fillBitBuffer_spec NDEBUG s Hok Hbytes)
      as (s' & Efill & Hok' & Hun & Hlen' & _).
    assert (E : (FlacLowLevelInput.fillBitBuffer NDEBUG ;;; ret true) s = (Ok true, s'))
      by (rewrite (bind_ok _ _ _ _ _ Efill); reflexivity).
    rewrite (bind_ok _ _ _ _ _ E). cbn [negb].
    change (Z.to_nat 4) with 4%nat.
    assert (Hc' : consumeTable (extractedBits s') = None)
      by (rewrite extractedBits_unread, Hun by lia; exact Hc).
    rewrite (bind_throw _ _ _ _ _
               (fast_chunk_unwritten 3 consumeTable valueTable result start s' Hc')).
    reflexivity.
  - assert (E : (@ret FlacLowLevelInput.t bool true) s = (Ok true, s)) by reflexivity.
    rewrite (bind_ok _ _ _ _ _ E). cbn [negb].
    change (Z.to_nat 4) with 4%nat.
    assert (Hc' : consumeTable (extractedBits s) = None)
      by (rewrite extractedBits_unread by lia; exact Hc).
    rewrite (bind_throw _ _ _ _ _
               (fast_chunk_unwritten 3 consumeTable valueTable result start s Hc')).
    reflexivity.
Qed.

(** [readRiceSignedInts] where its fast decoder is entered and the next 13
    bits of the stream, as a number, are below [2 ^ param]. *)
Lemma readRiceSignedInts_unwritten (NDEBUG : bool) (param : Z) (result : list Z)
    (start end_ : Z) (s : FlacLowLevelInput.t) :
  reader_ok s -> 0 <= param <= 30 -> start <= end_ - 4 ->
  52 <= FlacLowLevelInput.bitBufferLen s \/
  FlacLowLevelInput.byteBufferIndex s <= FlacLowLevelInput.byteBufferLen s - 8 ->
  value (firstn 13 (unread s)) < 2 ^ param ->
  fst (FlacLowLevelInput.readRiceSignedInts NDEBUG param result start end_ s)
  = Throw indeterminate_value.
Proof.
  intros Hok Hp Hmany Henter Hwin.
  unfold FlacLowLevelInput.readRiceSignedInts.
  destruct (Z.ltb_spec param 0); [lia|]. destruct (Z.ltb_spec 31 param); [lia|].
  cbn [orb]. cbv zeta.
  destruct (rice_tables_at param Hp) as [Ec Ev]. rewrite Ec, Ev. mred.
  cbn [FlacLowLevelInput.rice_decode_loop].
  destruct (unwritten_cells param _ Hp Hwin) as [Hc _].
  pose proof (fast_loop_unwritten NDEBUG (Z.to_nat (end_ - start))
                (FlacLowLevelInput.rice_consumed_table param)
                (FlacLowLevelInput.rice_value_table param)
                result start end_ s Hok Hmany Henter Hc) as Hf.
  destruct (FlacLowLevelInput.fast_loop NDEBUG _ _ _ result start end_ s) as [o s'] eqn:E.
  cbn [fst] in Hf. subst o. rewrite (bind_throw _ _ _ _ _ E). reflexivity.
Qed.

(** ** The fast decoder at a written cell *)

(** For a parameter whose tables exist and a bit buffer that holds at least
    13 bits: when the cell of the consumed table at the index the fast
    decoder extracts was written by the initializer, its content is between
    1 and 13, and one iteration of the fast decoder and one run of the slow
    decoder from the same state give the same value and leave the same
    state. *)
Lemma fast_step_is_slow_step (NDEBUG : bool) (param : Z)
    (consumeTable valueTable : FlacLowLevelInput.cells)
    (s : FlacLowLevelInput.t) (result : list Z) (start consumed : Z) :
  FlacLowLevelInput.table_at FlacLowLevelInput.RICE_DECODING_CONSUMED_TABLES param
    = Ok consumeTable ->
  FlacLowLevelInput.table_at FlacLowLevelInput.RICE_DECODING_VALUE_TABLES param
    = Ok valueTable ->
  13 <= FlacLowLevelInput.bitBufferLen s <= 64 ->
  0 <= start < Z.of_nat (List.length result) ->
  FlacLowLevelInput.cell_at consumeTable (extractedBits s) = Ok consumed ->
  1 <= consumed <= 13 /\
  exists val,
    FlacLowLevelInput.fast_chunk 1 consumeTable valueTable result start s
    = (Ok (false,
           firstn (Z.to_nat start) result ++ val :: skipn (S (Z.to_nat start)) result,
           start + 1),
       FlacLowLevelInput.set_bitBufferLen
         (FlacLowLevelInput.bitBufferLen s - consumed) s) /\
    FlacLowLevelInput.slow_decode NDEBUG param (uint_fast64_t (Z.shiftl 1 (53 - param))) s
    = (Ok val,
       FlacLowLevelInput.set_bitBufferLen
         (FlacLowLevelInput.bitBufferLen s - consumed) s).
Proof.
  intros Hct Hvt Hlen Hstart Hcell.
  destruct (written_cells param consumeTable valueTable _ consumed Hct Hvt Hcell)
    as (Hp & Hc & i & Hw & -> & Hv).
  destruct (written_pattern param i _ Hp Hw) as (_ & Hq & Enb & Hnb & He & _).
  assert (Hc13 : 1 <= FlacLowLevelInput.rice_numBits param i <= 13) by lia.
  split; [exact Hc13|].
  exists (FlacLowLevelInput.rice_value i). split.
  - apply fast_chunk_written; assumption.
  - apply slow_decode_written; assumption.
Qed.

(** * The claims *)

(** C3. The claim says that every assertion executed in [getCrc8()] and
    [getCrc16()] succeeds, so that they return normally at a byte boundary.
    In the sources the two assertions are [assert((crc8 >> 8) != 0)] and
    [assert((crc16 >> 16) != 0)], the negation of what the claim states:
    the accumulators do fit their widths, so when assertions are compiled
    in, the four operations abort, in every state between two reads or
    writes that is at a byte boundary. *)
Theorem C3_getCrc_assertions_abort (r : FlacLowLevelInput.t) (w : BitOutputStream.t) :
  reader_ok r -> FlacLowLevelInput.bitBufferLen r mod 8 = 0 ->
  writer_ok w -> BitOutputStream.bitBufferLen w mod 8 = 0 ->
  fst (FlacLowLevelInput.checkByteAligned r) = Ok tt /\
  fst (FlacLowLevelInput.getCrc8 false r) = Throw assertion_failure /\
  fst (FlacLowLevelInput.getCrc16 false r) = Throw assertion_failure /\
  fst (BitOutputStream.checkByteAligned w) = Ok tt /\
  fst (BitOutputStream.getCrc8 false w) = Throw assertion_failure /\
  fst (BitOutputStream.getCrc16 false w) = Throw assertion_failure.
Proof.
  intros Hr Har Hw Haw.
  destruct (reader_getCrcs_abort r Hr Har) as [R8 R16].
  destruct (writer_getCrcs_abort w Hw Haw) as [W8 W16].
  rewrite (reader_checkByteAligned_ok r Hr Har), (checkByteAligned_ok w Hw Haw).
  repeat split; assumption.
Qed.

Lemma C3_witness :
  fst (FlacLowLevelInput.getCrc8 false (FlacLowLevelInput.create monkey))
    = Throw assertion_failure /\
  fst (FlacLowLevelInput.getCrc16 false (FlacLowLevelInput.create monkey))
    = Throw assertion_failure /\
  fst (BitOutputStream.getCrc8 false (BitOutputStream.create false))
    = Throw assertion_failure /\
  fst (BitOutputStream.getCrc16 false (BitOutputStream.create false))
    = Throw assertion_failure.
Proof.
  destruct (C3_getCrc_assertions_abort
              (FlacLowLevelInput.create monkey) (BitOutputStream.create false))
    as (_ & R8 & R16 & _ & W8 & W16).
  - constructor; vm_compute; try reflexivity; try lia; try (split; congruence);
      try (right; congruence); try congruence.
  - reflexivity.
  - constructor; vm_compute; try reflexivity; try lia; try (split; congruence);
      try constructor.
  - reflexivity.
  - repeat split; assumption.
Defined.

(** C2. The writer does not return the CRCs of what it wrote: with
    assertions compiled out, [getCrc8()] and [getCrc16()] of a
    [BitOutputStream] return 0 after [resetCrcs()] and any sequence of bytes
    (its [crc8] field is a [uint_fast8_t] and its [crc16] field a
    [uint_fast16_t], so [crc8 <<= 1] and [crc16 <<= 1] drop the bits that
    the reductions by [0x107] and [0x18005] test). On the bytes of "Monkey"
    the standalone CRCs are 4C and 4BFE, and the reader returns them. With
    assertions compiled in, reader and writer abort in [getCrc8()]. *)
Theorem C2_writer_crcs_are_zero :
  (forall bytes : list Z,
     fst (writer_crcs true bytes (BitOutputStream.create true)) = Ok (0, 0)) /\
  SpecCrc.crc8 monkey = 0x4C /\
  SpecCrc.crc16 monkey = 0x4BFE /\
  fst (reader_crcs true 6 (FlacLowLevelInput.create monkey))
    = Ok (SpecCrc.crc8 monkey, SpecCrc.crc16 monkey) /\
  fst (reader_crcs false 6 (FlacLowLevelInput.create monkey))
    = Throw assertion_failure /\
  fst (writer_crcs false monkey (BitOutputStream.create false))
    = Throw assertion_failure.
Proof.
  split; [|repeat split; vm_compute; reflexivity].
  intros bytes.
  destruct (writer_create_ok true) as [Hok0 Hw0].
  unfold writer_crcs.
  destruct (resetCrcs_spec true _ Hok0) as (w1 & E1 & Hok1 & Hw1).
  rewrite (bind_ok _ _ _ _ _ E1).
  destruct (write_bytes_spec true bytes w1 Hok1) as (w2 & E2 & Hok2 & Hw2).
  rewrite (bind_ok _ _ _ _ _ E2).
  apply getCrcs_aligned; [exact Hok2|].
  rewrite (aligned_by_written w2 Hok2), Hw2, Hw1, Hw0. cbn [app].
  rewrite length_bytes_bits, Nat2Z.inj_mul, Z.mul_comm. apply Z.mod_mul. lia.
Qed.

(** C6. The frame of the scenario is not read back. With assertions
    compiled in, [writeHeader] aborts in [getCrc8()]. With assertions
    compiled out it emits FF F9 99 18 00 followed by the CRC-8 byte 00 (the
    writer's CRC-8 is always 0), the CRC-8 of the five header bytes is F0,
    and [readFrame] rejects the header with "CRC-8 mismatch". The same header
    with the CRC-8 byte F0 is read back as the frame of the scenario. *)
Theorem C6_scenario_header_is_not_read_back :
  fst (FrameInfo.writeHeader false scenario_frame (BitOutputStream.create false))
    = Throw assertion_failure /\
  fst (FrameInfo.writeHeader true scenario_frame (BitOutputStream.create true))
    = Ok tt /\
  emitted true (FrameInfo.writeHeader true scenario_frame)
    = [0xFF; 0xF9; 0x99; 0x18; 0x00; 0x00] /\
  SpecCrc.crc8 [0xFF; 0xF9; 0x99; 0x18; 0x00] = 0xF0 /\
  fst (FrameInfo.readFrame true
         (FlacLowLevelInput.create
            (emitted true (FrameInfo.writeHeader true scenario_frame))))
    = Throw (DataFormatException "CRC-8 mismatch") /\
  fst (FrameInfo.readFrame true
         (FlacLowLevelInput.create [0xFF; 0xF9; 0x99; 0x18; 0x00; 0xF0]))
    = Ok (Some scenario_frame) /\
  fst (FrameInfo.readFrame false
         (FlacLowLevelInput.create [0xFF; 0xF9; 0x99; 0x18; 0x00; 0xF0]))
    = Throw assertion_failure.
Proof. repeat split; vm_compute; reflexivity. Qed.

(** C7. The value 128 is not read back: [numberOfLeadingZeros] of the
    64-bit value 128 returns 58 instead of 56 (its working copy is a signed
    [int], so [x >> 31] is -1 once bit 31 is set), [writeUtf8Integer(128)]
    takes the one-byte branch and emits the byte 80, and [readUtf8Integer]
    rejects a head byte with one leading one bit. *)
Theorem C7_utf8_128_is_not_read_back : forall NDEBUG : bool,
  Utilities.numberOfLeadingZeros64 128 = 58 /\
  fst (FrameInfo.writeUtf8Integer NDEBUG 128 (BitOutputStream.create NDEBUG)) = Ok tt /\
  emitted NDEBUG (FrameInfo.writeUtf8Integer NDEBUG 128) = [0x80] /\
  fst (FrameInfo.readUtf8Integer NDEBUG
         (FlacLowLevelInput.create (emitted NDEBUG (FrameInfo.writeUtf8Integer NDEBUG 128))))
    = Throw (DataFormatException "Invalid UTF-8 coded number").
Proof. intros []; repeat split; vm_compute; reflexivity. Qed.

(** C8. For every seek table whose points are values of the type
    [SeekPoint] (frameSamples is a [uint_fast16_t], which holds 16 bits),
    [checkValues] returns silently if and only if the invariant of the
    specification holds: the points that are not placeholders have
    frameSamples within 16 bits, strictly increasing sampleOffset and
    non-decreasing fileOffset, and the placeholders are a suffix of the list;
    otherwise it throws a [std::runtime_error]. *)
Theorem C8_checkValues_accepts_the_valid_tables (points : SeekTable.t) :
  Forall seek_point_typed points ->
  (SeekTable.checkValues points = Ok tt <-> seek_table_valid points) /\
  (~ seek_table_valid points ->
   exists what, SeekTable.checkValues points = Throw (runtime_error what)).
Proof.
  intros Htyped. rewrite checkValues_list.
  destruct points as [|q l].
  - assert (Hvalid : seek_table_valid []).
    { exists [], []. repeat constructor. }
    split; [split; [intros _; exact Hvalid | reflexivity] | contradiction].
  - assert (Hiff : check_list q l = Ok tt <-> seek_table_valid (q :: l)).
    { split; [apply check_list_valid; exact Htyped | apply valid_check_list]. }
    split; [exact Hiff|].
    intros Hn. destruct (check_list_throws q l) as [E | E]; [|exact E].
    destruct Hn. apply Hiff. exact E.
Qed.

Lemma C8_witness :
  SeekTable.checkValues scenario_seek_table = Ok tt <->
  seek_table_valid scenario_seek_table.
Proof.
  refine (proj1 (C8_checkValues_accepts_the_valid_tables scenario_seek_table _)).
  unfold scenario_seek_table, seek_point_typed.
  repeat (constructor; [cbn; unfold SeekTable.PLACEHOLDER; lia|]). constructor.
Defined.

(** C9. [readRiceSignedInts] accepts param = 31 (its guard rejects only
    param < 0 and param > 31) and then reads element 31 of
    [RICE_DECODING_CONSUMED_TABLES], which has
    [RICE_DECODING_TABLE_LEN] = 31 elements. *)
Theorem C9_param_31_reads_past_the_tables :
  forall (NDEBUG : bool) result start end_ s,
    List.length FlacLowLevelInput.RICE_DECODING_CONSUMED_TABLES = 31%nat /\
    List.length FlacLowLevelInput.RICE_DECODING_VALUE_TABLES = 31%nat /\
    FlacLowLevelInput.readRiceSignedInts NDEBUG 31 result start end_ s
      = (Throw out_of_bounds, s).
Proof.
  intros.
  assert (Hc : List.length FlacLowLevelInput.RICE_DECODING_CONSUMED_TABLES = 31%nat).
  { unfold FlacLowLevelInput.RICE_DECODING_CONSUMED_TABLES.
    rewrite length_map, length_upto. reflexivity. }
  assert (Hv : List.length FlacLowLevelInput.RICE_DECODING_VALUE_TABLES = 31%nat).
  { unfold FlacLowLevelInput.RICE_DECODING_VALUE_TABLES.
    rewrite length_map, length_upto. reflexivity. }
  split; [exact Hc | split; [exact Hv | ]].
  unfold FlacLowLevelInput.readRiceSignedInts.
  change ((31 <? 0) || (31 <? 31)) with false. cbv iota.
  unfold FlacLowLevelInput.table_at. rewrite Hc.
  reflexivity.
Qed.

(** C10. A frame in the fixed-block-size form (frameIndex is not -1 and
    sampleOffset is -1) is never written: whatever the stream's state,
    [writeHeader] throws. If nothing earlier threw, the mutual-exclusion test
    passes and [writeUtf8Integer] receives [(uint_fast64_t) -1], which it
    rejects. *)
Theorem C10_fixed_block_header_is_never_written :
  forall (NDEBUG : bool) (f : FrameInfo.t) (out : BitOutputStream.t),
    FrameInfo.frameIndex f <> -1 ->
    FrameInfo.sampleOffset f = -1 ->
    exists e, fst (FrameInfo.writeHeader NDEBUG f out) = Throw e.
Proof.
  intros NDEBUG f out Hfi Hso.
  revert out. change (throws (FrameInfo.writeHeader NDEBUG f)).
  unfold FrameInfo.writeHeader.
  do 12 (apply throws_bind; intros ?).
  apply throws_bind_l.
  rewrite Hso.
  replace (FrameInfo.frameIndex f =? -1) with false
    by (symmetry; apply Z.eqb_neq; exact Hfi).
  cbn [negb andb orb Z.eqb Pos.eqb].
  unfold FrameInfo.writeUtf8Integer.
  replace (Z.shiftr (uint_fast64_t (-1)) 36 =? 0) with false by reflexivity.
  cbn [negb].
  apply throws_throw.
Qed.

Lemma C10_witness :
  exists e,
    fst (FrameInfo.writeHeader false fixed_block_frame (BitOutputStream.create false))
    = Throw e.
Proof.
  apply (C10_fixed_block_header_is_never_written false fixed_block_frame).
  - vm_compute. discriminate.
  - reflexivity.
Defined.

(** C4, the claim as stated fails: a stream info whose block sizes are 0
    (as the blank constructor leaves them) passes [checkValues], and [write]
    writes it, although the data model requires minBlockSize >= 16. *)
Lemma C4_counterexample :
  StreamInfo.checkValues zero_block_sizes = Ok tt /\
  fst (StreamInfo.write false zero_block_sizes true (BitOutputStream.create false))
    = Ok tt /\
  ~ data_model_ranges zero_block_sizes.
Proof.
  split; [reflexivity | split; [vm_compute; reflexivity | ]].
  unfold data_model_ranges, zero_block_sizes. cbn. lia.
Qed.

(** C4, amended. [checkValues] returns silently if and only if
    minBlockSize and maxBlockSize fit 16 bits, minFrameSize and maxFrameSize
    fit 24 bits, sampleRate is not 0 and fits 20 bits, numChannels is in
    [1,8], sampleDepth is in [4,32] and numSamples fits 36 bits; every stream
    info within the ranges of the data model passes it; and when one of these
    tests fails, [write] throws a [std::runtime_error] and leaves the output
    stream as it was. *)
Theorem C4_checkValues_tests_the_widths : forall s : StreamInfo.t,
  (StreamInfo.checkValues s = Ok tt <-> field_widths s) /\
  (data_model_ranges s -> StreamInfo.checkValues s = Ok tt) /\
  (forall (NDEBUG last : bool) (out : BitOutputStream.t),
     ~ field_widths s ->
     exists what,
       StreamInfo.write NDEBUG s last out = (Throw (runtime_error what), out)).
Proof.
  intros s.
  pose proof (checkValues_widths s) as Hiff.
  split; [exact Hiff | split].
  - apply ranges_pass_checkValues.
  - intros NDEBUG last out Hw.
    unfold StreamInfo.write.
    destruct (StreamInfo.checkValues s) as [[] | e] eqn:E.
    + exfalso. apply Hw, Hiff. reflexivity.
    + assert (He : exists what, e = runtime_error what).
      { revert E. unfold StreamInfo.checkValues.
        repeat match goal with
               | |- context [if ?c then _ else _] => destruct c
               end;
          intros E; inversion E; eauto. }
      destruct He as [what ->]. exists what. reflexivity.
Qed.

Lemma C4_witness :
  exists what,
    StreamInfo.write false nine_channels true (BitOutputStream.create false)
    = (Throw (runtime_error what), BitOutputStream.create false).
Proof.
  apply (proj2 (proj2 (C4_checkValues_tests_the_widths nine_channels))).
  unfold field_widths, nine_channels. cbn. lia.
Defined.

(** C5. For every stream info [s] within the ranges of the data model (its
    digest being 16 bytes), [write(last)] followed by [flush] succeeds on a
    new stream and emits exactly 38 bytes: the block header (the last-block
    flag, type 0, length 34), then 34 bytes of payload from which the
    constructor [StreamInfo(b, 34)] rebuilds every field of [s], numSamples
    and md5Hash included. *)
Theorem C5_stream_info_round_trip (NDEBUG last : bool) (s : StreamInfo.t) :
  data_model_ranges s -> md5_well_typed s ->
  fst ((StreamInfo.write NDEBUG s last ;;; BitOutputStream.flush NDEBUG)
         (BitOutputStream.create NDEBUG)) = Ok tt /\
  List.length (emitted NDEBUG (StreamInfo.write NDEBUG s last)) = 38%nat /\
  firstn 4 (emitted NDEBUG (StreamInfo.write NDEBUG s last))
  = [if last then 128 else 0; 0; 0; 34] /\
  StreamInfo.parse NDEBUG (skipn 4 (emitted NDEBUG (StreamInfo.write NDEBUG s last)))
  = Ok s.
Proof.
  intros Hr Hmd5.
  destruct (write_emits NDEBUG s last Hr Hmd5) as (Hrun & Hlen & Hbytes & Hbits).
  set (bytes := emitted NDEBUG (StreamInfo.write NDEBUG s last)) in *.
  rewrite <- (firstn_skipn 4 bytes), bytes_bits_app in Hbits.
  assert (Hhead : bytes_bits [if last then 128 else 0; 0; 0; 34]
                  = block_header_bits last) by (destruct last; reflexivity).
  rewrite <- Hhead in Hbits.
  apply app_eq_by_length in Hbits;
    [| rewrite !length_bytes_bits, length_firstn, Hlen; reflexivity].
  destruct Hbits as [Hfirst Hrest].
  split; [exact Hrun | split; [exact Hlen | split]].
  - apply bytes_bits_inj; [apply Forall_firstn; exact Hbytes | | exact Hfirst].
    repeat constructor; unfold is_byte; destruct last; lia.
  - unfold StreamInfo.parse.
    assert (L : List.length (skipn 4 bytes) = 34%nat) by (rewrite length_skipn, Hlen; reflexivity).
    rewrite L. cbn [Z.of_nat Pos.of_succ_nat Pos.succ Z.eqb Pos.eqb negb].
    destruct (reader_create_ok (skipn 4 bytes)) as [Hok Hun]; [rewrite L; cbn; lia|].
    apply read_fields_spec; [exact Hr | exact Hmd5 | exact Hok |].
    rewrite Hun. exact Hrest.
Qed.

Lemma C5_witness :
  StreamInfo.parse false
    (skipn 4 (emitted false (StreamInfo.write false scenario_stream_info true)))
  = Ok scenario_stream_info.
Proof.
  apply (C5_stream_info_round_trip false true scenario_stream_info).
  - unfold data_model_ranges, scenario_stream_info. cbn. lia.
  - split; [reflexivity|]. cbn. repeat constructor; unfold is_byte; lia.
Defined.

(** C1. The fast decoder and the slow decoder of [readRiceSignedInts] do not
    agree on every stream: the tables come from [new T[1 << 13]], which
    leaves the cells without a value, and the initializers write no cell
    whose index is below [2 ^ param] (for [param] from 13 on: no cell at
    all), yet the fast decoder reads the consumed table at whatever index
    the next 13 bits of the stream give.
    For every parameter from 0 to 30, every reader whose fast decoder is
    entered (at least 4 values to decode; 52 bits in the bit buffer or 8
    bytes in the byte buffer) and every stream that goes on with a code of
    more than 13 bits below the unary limit: the slow decoder returns the
    value of the code, the cell of the consumed table at the next 13 bits
    of the stream was never written, and the call of [readRiceSignedInts]
    reads it and ends there, with an indeterminate value instead of the
    values of the stream.
    On new readers, with assertions compiled in or out: 8 values with
    [param = 13] from 16 bytes 0xFF end this way, while 3 values (which the
    slow decoder alone decodes) are -4096 each; 8 values with [param = 0]
    from 80 00 04 FF ... end this way (the second code has 20 zeros), while
    3 values are 0, 10, 1; and where all the cells looked up were written,
    [param = 4] on the 16 bytes 0xFF, the 8 values are -8 each. *)
Theorem C1_fast_decoder_reads_unwritten_cells :
  (forall (NDEBUG : bool) (param : Z) (c : nat * Z) (rest : list bool)
          (result : list Z) (start end_ : Z) (s : FlacLowLevelInput.t),
      reader_ok s -> 0 <= param <= 30 -> start <= end_ - 4 ->
      52 <= FlacLowLevelInput.bitBufferLen s \/
      FlacLowLevelInput.byteBufferIndex s <= FlacLowLevelInput.byteBufferLen s - 8 ->
      unread s = rice_code_bits param c ++ rest ->
      13 <= Z.of_nat (fst c) + param ->
      Z.of_nat (fst c) < 2 ^ (53 - param) ->
      (exists s',
          FlacLowLevelInput.slow_decode NDEBUG param
            (uint_fast64_t (Z.shiftl 1 (53 - param))) s
          = (Ok (rice_code_value param c), s') /\
          unread s' = rest) /\
      FlacLowLevelInput.rice_consumed_table param (value (firstn 13 (unread s))) = None /\
      fst (FlacLowLevelInput.readRiceSignedInts NDEBUG param result start end_ s)
      = Throw indeterminate_value) /\
  (forall NDEBUG : bool,
      fst (FlacLowLevelInput.readRiceSignedInts NDEBUG 13 (repeat 0 8) 0 8
             (FlacLowLevelInput.create (repeat 0xFF 16)))
      = Throw indeterminate_value /\
      fst (FlacLowLevelInput.readRiceSignedInts NDEBUG 13 (repeat 0 8) 0 3
             (FlacLowLevelInput.create (repeat 0xFF 16)))
      = Ok [-4096; -4096; -4096; 0; 0; 0; 0; 0] /\
      fst (FlacLowLevelInput.readRiceSignedInts NDEBUG 0 (repeat 0 8) 0 8
             (FlacLowLevelInput.create ([0x80; 0x00; 0x04] ++ repeat 0xFF 13)))
      = Throw indeterminate_value /\
      fst (FlacLowLevelInput.readRiceSignedInts NDEBUG 0 (repeat 0 8) 0 3
             (FlacLowLevelInput.create ([0x80; 0x00; 0x04] ++ repeat 0xFF 13)))
      = Ok [0; 10; 1; 0; 0; 0; 0; 0] /\
      fst (FlacLowLevelInput.readRiceSignedInts NDEBUG 4 (repeat 0 8) 0 8
             (FlacLowLevelInput.create (repeat 0xFF 16)))
      = Ok [-8; -8; -8; -8; -8; -8; -8; -8]).
Proof.
  split.
  - intros NDEBUG param c rest result start end_ s Hok Hp Hmany Henter Hun Hlong Hlim.
    assert (Hwin : value (firstn 13 (unread s)) < 2 ^ param)
      by (rewrite Hun; apply long_code_window; lia).
    split; [|split].
    + destruct (slow_decode_spec NDEBUG param c rest s Hok ltac:(lia) ltac:(lia)
                  (or_introl Hlim) Hun) as (s' & E & _ & Hun').
      exists s'. split; assumption.
    + exact (proj1 (unwritten_cells param _ Hp Hwin)).
    + apply readRiceSignedInts_unwritten; assumption.
  - intros []; repeat split; vm_compute; reflexivity.
Qed.

Lemma C1_witness :
  (exists s',
      FlacLowLevelInput.slow_decode false 13 (uint_fast64_t (Z.shiftl 1 (53 - 13)))
        (snd (FlacLowLevelInput.readRiceSignedInts false 13 (repeat 0 8) 0 1
                (FlacLowLevelInput.create (repeat 0xFF 16))))
      = (Ok (-4096), s') /\
      unread s' = repeat true 100) /\
  FlacLowLevelInput.rice_consumed_table 13
    (value (firstn 13
       (unread (snd (FlacLowLevelInput.readRiceSignedInts false 13 (repeat 0 8) 0 1
                       (FlacLowLevelInput.create (repeat 0xFF 16)))))))
  = None /\
  fst (FlacLowLevelInput.readRiceSignedInts false 13 (repeat 0 8) 1 8
         (snd (FlacLowLevelInput.readRiceSignedInts false 13 (repeat 0 8) 0 1
                 (FlacLowLevelInput.create (repeat 0xFF 16)))))
  = Throw indeterminate_value.
Proof.
  destruct (reader_create_ok (repeat 0xFF 16)) as [Hok0 Hun0];
    [rewrite repeat_length; lia|].
  destruct (readRiceSignedInts_slow false 13 [(0%nat, 8191)] (repeat 0 8) 0
              (repeat true 114) (FlacLowLevelInput.create (repeat 0xFF 16)))
    as (s & E & Hok & Hun).
  - exact Hok0.
  - lia.
  - cbn; lia.
  - repeat constructor; cbn; lia.
  - lia.
  - cbn; lia.
  - rewrite Hun0. reflexivity.
  - change (0 + Z.of_nat (List.length [(0%nat, 8191)])) with 1 in E.
    rewrite E. cbn [snd].
    apply (proj1 C1_fast_decoder_reads_unwritten_cells false 13 (0%nat, 8191)
             (repeat true 100) (repeat 0 8) 1 8 s).
    + exact Hok.
    + lia.
    + lia.
    + right.
      replace s with (snd (FlacLowLevelInput.readRiceSignedInts false 13 (repeat 0 8) 0 1
                             (FlacLowLevelInput.create (repeat 0xFF 16))))
        by (rewrite E; reflexivity).
      vm_compute. discriminate.
    + rewrite Hun. reflexivity.
    + cbn; lia.
    + cbn; lia.
Defined.

(** * Further properties *)

(** X1. The bound that the model gives to the loop [for (i = 0;; i++)] of
    the initializers of the Rice tables is never reached: with any larger
    bound the tables are the same, for every parameter from 0 to 30. *)
Theorem X1_rice_tables_are_complete (param : Z) (extra : nat) :
  0 <= param < FlacLowLevelInput.RICE_DECODING_TABLE_LEN ->
  FlacLowLevelInput.rice_loop (FlacLowLevelInput.rice_fuel + extra)
    (fun i => uint_fast8_t (FlacLowLevelInput.rice_numBits param i)) param 0
    FlacLowLevelInput.fresh
  = FlacLowLevelInput.rice_consumed_table param /\
  FlacLowLevelInput.rice_loop (FlacLowLevelInput.rice_fuel + extra)
    FlacLowLevelInput.rice_value param 0 FlacLowLevelInput.fresh
  = FlacLowLevelInput.rice_value_table param.
Proof.
  intros Hp. unfold FlacLowLevelInput.RICE_DECODING_TABLE_LEN in Hp.
  unfold FlacLowLevelInput.rice_consumed_table, FlacLowLevelInput.rice_value_table.
  assert (Hfuel : Z.of_nat FlacLowLevelInput.rice_fuel = 8193) by reflexivity.
  split; apply rice_loop_more_fuel; lia.
Qed.

Lemma X1_witness :
  FlacLowLevelInput.rice_loop (FlacLowLevelInput.rice_fuel + 5)
    FlacLowLevelInput.rice_value 4 0 FlacLowLevelInput.fresh
  = FlacLowLevelInput.rice_value_table 4.
Proof.
  apply (X1_rice_tables_are_complete 4 5). vm_compute. split; congruence.
Defined.

(** X2. The initializers of the Rice tables leave cells unwritten: with
    the parameter 0, the cell 0 of the consumed table (13 zero bits, a unary
    part that does not end within the window) is never assigned, and since
    the arrays come from [new T[n]] a read of it finds no defined value. For
    the parameters 13 to 30 no cell is assigned at all. *)
Theorem X2_rice_tables_have_unwritten_cells :
  FlacLowLevelInput.rice_consumed_table 0 0 = None /\
  FlacLowLevelInput.cell_at (FlacLowLevelInput.rice_consumed_table 0) 0
    = Throw indeterminate_value /\
  (forall param e, 13 <= param < 31 ->
     FlacLowLevelInput.rice_consumed_table param e = None /\
     FlacLowLevelInput.rice_value_table param e = None).
Proof.
  split; [vm_compute; reflexivity|]. split; [vm_compute; reflexivity|].
  intros param e Hp.
  assert (Hbreak : (FlacLowLevelInput.RICE_DECODING_TABLE_BITS
                    <? FlacLowLevelInput.rice_numBits param 0) = true).
  { apply Z.ltb_lt.
    unfold FlacLowLevelInput.rice_numBits, FlacLowLevelInput.RICE_DECODING_TABLE_BITS.
    rewrite Z.shiftr_0_l. unfold uint_fast32_t.
    rewrite uint_small by (unfold fast32_bits; lia). lia. }
  unfold FlacLowLevelInput.rice_consumed_table, FlacLowLevelInput.rice_value_table.
  rewrite !rice_loop_break by exact Hbreak. split; reflexivity.
Qed.

(** X3. [readRiceSignedInts] throws [std::invalid_argument] for every
    parameter below 0 or above 31, whatever the state of the stream, and
    for the parameters 0 to 30 both table lookups are within the arrays. *)
Theorem X3_rice_parameter_range (NDEBUG : bool) (param : Z) :
  (param < 0 \/ 31 < param ->
   forall result start end_ s,
     FlacLowLevelInput.readRiceSignedInts NDEBUG param result start end_ s
     = (Throw (invalid_argument
                 "Rice Code Parameter has to be between 0 and 31 inclusive"), s)) /\
  (0 <= param <= 30 ->
   FlacLowLevelInput.table_at FlacLowLevelInput.RICE_DECODING_CONSUMED_TABLES param
     = Ok (FlacLowLevelInput.rice_consumed_table param) /\
   FlacLowLevelInput.table_at FlacLowLevelInput.RICE_DECODING_VALUE_TABLES param
     = Ok (FlacLowLevelInput.rice_value_table param)).
Proof.
  split.
  - intros Hp result start end_ s. unfold FlacLowLevelInput.readRiceSignedInts.
    destruct (Z.ltb_spec param 0); [reflexivity|].
    destruct (Z.ltb_spec 31 param); [reflexivity | lia].
  - intros Hp.
    unfold FlacLowLevelInput.table_at, FlacLowLevelInput.RICE_DECODING_CONSUMED_TABLES,
      FlacLowLevelInput.RICE_DECODING_VALUE_TABLES,
      FlacLowLevelInput.RICE_DECODING_TABLE_LEN.
    rewrite !length_map, !length_upto.
    destruct (Z.ltb_spec param 0); [lia|].
    destruct (Z.leb_spec (Z.of_nat (Z.to_nat 31)) param); [lia|].
    cbn [orb].
    rewrite !nth_error_map, nth_error_upto by lia. cbn [option_map].
    rewrite Z2Nat.id by lia. split; reflexivity.
Qed.

(** X4. The constructor [SeekTable(b, length)] rejects a length that is
    not a multiple of 18 with [std::invalid_argument], and otherwise yields
    [length / 18] points whose fields are within their types: every
    frameSamples is a uint16, as [SeekTable.h] says. *)
Theorem X4_seek_table_parse (b : list Z) :
  (Z.of_nat (List.length b) mod 18 <> 0 ->
   SeekTable.parse b = Throw (invalid_argument "Data contains a partial seek point")) /\
  (Z.of_nat (List.length b) mod 18 = 0 ->
   exists points,
     SeekTable.parse b = Ok points /\
     Z.of_nat (List.length points) = Z.of_nat (List.length b) / 18 /\
     Forall seek_point_typed points).
Proof.
  unfold SeekTable.parse. cbv zeta.
  rewrite Z.rem_mod_nonneg by lia.
  split; intros H.
  - destruct (Z.eqb_spec (Z.of_nat (List.length b) mod 18) 0); [contradiction|].
    reflexivity.
  - rewrite H. cbn [Z.eqb negb].
    eexists. split; [reflexivity|]. split.
    + rewrite length_map, length_upto. rewrite Z2Nat.id; [reflexivity|].
      apply Z.div_pos; lia.
    + apply Forall_forall. intros p Hin. apply in_map_iff in Hin.
      destruct Hin as (k & <- & _). unfold seek_point_typed.
      cbn [SeekTable.sampleOffset SeekTable.fileOffset SeekTable.frameSamples].
      split; [apply convertToUint64_range|].
      split; [apply convertToUint64_range | apply convertToUint16_range].
Qed.

(** X5. For the frame of the fixed-block-size form with frameIndex 0, the
    exception that [writeHeader] throws on a new stream is the
    [std::invalid_argument] of [writeUtf8Integer], with or without
    assertions. *)
Theorem X5_fixed_block_header_exception (NDEBUG : bool) :
  fst (FrameInfo.writeHeader NDEBUG fixed_block_frame (BitOutputStream.create NDEBUG))
  = Throw (invalid_argument "Given value does not fit into uint36 type").
Proof. destruct NDEBUG; vm_compute; reflexivity. Qed.

(** X6. Fields of at most 31 bits that fill a whole number of bytes,
    written with [writeInt] to a new stream that is then flushed, are read
    back by [readUint] from the bytes of the sink: each value comes back
    reduced to the width of its field. *)
Theorem X6_fields_are_read_back (NDEBUG : bool) (fields : list (Z * Z)) (k : nat) :
  Forall (fun f => 0 <= fst f <= 31) fields ->
  List.length (fields_bits fields) = (8 * k)%nat -> Z.of_nat k < 2 ^ 31 ->
  fst ((write_fields NDEBUG fields ;;; BitOutputStream.flush NDEBUG)
         (BitOutputStream.create NDEBUG)) = Ok tt /\
  List.length (emitted NDEBUG (write_fields NDEBUG fields)) = k /\
  fst (read_widths NDEBUG (map fst fields)
         (FlacLowLevelInput.create (emitted NDEBUG (write_fields NDEBUG fields))))
  = Ok (map (fun f => snd f mod 2 ^ fst f) fields).
Proof.
  intros Hall Hlen Hk. unfold emitted.
  destruct (writer_create_ok NDEBUG) as [Hok0 Hw0].
  assert (Hall32 : Forall (fun f : Z * Z => 0 <= fst f <= 32) fields).
  { eapply Forall_impl; [|exact Hall]. cbv beta. intros f Hf. lia. }
  destruct (write_fields_spec NDEBUG fields _ Hok0 Hall32) as (w1 & E1 & Hok1 & Hw1).
  rewrite Hw0 in Hw1. cbn [app] in Hw1.
  destruct (flush_whole_bytes NDEBUG w1 k Hok1) as (w2 & E2 & Hbits & Hbytes & Hout);
    [rewrite Hw1; exact Hlen|].
  rewrite (bind_ok _ _ _ _ _ E1), E2. cbn [fst snd].
  split; [reflexivity|]. split; [exact Hout|].
  destruct (reader_create_ok (BitOutputStream.out w2)) as [Hok Hun]; [rewrite Hout; exact Hk|].
  destruct (read_widths_spec NDEBUG fields [] _ Hok Hall) as (r' & E & _).
  { rewrite Hun, Hbits, Hw1, app_nil_r. reflexivity. }
  rewrite E. reflexivity.
Qed.

Lemma X6_witness :
  fst (read_widths false [14; 1; 1; 16]
         (FlacLowLevelInput.create
            (emitted false (write_fields false [(14, 0x3FFE); (1, 0); (1, 1); (16, 65535)]))))
  = Ok [0x3FFE; 0; 1; 65535].
Proof.
  apply (X6_fields_are_read_back false [(14, 0x3FFE); (1, 0); (1, 1); (16, 65535)] 4).
  - repeat constructor; cbn; lia.
  - reflexivity.
  - lia.
Defined.

(** X7. [numberOfLeadingZeros(uint_fast32_t)] counts the zero bits before
    the leading one of a 32-bit value: 32 for 0, and [31 - log2 i]
    otherwise. *)
Theorem X7_numberOfLeadingZeros32_counts (i : Z) :
  0 <= i < 2 ^ 32 ->
  Utilities.numberOfLeadingZeros32 i = if i =? 0 then 32 else 31 - Z.log2 i.
Proof.
  intros Hi. destruct (Z.eqb_spec i 0) as [->|Hne]; [reflexivity|].
  apply numberOfLeadingZeros32_spec. lia.
Qed.

Lemma X7_witness : Utilities.numberOfLeadingZeros32 0x00F00000 = 8.
Proof.
  rewrite (X7_numberOfLeadingZeros32_counts 0x00F00000) by lia. reflexivity.
Defined.

(** X8. [numberOfLeadingZeros(uint_fast64_t)] keeps its working copy in an
    [int]: for a nonzero 64-bit value with an odd number of leading zeros
    it returns that number, and with an even number of leading zeros it
    returns 2 more. *)
Theorem X8_numberOfLeadingZeros64_parity (i : Z) :
  0 < i < 2 ^ 64 ->
  (Z.odd (63 - Z.log2 i) = true ->
   Utilities.numberOfLeadingZeros64 i = 63 - Z.log2 i) /\
  (Z.even (63 - Z.log2 i) = true ->
   Utilities.numberOfLeadingZeros64 i = 63 - Z.log2 i + 2).
Proof.
  intros Hi. rewrite (numberOfLeadingZeros64_spec i Hi).
  rewrite <- Z.negb_even.
  destruct (Z.even (63 - Z.log2 i)); cbn [negb]; split; intros H;
    try discriminate; lia.
Qed.

Lemma X8_witness :
  Utilities.numberOfLeadingZeros64 255 = 58 /\ Utilities.numberOfLeadingZeros64 256 = 55.
Proof.
  destruct (X8_numberOfLeadingZeros64_parity 255 ltac:(lia)) as [_ H1].
  destruct (X8_numberOfLeadingZeros64_parity 256 ltac:(lia)) as [H2 _].
  split; [apply H1 | apply H2]; reflexivity.
Defined.

(** X9. [getBlockSizeCode] gives every block size from 1 to 65536 a code
    from 1 to 15, and [decodeBlockSize] of that code, reading the 8 or 16
    bits that [writeHeader] appends for the codes 6 and 7, returns the
    block size. Every other block size is rejected with
    [std::invalid_argument]. *)
Theorem X9_block_size_code_round_trip (NDEBUG : bool) (blockSize : Z) :
  (1 <= blockSize <= 65536 ->
   exists code,
     FrameInfo.getBlockSizeCode NDEBUG blockSize = Ok code /\
     1 <= code <= 15 /\
     forall (r : FlacLowLevelInput.t) (rest : list bool),
       reader_ok r -> unread r = block_size_tail code blockSize ++ rest ->
       exists r',
         FrameInfo.decodeBlockSize NDEBUG code r = (Ok blockSize, r') /\
         reader_ok r' /\ unread r' = rest) /\
  (blockSize < 1 \/ 65536 < blockSize ->
   FrameInfo.getBlockSizeCode NDEBUG blockSize
   = Throw (invalid_argument "Invalid block size")).
Proof.
  split; [|apply block_size_invalid].
  intros Hb.
  destruct (block_size_code_cases NDEBUG blockSize Hb) as (code & Ec & Hr & _).
  exists code. split; [exact Ec|]. split; [exact Hr|].
  intros r rest Hok Hun. exact (decodeBlockSize_spec NDEBUG blockSize code rest r Hb Ec Hok Hun).
Qed.

Lemma X9_witness :
  FrameInfo.getBlockSizeCode false 1000 = Ok 7 /\
  fst (FrameInfo.decodeBlockSize false 7 (FlacLowLevelInput.create [0x03; 0xE7; 0xAA]))
  = Ok 1000.
Proof.
  destruct (X9_block_size_code_round_trip false 1000) as [H _].
  destruct (H ltac:(lia)) as (code & Ec & _ & Hd).
  assert (E7 : code = 7) by (vm_compute in Ec; congruence). subst code.
  split; [exact Ec|].
  destruct (reader_create_ok [0x03; 0xE7; 0xAA] ltac:(cbn; lia)) as [Hok Hun].
  destruct (Hd _ (bits 8 0xAA) Hok) as (r' & E & _).
  - rewrite Hun. reflexivity.
  - rewrite E. reflexivity.
Defined.

(** X10. [getSampleRateCode] rejects a sample rate that is not positive
    and gives every other one a code from 0 to 14, never 15. For a code
    other than 0, [decodeSampleRate], reading the 8 or 16 bits that
    [writeHeader] appends for the codes 12, 13 and 14, returns the sample
    rate; the code 0, given to the rates the header cannot hold, decodes to
    -1. *)
Theorem X10_sample_rate_code_round_trip (NDEBUG : bool) (sampleRate : Z) :
  (0 < sampleRate ->
   exists code,
     FrameInfo.getSampleRateCode NDEBUG sampleRate = Ok code /\
     0 <= code <= 14 /\
     (code = 0 ->
      655360 <= sampleRate \/ 65536 <= sampleRate /\ Z.rem sampleRate 10 <> 0) /\
     forall (r : FlacLowLevelInput.t) (rest : list bool),
       reader_ok r -> unread r = sample_rate_tail code sampleRate ++ rest ->
       exists r',
         FrameInfo.decodeSampleRate NDEBUG code r
         = (Ok (if code =? 0 then -1 else sampleRate), r') /\
         reader_ok r' /\ unread r' = rest) /\
  (sampleRate <= 0 ->
   FrameInfo.getSampleRateCode NDEBUG sampleRate
   = Throw (invalid_argument "Invalid sample rate")).
Proof.
  split.
  - intros Hb.
    destruct (sample_rate_code_cases NDEBUG sampleRate Hb) as (code & Ec & Hr & Hcase).
    exists code. split; [exact Ec|]. split; [exact Hr|]. split.
    + intros ->. destruct Hcase as [[? _] | [[? _] | [[? _] | [[_ H] | [? _]]]]];
        first [lia | exact H].
    + intros r rest Hok Hun.
      exact (decodeSampleRate_spec NDEBUG sampleRate code rest r Hb Ec Hok Hun).
  - intros Hb. unfold FrameInfo.getSampleRateCode.
    destruct (Z.leb_spec sampleRate 0); [reflexivity | lia].
Qed.

Lemma X10_witness :
  FrameInfo.getSampleRateCode false 37800 = Ok 13 /\
  fst (FrameInfo.decodeSampleRate false 13 (FlacLowLevelInput.create [0x93; 0xA8]))
  = Ok 37800.
Proof.
  destruct (X10_sample_rate_code_round_trip false 37800) as [H _].
  destruct (H ltac:(lia)) as (code & Ec & _ & _ & Hd).
  assert (E : code = 13) by (vm_compute in Ec; congruence). subst code.
  split; [exact Ec|].
  destruct (reader_create_ok [0x93; 0xA8] ltac:(cbn; lia)) as [Hok Hun].
  destruct (Hd _ [] Hok) as (r' & E & _).
  - rewrite Hun. reflexivity.
  - rewrite E. reflexivity.
Defined.

(** X11. [getSampleDepthCode] accepts -1 and the depths from 1 to 32 and
    rejects every other one with [std::invalid_argument]. The depths 8, 12,
    16, 20 and 24 are the ones that get a code other than 0, and
    [decodeSampleDepth] returns them from their codes; every other accepted
    depth gets the code 0, which decodes to -1. The codes 3 and 7, which
    are given to no depth, are rejected by [decodeSampleDepth]. *)
Theorem X11_sample_depth_code_round_trip (NDEBUG : bool) (sampleDepth : Z) :
  (sampleDepth = -1 \/ 1 <= sampleDepth <= 32 ->
   exists code,
     FrameInfo.getSampleDepthCode NDEBUG sampleDepth = Ok code /\
     (code <> 0 <-> In sampleDepth [8; 12; 16; 20; 24]) /\
     code <> 3 /\ code <> 7 /\
     forall r : FlacLowLevelInput.t,
       FrameInfo.decodeSampleDepth NDEBUG code r
       = (Ok (if code =? 0 then -1 else sampleDepth), r)) /\
  (sampleDepth < -1 \/ sampleDepth = 0 \/ 32 < sampleDepth ->
   FrameInfo.getSampleDepthCode NDEBUG sampleDepth
   = Throw (invalid_argument "Invalid bit depth")) /\
  (forall r : FlacLowLevelInput.t,
     FrameInfo.decodeSampleDepth NDEBUG 3 r
     = (Throw (DataFormatException "Reserved bit depth"), r) /\
     FrameInfo.decodeSampleDepth NDEBUG 7 r
     = (Throw (DataFormatException "Reserved bit depth"), r)).
Proof.
  split; [|split; [apply sample_depth_invalid|]].
  - intros Hd.
    destruct (sample_depth_code_cases NDEBUG sampleDepth Hd) as (code & Ec & Hcase).
    exists code. split; [exact Ec|].
    destruct (decodeSampleDepth_spec NDEBUG sampleDepth code
                (FlacLowLevelInput.create []) Hd Ec) as [_ Hiff].
    split; [exact Hiff|].
    assert (Hne : code <> 3 /\ code <> 7).
    { destruct Hcase as [[-> _] | Hin]; [lia|].
      unfold FrameInfo.SAMPLE_DEPTH_CODES in Hin. cbn [In] in Hin.
      repeat (destruct Hin as [Hin|Hin]; [injection Hin as _ <-; lia|]). contradiction. }
    split; [apply Hne|]. split; [apply Hne|].
    intros r. apply (decodeSampleDepth_spec NDEBUG sampleDepth code r Hd Ec).
  - intros r. split; apply decodeSampleDepth_reserved; [left | right]; reflexivity.
Qed.

(** X12. [readSignedInt(n)] consumes the next [n] bits like [readUint(n)]
    and, for [n] below 32, returns the same value as [readUint(n)]: the
    two shifts of [(readUint(n) << shift) >> shift] are done on an unsigned
    value, so the sign bit of the field is not extended and the result is
    never negative. For [n = 32] the 32 bits are returned as a two's
    complement number. *)
Theorem X12_readSignedInt_is_not_sign_extended (NDEBUG : bool) (n : Z)
    (r : FlacLowLevelInput.t) :
  reader_ok r -> 0 <= n <= 32 ->
  n <= Z.of_nat (List.length (unread r)) ->
  exists r',
    FlacLowLevelInput.readSignedInt NDEBUG n r
    = (Ok (let v := value (firstn (Z.to_nat n) (unread r)) in
           if n =? 32 then int_fast32_t v else v), r') /\
    FlacLowLevelInput.readUint NDEBUG n r
    = (Ok (value (firstn (Z.to_nat n) (unread r))), r') /\
    reader_ok r' /\
    unread r' = skipn (Z.to_nat n) (unread r).
Proof. intros Hok Hn Hbits. apply readSignedInt_spec; assumption. Qed.

Lemma X12_witness :
  fst (FlacLowLevelInput.readSignedInt false 4 (FlacLowLevelInput.create [0xF0])) = Ok 15.
Proof.
  destruct (reader_create_ok [0xF0] ltac:(cbn; lia)) as [Hok Hun].
  destruct (X12_readSignedInt_is_not_sign_extended false 4 _ Hok ltac:(lia))
    as (r' & E & _).
  - rewrite Hun. cbn. lia.
  - rewrite E, Hun. reflexivity.
Defined.

(** X13. [checkFrame] accepts a frame exactly when its channel count,
    sample rate and sample depth are those of the stream info (or, for the
    last two, unknown), its block size is within the maximum block size and
    the number of samples, and its frame size is within the frame sizes of
    the stream info; every rejection is a [DataFormatException]. Since
    [frameSize] is converted to an unsigned type for the comparisons, a
    frame whose size is still -1 is rejected whenever the stream info has a
    maximum frame size. *)
Theorem X13_checkFrame_accepts_fitting_frames (s : StreamInfo.t) (meta : FrameInfo.t) :
  check_frame_typed s meta ->
  (StreamInfo.checkFrame s meta = Ok tt <-> frame_fits s meta) /\
  (StreamInfo.checkFrame s meta <> Ok tt ->
   exists what, StreamInfo.checkFrame s meta = Throw (DataFormatException what)) /\
  (FrameInfo.frameSize meta = -1 -> StreamInfo.maxFrameSize s <> 0 ->
   exists what, StreamInfo.checkFrame s meta = Throw (DataFormatException what)).
Proof.
  intros Ht. destruct (checkFrame_spec s meta Ht) as [Hiff Hthrow].
  split; [exact Hiff|]. split; [exact Hthrow|].
  intros Hfs Hmax. apply Hthrow. intros Hok. apply Hiff in Hok.
  destruct Hok as (_ & _ & _ & _ & _ & _ & [H|H]); lia.
Qed.

Lemma X13_witness :
  exists what,
    StreamInfo.checkFrame (StreamInfo.mk 4096 4096 14 8000 44100 2 16 0 (repeat 0 16))
      (FrameInfo.mk (-1) 0 2 1 512 44100 16 (-1))
    = Throw (DataFormatException what).
Proof.
  destruct (X13_checkFrame_accepts_fitting_frames
              (StreamInfo.mk 4096 4096 14 8000 44100 2 16 0 (repeat 0 16))
              (FrameInfo.mk (-1) 0 2 1 512 44100 16 (-1))) as (_ & _ & H).
  - unfold check_frame_typed. cbn. lia.
  - apply H; [reflexivity | cbn; lia].
Defined.

(** X14. [getByteCount()] returns the number of whole bytes written so
    far, those still in the bit buffer included: after the fields
    [(n, v)] were written with [writeInt] to a new stream it is the total
    of the widths divided by 8 (modulo [2^64], the width of the
    counter). *)
Theorem X14_getByteCount_counts_whole_bytes (NDEBUG : bool) (fields : list (Z * Z)) :
  Forall (fun f => 0 <= fst f <= 32) fields ->
  fst ((write_fields NDEBUG fields ;;; BitOutputStream.getByteCount)
         (BitOutputStream.create NDEBUG))
  = Ok ((Z.of_nat (List.length (fields_bits fields)) / 8) mod 2 ^ 64).
Proof.
  intros Hall.
  destruct (writer_create_ok NDEBUG) as [Hok0 Hw0].
  assert (Hc0 : counted (BitOutputStream.create NDEBUG))
    by (rewrite writer_create; reflexivity).
  assert (Hrun : forall w, writer_ok w -> counted w ->
            exists w', write_fields NDEBUG fields w = (Ok tt, w') /\
                       writer_ok w' /\ counted w' /\
                       written w' = written w ++ fields_bits fields).
  { induction Hall as [|[n v] fields Hn Hall IH]; intros w Hok Hc.
    - exists w. split; [reflexivity|]. split; [exact Hok|]. split; [exact Hc|].
      cbn. rewrite app_nil_r. reflexivity.
    - cbn [write_fields]. cbn [fst] in Hn.
      destruct (writeInt_spec NDEBUG n v w Hok Hn) as (w1 & E1 & Hok1 & Hw1).
      pose proof (writeInt_count NDEBUG n v w Hok Hn Hc) as Hc1.
      rewrite E1 in Hc1. cbn [snd] in Hc1.
      rewrite (bind_ok _ _ _ _ _ E1).
      destruct (IH w1 Hok1 Hc1) as (w2 & E2 & Hok2 & Hc2 & Hw2).
      exists w2. split; [exact E2|]. split; [exact Hok2|]. split; [exact Hc2|].
      rewrite Hw2, Hw1, <- app_assoc. reflexivity. }
  destruct (Hrun _ Hok0 Hc0) as (w1 & E1 & Hok1 & Hc1 & Hw1).
  rewrite (bind_ok _ _ _ _ _ E1), (getByteCount_spec w1 Hok1 Hc1).
  cbn [fst]. rewrite Hw1, Hw0. reflexivity.
Qed.

Lemma X14_witness :
  fst ((write_fields false [(14, 0x3FFE); (1, 0); (1, 1); (6, 5)] ;;;
        BitOutputStream.getByteCount) (BitOutputStream.create false)) = Ok 2.
Proof.
  rewrite (X14_getByteCount_counts_whole_bytes false [(14, 0x3FFE); (1, 0); (1, 1); (6, 5)]).
  - reflexivity.
  - repeat constructor; cbn; lia.
Defined.

(** X15. [alignToByte()] appends the fewest zero bits that make what was
    written a whole number of bytes (none when it already is one), and
    nothing else changes of what was written. *)
Theorem X15_alignToByte_pads_with_zeros (NDEBUG : bool) (w : BitOutputStream.t) :
  writer_ok w ->
  exists w',
    BitOutputStream.alignToByte NDEBUG w = (Ok tt, w') /\
    writer_ok w' /\
    written w'
    = written w
      ++ repeat false (Z.to_nat ((- Z.of_nat (List.length (written w))) mod 8)) /\
    Z.of_nat (List.length (written w')) mod 8 = 0.
Proof. intros Hok. apply alignToByte_spec. exact Hok. Qed.

Lemma X15_witness :
  exists w',
    BitOutputStream.alignToByte false
      (snd (BitOutputStream.writeInt false 3 5 (BitOutputStream.create false)))
    = (Ok tt, w') /\
    written w' = [true; false; true; false; false; false; false; false].
Proof.
  destruct (writer_create_ok false) as [Hok0 Hw0].
  destruct (writeInt_spec false 3 5 _ Hok0 ltac:(lia)) as (w1 & E1 & Hok1 & Hw1).
  rewrite E1. cbn [snd].
  destruct (X15_alignToByte_pads_with_zeros false w1 Hok1) as (w' & E & _ & Hw & _).
  exists w'. split; [exact E|]. rewrite Hw, Hw1, Hw0. reflexivity.
Defined.

(** X16. [close()] delivers to the sink everything that was written when
    that is a whole number of bytes. Otherwise it throws
    [std::runtime_error] before it flushes: the stream is left as it was,
    and the bytes that were complete in the bit buffer do not reach the
    sink. *)
Theorem X16_close_flushes_whole_bytes_only (NDEBUG : bool) (w : BitOutputStream.t) :
  writer_ok w ->
  (Z.of_nat (List.length (written w)) mod 8 = 0 ->
   exists w',
     BitOutputStream.close NDEBUG w = (Ok tt, w') /\
     bytes_bits (BitOutputStream.out w') = written w /\
     Forall is_byte (BitOutputStream.out w')) /\
  (Z.of_nat (List.length (written w)) mod 8 <> 0 ->
   BitOutputStream.close NDEBUG w
   = (Throw (runtime_error "Not a byte boundary"), w)).
Proof. intros Hok. apply close_spec. exact Hok. Qed.

Lemma X16_witness :
  fst (BitOutputStream.close false
         (snd (BitOutputStream.writeInt false 12 0xABC (BitOutputStream.create false))))
  = Throw (runtime_error "Not a byte boundary") /\
  BitOutputStream.out
    (snd (BitOutputStream.close false
            (snd (BitOutputStream.writeInt false 12 0xABC (BitOutputStream.create false)))))
  = [].
Proof.
  destruct (writer_create_ok false) as [Hok0 Hw0].
  destruct (writeInt_spec false 12 0xABC _ Hok0 ltac:(lia)) as (w1 & E1 & Hok1 & Hw1).
  rewrite E1. cbn [snd].
  destruct (X16_close_flushes_whole_bytes_only false w1 Hok1) as [_ H].
  rewrite H by (rewrite Hw1, Hw0; vm_compute; congruence).
  split; [reflexivity|]. cbn [snd].
  injection E1 as <-. reflexivity.
Defined.

(** X17. A seek table of at most 932067 points within their types that
    passes [checkValues] is written by [write] as the 4 bytes of the block
    header (the last-block flag, the type 3 and the length [18 * n])
    followed by 18 bytes per point, and the constructor
    [SeekTable(b, length)] reads the same points back from the bytes after
    the header. A longer table is rejected with [std::runtime_error], and a
    table that [checkValues] rejects is rejected with its exception, with
    nothing written. *)
Theorem X17_seek_table_round_trip (NDEBUG last : bool) (points : SeekTable.t) :
  Forall seek_point_typed points ->
  (Z.of_nat (List.length points) <= 932067 ->
   SeekTable.checkValues points = Ok tt ->
   fst ((SeekTable.write NDEBUG points last ;;; BitOutputStream.flush NDEBUG)
          (BitOutputStream.create NDEBUG)) = Ok tt /\
   List.length (emitted NDEBUG (SeekTable.write NDEBUG points last))
   = (4 + 18 * List.length points)%nat /\
   firstn 4 (emitted NDEBUG (SeekTable.write NDEBUG points last))
   = [if last then 131 else 3;
      (Z.of_nat (List.length points) * 18) / 65536;
      ((Z.of_nat (List.length points) * 18) / 256) mod 256;
      (Z.of_nat (List.length points) * 18) mod 256] /\
   SeekTable.parse (skipn 4 (emitted NDEBUG (SeekTable.write NDEBUG points last)))
   = Ok points) /\
  (932067 < Z.of_nat (List.length points) ->
   forall w, SeekTable.write NDEBUG points last w
             = (Throw (runtime_error "Too many seek points"), w)) /\
  (forall e, SeekTable.checkValues points = Throw e ->
             Z.of_nat (List.length points) <= 932067 ->
             forall w, SeekTable.write NDEBUG points last w = (Throw e, w)).
Proof.
  intros Htyped. split; [|split].
  - intros Hn Hcheck.
    destruct (seek_write_emits NDEBUG points last Hn Hcheck) as (Hrun & Hlen & Hbytes & Hbits).
    set (bytes := emitted NDEBUG (SeekTable.write NDEBUG points last)) in *.
    set (n18 := Z.of_nat (List.length points) * 18).
    rewrite <- (firstn_skipn 4 bytes), bytes_bits_app in Hbits.
    assert (Hhead : bytes_bits [if last then 131 else 3; n18 / 65536;
                                (n18 / 256) mod 256; n18 mod 256]
                    = seek_header_bits last (List.length points)).
    { unfold seek_header_bits. fold n18. rewrite <- bits_24_bytes.
      destruct last; reflexivity. }
    rewrite <- Hhead in Hbits.
    apply app_eq_by_length in Hbits;
      [| rewrite !length_bytes_bits, length_firstn, Hlen; cbn [List.length]; lia].
    destruct Hbits as [Hfirst Hrest].
    split; [exact Hrun | split; [exact Hlen | split]].
    + apply bytes_bits_inj; [apply Forall_firstn; exact Hbytes | | exact Hfirst].
      assert (0 <= n18 <= 16777206) by (unfold n18; lia).
      constructor; [unfold is_byte; destruct last; lia|].
      constructor;
        [unfold is_byte; split; [apply Z.div_pos; lia | apply Z.div_lt_upper_bound; lia]|].
      constructor; [apply Z.mod_pos_bound; lia|].
      constructor; [apply Z.mod_pos_bound; lia | constructor].
    + apply seek_parse_bits; [exact Htyped | exact Hrest].
  - intros Hn w. apply seek_write_too_many. exact Hn.
  - intros e Hc Hn w. apply seek_write_invalid; assumption.
Qed.

Lemma X17_witness :
  SeekTable.parse (skipn 4 (emitted false (SeekTable.write false scenario_seek_table true)))
  = Ok scenario_seek_table.
Proof.
  destruct (X17_seek_table_round_trip false true scenario_seek_table) as [H _].
  - repeat (constructor;
            [unfold seek_point_typed, fast64_bits, fast16_bits, SeekTable.PLACEHOLDER;
             cbn [SeekTable.sampleOffset SeekTable.fileOffset SeekTable.frameSamples]; lia|]).
    constructor.
  - destruct H as (_ & _ & _ & H); [cbn; lia | reflexivity | exact H].
Defined.

(** X18. The constructor [StreamInfo(b, length)] rejects every length
    other than 34 with [std::invalid_argument]. On 34 bytes it either
    throws a [DataFormatException] or yields a stream info whose fields are
    within the widths of the payload and pass its four tests; [write] of
    that stream info emits the block header followed by the same 34 bytes
    when the sample depth is at least 4, and throws [std::runtime_error]
    when it is 1, 2 or 3: the constructor accepts these depths, and
    [checkValues] rejects them. *)
Theorem X18_stream_info_read_then_written (NDEBUG last : bool) (b : list Z) :
  (List.length b <> 34%nat ->
   StreamInfo.parse NDEBUG b = Throw (invalid_argument "Invalid data length")) /\
  (List.length b = 34%nat -> Forall is_byte b ->
   (exists what, StreamInfo.parse NDEBUG b = Throw (DataFormatException what)) \/
   (exists s,
      StreamInfo.parse NDEBUG b = Ok s /\
      payload_typed s /\ constructor_accepts s /\ md5_well_typed s /\
      (4 <= StreamInfo.sampleDepth s ->
       emitted NDEBUG (StreamInfo.write NDEBUG s last)
       = [if last then 128 else 0; 0; 0; 34] ++ b) /\
      (StreamInfo.sampleDepth s < 4 ->
       forall w, StreamInfo.write NDEBUG s last w
                 = (Throw (runtime_error "Invalid sample depth"), w)))).
Proof.
  split.
  - intros Hlen. unfold StreamInfo.parse.
    destruct (Z.eqb_spec (Z.of_nat (List.length b)) 34); [lia | reflexivity].
  - intros Hlen Hb.
    destruct (parse_cases NDEBUG b Hlen Hb) as (s & Ht & Hmd5 & Hbits & Hacc & Hrej).
    assert (Hdec : constructor_accepts s \/ ~ constructor_accepts s)
      by (unfold constructor_accepts; lia).
    destruct Hdec as [Ha | Hn]; [right | left; exact (Hrej Hn)].
    exists s. split; [exact (Hacc Ha)|]. split; [exact Ht|]. split; [exact Ha|].
    split; [exact Hmd5|]. split.
    + intros Hd.
      assert (Hr : data_model_ranges s).
      { unfold data_model_ranges, payload_typed, constructor_accepts in *. lia. }
      destruct (write_emits NDEBUG s last Hr Hmd5) as (_ & _ & Hbytes & Hw).
      apply bytes_bits_inj; [exact Hbytes | |].
      * apply Forall_app. split; [|exact Hb].
        repeat (constructor; [unfold is_byte; destruct last; lia|]). constructor.
      * rewrite Hw, bytes_bits_app, Hbits. f_equal. destruct last; reflexivity.
    + intros Hd w. unfold StreamInfo.write.
      rewrite (checkValues_small_depth s Ht Ha Hd). reflexivity.
Qed.

Lemma X18_witness :
  exists s,
    StreamInfo.parse false (emitted false (StreamInfo.write false scenario_stream_info true))
    = Throw (invalid_argument "Invalid data length") /\
    StreamInfo.parse false ([16; 0; 16; 0; 0; 0; 0; 0; 0; 0; 10; 196; 66; 32]
                            ++ repeat 0 20) = Ok s /\
    StreamInfo.sampleDepth s = 3 /\
    fst (StreamInfo.write false s true (BitOutputStream.create false))
    = Throw (runtime_error "Invalid sample depth").
Proof.
  destruct (X18_stream_info_read_then_written false true
              ([16; 0; 16; 0; 0; 0; 0; 0; 0; 0; 10; 196; 66; 32] ++ repeat 0 20))
    as [_ H].
  destruct (X18_stream_info_read_then_written false true
              (emitted false (StreamInfo.write false scenario_stream_info true)))
    as [H38 _].
  destruct (H eq_refl) as [[what E] | (s & E & _ & _ & _ & _ & Hthrow)].
  - cbn [app repeat]. repeat (constructor; [unfold is_byte; lia|]). constructor.
  - vm_compute in E. discriminate.
  - exists s. split; [apply H38; vm_compute; discriminate|]. split; [exact E|].
    assert (Hd : StreamInfo.sampleDepth s = 3) by (vm_compute in E; injection E as <-; reflexivity).
    split; [exact Hd|]. rewrite Hthrow by lia. reflexivity.
Defined.

(** X19. In a build without assertions, [getCrc8()] and [getCrc16()] of the
    reader return the CRC-8 and the CRC-16 of the bytes read since
    [resetCrcs()], wherever in the array these bytes lie and whatever
    follows them (the byte buffer is refilled every 4096 bytes). *)
Theorem X19_reader_crcs_cover_the_bytes_read (pre cs rest : list Z) :
  Forall is_byte (pre ++ cs ++ rest) ->
  Z.of_nat (List.length (pre ++ cs ++ rest)) < 2 ^ 31 ->
  fst ((FlacLowLevelInput.readFully true (Z.of_nat (List.length pre)) ;;;
        reader_crcs true (Z.of_nat (List.length cs)))
         (FlacLowLevelInput.create (pre ++ cs ++ rest)))
  = Ok (SpecCrc.crc8 cs, SpecCrc.crc16 cs).
Proof.
  intros Hb Hlen.
  destruct (reader_after_prefix true pre (cs ++ rest) Hb Hlen)
    as (r1 & E1 & Hinv1 & Hl1 & Hbp1 & _).
  rewrite (bind_ok _ _ _ _ _ E1). unfold reader_crcs.
  destruct (resetCrcs_inv r1 _ Hinv1 Hl1) as (r2 & E2 & Hinv2 & Hbp2 & Hl2 & _).
  rewrite Hbp1 in *.
  destruct (readFully_inv true cs r2 _ rest Hinv2 Hl2 Hbp2)
    as (r3 & E3 & Hinv3 & Hl3 & Hbp3 & _).
  destruct (getCrc8_inv r3 _ cs Hinv3 Hl3 ltac:(rewrite Hbp3; reflexivity))
    as (r4 & E4 & Hinv4 & Hbp4 & Hl4 & _).
  destruct (getCrc16_inv r4 _ cs Hinv4 Hl4 ltac:(rewrite Hbp4, Hbp3; reflexivity))
    as (r5 & E5 & _).
  rewrite (bind_ok _ _ _ _ _ E2), (bind_ok _ _ _ _ _ E3), (bind_ok _ _ _ _ _ E4),
    (bind_ok _ _ _ _ _ E5).
  reflexivity.
Qed.

Lemma X19_witness :
  fst ((FlacLowLevelInput.readFully true 2 ;;; reader_crcs true 6)
         (FlacLowLevelInput.create ([0xFF; 0xF8] ++ monkey ++ [0x00])))
  = Ok (0x4C, 0x4BFE).
Proof.
  apply (X19_reader_crcs_cover_the_bytes_read [0xFF; 0xF8] monkey [0x00]).
  - repeat (constructor; [unfold is_byte; lia|]). constructor.
  - cbn. lia.
Defined.

(** X20. After fields of 0 to 32 bits were read with [readUint] from a new
    stream, [getPosition()] is the number of whole bytes that were read and
    [getBitPosition()] the number of bits read of the next byte: the total
    of the widths divided by 8, and its remainder. *)
Theorem X20_position_counts_the_bits_read (NDEBUG : bool) (widths bytes : list Z) :
  Forall is_byte bytes -> Z.of_nat (List.length bytes) < 2 ^ 31 ->
  Forall (fun n => 0 <= n <= 32) widths ->
  fold_right Z.add 0 widths <= 8 * Z.of_nat (List.length bytes) ->
  fst ((read_widths NDEBUG widths ;;; reader_position) (FlacLowLevelInput.create bytes))
  = Ok (fold_right Z.add 0 widths / 8, fold_right Z.add 0 widths mod 8).
Proof.
  intros Hb Hlen Hall Hsum.
  destruct (reader_create_inv bytes Hb Hlen) as (Hinv & Hl & Hbp & Hp & _).
  destruct (reader_create_ok bytes Hlen) as [_ Hun].
  destruct (read_widths_inv NDEBUG widths _ _ Hinv Hall) as (xs & r & E & Hinv' & Hp' & _).
  { rewrite Hun, length_bytes_bits. lia. }
  rewrite (bind_ok _ _ _ _ _ E).
  assert (Hs : 0 <= fold_right Z.add 0 widths).
  { clear -Hall. induction Hall; cbn [fold_right]; lia. }
  rewrite (reader_position_inv r _ Hinv') by lia.
  rewrite Hp', Hp. reflexivity.
Qed.

Lemma X20_witness :
  fst ((read_widths false [14; 1; 1; 4] ;;; reader_position)
         (FlacLowLevelInput.create [0xFF; 0xF8; 0x69; 0x18]))
  = Ok (2, 4).
Proof.
  apply (X20_position_counts_the_bits_read false [14; 1; 1; 4] [0xFF; 0xF8; 0x69; 0x18]).
  - repeat (constructor; [unfold is_byte; lia|]). constructor.
  - cbn. lia.
  - repeat (constructor; [lia|]). constructor.
  - cbn. lia.
Defined.

(** X21. [seekTo(pos)] with [pos] within the array makes the stream deliver
    the bytes from [pos] on, whatever state it was in: [readFully] then
    returns the bytes at [pos], and [getPosition()] after that is [pos]
    plus the number of bytes read. *)
Theorem X21_seekTo_repositions_the_stream (NDEBUG : bool) (r : FlacLowLevelInput.t)
    (pos : Z) (k : nat) :
  Forall is_byte (FlacLowLevelInput.data r) ->
  FlacLowLevelInput.length r < 2 ^ 31 ->
  0 <= pos -> pos + Z.of_nat k <= FlacLowLevelInput.length r ->
  fst ((FlacLowLevelInput.seekTo pos ;;;
        bs <- FlacLowLevelInput.readFully NDEBUG (Z.of_nat k) ;;
        p <- FlacLowLevelInput.getPosition ;;
        ret (bs, p)) r)
  = Ok (firstn k (skipn (Z.to_nat pos) (FlacLowLevelInput.data r)), pos + Z.of_nat k).
Proof.
  intros Hb Hlength Hpos Hk.
  destruct (seekTo_inv r pos Hb Hlength ltac:(lia)) as (r1 & E1 & Hinv1 & Hl1 & Hbp1 & _ & Hp1).
  rewrite (bind_ok _ _ _ _ _ E1).
  set (tail := skipn (Z.to_nat pos) (FlacLowLevelInput.data r)) in *.
  assert (Hlen : List.length (firstn k tail) = k).
  { rewrite length_firstn. unfold tail. rewrite length_skipn.
    unfold FlacLowLevelInput.length in *. lia. }
  destruct (readFully_inv NDEBUG (firstn k tail) r1 tail (skipn k tail) Hinv1 Hl1)
    as (r2 & E2 & Hinv2 & _ & _ & _ & Hp2).
  { rewrite Hbp1. symmetry. apply firstn_skipn. }
  rewrite Hlen in E2, Hp2. rewrite (bind_ok _ _ _ _ _ E2).
  rewrite (bind_ok _ _ _ _ _ (getPosition_inv r2 _ Hinv2 ltac:(lia))).
  rewrite Hp2, Hp1. mred. f_equal. f_equal.
  replace (8 * pos + 8 * Z.of_nat k) with ((pos + Z.of_nat k) * 8) by lia.
  apply Z.div_mul. lia.
Qed.

Lemma X21_witness :
  fst ((FlacLowLevelInput.seekTo 4 ;;;
        bs <- FlacLowLevelInput.readFully false 2 ;;
        p <- FlacLowLevelInput.getPosition ;;
        ret (bs, p)) (FlacLowLevelInput.create monkey))
  = Ok ([0x65; 0x79], 6).
Proof.
  apply (X21_seekTo_repositions_the_stream false (FlacLowLevelInput.create monkey) 4 2).
  - repeat (constructor; [unfold is_byte; lia|]). constructor.
  - cbn. lia.
  - lia.
  - cbn. lia.
Defined.

(** X22. [readUint(n)] with fewer than [n] bits left in the stream throws
    [std::runtime_error] ("End of data"), wherever the stream stands: here
    after fields of 0 to 32 bits that were there to read. *)
Theorem X22_readUint_past_the_end (NDEBUG : bool) (widths bytes : list Z) (n : Z) :
  Forall is_byte bytes -> Z.of_nat (List.length bytes) < 2 ^ 31 ->
  Forall (fun n => 0 <= n <= 32) widths ->
  fold_right Z.add 0 widths <= 8 * Z.of_nat (List.length bytes) ->
  8 * Z.of_nat (List.length bytes) - fold_right Z.add 0 widths < n <= 32 ->
  fst ((read_widths NDEBUG widths ;;; FlacLowLevelInput.readUint NDEBUG n)
         (FlacLowLevelInput.create bytes))
  = Throw (runtime_error "End of data").
Proof.
  intros Hb Hlen Hall Hsum Hn.
  destruct (reader_create_inv bytes Hb Hlen) as (Hinv & _).
  destruct (reader_create_ok bytes Hlen) as [_ Hun].
  destruct (read_widths_inv NDEBUG widths _ _ Hinv Hall)
    as (xs & r & E & Hinv' & _ & _ & Hleft).
  { rewrite Hun, length_bytes_bits. lia. }
  rewrite Hun, length_bytes_bits in Hleft.
  rewrite (bind_ok _ _ _ _ _ E).
  apply readUint_eof; [exact (rin_ok _ _ Hinv') | lia | lia].
Qed.

Lemma X22_witness :
  fst ((read_widths false [14; 1] ;;; FlacLowLevelInput.readUint false 2)
         (FlacLowLevelInput.create [0xFF; 0xF8]))
  = Throw (runtime_error "End of data").
Proof.
  apply (X22_readUint_past_the_end false [14; 1] [0xFF; 0xF8] 2).
  - repeat (constructor; [unfold is_byte; lia|]). constructor.
  - cbn. lia.
  - repeat (constructor; [lia|]). constructor.
  - cbn. lia.
  - cbn. lia.
Defined.

(** X23. [readByte()] at a byte boundary returns the next byte of the
    array, and -1 when all bytes were read: no exception marks the end of
    the data. *)
Theorem X23_readByte_returns_minus_one_at_the_end (NDEBUG : bool) (pre rest : list Z) :
  Forall is_byte (pre ++ rest) -> Z.of_nat (List.length (pre ++ rest)) < 2 ^ 31 ->
  fst ((FlacLowLevelInput.readFully NDEBUG (Z.of_nat (List.length pre)) ;;;
        FlacLowLevelInput.readByte NDEBUG)
         (FlacLowLevelInput.create (pre ++ rest)))
  = Ok (nth 0 rest (-1)).
Proof.
  intros Hb Hlen.
  destruct (reader_after_prefix NDEBUG pre rest Hb Hlen) as (r1 & E1 & Hinv1 & Hl1 & Hbp1 & _).
  destruct (readByte_inv NDEBUG r1 _ Hinv1 Hl1) as (r2 & E2 & _).
  rewrite (bind_ok _ _ _ _ _ E1), E2, Hbp1. reflexivity.
Qed.

Lemma X23_witness :
  fst ((FlacLowLevelInput.readFully false 6 ;;; FlacLowLevelInput.readByte false)
         (FlacLowLevelInput.create (monkey ++ []))) = Ok (-1).
Proof.
  apply (X23_readByte_returns_minus_one_at_the_end false monkey []).
  - repeat (constructor; [unfold is_byte; lia|]). constructor.
  - cbn. lia.
Defined.

(** X24. [readFrame] at a byte boundary returns [nullptr] when no byte is
    left, throws [std::runtime_error] ("End of data") when one byte is
    left, and throws a [DataFormatException] ("Sync code expected") when
    the next 14 bits are not the sync code 0x3FFE. *)
Theorem X24_readFrame_without_a_sync_code (NDEBUG : bool) (pre rest : list Z) :
  Forall is_byte (pre ++ rest) -> Z.of_nat (List.length (pre ++ rest)) < 2 ^ 31 ->
  (rest = [] ->
   fst ((FlacLowLevelInput.readFully NDEBUG (Z.of_nat (List.length pre)) ;;;
         FrameInfo.readFrame NDEBUG) (FlacLowLevelInput.create (pre ++ rest)))
   = Ok None) /\
  (forall b, rest = [b] ->
   fst ((FlacLowLevelInput.readFully NDEBUG (Z.of_nat (List.length pre)) ;;;
         FrameInfo.readFrame NDEBUG) (FlacLowLevelInput.create (pre ++ rest)))
   = Throw (runtime_error "End of data")) /\
  (forall b0 b1 tail, rest = b0 :: b1 :: tail -> 64 * b0 + b1 / 4 <> 0x3FFE ->
   fst ((FlacLowLevelInput.readFully NDEBUG (Z.of_nat (List.length pre)) ;;;
         FrameInfo.readFrame NDEBUG) (FlacLowLevelInput.create (pre ++ rest)))
   = Throw (DataFormatException "Sync code expected")).
Proof.
  intros Hb Hlen.
  destruct (reader_after_prefix NDEBUG pre rest Hb Hlen) as (r1 & E1 & Hinv1 & Hl1 & Hbp1 & _).
  rewrite (bind_ok _ _ _ _ _ E1).
  destruct (readFrame_start NDEBUG r1 _ Hinv1 Hl1) as (H0 & H1 & H2).
  rewrite Hbp1 in *. split; [exact H0|]. split; [exact H1 | exact H2].
Qed.

Lemma X24_witness :
  fst ((FlacLowLevelInput.readFully false 2 ;;; FrameInfo.readFrame false)
         (FlacLowLevelInput.create ([0x4D; 0x6F] ++ [0xFF; 0xFC; 0x00])))
  = Throw (DataFormatException "Sync code expected").
Proof.
  destruct (X24_readFrame_without_a_sync_code false [0x4D; 0x6F] [0xFF; 0xFC; 0x00])
    as (_ & _ & H).
  - repeat (constructor; [unfold is_byte; lia|]). constructor.
  - cbn. lia.
  - apply (H 0xFF 0xFC [0x00]); [reflexivity | cbn; lia].
Defined.

(** X25. [writeUtf8Integer] accepts every value below 2^36, and
    [readUtf8Integer] reads the value back from the bytes written exactly
    when its number of bits is not 8, 12, 18, 22, 28 or 32: for these
    lengths [numberOfLeadingZeros] is 2 too large, and the bits above the
    continuation bytes do not fit into the head byte. *)
Theorem X25_utf8_integer_round_trip (NDEBUG : bool) (val : Z) :
  0 <= val < 2 ^ 36 ->
  fst (FrameInfo.writeUtf8Integer NDEBUG val (BitOutputStream.create NDEBUG)) = Ok tt /\
  (fst (FrameInfo.readUtf8Integer NDEBUG
          (FlacLowLevelInput.create
             (emitted NDEBUG (FrameInfo.writeUtf8Integer NDEBUG val)))) = Ok val
   <-> ~ In (bit_length val) [8; 12; 18; 22; 28; 32]).
Proof.
  intros Hval. destruct (utf8_emitted NDEBUG val Hval) as (Hw & Hok & Hun).
  split; [exact Hw|]. split.
  - intros Hread Hbad.
    exact (readUtf8Integer_lost NDEBUG val _ Hval Hbad Hok Hun Hread).
  - intros Hgood.
    destruct (readUtf8Integer_fields NDEBUG val [] _ Hval Hgood Hok) as (r' & E & _).
    { rewrite app_nil_r. exact Hun. }
    rewrite E. reflexivity.
Qed.

Lemma X25_witness :
  fst (FrameInfo.readUtf8Integer false
         (FlacLowLevelInput.create
            (emitted false (FrameInfo.writeUtf8Integer false 0x12345)))) = Ok 0x12345 /\
  fst (FrameInfo.readUtf8Integer false
         (FlacLowLevelInput.create
            (emitted false (FrameInfo.writeUtf8Integer false 0x20000)))) <> Ok 0x20000.
Proof.
  split.
  - apply (X25_utf8_integer_round_trip false 0x12345); [lia|].
    vm_compute. intuition congruence.
  - intros H. apply (X25_utf8_integer_round_trip false 0x20000) in H; [|lia].
    apply H. vm_compute. auto 10.
Defined.

(** X26. When the number of bits read so far is not a multiple of 8,
    [readByte], [readFully], [resetCrcs], [getCrc8] and [getCrc16] throw
    [std::runtime_error] ("Not at a byte boundary") and leave the stream
    as it was. *)
Theorem X26_reader_needs_a_byte_boundary (NDEBUG : bool) (widths bytes : list Z) (k : Z) :
  Forall is_byte bytes -> Z.of_nat (List.length bytes) < 2 ^ 31 ->
  Forall (fun n => 0 <= n <= 32) widths ->
  fold_right Z.add 0 widths <= 8 * Z.of_nat (List.length bytes) ->
  fold_right Z.add 0 widths mod 8 <> 0 ->
  exists xs r,
    read_widths NDEBUG widths (FlacLowLevelInput.create bytes) = (Ok xs, r) /\
    FlacLowLevelInput.readByte NDEBUG r
    = (Throw (runtime_error "Not at a byte boundary"), r) /\
    FlacLowLevelInput.readFully NDEBUG k r
    = (Throw (runtime_error "Not at a byte boundary"), r) /\
    FlacLowLevelInput.resetCrcs r
    = (Throw (runtime_error "Not at a byte boundary"), r) /\
    FlacLowLevelInput.getCrc8 NDEBUG r
    = (Throw (runtime_error "Not at a byte boundary"), r) /\
    FlacLowLevelInput.getCrc16 NDEBUG r
    = (Throw (runtime_error "Not at a byte boundary"), r).
Proof.
  intros Hb Hlen Hall Hsum Hodd.
  destruct (read_widths_alignment NDEBUG widths bytes Hb Hlen Hall Hsum)
    as (xs & r & E & Hok & Hmod).
  exists xs, r. split; [exact E|].
  assert (Ht : FlacLowLevelInput.checkByteAligned r
               = (Throw (runtime_error "Not at a byte boundary"), r)).
  { apply reader_checkByteAligned_throw; [exact Hok|]. rewrite Hmod.
    intros H0. apply Hodd. apply Z.mod_divide in H0; [|lia].
    apply Z.mod_divide; [lia|]. destruct H0 as [q Hq]. exists (- q). lia. }
  unfold FlacLowLevelInput.readByte, FlacLowLevelInput.readFully,
    FlacLowLevelInput.resetCrcs, FlacLowLevelInput.getCrc8, FlacLowLevelInput.getCrc16.
  rewrite !(bind_throw _ _ _ _ _ Ht). repeat split; reflexivity.
Qed.

Lemma X26_witness :
  exists r,
    snd (read_widths false [14; 1; 1; 4] (FlacLowLevelInput.create [0xFF; 0xF8; 0x69; 0x18]))
    = r /\
    FlacLowLevelInput.getCrc8 false r = (Throw (runtime_error "Not at a byte boundary"), r).
Proof.
  destruct (X26_reader_needs_a_byte_boundary false [14; 1; 1; 4] [0xFF; 0xF8; 0x69; 0x18] 0)
    as (xs & r & E & _ & _ & _ & H & _).
  - repeat (constructor; [unfold is_byte; lia|]). constructor.
  - cbn. lia.
  - repeat (constructor; [lia|]). constructor.
  - cbn. lia.
  - cbn. lia.
  - exists r. rewrite E. split; [reflexivity | exact H].
Defined.

(** X27. Once the end of the data was met, [getPosition()] is no longer
    the number of bytes read: after all [n] bytes of an array were read and
    [readByte()] returned -1, it returns [n] plus the length of the last
    filling of the byte buffer ([(n - 1) mod 4096 + 1] for a nonempty
    array), because [readUnderlying()] moves the start position on and
    leaves the index where it was. *)
Theorem X27_position_after_the_end_of_data (NDEBUG : bool) (bytes : list Z) :
  Forall is_byte bytes -> Z.of_nat (List.length bytes) < 2 ^ 31 ->
  fst ((FlacLowLevelInput.readFully NDEBUG (Z.of_nat (List.length bytes)) ;;;
        readByte_position NDEBUG) (FlacLowLevelInput.create bytes))
  = Ok (-1, Z.of_nat (List.length bytes)
            + (if Z.of_nat (List.length bytes) =? 0 then 0
               else (Z.of_nat (List.length bytes) - 1) mod 4096 + 1)).
Proof.
  intros Hb Hlen.
  destruct (position_after_the_end NDEBUG bytes Hb Hlen) as (r & E & H).
  rewrite (bind_ok _ _ _ _ _ E). exact H.
Qed.

Lemma X27_witness :
  fst ((FlacLowLevelInput.readFully false 6 ;;; readByte_position false)
         (FlacLowLevelInput.create monkey)) = Ok (-1, 12).
Proof.
  apply (X27_position_after_the_end_of_data false monkey).
  - repeat (constructor; [unfold is_byte; lia|]). constructor.
  - cbn. lia.
Defined.

(** X28. For at most 3 values (the fast decoder takes 4 at a time),
    [readRiceSignedInts] reads each value as a Rice code with the slow
    decoder: [q] zero bits, a one bit and [param] bits give the number
    [u = q * 2^param + bits], stored as [u / 2] when [u] is even and as
    [-(u / 2) - 1] when it is odd. The values go to [result] from [start]
    on, the rest of [result] is unchanged, and the stream stands after the
    last code. *)
Theorem X28_rice_codes_are_decoded (NDEBUG : bool) (param : Z) (codes : list (nat * Z))
    (result : list Z) (start : Z) (rest : list bool) (r : FlacLowLevelInput.t) :
  reader_ok r -> 0 <= param <= 30 -> (List.length codes <= 3)%nat ->
  Forall (fun c => Z.of_nat (fst c) < 2 ^ (53 - param)) codes ->
  0 <= start -> start + Z.of_nat (List.length codes) <= Z.of_nat (List.length result) ->
  unread r = flat_map (rice_code_bits param) codes ++ rest ->
  exists r',
    FlacLowLevelInput.readRiceSignedInts NDEBUG param result start
      (start + Z.of_nat (List.length codes)) r
    = (Ok (firstn (Z.to_nat start) result ++ map (rice_code_value param) codes
           ++ skipn (Z.to_nat start + List.length codes) result), r') /\
    reader_ok r' /\ unread r' = rest.
Proof.
  intros Hok Hp Hk Hall. apply readRiceSignedInts_slow; try assumption.
  eapply Forall_impl; [|exact Hall]. cbv beta. intros c Hc. split; [lia | left; exact Hc].
Qed.

Lemma X28_witness :
  exists r',
    FlacLowLevelInput.readRiceSignedInts false 2 [0; 0; 0; 0] 1 3
      (FlacLowLevelInput.create [0x37; 0x00])
    = (Ok [0; 5; -2; 0], r') /\
    unread r' = [false; false; false; false; false; false; false; false].
Proof.
  destruct (reader_create_ok [0x37; 0x00]) as [Hok Hun]; [cbn; lia|].
  destruct (X28_rice_codes_are_decoded false 2 [(2%nat, 2); (0%nat, 3)] [0; 0; 0; 0] 1
              [false; false; false; false; false; false; false; false]
              (FlacLowLevelInput.create [0x37; 0x00]) Hok)
    as (r' & E & _ & Hun').
  - lia.
  - cbn. lia.
  - repeat (constructor; [cbn; lia|]). constructor.
  - lia.
  - cbn. lia.
  - rewrite Hun. reflexivity.
  - exists r'. split; [exact E | exact Hun'].
Defined.

(** X29. The test of the unary part against [unaryLimit] is off by one: a
    code with exactly [2^(53 - param)] zero bits passes it, and the number
    assembled needs 54 bits. A build with assertions aborts on the
    assertion that it fits 53 bits; a build without stores a value outside
    the signed 53 bits the second assertion states. One more zero bit and
    [readRiceSignedInts] throws a [DataFormatException]. *)
Theorem X29_rice_residual_limit_is_off_by_one (NDEBUG : bool) (param v : Z)
    (result : list Z) (start : Z) (rest : list bool) (r : FlacLowLevelInput.t) :
  reader_ok r -> 0 <= param <= 30 -> 0 <= start < Z.of_nat (List.length result) ->
  (unread r = rice_code_bits param (Z.to_nat (2 ^ (53 - param)), v) ++ rest ->
   fst (FlacLowLevelInput.readRiceSignedInts false param result start (start + 1) r)
   = Throw assertion_failure /\
   fst (FlacLowLevelInput.readRiceSignedInts true param result start (start + 1) r)
   = Ok (firstn (Z.to_nat start) result
         ++ rice_code_value param (Z.to_nat (2 ^ (53 - param)), v)
            :: skipn (Z.to_nat start + 1) result) /\
   ~ (- 2 ^ 52 <= rice_code_value param (Z.to_nat (2 ^ (53 - param)), v) < 2 ^ 52)) /\
  (unread r = repeat false (S (Z.to_nat (2 ^ (53 - param)))) ++ rest ->
   fst (FlacLowLevelInput.readRiceSignedInts NDEBUG param result start (start + 1) r)
   = Throw (DataFormatException "Residual value too large")).
Proof.
  intros Hok Hp Hs.
  assert (Hlim : 0 < 2 ^ (53 - param)) by (apply Z.pow_pos_nonneg; lia).
  split.
  - intros Hun. split; [|split].
    + apply readRiceSignedInts_throws; try lia.
      apply (slow_decode_at_the_limit param (Z.to_nat (2 ^ (53 - param)), v) rest r Hok
               ltac:(lia)); [|exact Hun].
      cbn [fst]. lia.
    + destruct (readRiceSignedInts_slow true param
                  [(Z.to_nat (2 ^ (53 - param)), v)] result start rest r Hok Hp)
        as (r' & E & _); try (cbn [List.length]; lia).
      * constructor; [|constructor]. cbn [fst]. split; [lia | right; reflexivity].
      * cbn [flat_map]. rewrite app_nil_r. exact Hun.
      * cbn [List.length] in E. change (Z.of_nat 1) with 1 in E. rewrite E. reflexivity.
    + unfold rice_code_value, rice_code_symbol. cbn [fst snd]. cbv zeta.
      rewrite Z2Nat.id by lia.
      assert (Hprod : 2 ^ (53 - param) * 2 ^ param = 2 ^ 53).
      { rewrite <- Z.pow_add_r by lia. f_equal. lia. }
      rewrite Hprod.
      assert (Hx : 0 <= v mod 2 ^ param) by (apply Z.mod_pos_bound, Z.pow_pos_nonneg; lia).
      assert (Hh : 2 ^ 52 <= (2 ^ 53 + v mod 2 ^ param) / 2)
        by (apply Z.div_le_lower_bound; lia).
      destruct (Z.even _); lia.
  - intros Hun. apply readRiceSignedInts_throws; try lia.
    apply (slow_decode_too_large NDEBUG param rest r Hok ltac:(lia) Hun).
Qed.

Lemma X29_witness :
  fst (FlacLowLevelInput.readRiceSignedInts false 30 [0] 0 (0 + 1)
         (FlacLowLevelInput.create (repeat 0 (S (Z.to_nat (2 ^ 20))))))
  = Throw (DataFormatException "Residual value too large").
Proof.
  assert (Hn : Z.of_nat (Z.to_nat (2 ^ 20)) = 2 ^ 20) by (apply Z2Nat.id; lia).
  assert (Hm : Z.of_nat (Z.to_nat (2 ^ (53 - 30))) = 2 ^ 23) by (apply Z2Nat.id; lia).
  revert Hn. generalize (Z.to_nat (2 ^ 20)). intros n Hn.
  destruct (zero_stream (S n)) as [Hok Hun]; [lia|].
  destruct (X29_rice_residual_limit_is_off_by_one false 30 0 [0] 0 (repeat false 7)
              (FlacLowLevelInput.create (repeat 0 (S n))) Hok)
    as [_ H].
  - lia.
  - cbn [List.length]. lia.
  - apply H. rewrite Hun, <- repeat_app. f_equal.
    revert Hm. generalize (Z.to_nat (2 ^ (53 - 30))). intros m Hm. lia.
Defined.

(** X30. [fillBitBuffer()], called as [readRiceSignedInts] calls it (with
    at least 8 bytes left in the byte buffer), moves
    [(64 - bitBufferLen) / 8] bytes from the byte buffer to the bit
    buffer: no unread bit is lost or reordered, and the bit buffer then
    holds more than 56 bits, enough for the 4 table lookups of 13 bits
    that follow. *)
Theorem X30_fillBitBuffer_keeps_the_unread_bits (NDEBUG : bool)
    (r : FlacLowLevelInput.t) :
  reader_ok r ->
  FlacLowLevelInput.byteBufferIndex r <= FlacLowLevelInput.byteBufferLen r - 8 ->
  exists r',
    FlacLowLevelInput.fillBitBuffer NDEBUG r = (Ok tt, r') /\
    reader_ok r' /\
    unread r' = unread r /\
    56 < FlacLowLevelInput.bitBufferLen r' <= 64 /\
    FlacLowLevelInput.byteBufferIndex r' - FlacLowLevelInput.byteBufferIndex r
    = (64 - FlacLowLevelInput.bitBufferLen r) / 8.
Proof. apply fillBitBuffer_spec. Qed.

Lemma X30_witness :
  exists r',
    FlacLowLevelInput.fillBitBuffer false
      (snd (FlacLowLevelInput.readUint false 4 (FlacLowLevelInput.create (monkey ++ monkey))))
    = (Ok tt, r') /\
    56 < FlacLowLevelInput.bitBufferLen r' <= 64 /\
    unread r' = skipn 4 (bytes_bits (monkey ++ monkey)).
Proof.
  destruct (reader_create_ok (monkey ++ monkey)) as [Hok Hun]; [cbn; lia|].
  destruct (readUint_bits false 4 _ Hok ltac:(lia)) as (r1 & E1 & Hok1 & Hun1).
  { rewrite Hun. cbn. lia. }
  assert (Er : r1 = snd (FlacLowLevelInput.readUint false 4
                           (FlacLowLevelInput.create (monkey ++ monkey))))
    by (rewrite E1; reflexivity).
  rewrite <- Er.
  destruct (X30_fillBitBuffer_keeps_the_unread_bits false r1 Hok1)
    as (r' & E & _ & Hun' & Hl & _).
  - rewrite Er. vm_compute. congruence.
  - exists r'. split; [exact E|]. split; [exact Hl|].
    rewrite Hun', Hun1, Hun. reflexivity.
Defined.
